(** * picozip: a streaming writer of stored (uncompressed) ZIP archives

    A shallow embedding of [picozip.h] and the properties of its checksum,
    record encoders and archive session.

    Conventions of the embedding.
    - Fixed-width C integers are [Z] with the wrap-around written out:
      [uint8_t], [uint16_t] and [uint32_t] reduce modulo 2^8, 2^16 and 2^32;
      [size_t] is taken to be 64 bits wide (LP64).
    - Bytes in buffers are [Byte.byte]; [byte_val] reads one as an integer
      and [u8] is the cast [(uint8_t)].
    - The session pointer [picozip_file *] is the state that is threaded
      through the calls; every operation returns its [int] result together
      with the session as it is left.
    - The caller's callbacks are fields of the session, as in the C struct;
      the object behind [userdata] is threaded through them. *)

From Stdlib.Strings Require Import String.
From Stdlib Require Import ZArith List Lia Bool.
From Stdlib.Strings Require Import Byte.
Import ListNotations.
Local Open Scope Z_scope.

(** ** Machine integers *)

Definition uint8_t (v : Z) : Z := v mod 2 ^ 8.
Definition uint16_t (v : Z) : Z := v mod 2 ^ 16.
Definition uint32_t (v : Z) : Z := v mod 2 ^ 32.
Definition size_t (v : Z) : Z := v mod 2 ^ 64.

Definition byte_val (b : byte) : Z := Z.of_N (Byte.to_N b).

(** The cast [(uint8_t)v] stored into a byte buffer. *)
Definition u8 (v : Z) : byte :=
  match Byte.of_N (Z.to_N (uint8_t v)) with
  | Some b => b
  | None => x00
  end.

(** [len l] is the length of a buffer as the C code counts it. *)
Definition len {A} (l : list A) : Z := Z.of_nat (length l).

(** ** Checksum *)

Definition PICOZIP__CRC_START : Z := 0.

Definition s_crc_table : list Z := [
    0x00000000; 0x77073096; 0xEE0E612C; 0x990951BA; 0x076DC419; 0x706AF48F; 0xE963A535;
    0x9E6495A3; 0x0EDB8832; 0x79DCB8A4; 0xE0D5E91E; 0x97D2D988; 0x09B64C2B; 0x7EB17CBD;
    0xE7B82D07; 0x90BF1D91; 0x1DB71064; 0x6AB020F2; 0xF3B97148; 0x84BE41DE; 0x1ADAD47D;
    0x6DDDE4EB; 0xF4D4B551; 0x83D385C7; 0x136C9856; 0x646BA8C0; 0xFD62F97A; 0x8A65C9EC;
    0x14015C4F; 0x63066CD9; 0xFA0F3D63; 0x8D080DF5; 0x3B6E20C8; 0x4C69105E; 0xD56041E4;
    0xA2677172; 0x3C03E4D1; 0x4B04D447; 0xD20D85FD; 0xA50AB56B; 0x35B5A8FA; 0x42B2986C;
    0xDBBBC9D6; 0xACBCF940; 0x32D86CE3; 0x45DF5C75; 0xDCD60DCF; 0xABD13D59; 0x26D930AC;
    0x51DE003A; 0xC8D75180; 0xBFD06116; 0x21B4F4B5; 0x56B3C423; 0xCFBA9599; 0xB8BDA50F;
    0x2802B89E; 0x5F058808; 0xC60CD9B2; 0xB10BE924; 0x2F6F7C87; 0x58684C11; 0xC1611DAB;
    0xB6662D3D; 0x76DC4190; 0x01DB7106; 0x98D220BC; 0xEFD5102A; 0x71B18589; 0x06B6B51F;
    0x9FBFE4A5; 0xE8B8D433; 0x7807C9A2; 0x0F00F934; 0x9609A88E; 0xE10E9818; 0x7F6A0DBB;
    0x086D3D2D; 0x91646C97; 0xE6635C01; 0x6B6B51F4; 0x1C6C6162; 0x856530D8; 0xF262004E;
    0x6C0695ED; 0x1B01A57B; 0x8208F4C1; 0xF50FC457; 0x65B0D9C6; 0x12B7E950; 0x8BBEB8EA;
    0xFCB9887C; 0x62DD1DDF; 0x15DA2D49; 0x8CD37CF3; 0xFBD44C65; 0x4DB26158; 0x3AB551CE;
    0xA3BC0074; 0xD4BB30E2; 0x4ADFA541; 0x3DD895D7; 0xA4D1C46D; 0xD3D6F4FB; 0x4369E96A;
    0x346ED9FC; 0xAD678846; 0xDA60B8D0; 0x44042D73; 0x33031DE5; 0xAA0A4C5F; 0xDD0D7CC9;
    0x5005713C; 0x270241AA; 0xBE0B1010; 0xC90C2086; 0x5768B525; 0x206F85B3; 0xB966D409;
    0xCE61E49F; 0x5EDEF90E; 0x29D9C998; 0xB0D09822; 0xC7D7A8B4; 0x59B33D17; 0x2EB40D81;
    0xB7BD5C3B; 0xC0BA6CAD; 0xEDB88320; 0x9ABFB3B6; 0x03B6E20C; 0x74B1D29A; 0xEAD54739;
    0x9DD277AF; 0x04DB2615; 0x73DC1683; 0xE3630B12; 0x94643B84; 0x0D6D6A3E; 0x7A6A5AA8;
    0xE40ECF0B; 0x9309FF9D; 0x0A00AE27; 0x7D079EB1; 0xF00F9344; 0x8708A3D2; 0x1E01F268;
    0x6906C2FE; 0xF762575D; 0x806567CB; 0x196C3671; 0x6E6B06E7; 0xFED41B76; 0x89D32BE0;
    0x10DA7A5A; 0x67DD4ACC; 0xF9B9DF6F; 0x8EBEEFF9; 0x17B7BE43; 0x60B08ED5; 0xD6D6A3E8;
    0xA1D1937E; 0x38D8C2C4; 0x4FDFF252; 0xD1BB67F1; 0xA6BC5767; 0x3FB506DD; 0x48B2364B;
    0xD80D2BDA; 0xAF0A1B4C; 0x36034AF6; 0x41047A60; 0xDF60EFC3; 0xA867DF55; 0x316E8EEF;
    0x4669BE79; 0xCB61B38C; 0xBC66831A; 0x256FD2A0; 0x5268E236; 0xCC0C7795; 0xBB0B4703;
    0x220216B9; 0x5505262F; 0xC5BA3BBE; 0xB2BD0B28; 0x2BB45A92; 0x5CB36A04; 0xC2D7FFA7;
    0xB5D0CF31; 0x2CD99E8B; 0x5BDEAE1D; 0x9B64C2B0; 0xEC63F226; 0x756AA39C; 0x026D930A;
    0x9C0906A9; 0xEB0E363F; 0x72076785; 0x05005713; 0x95BF4A82; 0xE2B87A14; 0x7BB12BAE;
    0x0CB61B38; 0x92D28E9B; 0xE5D5BE0D; 0x7CDCEFB7; 0x0BDBDF21; 0x86D3D2D4; 0xF1D4E242;
    0x68DDB3F8; 0x1FDA836E; 0x81BE16CD; 0xF6B9265B; 0x6FB077E1; 0x18B74777; 0x88085AE6;
    0xFF0F6A70; 0x66063BCA; 0x11010B5C; 0x8F659EFF; 0xF862AE69; 0x616BFFD3; 0x166CCF45;
    0xA00AE278; 0xD70DD2EE; 0x4E048354; 0x3903B3C2; 0xA7672661; 0xD06016F7; 0x4969474D;
    0x3E6E77DB; 0xAED16A4A; 0xD9D65ADC; 0x40DF0B66; 0x37D83BF0; 0xA9BCAE53; 0xDEBB9EC5;
    0x47B2CF7F; 0x30B5FFE9; 0xBDBDF21C; 0xCABAC28A; 0x53B39330; 0x24B4A3A6; 0xBAD03605;
    0xCDD70693; 0x54DE5729; 0x23D967BF; 0xB3667A2E; 0xC4614AB8; 0x5D681B02; 0x2A6F2B94;
    0xB40BBE37; 0xC30C8EA1; 0x5A05DF1B; 0x2D02EF8D
  ].

(** One iteration of the loop bodies of [picozip__crc32]:
    [crc32 = (crc32 >> 8) ^ s_crc_table[(crc32 ^ ptr[0]) & 0xFF]]. *)
Definition crc_update (crc32 : Z) (p : byte) : Z :=
  Z.lxor (Z.shiftr crc32 8)
         (nth (Z.to_nat (Z.land (Z.lxor crc32 (byte_val p)) 0xFF)) s_crc_table 0).

(** [while (buf_len >= 4)]: four bytes per round. *)
Fixpoint crc_loop4 (crc32 : Z) (ptr : list byte) {struct ptr} : Z * list byte :=
  match ptr with
  | p0 :: p1 :: p2 :: p3 :: rest =>
      let crc32 := crc_update crc32 p0 in
      let crc32 := crc_update crc32 p1 in
      let crc32 := crc_update crc32 p2 in
      let crc32 := crc_update crc32 p3 in
      crc_loop4 crc32 rest
  | _ => (crc32, ptr)
  end.

(** [while (buf_len)]: the remaining bytes, one per round. *)
Fixpoint crc_loop1 (crc32 : Z) (ptr : list byte) {struct ptr} : Z :=
  match ptr with
  | [] => crc32
  | p0 :: rest => crc_loop1 (crc_update crc32 p0) rest
  end.

(** [picozip__crc32(ptr, buf_len, crc)]; the buffer is [ptr] and [buf_len]
    its length.  The seed is a [uint32_t] parameter; [~] is the complement
    of a 32-bit word. *)
Definition picozip__crc32 (ptr : list byte) (crc : Z) : Z :=
  let crc32 := Z.lxor (uint32_t crc) 0xFFFFFFFF in
  let '(crc32, ptr) := crc_loop4 crc32 ptr in
  let crc32 := crc_loop1 crc32 ptr in
  uint32_t (Z.lnot crc32).

(** The reference the checksum is compared with, written from the
    definition of the reflected CRC-32 of ZIP and PNG: the register starts
    at all ones, each byte is xor-ed into its low end and followed by eight
    shift steps that xor the polynomial 0xEDB88320 in whenever a one is
    shifted out, and the register is complemented at the end. *)
Module Reference.

Definition POLY : Z := 0xEDB88320.

Definition shift_step (r : Z) : Z :=
  if Z.testbit r 0 then Z.lxor (Z.shiftr r 1) POLY else Z.shiftr r 1.

Definition shift8 (r : Z) : Z :=
  shift_step (shift_step (shift_step (shift_step
    (shift_step (shift_step (shift_step (shift_step r))))))).

Definition feed (r : Z) (b : byte) : Z := shift8 (Z.lxor r (byte_val b)).

Definition crc32 (bs : list byte) : Z :=
  Z.lxor (fold_left feed bs 0xFFFFFFFF) 0xFFFFFFFF.

End Reference.

(** ** Constants of the format *)

Definition PICOZIP_READ_BUF : Z := 2048.

Definition PICOZIP__LOCAL_MAGIC : Z := 0x04034b50.
Definition PICOZIP__CENTRAL_MAGIC : Z := 0x02014b50.
Definition PICOZIP__EOCD_MAGIC : Z := 0x06054b50.
Definition PICOZIP__MIN_VERSION : Z := 0x14.
Definition PICOZIP__TIMESTAMP_MAGIC : Z := 0x5455.
Definition PICOZIP__DATADESC_MAGIC : Z := 0x08074b50.
Definition PICOZIP__FLAG_DATADESC : Z := Z.shiftl 1 3.

Definition PICOZIP__LOCAL_HEADER_SIZE : Z := 30.
Definition PICOZIP__CD_HEADER_SIZE : Z := 46.
Definition PICOZIP__EOCD_SIZE : Z := 22.
Definition PICOZIP__ATTR_SIZE : Z := 4.
Definition PICOZIP__LOCAL_TIMESTAMP_SIZE : Z := 5.
Definition PICOZIP__DATADESC_SIZE : Z := 16.
Definition PICOZIP__SCRATCH_BUFFER_SIZE : nat := 64.

(** Object sizes handed to the allocation callback (LP64 layout). *)
Definition sizeof_entry_ptr : Z := 8.
Definition sizeof_picozip__entry : Z := 48.
Definition sizeof_picozip_file : Z := 136.

(** Results of the library functions: [PICOZIP_OK] and the three [errno]
    constants the header names; [OS_ERRNO] carries an [errno] value passed
    on from the C library. *)
Inductive status : Type :=
| PICOZIP_OK
| PICOZIP_EINVAL
| PICOZIP_ENOMEM
| PICOZIP_EIO
| OS_ERRNO (e : Z).

(** ** Byte buffers *)

(** The bytes the macros [PICOZIP__WRITE_LE16] and [PICOZIP__WRITE_LE32]
    store for a value [V], in the order of their addresses. *)
Definition le16 (V : Z) : list byte :=
  [u8 (Z.shiftr V 0); u8 (Z.shiftr V 8)].

Definition le32 (V : Z) : list byte :=
  [u8 (Z.shiftr V 0); u8 (Z.shiftr V 8); u8 (Z.shiftr V 16); u8 (Z.shiftr V 24)].

(** A byte array addressed by index, such as the scratch buffer. *)
Definition buffer : Type := nat -> byte.

Definition poke (A : buffer) (O : nat) (b : byte) : buffer :=
  fun i => if Nat.eqb i O then b else A i.

Definition PICOZIP__WRITE_LE16 (A : buffer) (O : nat) (V : Z) : buffer :=
  let A := poke A (O + 0) (u8 (Z.shiftr V 0)) in
  let A := poke A (O + 1) (u8 (Z.shiftr V 8)) in
  A.

Definition PICOZIP__WRITE_LE32 (A : buffer) (O : nat) (V : Z) : buffer :=
  let A := poke A (O + 0) (u8 (Z.shiftr V 0)) in
  let A := poke A (O + 1) (u8 (Z.shiftr V 8)) in
  let A := poke A (O + 2) (u8 (Z.shiftr V 16)) in
  let A := poke A (O + 3) (u8 (Z.shiftr V 24)) in
  A.

(** The array as the sequence of its first [n] bytes. *)
Definition bytes_of (A : buffer) (n : nat) : list byte := map A (seq 0 n).

(** The reading macros of the test suite, [READ_LE16(D, O)] and
    [READ_LE32(D, O)], on a byte sequence. *)
Definition byte_at (D : list byte) (O : nat) : Z := byte_val (nth O D x00).

Definition READ_LE16 (D : list byte) (O : nat) : Z :=
  uint16_t (Z.lor (Z.shiftl (byte_at D O) 0) (Z.shiftl (byte_at D (O + 1)) 8)).

Definition READ_LE32 (D : list byte) (O : nat) : Z :=
  uint32_t (Z.lor (Z.lor (Z.lor (Z.shiftl (byte_at D O) 0)
                                (Z.shiftl (byte_at D (O + 1)) 8))
                         (Z.shiftl (byte_at D (O + 2)) 16))
                  (Z.shiftl (byte_at D (O + 3)) 24)).

(** The bytes of [D] from offset [O], [n] of them. *)
Definition slice (D : list byte) (O n : nat) : list byte := firstn n (skipn O D).

(** A NUL-terminated string is given by the bytes at its address;
    [strlen] counts up to the first NUL, or to the end when the sequence
    holds none. *)
Fixpoint strlen (s : list byte) : Z :=
  match s with
  | [] => 0
  | c :: rest => if Byte.eqb c x00 then 0 else 1 + strlen rest
  end.

(** A pointer argument together with the length argument that goes with
    it: either the null pointer and whatever length the caller states, or
    a pointer to [bytes] with their length. *)
Inductive span : Type :=
| Null (n : Z)
| Ptr (bytes : list byte).

Definition span_is_null (s : span) : bool :=
  match s with Null _ => true | Ptr _ => false end.

Definition span_len (s : span) : Z :=
  match s with Null n => n | Ptr bytes => len bytes end.

Definition span_bytes (s : span) : list byte :=
  match s with Null _ => [] | Ptr bytes => bytes end.

(** [memcpy(dst, src, n)] seen from the destination: the [n] bytes copied. *)
Definition memcpy (src : list byte) (n : Z) : list byte := firstn (Z.to_nat n) src.

(** ** Time *)

(** The fields of [struct tm] that the library reads. *)
Record tm : Type := {
  tm_sec : Z;
  tm_min : Z;
  tm_hour : Z;
  tm_mday : Z;
  tm_mon : Z;
  tm_year : Z
}.

Section Time.

(** The C library's [localtime], for the time zone in force. *)
Variable localtime : Z -> tm.

(** [picozip__time_to_dostime]; the result is [(dos_date, dos_time)]. *)
Definition picozip__time_to_dostime (current_time : Z) : Z * Z :=
  let t := localtime current_time in
  let t :=
    if tm_year t <? 80
    then {| tm_sec := 0; tm_min := 0; tm_hour := 0;
            tm_mday := 1; tm_mon := 0; tm_year := 80 |}
    else t in
  let dos_time :=
    uint16_t (Z.shiftl (tm_hour t) 11 + Z.shiftl (tm_min t) 5 + Z.shiftr (tm_sec t) 1) in
  let dos_date :=
    uint16_t (Z.shiftl (tm_year t + 1900 - 1980) 9 + Z.shiftl (tm_mon t + 1) 5 + tm_mday t) in
  (dos_date, dos_time).

End Time.

(** ** Input streams *)

(** A [FILE *] open for reading: what [fstat] reports for it, the
    modification time or the [errno] of a failure, and the bytes not yet
    read. *)
Record FILE : Type := {
  fstat : Z + Z;
  contents : list byte
}.

(** [fread(buffer, 1, n, fptr)]: the bytes read and the rest of the
    stream. *)
Definition fread (n : Z) (rest : list byte) : list byte * list byte :=
  (firstn (Z.to_nat n) rest, skipn (Z.to_nat n) rest).

(** ** The entry ledger and the session *)

(** [struct picozip__vec] without its data pointer; the data lives beside
    it, in the form that suits its element type. *)
Record picozip__vec : Type := {
  cap : Z;
  size : Z
}.

(** [struct picozip__entry].  [metadata] is the flexible array that holds
    the file name, the extra field and the comment one after the other. *)
Record picozip__entry : Type := {
  version_made : Z;
  version_extract : Z;
  flags : Z;
  comp_method : Z;
  mod_time : Z;
  crc32 : Z;
  comp_size : Z;
  uncomp_size : Z;
  filename_len : Z;
  extra_field_len : Z;
  comment_len : Z;
  internal_attr : Z;
  external_attr : Z;
  header_offset : Z;
  metadata : list byte
}.

(** Memory that was allocated and not yet written. *)
Definition blank_entry : picozip__entry :=
  {| version_made := 0; version_extract := 0; flags := 0; comp_method := 0;
     mod_time := 0; crc32 := 0; comp_size := 0; uncomp_size := 0;
     filename_len := 0; extra_field_len := 0; comment_len := 0;
     internal_attr := 0; external_attr := 0; header_offset := 0;
     metadata := [] |}.

(** The entries reached through the array of entry pointers,
    [file->entries.data], by index: the entry a slot points to, or [None]
    where the program has not determined one: the slot was never
    written, or the entry lies where a store outside the array may have
    landed. *)
Definition slots : Type := Z -> option picozip__entry.

Definition slot_store (s : slots) (i : Z) (e : picozip__entry) : slots :=
  fun j => if j =? i then Some e else s j.

(** The array is a block of [cap] bytes: the slot [i] lies within it
    when [sizeof_entry_ptr * (i + 1)] bytes fit. *)
Definition slot_in_bounds (vec : picozip__vec) (i : Z) : bool :=
  sizeof_entry_ptr * (i + 1) <=? cap vec.

(** What a store to the slot [i] leaves of the entries stored before.
    Within the array it leaves them alone.  Beyond the array the pointer
    is written over memory that belongs to other blocks, those of the
    entries allocated earlier among them, and what it overwrites there is
    for the allocator to decide: the entries below [i] are determined no
    longer. *)
Definition slots_kept (vec : picozip__vec) (s : slots) (i : Z) : slots :=
  if slot_in_bounds vec i then s else fun j => if j <? i then None else s j.

(** [entries[i] = entry]. *)
Definition entries_store (vec : picozip__vec) (s : slots) (i : Z)
           (e : picozip__entry) : slots :=
  slot_store (slots_kept vec s i) i e.

(** [struct picozip__file].  [U] is the object behind [userdata].
    - [alloc_cb u n] asks for [n] bytes; the flag tells whether the
      pointer returned is non-null.
    - [write_cb u mem] is handed the [size] bytes at [mem] and returns
      the number it wrote.
    - [free_cb u p] is handed the pointer read from a slot, [None] for
      a slot that holds no pointer the program has determined; the
      result is [None] where what the callback does is not defined, as
      for the [free] of the C library on such a pointer. *)
Record picozip_file (U : Type) : Type := {
  alloc_cb : U -> Z -> bool * U;
  write_cb : U -> list byte -> Z * U;
  free_cb : U -> option picozip__entry -> option U;
  offset : Z;
  num_entries : Z;
  entries : picozip__vec;
  entries_data : slots;
  userdata : U;
  scratch : buffer
}.

Arguments alloc_cb {U} _.
Arguments write_cb {U} _.
Arguments free_cb {U} _.
Arguments offset {U} _.
Arguments num_entries {U} _.
Arguments entries {U} _.
Arguments entries_data {U} _.
Arguments userdata {U} _.
Arguments scratch {U} _.

Section Session.

Context {U : Type}.
Variable localtime : Z -> tm.

Local Abbreviation file := (picozip_file U).

(** Assignments to the fields of the session. *)
Definition set_offset (f : file) (v : Z) : file :=
  {| alloc_cb := alloc_cb f; write_cb := write_cb f; free_cb := free_cb f;
     offset := v; num_entries := num_entries f; entries := entries f;
     entries_data := entries_data f; userdata := userdata f; scratch := scratch f |}.

Definition set_num_entries (f : file) (v : Z) : file :=
  {| alloc_cb := alloc_cb f; write_cb := write_cb f; free_cb := free_cb f;
     offset := offset f; num_entries := v; entries := entries f;
     entries_data := entries_data f; userdata := userdata f; scratch := scratch f |}.

Definition set_entries (f : file) (v : picozip__vec) : file :=
  {| alloc_cb := alloc_cb f; write_cb := write_cb f; free_cb := free_cb f;
     offset := offset f; num_entries := num_entries f; entries := v;
     entries_data := entries_data f; userdata := userdata f; scratch := scratch f |}.

Definition set_entries_data (f : file) (v : slots) : file :=
  {| alloc_cb := alloc_cb f; write_cb := write_cb f; free_cb := free_cb f;
     offset := offset f; num_entries := num_entries f; entries := entries f;
     entries_data := v; userdata := userdata f; scratch := scratch f |}.

Definition set_userdata (f : file) (v : U) : file :=
  {| alloc_cb := alloc_cb f; write_cb := write_cb f; free_cb := free_cb f;
     offset := offset f; num_entries := num_entries f; entries := entries f;
     entries_data := entries_data f; userdata := v; scratch := scratch f |}.

Definition set_scratch (f : file) (v : buffer) : file :=
  {| alloc_cb := alloc_cb f; write_cb := write_cb f; free_cb := free_cb f;
     offset := offset f; num_entries := num_entries f; entries := entries f;
     entries_data := entries_data f; userdata := userdata f; scratch := v |}.

(** An assignment through an entry pointer, [entry->field = ...]: the
    pointer is the index of the slot that holds it. *)
Definition update_entry (f : file) (idx : Z)
           (g : picozip__entry -> picozip__entry) : file :=
  match entries_data f idx with
  | Some e => set_entries_data f (slot_store (entries_data f) idx (g e))
  | None => f
  end.

Definition with_crc32 (v : Z) (e : picozip__entry) : picozip__entry :=
  {| version_made := version_made e; version_extract := version_extract e;
     flags := flags e; comp_method := comp_method e; mod_time := mod_time e;
     crc32 := v; comp_size := comp_size e; uncomp_size := uncomp_size e;
     filename_len := filename_len e; extra_field_len := extra_field_len e;
     comment_len := comment_len e; internal_attr := internal_attr e;
     external_attr := external_attr e; header_offset := header_offset e;
     metadata := metadata e |}.

Definition with_sizes (v : Z) (e : picozip__entry) : picozip__entry :=
  {| version_made := version_made e; version_extract := version_extract e;
     flags := flags e; comp_method := comp_method e; mod_time := mod_time e;
     crc32 := crc32 e; comp_size := v; uncomp_size := v;
     filename_len := filename_len e; extra_field_len := extra_field_len e;
     comment_len := comment_len e; internal_attr := internal_attr e;
     external_attr := external_attr e; header_offset := header_offset e;
     metadata := metadata e |}.

(** [picozip__vec_alloc] on the vector [vec]: the flag tells whether the
    pointer returned is non-null; the data pointer of a vector is null
    exactly while its capacity is 0. *)
Definition picozip__vec_alloc (vec : picozip__vec) (sz : Z)
           (alloc : U -> Z -> bool * U) (u : U) : bool * picozip__vec * U :=
  if cap vec <? size_t (size vec + sz)
  then
    let new_cap := size_t (size vec + sz) in
    let '(new_data, u) := alloc u new_cap in
    if negb new_data
    then (false, vec, u)
    else (true, {| cap := new_cap; size := size vec |}, u)
  else (0 <? cap vec, vec, u).

(** [picozip_new].  The callbacks are functions and cannot be null. *)
Definition picozip_new (write : U -> list byte -> Z * U)
           (alloc : U -> Z -> bool * U)
           (free : U -> option picozip__entry -> option U)
           (u : U) : status * option file :=
  let '(p, u) := alloc u sizeof_picozip_file in
  if negb p
  then (PICOZIP_ENOMEM, None)
  else (PICOZIP_OK,
        Some {| alloc_cb := alloc; write_cb := write; free_cb := free;
                offset := 0; num_entries := 0;
                entries := {| cap := 0; size := 0 |};
                entries_data := fun _ => None;
                userdata := u;
                scratch := fun _ => x00 |}).

(** [picozip__alloc_entry]: the index of the slot that received the new
    entry, or [None] for a null result, and the session as it is left.
    The vector's [size] is 0 when [picozip__vec_alloc] is asked for
    room for one more pointer and is not advanced afterwards, so the
    array is allocated once, for one pointer; the store
    [entries[file->num_entries++] = entry] goes to the slot
    [num_entries] all the same. *)
Definition picozip__alloc_entry (f : file) (metadata_len : Z) : option Z * file :=
  let '(p, vec, u) :=
    picozip__vec_alloc (entries f) sizeof_entry_ptr (alloc_cb f) (userdata f) in
  let f := set_userdata (set_entries f vec) u in
  if negb p
  then (None, f)
  else
    let '(entry, u) :=
      alloc_cb f (userdata f) (size_t (sizeof_picozip__entry + metadata_len)) in
    let f := set_userdata f u in
    if negb entry
    then (None, f)
    else
      let idx := num_entries f in
      let f := set_entries_data f
                 (entries_store (entries f) (entries_data f) idx blank_entry) in
      let f := set_num_entries f (size_t (num_entries f + 1)) in
      (Some idx, f).

(** [picozip__free_last_entry]: the slot is read at [num_entries] before
    the counter is decremented, that is, one slot after the entry that
    was appended last, and what it holds is handed to the free
    callback; [None] where the callback has no defined result. *)
Definition picozip__free_last_entry (f : file) : option file :=
  let p := entries_data f (num_entries f) in
  let f := set_num_entries f (size_t (num_entries f - 1)) in
  match free_cb f (userdata f) p with
  | Some u => Some (set_userdata f u)
  | None => None
  end.

(** [IFFAIL] of an add operation: the entry is taken back and [err] is
    returned. *)
Definition roll_back (err : status) (f : file) : option (status * file) :=
  match picozip__free_last_entry f with
  | Some f => Some (err, f)
  | None => None
  end.

(** [PICOZIP__FLUSH(FILE, SRC, SIZE, IFFAIL)]: [false] when the write
    callback did not return [SIZE], which runs [IFFAIL]; otherwise the
    offset has advanced. *)
Definition PICOZIP__FLUSH (f : file) (SRC : list byte) (SIZE : Z) : bool * file :=
  let '(written, u) := write_cb f (userdata f) (memcpy SRC SIZE) in
  let f := set_userdata f u in
  if negb (written =? size_t SIZE)
  then (false, f)
  else (true, set_offset f (size_t (offset f + SIZE))).

Definition scratch_bytes (f : file) : list byte :=
  bytes_of (scratch f) PICOZIP__SCRATCH_BUFFER_SIZE.

(** [picozip__write_local_entry]. *)
Definition picozip__write_local_entry (f : file) (entry : picozip__entry)
  : status * file :=
  let s := scratch f in
  let s := PICOZIP__WRITE_LE32 s 0 PICOZIP__LOCAL_MAGIC in
  let s := PICOZIP__WRITE_LE16 s 4 (version_extract entry) in
  let s := PICOZIP__WRITE_LE16 s 6 (flags entry) in
  let s := PICOZIP__WRITE_LE16 s 8 (comp_method entry) in
  let '(dos_date, dos_time) := picozip__time_to_dostime localtime (mod_time entry) in
  let s := PICOZIP__WRITE_LE16 s 10 dos_time in
  let s := PICOZIP__WRITE_LE16 s 12 dos_date in
  let s := PICOZIP__WRITE_LE32 s 14 (crc32 entry) in
  let s := PICOZIP__WRITE_LE32 s 18 (comp_size entry) in
  let s := PICOZIP__WRITE_LE32 s 22 (uncomp_size entry) in
  let s := PICOZIP__WRITE_LE16 s 26 (filename_len entry) in
  let s := PICOZIP__WRITE_LE16 s 28 (extra_field_len entry) in
  let f := set_scratch f s in
  let '(ok, f) := PICOZIP__FLUSH f (scratch_bytes f) PICOZIP__LOCAL_HEADER_SIZE in
  if negb ok then (PICOZIP_EIO, f) else
  let '(ok, f) := PICOZIP__FLUSH f (metadata entry)
                                 (filename_len entry + extra_field_len entry) in
  if negb ok then (PICOZIP_EIO, f) else
  (PICOZIP_OK, f).

(** The flexible array of a new entry as the two add operations fill it:
    the file name, the time-stamp field, the comment. *)
Definition entry_metadata (path : list byte) (filename_len : Z)
           (mod_time : Z) (comment : span) : list byte :=
  memcpy path filename_len
  ++ le16 PICOZIP__TIMESTAMP_MAGIC
  ++ le16 PICOZIP__LOCAL_TIMESTAMP_SIZE
  ++ [u8 1]
  ++ le32 (uint32_t mod_time)
  ++ memcpy (span_bytes comment) (span_len comment).

(** [picozip_new_entry_mem_ex]; [None] when the free callback does not
    return. *)
Definition picozip_new_entry_mem_ex (f : file) (path : option (list byte))
           (data : span) (mod_time : Z) (comment : span) : option (status * file) :=
  match path with
  | None => Some (PICOZIP_EINVAL, f)
  | Some path =>
    if (negb (span_len data =? 0) && span_is_null data)
       || (negb (span_len comment =? 0) && span_is_null comment)
    then Some (PICOZIP_EINVAL, f)
    else
      let filename_len := strlen path in
      match picozip__alloc_entry f
              (size_t (filename_len + span_len comment
                       + PICOZIP__ATTR_SIZE + PICOZIP__LOCAL_TIMESTAMP_SIZE)) with
      | (None, f) => Some (PICOZIP_ENOMEM, f)
      | (Some idx, f) =>
        let entry :=
          {| version_made := 0;
             version_extract := PICOZIP__MIN_VERSION;
             flags := 0;
             comp_method := 0;
             internal_attr := 0;
             external_attr := 0;
             header_offset := uint32_t (offset f);
             mod_time := mod_time;
             comp_size := uint32_t (span_len data);
             uncomp_size := uint32_t (span_len data);
             filename_len := uint16_t filename_len;
             extra_field_len :=
               uint16_t (PICOZIP__ATTR_SIZE + PICOZIP__LOCAL_TIMESTAMP_SIZE);
             comment_len := uint16_t (span_len comment);
             crc32 := Z.lxor (picozip__crc32 (span_bytes data) PICOZIP__CRC_START)
                             0xFFFFFFFF;
             metadata := entry_metadata path filename_len mod_time comment |} in
        let f := update_entry f idx (fun _ => entry) in
        match picozip__write_local_entry f entry with
        | (PICOZIP_OK, f) =>
          let '(ok, f) := PICOZIP__FLUSH f (span_bytes data) (span_len data) in
          if negb ok
          then roll_back PICOZIP_EIO f
          else Some (PICOZIP_OK, f)
        | (err, f) => roll_back err f
        end
      end
  end.

(** [picozip_new_entry_mem]; [now] is what [time(NULL)] returns. *)
Definition picozip_new_entry_mem (now : Z) (f : file) (path : option (list byte))
           (data : span) : option (status * file) :=
  picozip_new_entry_mem_ex f path data now (Null 0).

(** The entries of the central directory, [cd_loop n i f cd_size]: the
    [n] rounds of the [for] loop of [picozip_end_ex] that start at index
    [i].  The result is [None] when the slot that is dereferenced holds
    no entry the program has determined; otherwise it tells whether
    every write went through, and gives the session and [cd_size] as
    they are left. *)
Fixpoint cd_loop (n : nat) (i : Z) (f : file) (cd_size : Z)
  : option (bool * file * Z) :=
  match n with
  | O => Some (true, f, cd_size)
  | S n =>
    match entries_data f i with
    | None => None
    | Some entry =>
      let s := scratch f in
      let s := PICOZIP__WRITE_LE32 s 0 PICOZIP__CENTRAL_MAGIC in
      let s := PICOZIP__WRITE_LE16 s 4 (version_made entry) in
      let s := PICOZIP__WRITE_LE16 s 6 (version_extract entry) in
      let s := PICOZIP__WRITE_LE16 s 8 (flags entry) in
      let s := PICOZIP__WRITE_LE16 s 10 (comp_method entry) in
      let '(dos_date, dos_time) :=
        picozip__time_to_dostime localtime (mod_time entry) in
      let s := PICOZIP__WRITE_LE16 s 12 dos_time in
      let s := PICOZIP__WRITE_LE16 s 14 dos_date in
      let s := PICOZIP__WRITE_LE32 s 16 (crc32 entry) in
      let s := PICOZIP__WRITE_LE32 s 20 (comp_size entry) in
      let s := PICOZIP__WRITE_LE32 s 24 (uncomp_size entry) in
      let s := PICOZIP__WRITE_LE16 s 28 (filename_len entry) in
      let s := PICOZIP__WRITE_LE16 s 30 (extra_field_len entry) in
      let s := PICOZIP__WRITE_LE16 s 32 (comment_len entry) in
      let s := PICOZIP__WRITE_LE16 s 34 0 in
      let s := PICOZIP__WRITE_LE16 s 36 (internal_attr entry) in
      let s := PICOZIP__WRITE_LE32 s 38 (external_attr entry) in
      let s := PICOZIP__WRITE_LE32 s 42 (header_offset entry) in
      let f := set_scratch f s in
      let '(ok, f) := PICOZIP__FLUSH f (scratch_bytes f) PICOZIP__CD_HEADER_SIZE in
      if negb ok then Some (false, f, cd_size) else
      let '(ok, f) :=
        PICOZIP__FLUSH f (metadata entry)
          (filename_len entry + extra_field_len entry + comment_len entry) in
      if negb ok then Some (false, f, cd_size) else
      let cd_size :=
        size_t (cd_size + (PICOZIP__CD_HEADER_SIZE + filename_len entry
                           + extra_field_len entry + comment_len entry)) in
      cd_loop n (i + 1) f cd_size
    end
  end.

(** [picozip_end_ex]. *)
Definition picozip_end_ex (f : file) (comment : span) : option (status * file) :=
  if negb (span_len comment =? 0) && span_is_null comment
  then Some (PICOZIP_EINVAL, f)
  else
    let cd_offset := offset f in
    match cd_loop (Z.to_nat (num_entries f)) 0 f 0 with
    | None => None
    | Some (false, f, _) => Some (PICOZIP_EIO, f)
    | Some (true, f, cd_size) =>
      let s := scratch f in
      let s := PICOZIP__WRITE_LE32 s 0 PICOZIP__EOCD_MAGIC in
      let s := PICOZIP__WRITE_LE16 s 4 0 in
      let s := PICOZIP__WRITE_LE16 s 6 0 in
      let s := PICOZIP__WRITE_LE16 s 8 (num_entries f) in
      let s := PICOZIP__WRITE_LE16 s 10 (num_entries f) in
      let s := PICOZIP__WRITE_LE32 s 12 cd_size in
      let s := PICOZIP__WRITE_LE32 s 16 cd_offset in
      let s := PICOZIP__WRITE_LE16 s 20 (span_len comment) in
      let f := set_scratch f s in
      let '(ok, f) := PICOZIP__FLUSH f (scratch_bytes f) PICOZIP__EOCD_SIZE in
      if negb ok then Some (PICOZIP_EIO, f) else
      if negb (span_is_null comment)
      then
        let '(ok, f) := PICOZIP__FLUSH f (span_bytes comment) (span_len comment) in
        if negb ok then Some (PICOZIP_EIO, f) else Some (PICOZIP_OK, f)
      else Some (PICOZIP_OK, f)
    end.

(** [picozip_end]; the argument is the session pointer, [None] when null. *)
Definition picozip_end (f : option file) : option (status * option file) :=
  match f with
  | Some f =>
    match picozip_end_ex f (Null 0) with
    | Some (r, f) => Some (r, Some f)
    | None => None
    end
  | None => Some (PICOZIP_EINVAL, None)
  end.

(** [picozip_new_entry_file], with [fstat] available.  The do-while
    loop that copies the stream, [stream_loop fuel f idx file_size rest]:
    [idx] is the slot of the entry, [rest] the bytes of the stream not
    yet read.  The result is [None] when [fuel] rounds did not reach the
    end of the stream, or where the free callback has no defined result;
    otherwise it tells whether every write went through and gives the
    session and [file_size] as they are left. *)
Fixpoint stream_loop (fuel : nat) (f : file) (idx : Z) (file_size : Z)
         (rest : list byte) : option (bool * file * Z) :=
  match fuel with
  | O => None
  | S fuel =>
    let '(buffer, rest) := fread PICOZIP_READ_BUF rest in
    let data_read := len buffer in
    let f := update_entry f idx
               (fun e => with_crc32 (picozip__crc32 buffer (crc32 e)) e) in
    let '(ok, f) := PICOZIP__FLUSH f buffer data_read in
    if negb ok
    then
      match picozip__free_last_entry f with
      | Some f => Some (false, f, file_size)
      | None => None
      end
    else
      let file_size := size_t (file_size + data_read) in
      if data_read =? PICOZIP_READ_BUF
      then stream_loop fuel f idx file_size rest
      else Some (true, f, file_size)
  end.

Definition picozip_new_entry_file (f : file) (path : option (list byte))
           (fptr : option FILE) (comment : span) : option (status * file) :=
  match path, fptr with
  | None, _ | _, None => Some (PICOZIP_EINVAL, f)
  | Some path, Some fptr =>
    if negb (span_len comment =? 0) && span_is_null comment
    then Some (PICOZIP_EINVAL, f)
    else
      match fstat fptr with
      | inr errno => Some (OS_ERRNO errno, f)
      | inl mod_time =>
        let filename_len := strlen path in
        match picozip__alloc_entry f
                (size_t (filename_len + span_len comment
                         + PICOZIP__ATTR_SIZE + PICOZIP__LOCAL_TIMESTAMP_SIZE)) with
        | (None, f) => Some (PICOZIP_ENOMEM, f)
        | (Some idx, f) =>
          let entry :=
            {| version_made := 0;
               version_extract := PICOZIP__MIN_VERSION;
               flags := PICOZIP__FLAG_DATADESC;
               comp_method := 0;
               internal_attr := 0;
               external_attr := 0;
               header_offset := uint32_t (offset f);
               mod_time := mod_time;
               comp_size := 0;
               uncomp_size := 0;
               crc32 := 0;
               filename_len := uint16_t filename_len;
               extra_field_len :=
                 uint16_t (PICOZIP__ATTR_SIZE + PICOZIP__LOCAL_TIMESTAMP_SIZE);
               comment_len := uint16_t (span_len comment);
               metadata := entry_metadata path filename_len mod_time comment |} in
          let f := update_entry f idx (fun _ => entry) in
          match picozip__write_local_entry f entry with
          | (PICOZIP_OK, f) =>
            let f := update_entry f idx (with_crc32 PICOZIP__CRC_START) in
            match stream_loop (S (length (contents fptr))) f idx 0 (contents fptr) with
            | None => None
            | Some (false, f, _) => Some (PICOZIP_EIO, f)
            | Some (true, f, file_size) =>
              let f := update_entry f idx
                         (fun e => with_crc32 (Z.lxor (crc32 e) 0xFFFFFFFF) e) in
              let f := update_entry f idx (with_sizes (uint32_t file_size)) in
              match entries_data f idx with
              | None => None
              | Some entry =>
                let s := scratch f in
                let s := PICOZIP__WRITE_LE32 s 0 PICOZIP__DATADESC_MAGIC in
                let s := PICOZIP__WRITE_LE32 s 4 (crc32 entry) in
                let s := PICOZIP__WRITE_LE32 s 8 (comp_size entry) in
                let s := PICOZIP__WRITE_LE32 s 12 (uncomp_size entry) in
                let f := set_scratch f s in
                let '(ok, f) :=
                  PICOZIP__FLUSH f (scratch_bytes f) PICOZIP__DATADESC_SIZE in
                if negb ok
                then roll_back PICOZIP_EIO f
                else Some (PICOZIP_OK, f)
              end
            end
          | (err, f) => roll_back err f
          end
        end
      end
  end.

End Session.

Arguments picozip_new {U} _ _ _ _.

(** ** The in-memory destination *)

(** [struct picozip__mem_file]: the vector [mem] and the bytes it holds.
    [malloc], which this destination allocates with, is taken never to
    fail, so that a call on this destination is refused for no lack of
    memory; [free], which it releases with, is defined on the pointers
    the program has determined and on nothing else. *)
Record picozip__mem_file : Type := {
  mem : picozip__vec;
  mem_data : list byte
}.

Definition picozip__mem_alloc (u : picozip__mem_file) (sz : Z)
  : bool * picozip__mem_file := (true, u).

Definition picozip__mem_free (u : picozip__mem_file) (p : option picozip__entry)
  : option picozip__mem_file :=
  match p with
  | Some _ => Some u
  | None => None
  end.

Definition picozip__mem_write (u : picozip__mem_file) (src : list byte)
  : Z * picozip__mem_file :=
  let '(data, vec, u') :=
    picozip__vec_alloc (mem u) (len src) picozip__mem_alloc u in
  if negb data
  then (0, u')
  else (len src,
        {| mem := {| cap := cap vec; size := size_t (size vec + len src) |};
           mem_data := mem_data u' ++ src |}).

Definition picozip_new_mem : status * option (picozip_file picozip__mem_file) :=
  picozip_new picozip__mem_write picozip__mem_alloc picozip__mem_free
              {| mem := {| cap := 0; size := 0 |}; mem_data := [] |}.

(** [picozip_get_mem]: the bytes written so far. *)
Definition picozip_get_mem (f : picozip_file picozip__mem_file) : list byte :=
  memcpy (mem_data (userdata f)) (size (mem (userdata f))).

(** ** The destination of the test suite *)

(** The counters [num_alloc_success] and [num_write_success] of
    [tests.c]; both are [size_t], and [-1] there is [SIZE_MAX]. *)
Record test_counters : Type := {
  num_alloc_success : Z;
  num_write_success : Z
}.

Definition custom_alloc (u : test_counters) (sz : Z) : bool * test_counters :=
  if num_alloc_success u =? 0
  then (false, u)
  else (true, {| num_alloc_success := size_t (num_alloc_success u - 1);
                 num_write_success := num_write_success u |}).

(** [custom_free] hands the pointer to [free]. *)
Definition custom_free (u : test_counters) (p : option picozip__entry)
  : option test_counters :=
  match p with
  | Some _ => Some u
  | None => None
  end.

Definition custom_write (u : test_counters) (src : list byte) : Z * test_counters :=
  if num_write_success u =? 0
  then (0, u)
  else (len src, {| num_alloc_success := num_alloc_success u;
                    num_write_success := size_t (num_write_success u - 1) |}).

(** ** The records in closed form

    The byte sequences that the operations assemble in the scratch buffer,
    written out field by field.  The lemmas of the section on the scratch
    buffer show that these are the bytes the operations flush. *)

Section Records.

Variable localtime : Z -> tm.

Definition dos_date (e : picozip__entry) : Z :=
  fst (picozip__time_to_dostime localtime (mod_time e)).

Definition dos_time (e : picozip__entry) : Z :=
  snd (picozip__time_to_dostime localtime (mod_time e)).

Definition local_header (e : picozip__entry) : list byte :=
  le32 PICOZIP__LOCAL_MAGIC
  ++ le16 (version_extract e)
  ++ le16 (flags e)
  ++ le16 (comp_method e)
  ++ le16 (dos_time e)
  ++ le16 (dos_date e)
  ++ le32 (crc32 e)
  ++ le32 (comp_size e)
  ++ le32 (uncomp_size e)
  ++ le16 (filename_len e)
  ++ le16 (extra_field_len e).

Definition central_header (e : picozip__entry) : list byte :=
  le32 PICOZIP__CENTRAL_MAGIC
  ++ le16 (version_made e)
  ++ le16 (version_extract e)
  ++ le16 (flags e)
  ++ le16 (comp_method e)
  ++ le16 (dos_time e)
  ++ le16 (dos_date e)
  ++ le32 (crc32 e)
  ++ le32 (comp_size e)
  ++ le32 (uncomp_size e)
  ++ le16 (filename_len e)
  ++ le16 (extra_field_len e)
  ++ le16 (comment_len e)
  ++ le16 0
  ++ le16 (internal_attr e)
  ++ le32 (external_attr e)
  ++ le32 (header_offset e).

(** The part of [metadata] that follows a local header, and the part
    that follows a central-directory header. *)
Definition local_metadata (e : picozip__entry) : list byte :=
  memcpy (metadata e) (filename_len e + extra_field_len e).

Definition central_metadata (e : picozip__entry) : list byte :=
  memcpy (metadata e) (filename_len e + extra_field_len e + comment_len e).

Definition central_record (e : picozip__entry) : list byte :=
  central_header e ++ central_metadata e.

Definition central_record_size (e : picozip__entry) : Z :=
  PICOZIP__CD_HEADER_SIZE + filename_len e + extra_field_len e + comment_len e.

End Records.

Definition data_descriptor (e : picozip__entry) : list byte :=
  le32 PICOZIP__DATADESC_MAGIC
  ++ le32 (crc32 e)
  ++ le32 (comp_size e)
  ++ le32 (uncomp_size e).

Definition eocd_record (num_entries cd_size cd_offset comment_len : Z) : list byte :=
  le32 PICOZIP__EOCD_MAGIC
  ++ le16 0
  ++ le16 0
  ++ le16 num_entries
  ++ le16 num_entries
  ++ le32 cd_size
  ++ le32 cd_offset
  ++ le16 comment_len.

(** ** Sequences of add operations *)

(** The arguments of one call of an add operation. *)
Inductive add_op : Type :=
| Add_mem (path : option (list byte)) (data : span) (mod_time : Z) (comment : span)
| Add_file (path : option (list byte)) (fptr : option FILE) (comment : span).

Section Runs.

Context {U : Type}.
Variable localtime : Z -> tm.

Definition add_entry (f : picozip_file U) (op : add_op)
  : option (status * picozip_file U) :=
  match op with
  | Add_mem path data mod_time comment =>
      picozip_new_entry_mem_ex localtime f path data mod_time comment
  | Add_file path fptr comment =>
      picozip_new_entry_file localtime f path fptr comment
  end.

(** The session after the calls [ops], every one of which returned
    [PICOZIP_OK]; [None] when one did not. *)
Fixpoint add_all (f : picozip_file U) (ops : list add_op)
  : option (picozip_file U) :=
  match ops with
  | [] => Some f
  | op :: ops =>
    match add_entry f op with
    | Some (PICOZIP_OK, f) => add_all f ops
    | _ => None
    end
  end.

End Runs.

(** ** What a successful add operation leaves behind, in closed form

    For a call of an add operation on a session whose write offset is
    [off]: the content of the entry, the entry as the ledger holds it
    when the call returns, and the bytes handed to the write callback.
    The lemmas on the add operations show that a call that returns
    [PICOZIP_OK] produces exactly these. *)

Definition op_path (op : add_op) : list byte :=
  match op with
  | Add_mem (Some path) _ _ _ | Add_file (Some path) _ _ => path
  | _ => []
  end.

Definition op_comment (op : add_op) : span :=
  match op with
  | Add_mem _ _ _ comment | Add_file _ _ comment => comment
  end.

Definition op_content (op : add_op) : list byte :=
  match op with
  | Add_mem _ data _ _ => span_bytes data
  | Add_file _ (Some fptr) _ => contents fptr
  | Add_file _ None _ => []
  end.

Definition op_mod_time (op : add_op) : Z :=
  match op with
  | Add_mem _ _ mod_time _ => mod_time
  | Add_file _ (Some fptr) _ =>
      match fstat fptr with inl mod_time => mod_time | inr _ => 0 end
  | Add_file _ None _ => 0
  end.

Definition op_flags (op : add_op) : Z :=
  match op with
  | Add_mem _ _ _ _ => 0
  | Add_file _ _ _ => PICOZIP__FLAG_DATADESC
  end.

(** The entry as the ledger holds it once the call has returned. *)
Definition op_entry (off : Z) (op : add_op) : picozip__entry :=
  {| version_made := 0;
     version_extract := PICOZIP__MIN_VERSION;
     flags := op_flags op;
     comp_method := 0;
     mod_time := op_mod_time op;
     crc32 := Z.lxor (picozip__crc32 (op_content op) PICOZIP__CRC_START) 0xFFFFFFFF;
     comp_size := uint32_t (len (op_content op));
     uncomp_size := uint32_t (len (op_content op));
     filename_len := uint16_t (strlen (op_path op));
     extra_field_len := uint16_t (PICOZIP__ATTR_SIZE + PICOZIP__LOCAL_TIMESTAMP_SIZE);
     comment_len := uint16_t (span_len (op_comment op));
     internal_attr := 0;
     external_attr := 0;
     header_offset := uint32_t off;
     metadata := entry_metadata (op_path op) (strlen (op_path op))
                                (op_mod_time op) (op_comment op) |}.

(** The entry as it stands when its local header is written: a streamed
    entry has its checksum and sizes still at 0. *)
Definition op_entry_at_header (off : Z) (op : add_op) : picozip__entry :=
  match op with
  | Add_mem _ _ _ _ => op_entry off op
  | Add_file _ _ _ => with_sizes 0 (with_crc32 0 (op_entry off op))
  end.

(** The bytes a streamed entry ends with. *)
Definition op_trailer (off : Z) (op : add_op) : list byte :=
  match op with
  | Add_mem _ _ _ _ => []
  | Add_file _ _ _ => data_descriptor (op_entry off op)
  end.

Definition op_block (localtime : Z -> tm) (off : Z) (op : add_op) : list byte :=
  local_header localtime (op_entry_at_header off op)
  ++ local_metadata (op_entry off op)
  ++ op_content op
  ++ op_trailer off op.

(** The number of bytes of [op_block]. *)
Definition op_size (op : add_op) : Z :=
  PICOZIP__LOCAL_HEADER_SIZE
  + (uint16_t (strlen (op_path op))
     + uint16_t (PICOZIP__ATTR_SIZE + PICOZIP__LOCAL_TIMESTAMP_SIZE))
  + len (op_content op)
  + (if Z.testbit (op_flags op) 3 then PICOZIP__DATADESC_SIZE else 0).

(** The bytes of the blocks of [ops], the first of them written at
    offset [off]. *)
Fixpoint ops_size (ops : list add_op) : Z :=
  match ops with
  | [] => 0
  | op :: ops => op_size op + ops_size ops
  end.

Fixpoint ops_blocks (localtime : Z -> tm) (off : Z) (ops : list add_op) : list byte :=
  match ops with
  | [] => []
  | op :: ops =>
      op_block localtime off op ++ ops_blocks localtime (size_t (off + op_size op)) ops
  end.

(** The ledger the calls [ops] leave, the first of them made at offset
    [off]. *)
Fixpoint ops_ledger (off : Z) (ops : list add_op) : list picozip__entry :=
  match ops with
  | [] => []
  | op :: ops => op_entry off op :: ops_ledger (size_t (off + op_size op)) ops
  end.

(** The fresh in-memory session that [picozip_new_mem] returns. *)
Definition mem_session : picozip_file picozip__mem_file :=
  {| alloc_cb := picozip__mem_alloc;
     write_cb := picozip__mem_write;
     free_cb := picozip__mem_free;
     offset := 0;
     num_entries := 0;
     entries := {| cap := 0; size := 0 |};
     entries_data := fun _ => None;
     userdata := {| mem := {| cap := 0; size := 0 |}; mem_data := [] |};
     scratch := fun _ => x00 |}.

(** The fresh session of the test suite, with the counters as given. *)
Definition test_session (allocs writes : Z) : picozip_file test_counters :=
  {| alloc_cb := custom_alloc;
     write_cb := custom_write;
     free_cb := custom_free;
     offset := 0;
     num_entries := 0;
     entries := {| cap := 0; size := 0 |};
     entries_data := fun _ => None;
     userdata := {| num_alloc_success := allocs; num_write_success := writes |};
     scratch := fun _ => x00 |}.

(** ** What reaches the destination *)

Section Emission.

Context {U : Type}.

(** The object behind [userdata] after the write callback [w] was handed
    the buffers [chunks] one after the other. *)
Definition writes_to (w : U -> list byte -> Z * U) (u : U)
           (chunks : list (list byte)) : U :=
  fold_left (fun u c => snd (w u c)) chunks u.

(** Every one of these calls returned the size of its buffer. *)
Fixpoint accepted_all (w : U -> list byte -> Z * U) (u : U)
         (chunks : list (list byte)) : Prop :=
  match chunks with
  | [] => True
  | c :: chunks => fst (w u c) = size_t (len c) /\ accepted_all w (snd (w u c)) chunks
  end.

(** The offset after the buffers [chunks] were flushed, counted from
    [off]. *)
Definition offset_after (off : Z) (chunks : list (list byte)) : Z :=
  match chunks with
  | [] => off
  | _ => size_t (off + len (concat chunks))
  end.

(** Between the sessions [f] and [f'] the buffers [chunks] were flushed,
    each of them in full, and nothing else happened to the callbacks,
    the counter of entries, the offset or the destination. *)
Definition emits (f f' : picozip_file U) (chunks : list (list byte)) : Prop :=
  alloc_cb f' = alloc_cb f /\
  write_cb f' = write_cb f /\
  free_cb f' = free_cb f /\
  num_entries f' = num_entries f /\
  offset f' = offset_after (offset f) chunks /\
  accepted_all (write_cb f) (userdata f) chunks /\
  userdata f' = writes_to (write_cb f) (userdata f) chunks.

(** The object behind [userdata] after the allocation callback was asked
    for blocks of the sizes [sizes], and for nothing else. *)
Definition allocs_only (f : picozip_file U) (u : U) : Prop :=
  exists sizes : list Z,
    u = fold_left (fun u n => snd (alloc_cb f u n)) sizes (userdata f).

(** What the allocation of the entry of an add operation leaves. *)
Definition allocated (f fa : picozip_file U) : Prop :=
  alloc_cb fa = alloc_cb f /\ write_cb fa = write_cb f /\ free_cb fa = free_cb f /\
  offset fa = offset f /\
  num_entries fa = size_t (num_entries f + 1) /\
  allocs_only f (userdata fa).

End Emission.

(** The checksum of an entry after the buffers [chunks] were folded into
    it one by one. *)
Definition crc_after (chunks : list (list byte)) (crc : Z) : Z :=
  fold_left (fun c chunk => picozip__crc32 chunk c) chunks crc.

(** An entry whose length fields do not reach beyond its metadata. *)
Definition entry_wf (e : picozip__entry) : Prop :=
  0 <= filename_len e /\ 0 <= extra_field_len e /\ 0 <= comment_len e /\
  filename_len e + extra_field_len e + comment_len e <= len (metadata e).

(** The arguments of an add operation pass its checks: the path is not
    null, no null pointer comes with a length other than 0 and, for a
    stream, the stream is not null and [fstat] reports its time. *)
Definition span_valid (s : span) : bool :=
  negb (negb (span_len s =? 0) && span_is_null s).

Definition op_valid (op : add_op) : bool :=
  match op with
  | Add_mem (Some _) data _ comment => span_valid data && span_valid comment
  | Add_file (Some _) (Some fptr) comment =>
      span_valid comment && match fstat fptr with inl _ => true | inr _ => false end
  | _ => false
  end.

(** The first of the buffers is not empty and its size fits [size_t]. *)
Definition first_small (chunks : list (list byte)) : Prop :=
  match chunks with
  | [] => False
  | c :: _ => 0 < len c < 2 ^ 64
  end.

(** The in-memory destination holds a buffer. *)
Definition mem_live (u : picozip__mem_file) : Prop := 0 < cap (mem u).

(** ** The central directory in closed form *)

(** The slots from index [i] on hold the entries [es]. *)
Definition slots_hold {U} (f : picozip_file U) (i : Z) (es : list picozip__entry) : Prop :=
  forall k e, nth_error es k = Some e -> entries_data f (i + Z.of_nat k) = Some e.

(** The buffers flushed for the entries [es]: a header and the metadata
    for each. *)
Definition cd_chunks (localtime : Z -> tm) (es : list picozip__entry) : list (list byte) :=
  flat_map (fun e => [central_header localtime e; central_metadata e]) es.

(** The value of [cd_size] after the entries [es]. *)
Definition cd_size_after (cd_size : Z) (es : list picozip__entry) : Z :=
  fold_left (fun c e => size_t (c + central_record_size e)) es cd_size.

(** The buffers flushed by [picozip_end_ex] for the ledger [es], at the
    write offset [off] and with the archive comment [comment]. *)
Definition end_chunks (localtime : Z -> tm) (num_entries off : Z)
           (es : list picozip__entry) (comment : span) : list (list byte) :=
  cd_chunks localtime es
  ++ [eocd_record num_entries (cd_size_after 0 es) off (span_len comment)]
  ++ (if span_is_null comment then [] else [span_bytes comment]).

(** The in-memory destination is as [picozip_new_mem] leaves it, or holds
    a buffer. *)
Definition mem_ready (u : picozip__mem_file) : Prop :=
  mem_live u \/ (cap (mem u) = 0 /\ size (mem u) = 0).

(** The session writes to the in-memory destination. *)
Definition mem_sink (f : picozip_file picozip__mem_file) : Prop :=
  alloc_cb f = picozip__mem_alloc /\ write_cb f = picozip__mem_write.

(** A session on the in-memory destination in the condition in which
    [picozip_new_mem] and the add operations leave it: the vector of entry
    pointers was never given a size, and its capacity is that of no
    pointer or of one. *)
Definition mem_inv (f : picozip_file picozip__mem_file) : Prop :=
  mem_sink f /\
  mem_ready (userdata f) /\
  size (entries f) = 0 /\
  (cap (entries f) = 0 \/ cap (entries f) = sizeof_entry_ptr).

(** The bytes an entry takes in the stream: its local header, its file
    name and extra field, its content and, when bit 3 of its flags is set,
    its data descriptor. *)
Definition entry_disk_size (e : picozip__entry) (content : list byte) : Z :=
  PICOZIP__LOCAL_HEADER_SIZE + filename_len e + extra_field_len e + len content
  + (if Z.testbit (flags e) 3 then PICOZIP__DATADESC_SIZE else 0).

(** ** Worked inputs *)

(** The [localtime] of a machine in the UTC time zone: days are counted
    from 1 March 2000 B.C. and cut into eras of 400 years. *)
Definition utc_localtime (t : Z) : tm :=
  let days := t / 86400 in
  let secs := t mod 86400 in
  let z := days + 719468 in
  let era := z / 146097 in
  let doe := z - era * 146097 in
  let yoe := (doe - doe / 1460 + doe / 36524 - doe / 146096) / 365 in
  let doy := doe - (365 * yoe + yoe / 4 - yoe / 100) in
  let mp := (5 * doy + 2) / 153 in
  let d := doy - (153 * mp + 2) / 5 + 1 in
  let m := if mp <? 10 then mp + 3 else mp - 9 in
  let y := yoe + era * 400 + (if m <=? 2 then 1 else 0) in
  {| tm_sec := secs mod 60;
     tm_min := (secs / 60) mod 60;
     tm_hour := secs / 3600;
     tm_mday := d;
     tm_mon := m - 1;
     tm_year := y - 1900 |}.

(** The bytes of a string literal. *)
Definition bytes_of_string (s : String.string) : list byte :=
  String.list_byte_of_string s.

(** Four gibibytes of zeros. *)
Definition four_gib : list byte := repeat x00 (Z.to_nat (2 ^ 32)).

(** A known-size add operation with this content, and one with none. *)
Definition add_four_gib : add_op :=
  Add_mem (Some (bytes_of_string "a")) (Ptr four_gib) 0 (Null 0).

Definition add_empty : add_op :=
  Add_mem (Some (bytes_of_string "b")) (Null 0) 0 (Null 0).

(** Two add operations on small inputs, one of each kind. *)
Definition add_hello : add_op :=
  Add_mem (Some (bytes_of_string "test.txt")) (Ptr (bytes_of_string "hello world!"))
          1730559952 (Null 0).

Definition add_stream : add_op :=
  Add_file (Some (bytes_of_string "test2.txt"))
           (Some {| fstat := inl 1730609280; contents := bytes_of_string "zip library" |})
           (Ptr (bytes_of_string "comment")).

(** The session a run leaves, and the session a call that returned
    [PICOZIP_OK] leaves; [d] stands in where there is none. *)
Definition session_of {U} (d : picozip_file U) (o : option (picozip_file U))
  : picozip_file U :=
  match o with Some f => f | None => d end.

Definition ok_session_of {U} (d : picozip_file U)
           (o : option (status * picozip_file U)) : picozip_file U :=
  match o with Some (_, f) => f | None => d end.

Definition is_some {A} (o : option A) : bool :=
  match o with Some _ => true | None => false end.

Definition is_ok {A} (o : option (status * A)) : bool :=
  match o with Some (PICOZIP_OK, _) => true | _ => false end.

(** The session these two calls leave on the in-memory destination. *)
Definition small_session : picozip_file picozip__mem_file :=
  session_of mem_session
             (add_all utc_localtime mem_session [add_hello; add_stream]).

(** The sum of the sizes of the central-directory records of [es]. *)
Definition cd_total (es : list picozip__entry) : Z :=
  fold_right (fun e s => central_record_size e + s) 0 es.

(** The central directory of [es] as one byte sequence. *)
Definition central_directory (localtime : Z -> tm) (es : list picozip__entry) : list byte :=
  concat (map (central_record localtime) es).

(** The extended-timestamp extra field of an entry whose modification
    time is [mod_time]: the tag, the length 5, the flag byte 1 and the
    time as 32 bits. *)
Definition timestamp_field (mod_time : Z) : list byte :=
  le16 PICOZIP__TIMESTAMP_MAGIC
  ++ le16 PICOZIP__LOCAL_TIMESTAMP_SIZE
  ++ [u8 1]
  ++ le32 (uint32_t mod_time).

(** A fresh in-memory archive with the streamed entry alone, and that
    archive finalized with a comment. *)
Definition stream_session : picozip_file picozip__mem_file :=
  ok_session_of mem_session (add_entry utc_localtime mem_session add_stream).

Definition stream_archive : picozip_file picozip__mem_file :=
  ok_session_of mem_session
    (picozip_end_ex utc_localtime stream_session (Ptr (bytes_of_string "one entry"))).

(** A stream that holds ["hello world!"], and the session that adding it
    to a fresh in-memory archive leaves. *)
Definition hello_file : FILE :=
  {| fstat := inl 1730559952; contents := bytes_of_string "hello world!" |}.

Definition streamed_hello : picozip_file picozip__mem_file :=
  ok_session_of mem_session
    (picozip_new_entry_file utc_localtime mem_session
       (Some (bytes_of_string "test.txt")) (Some hello_file) (Null 0)).

(** A fresh in-memory archive finalized once, and finalized again. *)
Definition ended_once : picozip_file picozip__mem_file :=
  ok_session_of mem_session (picozip_end_ex utc_localtime mem_session (Null 0)).

Definition ended_twice : picozip_file picozip__mem_file :=
  ok_session_of mem_session (picozip_end_ex utc_localtime ended_once (Null 0)).

(** A directory marker, the session that adding it to a fresh in-memory
    archive leaves, and that archive finalized. *)
Definition add_dir : add_op :=
  Add_mem (Some (bytes_of_string "dir/")) (Null 0) 1730559952 (Null 0).

Definition dir_added : picozip_file picozip__mem_file :=
  ok_session_of mem_session
    (picozip_new_entry_mem_ex utc_localtime mem_session
       (Some (bytes_of_string "dir/")) (Null 0) 1730559952 (Null 0)).

Definition dir_archive : picozip_file picozip__mem_file :=
  ok_session_of mem_session (picozip_end_ex utc_localtime dir_added (Null 0)).

(** A small known-size add operation, and the session of the test suite
    whose destination refuses every write. *)
Definition add_small : add_op :=
  Add_mem (Some (bytes_of_string "test.txt")) (Ptr (bytes_of_string "hello")) 0 (Null 0).

Definition refusing_session : picozip_file test_counters :=
  test_session (2 ^ 64 - 1) 0.

(** A destination that refuses every write as well, and whose free
    callback takes whatever it is handed and keeps a log of it. *)
Definition free_log : Type := list (option picozip__entry).

Definition logging_alloc (u : free_log) (sz : Z) : bool * free_log := (true, u).

Definition logging_write (u : free_log) (src : list byte) : Z * free_log := (0, u).

Definition logging_free (u : free_log) (p : option picozip__entry) : option free_log :=
  Some (p :: u).

Definition logging_session : picozip_file free_log :=
  {| alloc_cb := logging_alloc;
     write_cb := logging_write;
     free_cb := logging_free;
     offset := 0;
     num_entries := 0;
     entries := {| cap := 0; size := 0 |};
     entries_data := fun _ => None;
     userdata := [];
     scratch := fun _ => x00 |}.

Definition write_failed : picozip_file free_log :=
  ok_session_of logging_session (add_entry utc_localtime logging_session add_small).

(** Five known-size add operations of one byte each, and the session
    they leave on the in-memory destination. *)
Definition add_byte (name : String.string) (mod_time : Z) : add_op :=
  Add_mem (Some (bytes_of_string name)) (Ptr (bytes_of_string "x")) mod_time (Null 0).

Definition five_adds : list add_op :=
  [add_byte "e0" 1730559952; add_byte "e1" 1730559954; add_byte "e2" 1730559956;
   add_byte "e3" 1730559958; add_byte "e4" 1730559960].

Definition five_session : picozip_file picozip__mem_file :=
  session_of mem_session (add_all utc_localtime mem_session five_adds).

(** A path of 65536 bytes, and the session that adding an entry of that
    name to a fresh in-memory archive leaves. *)
Definition long_path : list byte := repeat x61 (Z.to_nat 65536).

Definition long_added : picozip_file picozip__mem_file :=
  ok_session_of mem_session
    (picozip_new_entry_mem_ex utc_localtime mem_session
       (Some long_path) (Ptr (bytes_of_string "hello")) 0 (Null 0)).

(** The content of [hello_file] added through the known-size protocol. *)
Definition known_hello : picozip_file picozip__mem_file :=
  ok_session_of mem_session
    (picozip_new_entry_mem_ex utc_localtime mem_session
       (Some (bytes_of_string "test.txt")) (Ptr (contents hello_file))
       1730559952 (Null 0)).

(** ** Outcomes of a call *)

Section Outcomes.

Context {U : Type}.

(** The session [g] may stand for [f] where only the callbacks, the
    counter, the offset and the destination are looked at. *)
Definition same_channel (f g : picozip_file U) : Prop :=
  alloc_cb g = alloc_cb f /\ write_cb g = write_cb f /\ free_cb g = free_cb f /\
  num_entries g = num_entries f /\ offset g = offset f /\ userdata g = userdata f.

(** What an add operation that was refused for memory leaves of the
    session [f]. *)
Definition untouched (f f' : picozip_file U) : Prop :=
  alloc_cb f' = alloc_cb f /\ write_cb f' = write_cb f /\ free_cb f' = free_cb f /\
  num_entries f' = num_entries f /\
  entries_data f' = entries_data f /\
  offset f' = offset f /\
  allocs_only f (userdata f').

End Outcomes.

(** The vector of entry pointers as a call of [picozip__vec_alloc] for
    one more pointer leaves it when it returns a pointer: grown to
    [size + sizeof_entry_ptr] bytes when it held fewer, and as it was
    otherwise. *)
Definition vec_grown (vec : picozip__vec) : picozip__vec :=
  if cap vec <? size_t (size vec + sizeof_entry_ptr)
  then {| cap := size_t (size vec + sizeof_entry_ptr); size := size vec |}
  else vec.

(** The sum of the three length fields of an entry fits [size_t]. *)
Definition entry_small (e : picozip__entry) : Prop :=
  filename_len e + extra_field_len e + comment_len e < 2 ^ 64.

(** The size of the metadata an add operation asks [picozip__alloc_entry]
    for. *)
Definition op_alloc_size (op : add_op) : Z :=
  size_t (strlen (op_path op) + span_len (op_comment op)
          + PICOZIP__ATTR_SIZE + PICOZIP__LOCAL_TIMESTAMP_SIZE).

(** ** Streams by chunk, runs of calls, entries by path *)

(** The buffers that the do-while loop of [picozip_new_entry_file] reads
    from a stream that holds [rest]: it reads [PICOZIP_READ_BUF] bytes at
    a time and stops after the first read that returns fewer. *)
Fixpoint read_chunks (fuel : nat) (rest : list byte) : list (list byte) :=
  match fuel with
  | O => []
  | S fuel =>
    let '(buffer, rest) := fread PICOZIP_READ_BUF rest in
    if len buffer =? PICOZIP_READ_BUF
    then buffer :: read_chunks fuel rest
    else [buffer]
  end.

Section Path.

Context {U : Type}.
Variable localtime : Z -> tm.

(** The C library's [fopen(file_path, "rb")]: the stream, or the
    [errno] of the failure. *)
Variable fopen : list byte -> FILE + Z.

(** [picozip_new_entry_path]. *)
Definition picozip_new_entry_path (f : picozip_file U) (path file_path : option (list byte))
           (comment : span) : option (status * picozip_file U) :=
  match path, file_path with
  | None, _ | _, None => Some (PICOZIP_EINVAL, f)
  | Some _, Some file_path =>
    if negb (span_len comment =? 0) && span_is_null comment
    then Some (PICOZIP_EINVAL, f)
    else
      match fopen file_path with
      | inr errno => Some (OS_ERRNO errno, f)
      | inl fptr => picozip_new_entry_file localtime f path (Some fptr) comment
      end
  end.

End Path.

(** ** More worked inputs *)

(** What finalizing leaves of the session whose destination refuses every
    write. *)
Definition end_refused : picozip_file test_counters :=
  ok_session_of refusing_session (picozip_end_ex utc_localtime refusing_session (Null 0)).

(** The in-memory destination counts what it holds: the [size] of its
    vector is the number of bytes written, as far as [size_t] goes. *)
Definition mem_sized (u : picozip__mem_file) : Prop :=
  size (mem u) = size_t (len (mem_data u)).

(** What [picozip__alloc_entry] leaves of a fresh session whose free
    callback keeps a log. *)
Definition alloc_added : picozip_file free_log :=
  snd (picozip__alloc_entry logging_session 17).

(** An [fopen] that finds [hello_file] under every name. *)
Definition fopen_hello (name : list byte) : FILE + Z := inl hello_file.

(** What a known-size add operation leaves of the session of the test
    suite whose destination refuses every allocation. *)
Definition alloc_refused : picozip_file test_counters :=
  ok_session_of (test_session 0 0)
                (add_entry utc_localtime (test_session 0 0) add_small).

(** ** Facts about machine integers and bytes *)

Lemma byte_val_range (b : byte) : 0 <= byte_val b < 256.
Proof.
  unfold byte_val. pose proof (Byte.to_N_bounded b). lia.
Qed.

Lemma byte_val_u8 (v : Z) : byte_val (u8 v) = uint8_t v.
Proof.
  unfold u8, byte_val.
  assert (Hr : 0 <= uint8_t v < 256) by (unfold uint8_t; apply Z.mod_pos_bound; lia).
  destruct (Byte.of_N (Z.to_N (uint8_t v))) as [b|] eqn:E.
  - apply Byte.to_of_N in E. rewrite E. lia.
  - apply Byte.of_N_None_iff in E. lia.
Qed.

Lemma u8_byte_val (b : byte) : u8 (byte_val b) = b.
Proof.
  unfold u8, uint8_t. pose proof (byte_val_range b) as Hr.
  rewrite Z.mod_small by (change (2 ^ 8) with 256; lia).
  unfold byte_val. rewrite N2Z.id, Byte.of_to_N. reflexivity.
Qed.

Lemma uint32_t_range (v : Z) : 0 <= uint32_t v < 2 ^ 32.
Proof. unfold uint32_t. apply Z.mod_pos_bound. lia. Qed.

Lemma uint32_t_small (v : Z) : 0 <= v < 2 ^ 32 -> uint32_t v = v.
Proof. intros. unfold uint32_t. apply Z.mod_small; assumption. Qed.

Lemma uint16_t_small (v : Z) : 0 <= v < 2 ^ 16 -> uint16_t v = v.
Proof. intros. unfold uint16_t. apply Z.mod_small; assumption. Qed.

Lemma size_t_small (v : Z) : 0 <= v < 2 ^ 64 -> size_t v = v.
Proof. intros. unfold size_t. apply Z.mod_small; assumption. Qed.

Lemma uint32_t_size_t (v : Z) : uint32_t (size_t v) = uint32_t v.
Proof.
  unfold uint32_t, size_t.
  apply Z.mod_mod_divide. exists (2 ^ 32). reflexivity.
Qed.

Lemma uint16_t_size_t (v : Z) : uint16_t (size_t v) = uint16_t v.
Proof.
  unfold uint16_t, size_t.
  apply Z.mod_mod_divide. exists (2 ^ 48). reflexivity.
Qed.

Lemma len_nonneg {A} (l : list A) : 0 <= len l.
Proof. unfold len. lia. Qed.

Lemma len_app {A} (l1 l2 : list A) : len (l1 ++ l2) = len l1 + len l2.
Proof. unfold len. rewrite length_app. lia. Qed.

(** Below 2^n exactly when no bit is set from position n on. *)
Lemma below_pow2_bits (n v : Z) :
  0 <= n -> 0 <= v ->
  (forall i, n <= i -> Z.testbit v i = false) -> v < 2 ^ n.
Proof.
  intros Hn Hv Hbits.
  destruct (Z.eq_dec v 0) as [->|Hnz]; [apply Z.pow_pos_nonneg; lia|].
  apply Z.log2_lt_pow2; [lia|].
  destruct (Z_lt_le_dec (Z.log2 v) n) as [|Hle]; [assumption|].
  specialize (Hbits _ Hle). rewrite Z.bit_log2 in Hbits by lia. discriminate.
Qed.

Lemma bits_above_pow2 (n v i : Z) :
  0 <= v < 2 ^ n -> n <= i -> Z.testbit v i = false.
Proof.
  intros [Hv Hlt] Hi.
  destruct (Z.eq_dec v 0) as [->|Hnz]; [apply Z.testbit_0_l|].
  apply Z.bits_above_log2; [lia|].
  assert (0 <= n).
  { destruct (Z_lt_le_dec n 0); [|assumption].
    rewrite Z.pow_neg_r in Hlt by assumption. lia. }
  assert (Z.log2 v < n) by (apply Z.log2_lt_pow2; lia). lia.
Qed.

Lemma lxor_range32 (a b : Z) :
  0 <= a < 2 ^ 32 -> 0 <= b < 2 ^ 32 -> 0 <= Z.lxor a b < 2 ^ 32.
Proof.
  intros Ha Hb.
  assert (0 <= Z.lxor a b) by (apply Z.lxor_nonneg; lia).
  split; [assumption|].
  apply below_pow2_bits; [lia|assumption|].
  intros i Hi. rewrite Z.lxor_spec.
  rewrite (bits_above_pow2 32 a), (bits_above_pow2 32 b) by assumption.
  reflexivity.
Qed.

(** Complementing a 32-bit word twice, once with [~] and once with
    [^ 0xFFFFFFFF], gives the word back. *)
Lemma not32_lxor (s : Z) :
  0 <= s < 2 ^ 32 -> Z.lxor (uint32_t (Z.lnot s)) 0xFFFFFFFF = s.
Proof.
  intros Hs. unfold uint32_t.
  rewrite <- Z.land_ones by lia.
  change 0xFFFFFFFF with (Z.ones 32).
  apply Z.bits_inj'. intros i Hi.
  rewrite Z.lxor_spec, Z.land_spec, Z.lnot_spec by lia.
  destruct (Z_lt_le_dec i 32).
  - rewrite Z.ones_spec_low by lia.
    destruct (Z.testbit s i); reflexivity.
  - rewrite Z.ones_spec_high by lia.
    rewrite (bits_above_pow2 32 s) by assumption. reflexivity.
Qed.

Lemma not32_range (s : Z) : 0 <= uint32_t (Z.lnot s) < 2 ^ 32.
Proof. apply uint32_t_range. Qed.

(** ** The checksum against its reference *)

Section CrcProofs.

Import Reference.

Lemma shift_step_lxor (a b : Z) :
  shift_step (Z.lxor a b) = Z.lxor (shift_step a) (shift_step b).
Proof.
  unfold shift_step. rewrite Z.lxor_spec, Z.shiftr_lxor.
  destruct (Z.testbit a 0), (Z.testbit b 0); cbn [xorb];
    apply Z.bits_inj'; intros i Hi; rewrite ?Z.lxor_spec;
    destruct (Z.testbit (Z.shiftr a 1) i), (Z.testbit (Z.shiftr b 1) i),
             (Z.testbit POLY i); reflexivity.
Qed.

Lemma shift8_lxor (a b : Z) :
  shift8 (Z.lxor a b) = Z.lxor (shift8 a) (shift8 b).
Proof. unfold shift8. rewrite !shift_step_lxor. reflexivity. Qed.

Lemma shift_step_shiftl (y k : Z) :
  0 <= k -> shift_step (Z.shiftl y (k + 1)) = Z.shiftl y k.
Proof.
  intros Hk. unfold shift_step.
  rewrite Z.shiftl_spec_low by lia.
  rewrite Z.shiftr_shiftl_l by lia.
  f_equal. lia.
Qed.

Lemma shift8_shiftl (y : Z) : shift8 (Z.shiftl y 8) = y.
Proof.
  unfold shift8.
  change 8 with (7 + 1) at 1. rewrite shift_step_shiftl by lia.
  change 7 with (6 + 1). rewrite shift_step_shiftl by lia.
  change 6 with (5 + 1). rewrite shift_step_shiftl by lia.
  change 5 with (4 + 1). rewrite shift_step_shiftl by lia.
  change 4 with (3 + 1). rewrite shift_step_shiftl by lia.
  change 3 with (2 + 1). rewrite shift_step_shiftl by lia.
  change 2 with (1 + 1). rewrite shift_step_shiftl by lia.
  change 1 with (0 + 1). rewrite shift_step_shiftl by lia.
  apply Z.shiftl_0_r.
Qed.

(** A word is its low byte xor the rest, eight places up. *)
Lemma split_low_byte (x : Z) :
  x = Z.lxor (Z.land x 0xFF) (Z.shiftl (Z.shiftr x 8) 8).
Proof.
  apply Z.bits_inj'. intros i Hi.
  rewrite Z.lxor_spec, Z.land_spec.
  change 0xFF with (Z.ones 8).
  destruct (Z_lt_le_dec i 8).
  - rewrite Z.ones_spec_low, Z.shiftl_spec_low by lia.
    destruct (Z.testbit x i); reflexivity.
  - rewrite Z.ones_spec_high, Z.shiftl_spec, Z.shiftr_spec by lia.
    replace (i - 8 + 8) with i by lia.
    destruct (Z.testbit x i); reflexivity.
Qed.

Lemma shift8_split (x : Z) :
  shift8 x = Z.lxor (Z.shiftr x 8) (shift8 (Z.land x 0xFF)).
Proof.
  rewrite (split_low_byte x) at 1.
  rewrite shift8_lxor, shift8_shiftl. apply Z.lxor_comm.
Qed.

(** Every entry of the table is the eight shift steps of its index. *)
Lemma s_crc_table_spec (i : Z) :
  0 <= i < 256 -> nth (Z.to_nat i) s_crc_table 0 = shift8 i.
Proof.
  intros Hi.
  assert (Hall : forallb (fun n => nth n s_crc_table 0 =? shift8 (Z.of_nat n))
                   (seq 0 256) = true) by (vm_compute; reflexivity).
  rewrite forallb_forall in Hall.
  specialize (Hall (Z.to_nat i)).
  rewrite Z2Nat.id in Hall by lia.
  apply Z.eqb_eq, Hall, in_seq. lia.
Qed.

Lemma s_crc_table_range (i : Z) :
  0 <= i < 256 -> 0 <= nth (Z.to_nat i) s_crc_table 0 < 2 ^ 32.
Proof.
  intros Hi.
  assert (Hall : forallb (fun n => (0 <=? nth n s_crc_table 0) &&
                                   (nth n s_crc_table 0 <? 2 ^ 32))
                   (seq 0 256) = true) by (vm_compute; reflexivity).
  rewrite forallb_forall in Hall.
  specialize (Hall (Z.to_nat i)).
  assert (Hin : In (Z.to_nat i) (seq 0 256)) by (apply in_seq; lia).
  apply Hall in Hin. apply andb_true_iff in Hin. lia.
Qed.

Lemma low_byte_range (x : Z) : 0 <= Z.land x 0xFF < 256.
Proof.
  change 0xFF with (Z.ones 8). rewrite Z.land_ones by lia.
  apply Z.mod_pos_bound. lia.
Qed.

(** The table-driven update is the reference's treatment of one byte. *)
Lemma crc_update_feed (r : Z) (p : byte) :
  crc_update r p = feed r p.
Proof.
  unfold crc_update, feed.
  rewrite s_crc_table_spec by apply low_byte_range.
  rewrite (shift8_split (Z.lxor r (byte_val p))).
  f_equal.
  rewrite Z.shiftr_lxor.
  assert (Hb : Z.shiftr (byte_val p) 8 = 0).
  { apply Z.shiftr_eq_0; [apply byte_val_range|].
    pose proof (byte_val_range p).
    destruct (Z.eq_dec (byte_val p) 0) as [->|]; [reflexivity|].
    apply Z.log2_lt_pow2; lia. }
  rewrite Hb. symmetry. apply Z.lxor_0_r.
Qed.

Lemma crc_update_range (r : Z) (p : byte) :
  0 <= r < 2 ^ 32 -> 0 <= crc_update r p < 2 ^ 32.
Proof.
  intros Hr. unfold crc_update.
  apply lxor_range32.
  - split; [apply Z.shiftr_nonneg; lia|].
    rewrite Z.shiftr_div_pow2 by lia.
    apply Z.div_lt_upper_bound; lia.
  - apply s_crc_table_range, low_byte_range.
Qed.

(** The two loops of [picozip__crc32] together fold the update over the
    whole buffer, whatever its length. *)
Lemma crc_loops_fold (ptr : list byte) :
  forall r, crc_loop1 (fst (crc_loop4 r ptr)) (snd (crc_loop4 r ptr))
            = fold_left crc_update ptr r.
Proof.
  assert (H1 : forall l r, crc_loop1 r l = fold_left crc_update l r).
  { induction l as [|p l IH]; intros r; cbn; [reflexivity|apply IH]. }
  assert (H4 : forall l,
             (forall r, crc_loop1 (fst (crc_loop4 r l)) (snd (crc_loop4 r l))
                        = fold_left crc_update l r) /\
             (forall a r, crc_loop1 (fst (crc_loop4 r (a :: l))) (snd (crc_loop4 r (a :: l)))
                        = fold_left crc_update (a :: l) r) /\
             (forall a b r, crc_loop1 (fst (crc_loop4 r (a :: b :: l)))
                                      (snd (crc_loop4 r (a :: b :: l)))
                        = fold_left crc_update (a :: b :: l) r) /\
             (forall a b c r, crc_loop1 (fst (crc_loop4 r (a :: b :: c :: l)))
                                        (snd (crc_loop4 r (a :: b :: c :: l)))
                        = fold_left crc_update (a :: b :: c :: l) r)).
  { induction l as [|p l (IH0 & IH1 & IH2 & IH3)].
    - repeat split; intros; cbn; reflexivity.
    - repeat split; intros.
      + apply IH1.
      + apply IH2.
      + apply IH3.
      + cbn [crc_loop4]. rewrite IH0. reflexivity. }
  intros r. apply (H4 ptr).
Qed.

Lemma fold_crc_update_range (ptr : list byte) :
  forall r, 0 <= r < 2 ^ 32 -> 0 <= fold_left crc_update ptr r < 2 ^ 32.
Proof.
  induction ptr as [|p l IH]; intros r Hr; cbn; [assumption|].
  apply IH, crc_update_range, Hr.
Qed.

Lemma fold_crc_update_feed (ptr : list byte) :
  forall r, fold_left crc_update ptr r = fold_left feed ptr r.
Proof.
  induction ptr as [|p l IH]; intros r; cbn; [reflexivity|].
  rewrite crc_update_feed. apply IH.
Qed.

(** [picozip__crc32] in closed form. *)
Lemma picozip__crc32_unfold (ptr : list byte) (crc : Z) :
  picozip__crc32 ptr crc =
  uint32_t (Z.lnot (fold_left crc_update ptr (Z.lxor (uint32_t crc) 0xFFFFFFFF))).
Proof.
  unfold picozip__crc32.
  rewrite <- crc_loops_fold.
  destruct (crc_loop4 _ ptr) as [r rest]. reflexivity.
Qed.

Lemma picozip__crc32_range (ptr : list byte) (crc : Z) :
  0 <= picozip__crc32 ptr crc < 2 ^ 32.
Proof. rewrite picozip__crc32_unfold. apply uint32_t_range. Qed.

Lemma seed_range (crc : Z) : 0 <= Z.lxor (uint32_t crc) 0xFFFFFFFF < 2 ^ 32.
Proof. apply lxor_range32; [apply uint32_t_range|lia]. Qed.

(** The complement [~] of a 32-bit word is its xor with all ones. *)
Lemma not32_as_lxor (s : Z) :
  0 <= s < 2 ^ 32 -> uint32_t (Z.lnot s) = Z.lxor s 0xFFFFFFFF.
Proof.
  intros Hs.
  rewrite <- (not32_lxor s Hs) at 2.
  rewrite Z.lxor_assoc, Z.lxor_nilpotent, Z.lxor_0_r. reflexivity.
Qed.

(** Resuming: a call seeded with the result of a call on [b1] continues
    the checksum of [b1] over [b2]. *)
Lemma picozip__crc32_app (b1 b2 : list byte) (crc : Z) :
  picozip__crc32 b2 (picozip__crc32 b1 crc) = picozip__crc32 (b1 ++ b2) crc.
Proof.
  rewrite (picozip__crc32_unfold b2), (picozip__crc32_unfold (b1 ++ b2)).
  rewrite fold_left_app. do 3 f_equal.
  rewrite uint32_t_small by apply picozip__crc32_range.
  rewrite picozip__crc32_unfold.
  apply not32_lxor, fold_crc_update_range, seed_range.
Qed.

Lemma picozip__crc32_nil (crc : Z) :
  0 <= crc < 2 ^ 32 -> picozip__crc32 [] crc = crc.
Proof.
  intros Hc. rewrite picozip__crc32_unfold. cbn [fold_left].
  rewrite (uint32_t_small crc) by assumption.
  rewrite not32_as_lxor by (apply lxor_range32; [assumption|lia]).
  rewrite Z.lxor_assoc, Z.lxor_nilpotent. apply Z.lxor_0_r.
Qed.

Lemma picozip__crc32_chunks (chunks : list (list byte)) :
  forall crc,
    0 <= crc < 2 ^ 32 ->
    fold_left (fun c chunk => picozip__crc32 chunk c) chunks crc
    = picozip__crc32 (concat chunks) crc.
Proof.
  induction chunks as [|c cs IH]; intros crc Hc; cbn [fold_left concat].
  - symmetry. apply picozip__crc32_nil, Hc.
  - rewrite IH by apply picozip__crc32_range.
    apply picozip__crc32_app.
Qed.

(** With the fresh seed the checksum is the reference CRC-32. *)
Lemma picozip__crc32_reference (b : list byte) :
  picozip__crc32 b PICOZIP__CRC_START = Reference.crc32 b.
Proof.
  rewrite picozip__crc32_unfold. unfold Reference.crc32.
  rewrite not32_as_lxor by apply fold_crc_update_range, seed_range.
  rewrite fold_crc_update_feed. reflexivity.
Qed.

End CrcProofs.

(** ** Buffers and the reading macros *)

Lemma uint16_t_range (v : Z) : 0 <= uint16_t v < 2 ^ 16.
Proof. unfold uint16_t. apply Z.mod_pos_bound. lia. Qed.

Lemma size_t_range (v : Z) : 0 <= size_t v < 2 ^ 64.
Proof. unfold size_t. apply Z.mod_pos_bound. lia. Qed.

Lemma len_le16 (V : Z) : len (le16 V) = 2.
Proof. reflexivity. Qed.

Lemma len_le32 (V : Z) : len (le32 V) = 4.
Proof. reflexivity. Qed.

Lemma len_firstn_le {A} (n : nat) (l : list A) :
  (n <= length l)%nat -> len (firstn n l) = Z.of_nat n.
Proof. intros H. unfold len. rewrite firstn_length_le by assumption. reflexivity. Qed.

Lemma len_memcpy (src : list byte) (n : Z) :
  0 <= n <= len src -> len (memcpy src n) = n.
Proof.
  intros H. unfold memcpy. rewrite len_firstn_le; unfold len in *; lia.
Qed.

Lemma memcpy_all (src : list byte) : memcpy src (len src) = src.
Proof. unfold memcpy, len. rewrite Nat2Z.id. apply firstn_all. Qed.

Lemma memcpy_span (s : span) :
  (negb (span_len s =? 0) && span_is_null s) = false ->
  memcpy (span_bytes s) (span_len s) = span_bytes s.
Proof.
  destruct s as [n|bytes]; cbn; intros H.
  - unfold memcpy. apply firstn_nil.
  - apply memcpy_all.
Qed.

Lemma len_span_bytes (s : span) :
  (negb (span_len s =? 0) && span_is_null s) = false ->
  len (span_bytes s) = span_len s.
Proof.
  destruct s as [n|bytes]; cbn; intros H; [|reflexivity].
  rewrite andb_true_r in H. apply negb_false_iff, Z.eqb_eq in H.
  rewrite H. reflexivity.
Qed.

(** A byte of value [v] shifted into place and read back. *)
Lemma testbit_byte_val_high (b : byte) (i : Z) : 8 <= i -> Z.testbit (byte_val b) i = false.
Proof. intros. apply (bits_above_pow2 8); [apply byte_val_range|assumption]. Qed.

Lemma testbit_u8 (v i : Z) :
  0 <= i -> Z.testbit (byte_val (u8 v)) i = if i <? 8 then Z.testbit v i else false.
Proof.
  intros Hi. rewrite byte_val_u8. unfold uint8_t.
  destruct (Z.ltb_spec i 8).
  - apply Z.mod_pow2_bits_low. lia.
  - apply Z.mod_pow2_bits_high. lia.
Qed.

Lemma READ_LE16_le16 (V : Z) (pre post : list byte) :
  READ_LE16 (pre ++ le16 V ++ post) (length pre) = uint16_t V.
Proof.
  unfold READ_LE16, byte_at, le16.
  rewrite !(app_nth2 pre) by lia.
  replace (length pre - length pre)%nat with 0%nat by lia.
  replace (length pre + 1 - length pre)%nat with 1%nat by lia.
  cbn [app nth].
  unfold uint16_t. rewrite <- !Z.land_ones by lia.
  apply Z.bits_inj'. intros i Hi.
  rewrite !Z.land_spec, !Z.lor_spec, !Z.shiftl_spec by lia.
  destruct (Z.ltb_spec i 16).
  - rewrite Z.ones_spec_low, !andb_true_r by lia.
    destruct (Z.ltb_spec i 8).
    + rewrite (Z.testbit_neg_r _ (i - 8)) by lia.
      rewrite testbit_u8 by lia. rewrite !Z.shiftr_spec by lia.
      replace (i - 0 <? 8) with true by (symmetry; apply Z.ltb_lt; lia).
      rewrite orb_false_r. f_equal. lia.
    + rewrite !testbit_u8 by lia. rewrite !Z.shiftr_spec by lia.
      replace (i - 0 <? 8) with false by (symmetry; apply Z.ltb_ge; lia).
      replace (i - 8 <? 8) with true by (symmetry; apply Z.ltb_lt; lia).
      cbn [orb]. f_equal. lia.
  - rewrite Z.ones_spec_high by lia. rewrite !andb_false_r. reflexivity.
Qed.

Lemma READ_LE32_le32 (V : Z) (pre post : list byte) :
  READ_LE32 (pre ++ le32 V ++ post) (length pre) = uint32_t V.
Proof.
  unfold READ_LE32, byte_at, le32.
  rewrite !(app_nth2 pre) by lia.
  replace (length pre - length pre)%nat with 0%nat by lia.
  replace (length pre + 1 - length pre)%nat with 1%nat by lia.
  replace (length pre + 2 - length pre)%nat with 2%nat by lia.
  replace (length pre + 3 - length pre)%nat with 3%nat by lia.
  cbn [app nth].
  unfold uint32_t. rewrite <- !Z.land_ones by lia.
  apply Z.bits_inj'. intros i Hi.
  rewrite !Z.land_spec, !Z.lor_spec, !Z.shiftl_spec by lia.
  destruct (Z.ltb_spec i 32).
  - rewrite Z.ones_spec_low, !andb_true_r by lia.
    destruct (Z.ltb_spec i 8); [|destruct (Z.ltb_spec i 16); [|destruct (Z.ltb_spec i 24)]].
    + rewrite (Z.testbit_neg_r _ (i - 8)), (Z.testbit_neg_r _ (i - 16)),
        (Z.testbit_neg_r _ (i - 24)) by lia.
      rewrite testbit_u8 by lia. rewrite !Z.shiftr_spec by lia.
      replace (i - 0 <? 8) with true by (symmetry; apply Z.ltb_lt; lia).
      rewrite !orb_false_r. f_equal. lia.
    + rewrite (Z.testbit_neg_r _ (i - 16)), (Z.testbit_neg_r _ (i - 24)) by lia.
      rewrite !testbit_u8 by lia. rewrite !Z.shiftr_spec by lia.
      replace (i - 0 <? 8) with false by (symmetry; apply Z.ltb_ge; lia).
      replace (i - 8 <? 8) with true by (symmetry; apply Z.ltb_lt; lia).
      rewrite !orb_false_r. cbn [orb]. f_equal. lia.
    + rewrite (Z.testbit_neg_r _ (i - 24)) by lia.
      rewrite !testbit_u8 by lia. rewrite !Z.shiftr_spec by lia.
      replace (i - 0 <? 8) with false by (symmetry; apply Z.ltb_ge; lia).
      replace (i - 8 <? 8) with false by (symmetry; apply Z.ltb_ge; lia).
      replace (i - 16 <? 8) with true by (symmetry; apply Z.ltb_lt; lia).
      rewrite !orb_false_r. cbn [orb]. f_equal. lia.
    + rewrite !testbit_u8 by lia. rewrite !Z.shiftr_spec by lia.
      replace (i - 0 <? 8) with false by (symmetry; apply Z.ltb_ge; lia).
      replace (i - 8 <? 8) with false by (symmetry; apply Z.ltb_ge; lia).
      replace (i - 16 <? 8) with false by (symmetry; apply Z.ltb_ge; lia).
      replace (i - 24 <? 8) with true by (symmetry; apply Z.ltb_lt; lia).
      cbn [orb]. f_equal. lia.
  - rewrite Z.ones_spec_high by lia. rewrite !andb_false_r. reflexivity.
Qed.

(** ** The scratch buffer *)

Section ScratchProofs.

Context {U : Type}.
Variable localtime : Z -> tm.
Local Abbreviation file := (picozip_file U).

Lemma local_header_scratch (f : file) (e : picozip__entry) :
  let s := scratch f in
  let s := PICOZIP__WRITE_LE32 s 0 PICOZIP__LOCAL_MAGIC in
  let s := PICOZIP__WRITE_LE16 s 4 (version_extract e) in
  let s := PICOZIP__WRITE_LE16 s 6 (flags e) in
  let s := PICOZIP__WRITE_LE16 s 8 (comp_method e) in
  let s := PICOZIP__WRITE_LE16 s 10 (dos_time localtime e) in
  let s := PICOZIP__WRITE_LE16 s 12 (dos_date localtime e) in
  let s := PICOZIP__WRITE_LE32 s 14 (crc32 e) in
  let s := PICOZIP__WRITE_LE32 s 18 (comp_size e) in
  let s := PICOZIP__WRITE_LE32 s 22 (uncomp_size e) in
  let s := PICOZIP__WRITE_LE16 s 26 (filename_len e) in
  let s := PICOZIP__WRITE_LE16 s 28 (extra_field_len e) in
  memcpy (scratch_bytes (set_scratch f s)) PICOZIP__LOCAL_HEADER_SIZE
  = local_header localtime e.
Proof. reflexivity. Qed.

Lemma central_header_scratch (f : file) (e : picozip__entry) :
  let s := scratch f in
  let s := PICOZIP__WRITE_LE32 s 0 PICOZIP__CENTRAL_MAGIC in
  let s := PICOZIP__WRITE_LE16 s 4 (version_made e) in
  let s := PICOZIP__WRITE_LE16 s 6 (version_extract e) in
  let s := PICOZIP__WRITE_LE16 s 8 (flags e) in
  let s := PICOZIP__WRITE_LE16 s 10 (comp_method e) in
  let s := PICOZIP__WRITE_LE16 s 12 (dos_time localtime e) in
  let s := PICOZIP__WRITE_LE16 s 14 (dos_date localtime e) in
  let s := PICOZIP__WRITE_LE32 s 16 (crc32 e) in
  let s := PICOZIP__WRITE_LE32 s 20 (comp_size e) in
  let s := PICOZIP__WRITE_LE32 s 24 (uncomp_size e) in
  let s := PICOZIP__WRITE_LE16 s 28 (filename_len e) in
  let s := PICOZIP__WRITE_LE16 s 30 (extra_field_len e) in
  let s := PICOZIP__WRITE_LE16 s 32 (comment_len e) in
  let s := PICOZIP__WRITE_LE16 s 34 0 in
  let s := PICOZIP__WRITE_LE16 s 36 (internal_attr e) in
  let s := PICOZIP__WRITE_LE32 s 38 (external_attr e) in
  let s := PICOZIP__WRITE_LE32 s 42 (header_offset e) in
  memcpy (scratch_bytes (set_scratch f s)) PICOZIP__CD_HEADER_SIZE
  = central_header localtime e.
Proof. reflexivity. Qed.

Lemma eocd_scratch (f : file) (n cd_size cd_offset comment_len : Z) :
  let s := scratch f in
  let s := PICOZIP__WRITE_LE32 s 0 PICOZIP__EOCD_MAGIC in
  let s := PICOZIP__WRITE_LE16 s 4 0 in
  let s := PICOZIP__WRITE_LE16 s 6 0 in
  let s := PICOZIP__WRITE_LE16 s 8 n in
  let s := PICOZIP__WRITE_LE16 s 10 n in
  let s := PICOZIP__WRITE_LE32 s 12 cd_size in
  let s := PICOZIP__WRITE_LE32 s 16 cd_offset in
  let s := PICOZIP__WRITE_LE16 s 20 comment_len in
  memcpy (scratch_bytes (set_scratch f s)) PICOZIP__EOCD_SIZE
  = eocd_record n cd_size cd_offset comment_len.
Proof. reflexivity. Qed.

Lemma data_descriptor_scratch (f : file) (e : picozip__entry) :
  let s := scratch f in
  let s := PICOZIP__WRITE_LE32 s 0 PICOZIP__DATADESC_MAGIC in
  let s := PICOZIP__WRITE_LE32 s 4 (crc32 e) in
  let s := PICOZIP__WRITE_LE32 s 8 (comp_size e) in
  let s := PICOZIP__WRITE_LE32 s 12 (uncomp_size e) in
  memcpy (scratch_bytes (set_scratch f s)) PICOZIP__DATADESC_SIZE
  = data_descriptor e.
Proof. reflexivity. Qed.

End ScratchProofs.

(** ** Flushing *)

Section FlushProofs.

Context {U : Type}.
Local Abbreviation file := (picozip_file U).

Lemma size_t_idem (v : Z) : size_t (size_t v) = size_t v.
Proof. unfold size_t. apply Z.mod_mod. lia. Qed.

Lemma size_t_add_l (a b : Z) : size_t (size_t a + b) = size_t (a + b).
Proof. unfold size_t. apply Z.add_mod_idemp_l. lia. Qed.

Lemma size_t_add_r (a b : Z) : size_t (a + size_t b) = size_t (a + b).
Proof. unfold size_t. apply Z.add_mod_idemp_r. lia. Qed.

Lemma writes_to_app (w : U -> list byte -> Z * U) (u : U) (c1 c2 : list (list byte)) :
  writes_to w (writes_to w u c1) c2 = writes_to w u (c1 ++ c2).
Proof. unfold writes_to. symmetry. apply fold_left_app. Qed.

Lemma accepted_all_app (w : U -> list byte -> Z * U) (c1 c2 : list (list byte)) :
  forall u,
    accepted_all w u c1 -> accepted_all w (writes_to w u c1) c2 ->
    accepted_all w u (c1 ++ c2).
Proof.
  induction c1 as [|c c1 IH]; intros u H1 H2; cbn in *.
  - assumption.
  - destruct H1 as [Hc H1]. split; [assumption|]. apply IH; assumption.
Qed.

Lemma offset_after_app (off : Z) (c1 c2 : list (list byte)) :
  offset_after (offset_after off c1) c2 = offset_after off (c1 ++ c2).
Proof.
  destruct c1 as [|a c1]; [reflexivity|].
  destruct c2 as [|b c2].
  - rewrite app_nil_r. reflexivity.
  - cbn [offset_after app]. rewrite size_t_add_l.
    f_equal. change (a :: c1 ++ b :: c2) with ((a :: c1) ++ b :: c2).
    rewrite concat_app, len_app. lia.
Qed.

Lemma offset_after_size_t (off : Z) (chunks : list (list byte)) :
  size_t (offset_after off chunks) = size_t (off + len (concat chunks)).
Proof.
  destruct chunks; cbn [offset_after].
  - cbn. f_equal. unfold len. cbn. lia.
  - apply size_t_idem.
Qed.

Lemma emits_offset (f f' : file) (chunks : list (list byte)) :
  emits f f' chunks -> offset f' = offset_after (offset f) chunks.
Proof. intros H. apply H. Qed.

Lemma emits_trans (f f1 f2 : file) (c1 c2 : list (list byte)) :
  emits f f1 c1 -> emits f1 f2 c2 -> emits f f2 (c1 ++ c2).
Proof.
  intros (Ha1 & Hw1 & Hf1 & Hn1 & Ho1 & Hacc1 & Hu1)
         (Ha2 & Hw2 & Hf2 & Hn2 & Ho2 & Hacc2 & Hu2).
  unfold emits. repeat split; try congruence.
  - rewrite Ho2, Ho1. apply offset_after_app.
  - apply accepted_all_app; [assumption|].
    rewrite <- Hu1, <- Hw1. assumption.
  - rewrite Hu2, Hw1, Hu1. apply writes_to_app.
Qed.

Lemma emits_same_channel (f g f' : file) (chunks : list (list byte)) :
  same_channel f g -> emits g f' chunks -> emits f f' chunks.
Proof.
  intros (Ha & Hw & Hf & Hn & Ho & Hu) (Ha2 & Hw2 & Hf2 & Hn2 & Ho2 & Hacc2 & Hu2).
  unfold emits. rewrite <- Ha, <- Hw, <- Hf, <- Hn, <- Ho, <- Hu.
  repeat split; assumption.
Qed.

Lemma emits_nil (f g : file) : same_channel f g -> emits f g [].
Proof.
  intros (Ha & Hw & Hf & Hn & Ho & Hu). unfold emits. cbn.
  repeat split; assumption.
Qed.

Lemma same_channel_set_scratch (f : file) (s : buffer) :
  same_channel f (set_scratch f s).
Proof. unfold same_channel. cbn. repeat split. Qed.

Lemma same_channel_update_entry (f : file) (idx : Z)
      (g : picozip__entry -> picozip__entry) :
  same_channel f (update_entry f idx g).
Proof.
  unfold same_channel, update_entry.
  destruct (entries_data f idx); cbn; repeat split.
Qed.

Lemma same_channel_trans (f g h : file) :
  same_channel f g -> same_channel g h -> same_channel f h.
Proof. unfold same_channel. intuition congruence. Qed.

Lemma entries_data_update_entry (f : file) (idx : Z)
      (g : picozip__entry -> picozip__entry) (e : picozip__entry) :
  entries_data f idx = Some e ->
  entries_data (update_entry f idx g) = slot_store (entries_data f) idx (g e).
Proof. intros H. unfold update_entry. rewrite H. reflexivity. Qed.

Lemma FLUSH_true (f f' : file) (src : list byte) (n : Z) :
  PICOZIP__FLUSH f src n = (true, f') ->
  len (memcpy src n) = n ->
  emits f f' [memcpy src n] /\ entries_data f' = entries_data f.
Proof.
  unfold PICOZIP__FLUSH. intros H Hlen.
  destruct (write_cb f (userdata f) (memcpy src n)) as [written u] eqn:Hw.
  destruct (written =? size_t n) eqn:Hacc; cbn [negb] in H; [|discriminate].
  injection H as <-. apply Z.eqb_eq in Hacc.
  unfold emits. cbn. rewrite Hw, app_nil_r, Hlen. cbn.
  repeat split; assumption.
Qed.

Lemma FLUSH_false (f f' : file) (src : list byte) (n : Z) :
  PICOZIP__FLUSH f src n = (false, f') ->
  f' = set_userdata f (snd (write_cb f (userdata f) (memcpy src n))).
Proof.
  unfold PICOZIP__FLUSH. intros H.
  destruct (write_cb f (userdata f) (memcpy src n)) as [written u] eqn:Hw.
  destruct (written =? size_t n) eqn:Hacc; cbn [negb] in H; [discriminate|].
  injection H as <-. reflexivity.
Qed.

End FlushProofs.

(** ** Allocation and the local header *)

Section AddProofs.

Context {U : Type}.
Variable localtime : Z -> tm.
Local Abbreviation file := (picozip_file U).

Lemma picozip__vec_alloc_userdata (vec : picozip__vec) (sz : Z)
      (alloc : U -> Z -> bool * U) (u : U) :
  snd (picozip__vec_alloc vec sz alloc u) = u \/
  snd (picozip__vec_alloc vec sz alloc u) = snd (alloc u (size_t (size vec + sz))).
Proof.
  unfold picozip__vec_alloc.
  destruct (cap vec <? size_t (size vec + sz)); [|left; reflexivity].
  destruct (alloc u (size_t (size vec + sz))) as [p u']. cbn.
  destruct p; right; reflexivity.
Qed.

Lemma picozip__vec_alloc_grown (vec vec' : picozip__vec)
      (alloc : U -> Z -> bool * U) (u u' : U) :
  picozip__vec_alloc vec sizeof_entry_ptr alloc u = (true, vec', u') ->
  vec' = vec_grown vec.
Proof.
  unfold picozip__vec_alloc, vec_grown.
  destruct (cap vec <? size_t (size vec + sizeof_entry_ptr)).
  - destruct (alloc u _) as [p v]. destruct p; cbn [negb]; intros H; [|discriminate].
    injection H as <- _. reflexivity.
  - intros H. injection H as _ <- _. reflexivity.
Qed.

Lemma entries_store_same (vec : picozip__vec) (s : slots) (i : Z) (a : picozip__entry) :
  entries_store vec s i a i = Some a.
Proof. unfold entries_store, slot_store. rewrite Z.eqb_refl. reflexivity. Qed.

Lemma entries_store_twice (vec : picozip__vec) (s : slots) (i : Z)
      (a b : picozip__entry) (j : Z) :
  slot_store (entries_store vec s i a) i b j = entries_store vec s i b j.
Proof. unfold entries_store, slot_store. destruct (j =? i); reflexivity. Qed.

Lemma entries_store_other (vec : picozip__vec) (s : slots) (i j : Z) (a : picozip__entry) :
  j <> i -> entries_store vec s i a j = slots_kept vec s i j.
Proof.
  intros H. unfold entries_store, slot_store. apply Z.eqb_neq in H. rewrite H. reflexivity.
Qed.

Lemma slots_kept_above (vec : picozip__vec) (s : slots) (i j : Z) :
  i <= j -> slots_kept vec s i j = s j.
Proof.
  intros H. unfold slots_kept. destruct (slot_in_bounds vec i); [reflexivity|].
  replace (j <? i) with false by (symmetry; apply Z.ltb_ge; lia). reflexivity.
Qed.

Lemma slots_kept_in_bounds (vec : picozip__vec) (s : slots) (i : Z) :
  slot_in_bounds vec i = true -> slots_kept vec s i = s.
Proof. intros H. unfold slots_kept. rewrite H. reflexivity. Qed.

Lemma slots_kept_overrun (vec : picozip__vec) (s : slots) (i j : Z) :
  slot_in_bounds vec i = false -> j < i -> slots_kept vec s i j = None.
Proof.
  intros H Hj. unfold slots_kept. rewrite H.
  replace (j <? i) with true by (symmetry; apply Z.ltb_lt; lia). reflexivity.
Qed.

Lemma picozip__alloc_entry_some (f fa : file) (metadata_len idx : Z) :
  picozip__alloc_entry f metadata_len = (Some idx, fa) ->
  idx = num_entries f /\
  alloc_cb fa = alloc_cb f /\ write_cb fa = write_cb f /\ free_cb fa = free_cb f /\
  offset fa = offset f /\
  num_entries fa = size_t (num_entries f + 1) /\
  entries_data fa
  = entries_store (vec_grown (entries f)) (entries_data f) (num_entries f) blank_entry /\
  allocs_only f (userdata fa).
Proof.
  unfold picozip__alloc_entry. intros H.
  pose proof (picozip__vec_alloc_userdata (entries f) sizeof_entry_ptr
                                          (alloc_cb f) (userdata f)) as Hu.
  destruct (picozip__vec_alloc _ _ _ _) as [[p vec] u] eqn:Hg. cbn [snd] in Hu.
  destruct p; cbn [negb] in H; [|discriminate].
  apply picozip__vec_alloc_grown in Hg. subst vec.
  cbn in H.
  destruct (alloc_cb f u _) as [entry u'] eqn:Ha.
  destruct entry; cbn [negb] in H; [|discriminate].
  injection H as <- <-. cbn. repeat split.
  destruct Hu as [->| ->].
  - exists [size_t (sizeof_picozip__entry + metadata_len)]. cbn. rewrite Ha. reflexivity.
  - exists [size_t (size (entries f) + sizeof_entry_ptr);
            size_t (sizeof_picozip__entry + metadata_len)].
    cbn. cbn in Ha. rewrite Ha. reflexivity.
Qed.

Lemma picozip__alloc_entry_entries (f fa : file) (metadata_len idx : Z) :
  picozip__alloc_entry f metadata_len = (Some idx, fa) ->
  entries fa = vec_grown (entries f).
Proof.
  unfold picozip__alloc_entry. intros H.
  destruct (picozip__vec_alloc _ _ _ _) as [[p vec] u] eqn:Hg.
  destruct p; cbn [negb] in H; [|discriminate].
  apply picozip__vec_alloc_grown in Hg. subst vec.
  cbn in H.
  destruct (alloc_cb f u _) as [entry u'].
  destruct entry; cbn [negb] in H; [|discriminate].
  injection H as <- <-. reflexivity.
Qed.

Lemma picozip__alloc_entry_none (f fa : file) (metadata_len : Z) :
  picozip__alloc_entry f metadata_len = (None, fa) ->
  alloc_cb fa = alloc_cb f /\ write_cb fa = write_cb f /\ free_cb fa = free_cb f /\
  offset fa = offset f /\
  num_entries fa = num_entries f /\
  entries_data fa = entries_data f /\
  allocs_only f (userdata fa).
Proof.
  unfold picozip__alloc_entry. intros H.
  pose proof (picozip__vec_alloc_userdata (entries f) sizeof_entry_ptr
                                          (alloc_cb f) (userdata f)) as Hu.
  destruct (picozip__vec_alloc _ _ _ _) as [[p vec] u]. cbn [snd] in Hu.
  destruct p; cbn [negb] in H.
  - cbn in H.
    destruct (alloc_cb f u _) as [entry u'] eqn:Ha.
    destruct entry; cbn [negb] in H; [discriminate|].
    injection H as <-. cbn. repeat split.
    destruct Hu as [->| ->].
    + exists [size_t (sizeof_picozip__entry + metadata_len)]. cbn. rewrite Ha. reflexivity.
    + exists [size_t (size (entries f) + sizeof_entry_ptr);
              size_t (sizeof_picozip__entry + metadata_len)].
      cbn. cbn in Ha. rewrite Ha. reflexivity.
  - injection H as <-. cbn. repeat split.
    destruct Hu as [->| ->].
    + exists []. reflexivity.
    + exists [size_t (size (entries f) + sizeof_entry_ptr)]. reflexivity.
Qed.

Lemma len_local_metadata (e : picozip__entry) :
  entry_wf e -> len (local_metadata e) = filename_len e + extra_field_len e.
Proof. intros (? & ? & ? & ?). apply len_memcpy. lia. Qed.

Lemma len_central_metadata (e : picozip__entry) :
  entry_wf e ->
  len (central_metadata e) = filename_len e + extra_field_len e + comment_len e.
Proof. intros (? & ? & ? & ?). apply len_memcpy. lia. Qed.

Lemma len_local_header (e : picozip__entry) :
  len (local_header localtime e) = PICOZIP__LOCAL_HEADER_SIZE.
Proof. reflexivity. Qed.

Lemma len_central_header (e : picozip__entry) :
  len (central_header localtime e) = PICOZIP__CD_HEADER_SIZE.
Proof. reflexivity. Qed.

Lemma picozip__write_local_entry_ok (f f' : file) (e : picozip__entry) :
  picozip__write_local_entry localtime f e = (PICOZIP_OK, f') ->
  entry_wf e ->
  emits f f' [local_header localtime e; local_metadata e] /\
  entries_data f' = entries_data f.
Proof.
  unfold picozip__write_local_entry. intros H Hwf.
  pose proof (local_header_scratch localtime f e) as Hs.
  unfold dos_time, dos_date in Hs. cbv zeta in Hs.
  destruct (picozip__time_to_dostime localtime (mod_time e)) as [dd dt] eqn:Hdos.
  cbn [fst snd] in Hs.
  match type of H with
  | context [PICOZIP__FLUSH ?g ?src ?n] =>
      destruct (PICOZIP__FLUSH g src n) as [ok1 f1] eqn:H1
  end.
  destruct ok1; cbn [negb] in H; [|discriminate].
  destruct (PICOZIP__FLUSH f1 _ _) as [ok2 f2] eqn:H2.
  destruct ok2; cbn [negb] in H; [|discriminate].
  injection H as <-.
  apply FLUSH_true in H1; [|rewrite Hs; reflexivity].
  rewrite Hs in H1. destruct H1 as [E1 D1].
  apply FLUSH_true in H2; [|apply len_local_metadata, Hwf].
  destruct H2 as [E2 D2].
  split.
  - eapply emits_same_channel; [apply same_channel_set_scratch|].
    apply (emits_trans _ _ _ [_] [_] E1 E2).
  - rewrite D2, D1. reflexivity.
Qed.

(** A local header that could not be written leaves everything but the
    destination, the offset and the scratch buffer as it was. *)
Lemma picozip__write_local_entry_fail (f f' : file) (e : picozip__entry) (r : status) :
  picozip__write_local_entry localtime f e = (r, f') ->
  r <> PICOZIP_OK ->
  r = PICOZIP_EIO /\
  alloc_cb f' = alloc_cb f /\ write_cb f' = write_cb f /\ free_cb f' = free_cb f /\
  num_entries f' = num_entries f /\ entries_data f' = entries_data f.
Proof.
  unfold picozip__write_local_entry. intros H Hr.
  destruct (picozip__time_to_dostime localtime (mod_time e)) as [dd dt].
  match type of H with
  | context [PICOZIP__FLUSH ?g ?src ?n] =>
      destruct (PICOZIP__FLUSH g src n) as [ok1 f1] eqn:H1
  end.
  destruct ok1; cbn [negb] in H.
  - destruct (PICOZIP__FLUSH f1 _ _) as [ok2 f2] eqn:H2.
    destruct ok2; cbn [negb] in H; injection H as <- <-; [congruence|].
    apply FLUSH_false in H2. subst f2.
    unfold PICOZIP__FLUSH in H1.
    destruct (write_cb _ _ _) as [w u] in H1.
    destruct (negb _) in H1; [discriminate|]. injection H1 as <-.
    cbn. repeat split.
  - injection H as <- <-. apply FLUSH_false in H1. subst f1.
    cbn. repeat split.
Qed.

End AddProofs.

(** ** The add operations *)

Section OpProofs.

Context {U : Type}.
Variable localtime : Z -> tm.
Local Abbreviation file := (picozip_file U).

Lemma strlen_range (s : list byte) : 0 <= strlen s <= len s.
Proof.
  unfold len. induction s as [|c s IH]; cbn [strlen length]; [lia|].
  destruct (Byte.eqb c x00); lia.
Qed.

Lemma uint16_t_le (v : Z) : 0 <= v -> uint16_t v <= v.
Proof. intros H. unfold uint16_t. apply Z.mod_le; lia. Qed.

Lemma span_valid_true (s : span) :
  span_valid s = true -> (negb (span_len s =? 0) && span_is_null s) = false.
Proof. unfold span_valid. intros H. apply negb_true_iff in H. exact H. Qed.

Lemma span_len_nonneg (s : span) : span_valid s = true -> 0 <= span_len s.
Proof.
  intros H. rewrite <- (len_span_bytes s) by (apply span_valid_true, H).
  apply len_nonneg.
Qed.

Lemma len_entry_metadata (path : list byte) (mod_time : Z) (comment : span) :
  span_valid comment = true ->
  len (entry_metadata path (strlen path) mod_time comment)
  = strlen path + 9 + span_len comment.
Proof.
  intros Hc. unfold entry_metadata.
  rewrite !len_app, len_le16, len_le16, len_le32.
  rewrite (len_memcpy path) by apply strlen_range.
  rewrite memcpy_span, len_span_bytes by (apply span_valid_true, Hc).
  change (len [u8 1]) with 1. lia.
Qed.

Lemma op_comment_valid (op : add_op) :
  op_valid op = true -> span_valid (op_comment op) = true.
Proof.
  destruct op as [[p|] d m c|[p|] [fp|] c]; cbn; try discriminate.
  - intros H. apply andb_true_iff in H. apply H.
  - intros H. apply andb_true_iff in H. apply H.
Qed.

Lemma op_entry_wf (off : Z) (op : add_op) :
  op_valid op = true -> entry_wf (op_entry off op).
Proof.
  intros Hv. apply op_comment_valid in Hv.
  unfold entry_wf. cbn [op_entry filename_len extra_field_len comment_len metadata].
  rewrite len_entry_metadata by assumption.
  pose proof (strlen_range (op_path op)) as Hs.
  pose proof (span_len_nonneg _ Hv) as Hc.
  pose proof (uint16_t_range (strlen (op_path op))).
  pose proof (uint16_t_range (span_len (op_comment op))).
  pose proof (uint16_t_le (strlen (op_path op))).
  pose proof (uint16_t_le (span_len (op_comment op))).
  change (uint16_t (PICOZIP__ATTR_SIZE + PICOZIP__LOCAL_TIMESTAMP_SIZE)) with 9.
  lia.
Qed.

Lemma op_entry_at_header_wf (off : Z) (op : add_op) :
  op_valid op = true -> entry_wf (op_entry_at_header off op).
Proof.
  intros Hv. pose proof (op_entry_wf off op Hv) as H.
  destruct op; exact H.
Qed.

Lemma local_metadata_at_header (off : Z) (op : add_op) :
  local_metadata (op_entry_at_header off op) = local_metadata (op_entry off op).
Proof. destruct op; reflexivity. Qed.

Lemma slot_store_twice (s : slots) (i : Z) (a b : picozip__entry) (j : Z) :
  slot_store (slot_store s i a) i b j = slot_store s i b j.
Proof. unfold slot_store. destruct (j =? i); reflexivity. Qed.

Lemma slot_store_same (s : slots) (i : Z) (a : picozip__entry) :
  slot_store s i a i = Some a.
Proof. unfold slot_store. rewrite Z.eqb_refl. reflexivity. Qed.

Lemma slot_store_other (s : slots) (i j : Z) (a : picozip__entry) :
  j <> i -> slot_store s i a j = s j.
Proof. intros H. unfold slot_store. apply Z.eqb_neq in H. rewrite H. reflexivity. Qed.

Lemma len_op_trailer (off : Z) (op : add_op) :
  len (op_trailer off op)
  = if Z.testbit (op_flags op) 3 then PICOZIP__DATADESC_SIZE else 0.
Proof. destruct op; reflexivity. Qed.

Lemma len_op_block (off : Z) (op : add_op) :
  op_valid op = true -> len (op_block localtime off op) = op_size op.
Proof.
  intros Hv. unfold op_block, op_size.
  rewrite !len_app, len_local_header, len_op_trailer.
  rewrite len_local_metadata by (apply op_entry_wf, Hv).
  cbn [op_entry filename_len extra_field_len]. lia.
Qed.

(** A call that has taken its entry back returns the error it was
    handed. *)
Lemma roll_back_status (err r : status) (f f' : file) :
  roll_back err f = Some (r, f') -> r = err.
Proof.
  unfold roll_back. destruct (picozip__free_last_entry f); [|discriminate].
  intros H. injection H as <- _. reflexivity.
Qed.

Lemma picozip_new_entry_mem_ex_ok (f f' : file) (path : option (list byte))
      (data : span) (mod_time : Z) (comment : span) :
  picozip_new_entry_mem_ex localtime f path data mod_time comment
  = Some (PICOZIP_OK, f') ->
  let op := Add_mem path data mod_time comment in
  op_valid op = true /\
  exists fa,
    allocated f fa /\
    emits fa f' [local_header localtime (op_entry (offset f) op);
                 local_metadata (op_entry (offset f) op);
                 op_content op] /\
    forall j, entries_data f' j
              = entries_store (vec_grown (entries f)) (entries_data f) (num_entries f)
                              (op_entry (offset f) op) j.
Proof.
  intros H op. unfold picozip_new_entry_mem_ex in H.
  destruct path as [path|]; [|discriminate].
  destruct (negb (span_len data =? 0) && span_is_null data) eqn:Hd;
    [discriminate|].
  destruct (negb (span_len comment =? 0) && span_is_null comment) eqn:Hc;
    [discriminate|].
  cbn [orb] in H.
  assert (Hv : op_valid op = true).
  { cbn. unfold span_valid. rewrite Hd, Hc. reflexivity. }
  split; [assumption|].
  destruct (picozip__alloc_entry f _) as [[idx|] fa] eqn:Ha; [|discriminate].
  apply picozip__alloc_entry_some in Ha.
  destruct Ha as (-> & Hac & Hwc & Hfc & Hoff & Hn & Hslots & Hu).
  rewrite Hoff in H.
  rewrite <- (len_span_bytes data Hd) in H.
  match type of H with
  | context [picozip__write_local_entry localtime _ ?lit] =>
      change lit with (op_entry (offset f) op) in H
  end.
  set (e := op_entry (offset f) op) in *.
  assert (Hwf : entry_wf e) by (apply op_entry_wf, Hv).
  assert (Hslot : entries_data fa (num_entries f) = Some blank_entry).
  { rewrite Hslots. apply entries_store_same. }
  destruct (picozip__write_local_entry localtime _ e) as [r f1] eqn:Hw.
  destruct r; try (apply roll_back_status in H; discriminate H).
  apply picozip__write_local_entry_ok in Hw; [|assumption].
  destruct Hw as [E1 D1].
  destruct (PICOZIP__FLUSH f1 _ _) as [ok f2] eqn:Hf.
  destruct ok; cbn [negb] in H; [|apply roll_back_status in H; discriminate H].
  injection H as <-.
  apply FLUSH_true in Hf; [|rewrite memcpy_all; reflexivity].
  rewrite memcpy_all in Hf.
  destruct Hf as [E2 D2].
  exists fa. split; [|split].
  - unfold allocated. repeat split; assumption.
  - eapply emits_same_channel;
      [apply (same_channel_update_entry fa (num_entries f) (fun _ => e))|].
    apply (emits_trans _ _ _ [_; _] [_] E1 E2).
  - intros j. rewrite D2, D1.
    rewrite (entries_data_update_entry _ _ _ _ Hslot), Hslots.
    apply entries_store_twice.
Qed.

End OpProofs.

(** ** The streamed add operation *)

Section StreamProofs.

Context {U : Type}.
Variable localtime : Z -> tm.
Local Abbreviation file := (picozip_file U).

Lemma fread_app (n : Z) (rest : list byte) :
  fst (fread n rest) ++ snd (fread n rest) = rest.
Proof. unfold fread. cbn. apply firstn_skipn. Qed.

Lemma fread_short (n : Z) (rest : list byte) :
  len (fst (fread n rest)) <> n -> 0 <= n -> snd (fread n rest) = [].
Proof.
  unfold fread, len. cbn. intros H Hn.
  apply skipn_all2.
  destruct (Nat.le_gt_cases (Z.to_nat n) (length rest)) as [Hle|Hgt]; [|lia].
  rewrite firstn_length_le in H by assumption. lia.
Qed.

Lemma fread_full (n : Z) (rest : list byte) :
  len (fst (fread n rest)) = n -> 0 < n ->
  (length (snd (fread n rest)) < length rest)%nat.
Proof.
  unfold fread, len. cbn. intros H Hn.
  rewrite length_skipn. rewrite length_firstn in H. lia.
Qed.

Lemma stream_loop_ok (fuel : nat) :
  forall (f f' : file) (idx file_size file_size' : Z) (rest : list byte)
         (e0 : picozip__entry),
    stream_loop fuel f idx file_size rest = Some (true, f', file_size') ->
    entries_data f idx = Some e0 ->
    exists chunks,
      concat chunks = rest /\
      emits f f' chunks /\
      (forall j, entries_data f' j
                 = slot_store (entries_data f) idx
                              (with_crc32 (crc_after chunks (crc32 e0)) e0) j) /\
      file_size' = size_t (file_size + len rest).
Proof.
  induction fuel as [|fuel IH]; intros f f' idx fs fs' rest e0 H Hslot;
    [discriminate|].
  cbn [stream_loop] in H.
  pose proof (fread_app PICOZIP_READ_BUF rest) as Happ.
  pose proof (fread_short PICOZIP_READ_BUF rest) as Hshort.
  destruct (fread PICOZIP_READ_BUF rest) as [buffer rest'].
  cbn [fst snd] in Happ, Hshort.
  set (f1 := update_entry f idx _) in H.
  assert (Hd1 : entries_data f1
                = slot_store (entries_data f) idx
                             (with_crc32 (picozip__crc32 buffer (crc32 e0)) e0)).
  { unfold f1. rewrite (entries_data_update_entry _ _ _ _ Hslot). reflexivity. }
  destruct (PICOZIP__FLUSH f1 buffer (len buffer)) as [ok f2] eqn:Hf.
  destruct ok; cbn [negb] in H;
    [|destruct (picozip__free_last_entry f2); discriminate].
  apply FLUSH_true in Hf; [|rewrite memcpy_all; reflexivity].
  rewrite memcpy_all in Hf. destruct Hf as [E D].
  assert (E' : emits f f2 [buffer]).
  { eapply emits_same_channel; [apply same_channel_update_entry|exact E]. }
  destruct (len buffer =? PICOZIP_READ_BUF) eqn:Hfull.
  - assert (Hslot2 : entries_data f2 idx
                     = Some (with_crc32 (picozip__crc32 buffer (crc32 e0)) e0)).
    { rewrite D, Hd1. apply slot_store_same. }
    destruct (IH _ _ _ _ _ _ _ H Hslot2) as (chunks & Hcat & E2 & Hs & Hfs).
    exists (buffer :: chunks). split; [|split; [|split]].
    + cbn [concat]. rewrite Hcat. exact Happ.
    + apply (emits_trans _ _ _ [_] _ E' E2).
    + intros j. rewrite Hs, D, Hd1. cbn [crc_after fold_left with_crc32 crc32].
      apply slot_store_twice.
    + rewrite Hfs, size_t_add_l. f_equal. rewrite <- Happ, len_app. lia.
  - injection H as <- <-.
    apply Z.eqb_neq in Hfull.
    rewrite (Hshort Hfull) in Happ by (unfold PICOZIP_READ_BUF; lia).
    rewrite app_nil_r in Happ. subst buffer.
    exists [rest]. split; [|split; [|split]].
    + cbn. apply app_nil_r.
    + exact E'.
    + intros j. rewrite D, Hd1. reflexivity.
    + reflexivity.
Qed.

End StreamProofs.

Section FileProofs.

Context {U : Type}.
Variable localtime : Z -> tm.
Local Abbreviation file := (picozip_file U).

Lemma op_entry_streamed_final (off file_size : Z) (op : add_op) (chunks : list (list byte)) :
  op_flags op = PICOZIP__FLAG_DATADESC ->
  concat chunks = op_content op ->
  file_size = size_t (0 + len (op_content op)) ->
  with_sizes (uint32_t file_size)
    (with_crc32
       (Z.lxor (crc_after chunks (crc32 (with_crc32 PICOZIP__CRC_START
                                           (op_entry_at_header off op))))
               0xFFFFFFFF)
       (op_entry_at_header off op))
  = op_entry off op.
Proof.
  intros Hfl Hcat ->.
  destruct op as [p d m c|p fp c]; [discriminate|].
  unfold op_entry_at_header, op_entry, with_sizes, with_crc32. cbn.
  unfold crc_after. rewrite picozip__crc32_chunks by (unfold PICOZIP__CRC_START; lia).
  rewrite Hcat, uint32_t_size_t. reflexivity.
Qed.

Lemma picozip_new_entry_file_ok (f f' : file) (path : option (list byte))
      (fptr : option FILE) (comment : span) :
  picozip_new_entry_file localtime f path fptr comment = Some (PICOZIP_OK, f') ->
  let op := Add_file path fptr comment in
  op_valid op = true /\
  exists fa chunks,
    allocated f fa /\
    concat chunks = op_content op /\
    emits fa f' ([local_header localtime (op_entry_at_header (offset f) op);
                  local_metadata (op_entry (offset f) op)]
                 ++ chunks
                 ++ [data_descriptor (op_entry (offset f) op)]) /\
    forall j, entries_data f' j
              = entries_store (vec_grown (entries f)) (entries_data f) (num_entries f)
                              (op_entry (offset f) op) j.
Proof.
  intros H op. unfold picozip_new_entry_file in H.
  destruct path as [path|]; [|destruct fptr; discriminate].
  destruct fptr as [fptr|]; [|discriminate].
  destruct (negb (span_len comment =? 0) && span_is_null comment) eqn:Hc;
    [discriminate|].
  destruct (fstat fptr) as [mtime|errno] eqn:Hst; [|discriminate].
  assert (Hv : op_valid op = true).
  { cbn. unfold span_valid. rewrite Hc, Hst. reflexivity. }
  split; [assumption|].
  destruct (picozip__alloc_entry f _) as [[idx|] fa] eqn:Ha; [|discriminate].
  apply picozip__alloc_entry_some in Ha.
  destruct Ha as (-> & Hac & Hwc & Hfc & Hoff & Hn & Hslots & Hu).
  rewrite Hoff in H.
  assert (Hmt : op_mod_time op = mtime) by (cbn; rewrite Hst; reflexivity).
  match type of H with
  | context [picozip__write_local_entry localtime _ ?lit] =>
      replace lit with (op_entry_at_header (offset f) op) in H
        by (unfold op_entry_at_header, op_entry, with_sizes, with_crc32; cbn;
            rewrite Hst; reflexivity)
  end.
  set (e := op_entry_at_header (offset f) op) in *.
  assert (Hwf : entry_wf e) by (apply op_entry_at_header_wf, Hv).
  assert (Hslot : entries_data fa (num_entries f) = Some blank_entry).
  { rewrite Hslots. apply entries_store_same. }
  set (f0 := update_entry fa (num_entries f) (fun _ => e)) in H.
  assert (Hd0 : entries_data f0 = slot_store (entries_data fa) (num_entries f) e).
  { apply (entries_data_update_entry fa _ (fun _ => e) _ Hslot). }
  destruct (picozip__write_local_entry localtime f0 e) as [r f1] eqn:Hw.
  destruct r; try (apply roll_back_status in H; discriminate H).
  apply picozip__write_local_entry_ok in Hw; [|assumption].
  destruct Hw as [E1 D1].
  change (local_metadata e) with (local_metadata (op_entry (offset f) op)) in E1.
  set (f2 := update_entry f1 (num_entries f) (with_crc32 PICOZIP__CRC_START)) in H.
  assert (Hslot1 : entries_data f1 (num_entries f) = Some e).
  { rewrite D1, Hd0. apply slot_store_same. }
  assert (Hd2 : entries_data f2
                = slot_store (entries_data f1) (num_entries f)
                             (with_crc32 PICOZIP__CRC_START e)).
  { apply (entries_data_update_entry f1 _ _ _ Hslot1). }
  assert (Hslot2 : entries_data f2 (num_entries f)
                   = Some (with_crc32 PICOZIP__CRC_START e)).
  { rewrite Hd2. apply slot_store_same. }
  destruct (stream_loop _ f2 _ 0 _) as [[[ok f3] file_size]|] eqn:Hloop;
    [|discriminate].
  destruct ok; [|discriminate].
  apply (stream_loop_ok _ _ _ _ _ _ _ _ Hloop) in Hslot2.
  destruct Hslot2 as (chunks & Hcat & E3 & D3 & Hfs).
  set (f4 := update_entry f3 _ _) in H.
  set (f5 := update_entry f4 _ _) in H.
  set (e2 := with_crc32 PICOZIP__CRC_START e) in *.
  set (e3 := with_crc32 (crc_after chunks (crc32 e2)) e2) in *.
  assert (Hslot3 : entries_data f3 (num_entries f) = Some e3).
  { rewrite D3. apply slot_store_same. }
  pose proof (entries_data_update_entry f3 (num_entries f)
                (fun e => with_crc32 (Z.lxor (crc32 e) 0xFFFFFFFF) e) _ Hslot3)
    as Hd4.
  fold f4 in Hd4. cbv beta in Hd4.
  set (e4 := with_crc32 (Z.lxor (crc32 e3) 0xFFFFFFFF) e3) in *.
  assert (Hslot4 : entries_data f4 (num_entries f) = Some e4).
  { rewrite Hd4. apply slot_store_same. }
  pose proof (entries_data_update_entry f4 (num_entries f)
                (with_sizes (uint32_t file_size)) _ Hslot4) as Hd5.
  fold f5 in Hd5.
  assert (Hfinal : entries_data f5 (num_entries f) = Some (op_entry (offset f) op)).
  { rewrite Hd5, slot_store_same. f_equal.
    rewrite <- (op_entry_streamed_final (offset f) file_size op chunks);
      [reflexivity|reflexivity|exact Hcat|exact Hfs]. }
  rewrite Hfinal in H.
  pose proof (data_descriptor_scratch f5 (op_entry (offset f) op)) as Hs.
  cbv zeta in Hs.
  match type of H with
  | context [PICOZIP__FLUSH ?g ?src ?n] =>
      destruct (PICOZIP__FLUSH g src n) as [ok f6] eqn:Hf
  end.
  destruct ok; cbn [negb] in H; [|apply roll_back_status in H; discriminate H].
  injection H as <-.
  apply FLUSH_true in Hf; [|rewrite Hs; reflexivity].
  rewrite Hs in Hf. destruct Hf as [E6 D6].
  exists fa, chunks. split; [|split; [|split]].
  - unfold allocated. repeat split; assumption.
  - exact Hcat.
  - apply (emits_same_channel fa f0);
      [apply (same_channel_update_entry fa (num_entries f) (fun _ => e))|].
    apply (emits_trans _ _ _ [_; _] _ E1).
    apply (emits_same_channel f1 f2);
      [apply (same_channel_update_entry f1 (num_entries f)
                (with_crc32 PICOZIP__CRC_START))|].
    apply (emits_trans _ _ _ _ [_] E3).
    apply (emits_same_channel f3 f4); [apply same_channel_update_entry|].
    apply (emits_same_channel f4 f5); [apply same_channel_update_entry|].
    eapply emits_same_channel; [apply same_channel_set_scratch|].
    exact E6.
  - intros j. rewrite D6. cbn [entries_data set_scratch].
    destruct (Z.eq_dec j (num_entries f)) as [->|Ej].
    + rewrite entries_store_same. exact Hfinal.
    + rewrite entries_store_other by assumption.
      rewrite Hd5, slot_store_other by assumption.
      rewrite Hd4, slot_store_other by assumption.
      rewrite D3, slot_store_other by assumption.
      rewrite Hd2, slot_store_other by assumption.
      rewrite D1, Hd0, slot_store_other by assumption.
      rewrite Hslots. apply entries_store_other, Ej.
Qed.

End FileProofs.

(** ** Calls that succeed and calls that fail *)

Section OutcomeProofs.

Context {U : Type}.
Variable localtime : Z -> tm.
Local Abbreviation file := (picozip_file U).

Lemma add_entry_ok (f f' : file) (op : add_op) :
  add_entry localtime f op = Some (PICOZIP_OK, f') ->
  op_valid op = true /\
  exists fa chunks,
    allocated f fa /\
    first_small chunks /\
    concat chunks = op_block localtime (offset f) op /\
    emits fa f' chunks /\
    forall j, entries_data f' j
              = entries_store (vec_grown (entries f)) (entries_data f) (num_entries f)
                              (op_entry (offset f) op) j.
Proof.
  destruct op as [path data mtime comment|path fptr comment]; cbn [add_entry]; intros H.
  - apply picozip_new_entry_mem_ex_ok in H.
    destruct H as (Hv & fa & Hal & E & D).
    split; [assumption|]. exists fa. eexists. split; [exact Hal|].
    split; [|split; [|split; [exact E|exact D]]].
    + cbn [first_small app]. rewrite len_local_header. unfold PICOZIP__LOCAL_HEADER_SIZE. lia.
    + cbn [concat]. unfold op_block. cbn [op_trailer op_entry_at_header].
      rewrite !app_nil_r. reflexivity.
  - apply picozip_new_entry_file_ok in H.
    destruct H as (Hv & fa & chunks & Hal & Hcat & E & D).
    split; [assumption|]. exists fa. eexists. split; [exact Hal|].
    split; [|split; [|split; [exact E|exact D]]].
    + cbn [first_small app]. rewrite len_local_header. unfold PICOZIP__LOCAL_HEADER_SIZE. lia.
    + cbn [app concat]. rewrite concat_app, Hcat. cbn [concat].
      unfold op_block. cbn [op_trailer]. rewrite app_nil_r. reflexivity.
Qed.

(** A call of the known-size add operation that returns anything but
    [PICOZIP_OK]: its arguments were refused, or the allocation of the
    entry failed and nothing else has happened, or a write was not
    accepted. *)
Lemma picozip_new_entry_mem_ex_fail (f f' : file) (path : option (list byte))
      (data : span) (mtime : Z) (comment : span) (r : status) :
  picozip_new_entry_mem_ex localtime f path data mtime comment = Some (r, f') ->
  r <> PICOZIP_OK ->
  (r = PICOZIP_EINVAL /\ op_valid (Add_mem path data mtime comment) = false /\ f' = f) \/
  (r = PICOZIP_ENOMEM /\ untouched f f') \/
  r = PICOZIP_EIO.
Proof.
  intros H Hr. unfold picozip_new_entry_mem_ex in H.
  destruct path as [path|];
    [|injection H as <- <-; left; repeat split].
  destruct (negb (span_len data =? 0) && span_is_null data) eqn:Hd.
  { injection H as <- <-. left. repeat split.
    cbn. unfold span_valid. rewrite Hd. reflexivity. }
  destruct (negb (span_len comment =? 0) && span_is_null comment) eqn:Hc.
  { injection H as <- <-. left. repeat split.
    cbn. unfold span_valid. rewrite Hc. apply andb_false_r. }
  cbn [orb] in H.
  destruct (picozip__alloc_entry f _) as [[idx|] fa] eqn:Ha.
  2:{ injection H as <- <-. right. left. split; [reflexivity|].
      apply picozip__alloc_entry_none in Ha.
      destruct Ha as (? & ? & ? & ? & ? & ? & ?).
      unfold untouched. repeat split; assumption. }
  right. right.
  destruct (picozip__write_local_entry localtime _ _) as [r1 f1] eqn:Hw.
  assert (Hcases : r1 = PICOZIP_OK \/ r1 <> PICOZIP_OK)
    by (destruct r1; (left; reflexivity) || (right; discriminate)).
  destruct Hcases as [->|Hne].
  - destruct (PICOZIP__FLUSH f1 _ _) as [ok f2].
    destruct ok; cbn [negb] in H.
    + injection H as <- <-. congruence.
    + apply roll_back_status in H. exact H.
  - apply picozip__write_local_entry_fail in Hw; [|assumption].
    destruct Hw as (-> & _). apply roll_back_status in H. exact H.
Qed.

Lemma picozip_new_entry_file_fail (f f' : file) (path : option (list byte))
      (fptr : option FILE) (comment : span) (r : status) :
  picozip_new_entry_file localtime f path fptr comment = Some (r, f') ->
  r <> PICOZIP_OK ->
  ((r = PICOZIP_EINVAL \/ exists errno, r = OS_ERRNO errno) /\
   op_valid (Add_file path fptr comment) = false /\ f' = f) \/
  (r = PICOZIP_ENOMEM /\ untouched f f') \/
  r = PICOZIP_EIO.
Proof.
  intros H Hr. unfold picozip_new_entry_file in H.
  destruct path as [path|].
  2:{ left. destruct fptr; injection H as <- <-; repeat split; left; reflexivity. }
  destruct fptr as [fptr|].
  2:{ left. injection H as <- <-; repeat split; left; reflexivity. }
  destruct (negb (span_len comment =? 0) && span_is_null comment) eqn:Hc.
  { injection H as <- <-. left. repeat split; [left; reflexivity|].
    cbn. unfold span_valid. rewrite Hc. reflexivity. }
  destruct (fstat fptr) as [mtime|errno] eqn:Hst.
  2:{ injection H as <- <-. left. repeat split; [right; eexists; reflexivity|].
      cbn. rewrite Hst. apply andb_false_r. }
  destruct (picozip__alloc_entry f _) as [[idx|] fa] eqn:Ha.
  2:{ injection H as <- <-. right. left. split; [reflexivity|].
      apply picozip__alloc_entry_none in Ha.
      destruct Ha as (? & ? & ? & ? & ? & ? & ?).
      unfold untouched. repeat split; assumption. }
  right. right.
  destruct (picozip__write_local_entry localtime _ _) as [r1 f1] eqn:Hw.
  assert (Hcases : r1 = PICOZIP_OK \/ r1 <> PICOZIP_OK)
    by (destruct r1; (left; reflexivity) || (right; discriminate)).
  destruct Hcases as [->|Hne].
  2:{ apply picozip__write_local_entry_fail in Hw; [|assumption].
      destruct Hw as (-> & _). apply roll_back_status in H. exact H. }
  destruct (stream_loop _ _ _ 0 _) as [[[ok f3] file_size]|]; [|discriminate].
  destruct ok; [|injection H as <- _; reflexivity].
  destruct (entries_data _ idx) as [e5|]; [|discriminate].
  match type of H with
  | context [PICOZIP__FLUSH ?g ?src ?n] =>
      destruct (PICOZIP__FLUSH g src n) as [ok f6]
  end.
  destruct ok; cbn [negb] in H.
  - injection H as <- <-. congruence.
  - apply roll_back_status in H. exact H.
Qed.

Lemma add_entry_fail (f f' : file) (op : add_op) (r : status) :
  add_entry localtime f op = Some (r, f') ->
  r <> PICOZIP_OK ->
  ((r = PICOZIP_EINVAL \/ exists errno, r = OS_ERRNO errno) /\
   op_valid op = false /\ f' = f) \/
  (r = PICOZIP_ENOMEM /\ untouched f f') \/
  r = PICOZIP_EIO.
Proof.
  destruct op as [path data mtime comment|path fptr comment]; cbn [add_entry];
    intros H Hr.
  - apply picozip_new_entry_mem_ex_fail in H; [|assumption].
    destruct H as [(-> & Hv & ->)|[H|H]]; [left|right; left|right; right];
      try assumption.
    repeat split; [left; reflexivity|assumption].
  - apply picozip_new_entry_file_fail; assumption.
Qed.

End OutcomeProofs.

(** ** Finalizing *)

Section EndProofs.

Context {U : Type}.
Variable localtime : Z -> tm.
Local Abbreviation file := (picozip_file U).

Lemma slots_hold_tail (f : file) (i : Z) (e : picozip__entry) (es : list picozip__entry) :
  slots_hold f i (e :: es) -> slots_hold f (i + 1) es.
Proof.
  intros H k x Hk. specialize (H (S k) x Hk).
  rewrite <- H. f_equal. lia.
Qed.

Lemma slots_hold_head (f : file) (i : Z) (e : picozip__entry) (es : list picozip__entry) :
  slots_hold f i (e :: es) -> entries_data f i = Some e.
Proof.
  intros H. specialize (H 0%nat e eq_refl). rewrite <- H. f_equal. lia.
Qed.

Lemma slots_hold_same_slots (f g : file) (i : Z) (es : list picozip__entry) :
  entries_data g = entries_data f -> slots_hold f i es -> slots_hold g i es.
Proof. intros E H k e Hk. rewrite E. apply H, Hk. Qed.

Lemma cd_loop_ok (es : list picozip__entry) :
  forall (i : Z) (f f' : file) (cd_size cd_size' : Z),
    cd_loop localtime (length es) i f cd_size = Some (true, f', cd_size') ->
    slots_hold f i es ->
    Forall entry_wf es ->
    emits f f' (cd_chunks localtime es) /\
    entries_data f' = entries_data f /\
    cd_size' = cd_size_after cd_size es.
Proof.
  induction es as [|e es IH]; intros i f f' cd cd' H Hslots Hwf.
  - cbn in H. injection H as <- <-. split; [|split; reflexivity].
    apply emits_nil. unfold same_channel. repeat split.
  - cbn [length cd_loop] in H.
    rewrite (slots_hold_head _ _ _ _ Hslots) in H.
    pose proof (central_header_scratch localtime f e) as Hs.
    unfold dos_time, dos_date in Hs. cbv zeta in Hs.
    destruct (picozip__time_to_dostime localtime (mod_time e)) as [dd dt].
    cbn [fst snd] in Hs.
    match type of H with
    | context [PICOZIP__FLUSH ?g ?src ?n] =>
        destruct (PICOZIP__FLUSH g src n) as [ok1 f1] eqn:H1
    end.
    destruct ok1; cbn [negb] in H; [|discriminate].
    destruct (PICOZIP__FLUSH f1 _ _) as [ok2 f2] eqn:H2.
    destruct ok2; cbn [negb] in H; [|discriminate].
    apply FLUSH_true in H1; [|rewrite Hs; reflexivity].
    rewrite Hs in H1. destruct H1 as [E1 D1].
    inversion Hwf as [|? ? Hwfe Hwfes]; subst.
    apply FLUSH_true in H2; [|apply len_central_metadata, Hwfe].
    destruct H2 as [E2 D2].
    assert (D : entries_data f2 = entries_data f) by (rewrite D2, D1; reflexivity).
    apply IH in H; [|apply (slots_hold_same_slots f _ _ _ D);
                     apply (slots_hold_tail _ _ _ _ Hslots)|assumption].
    destruct H as (E3 & D3 & Hcd).
    split; [|split].
    + pose proof (emits_trans _ _ _ [_] [_] E1 E2) as E12.
      apply (emits_same_channel _ _ _ _ (same_channel_set_scratch f _)) in E12.
      change (cd_chunks localtime (e :: es))
        with ([central_header localtime e; central_metadata e]
                ++ cd_chunks localtime es).
      apply (emits_trans _ f2 _ _ _ E12 E3).
    + rewrite D3. exact D.
    + rewrite Hcd. reflexivity.
Qed.

(** The loop dereferences written slots only. *)
Lemma cd_loop_total (es : list picozip__entry) :
  forall (i : Z) (f : file) (cd_size : Z),
    slots_hold f i es ->
    cd_loop localtime (length es) i f cd_size <> None.
Proof.
  induction es as [|e es IH]; intros i f cd Hslots; [discriminate|].
  cbn [length cd_loop].
  rewrite (slots_hold_head _ _ _ _ Hslots).
  destruct (picozip__time_to_dostime localtime (mod_time e)) as [dd dt].
  match goal with
  | |- context [PICOZIP__FLUSH ?g ?src ?n] =>
      destruct (PICOZIP__FLUSH g src n) as [ok1 f1] eqn:H1
  end.
  destruct ok1; cbn [negb]; [|discriminate].
  destruct (PICOZIP__FLUSH f1 _ _) as [ok2 f2] eqn:H2.
  destruct ok2; cbn [negb]; [|discriminate].
  apply IH.
  apply (slots_hold_same_slots f); [|apply (slots_hold_tail _ _ _ _ Hslots)].
  unfold PICOZIP__FLUSH in H1, H2.
  destruct (write_cb _ _ _) as [w1 u1] in H1.
  destruct (negb (w1 =? _)) in H1; [discriminate|]. injection H1 as <-.
  destruct (write_cb _ _ _) as [w2 u2] in H2.
  destruct (negb (w2 =? _)) in H2; [discriminate|]. injection H2 as <-.
  reflexivity.
Qed.

Lemma picozip_end_ex_ok (f f' : file) (comment : span) (es : list picozip__entry) :
  picozip_end_ex localtime f comment = Some (PICOZIP_OK, f') ->
  num_entries f = len es ->
  slots_hold f 0 es ->
  Forall entry_wf es ->
  span_valid comment = true /\
  emits f f' (end_chunks localtime (num_entries f) (offset f) es comment) /\
  entries_data f' = entries_data f.
Proof.
  intros H Hn Hslots Hwf. unfold picozip_end_ex in H.
  destruct (negb (span_len comment =? 0) && span_is_null comment) eqn:Hc;
    [discriminate|].
  assert (Hv : span_valid comment = true) by (unfold span_valid; rewrite Hc; reflexivity).
  split; [assumption|].
  rewrite Hn in H at 1. unfold len in H at 1. rewrite Nat2Z.id in H.
  destruct (cd_loop localtime (length es) 0 f 0) as [[[ok f1] cd_size]|] eqn:Hloop;
    [|discriminate].
  destruct ok; [|discriminate].
  apply cd_loop_ok in Hloop; [|assumption|assumption].
  destruct Hloop as (E1 & D1 & ->).
  pose proof (eocd_scratch f1 (num_entries f1) (cd_size_after 0 es) (offset f)
                           (span_len comment)) as Hs.
  cbv zeta in Hs.
  match type of H with
  | context [PICOZIP__FLUSH ?g ?src ?n] =>
      destruct (PICOZIP__FLUSH g src n) as [ok2 f2] eqn:H2
  end.
  destruct ok2; cbn [negb] in H; [|discriminate].
  apply FLUSH_true in H2; [|rewrite Hs; reflexivity].
  rewrite Hs in H2. destruct H2 as [E2 D2].
  assert (Hn1 : num_entries f1 = num_entries f) by apply E1.
  rewrite Hn1 in E2.
  assert (E12 : emits f f2 (cd_chunks localtime es
                            ++ [eocd_record (num_entries f) (cd_size_after 0 es)
                                            (offset f) (span_len comment)])).
  { apply (emits_trans _ f1 _ _ _ E1).
    apply (emits_same_channel _ _ _ _ (same_channel_set_scratch f1 _)) in E2.
    exact E2. }
  unfold end_chunks.
  destruct (span_is_null comment) eqn:Hnull; cbn [negb] in H.
  - injection H as <-. rewrite app_nil_r.
    split; [exact E12|]. rewrite D2. exact D1.
  - destruct (PICOZIP__FLUSH f2 _ _) as [ok3 f3] eqn:H3.
    destruct ok3; cbn [negb] in H; [|discriminate].
    injection H as <-.
    apply FLUSH_true in H3;
      [|rewrite memcpy_span by (apply span_valid_true, Hv);
        apply len_span_bytes, span_valid_true, Hv].
    rewrite memcpy_span in H3 by (apply span_valid_true, Hv).
    destruct H3 as [E3 D3].
    split.
    + rewrite app_assoc. apply (emits_trans _ f2 _ _ _ E12 E3).
    + rewrite D3, D2. exact D1.
Qed.

Lemma picozip_end_ex_total (f : file) (comment : span) (es : list picozip__entry) :
  num_entries f = len es ->
  slots_hold f 0 es ->
  picozip_end_ex localtime f comment <> None.
Proof.
  intros Hn Hslots. unfold picozip_end_ex.
  destruct (negb (span_len comment =? 0) && span_is_null comment); [discriminate|].
  rewrite Hn. unfold len. rewrite Nat2Z.id.
  pose proof (cd_loop_total es 0 f 0 Hslots) as Htot.
  destruct (cd_loop localtime (length es) 0 f 0) as [[[ok f1] cd_size]|];
    [|congruence].
  destruct ok; [|discriminate].
  match goal with
  | |- context [PICOZIP__FLUSH ?g ?src ?n] =>
      destruct (PICOZIP__FLUSH g src n) as [ok2 f2]
  end.
  destruct ok2; cbn [negb]; [|discriminate].
  destruct (span_is_null comment); cbn [negb]; [discriminate|].
  destruct (PICOZIP__FLUSH f2 _ _) as [ok3 f3].
  destruct ok3; discriminate.
Qed.

End EndProofs.

(** ** Sequences of add operations *)

Section RunProofs.

Context {U : Type}.
Variable localtime : Z -> tm.
Local Abbreviation file := (picozip_file U).

Lemma first_small_nonempty (chunks : list (list byte)) : first_small chunks -> chunks <> [].
Proof. destruct chunks; [contradiction|discriminate]. Qed.

Lemma offset_after_nonempty (off : Z) (chunks : list (list byte)) :
  chunks <> [] -> offset_after off chunks = size_t (off + len (concat chunks)).
Proof. destruct chunks; [congruence|reflexivity]. Qed.

(** One successful add operation, seen from the ledger. *)
Lemma add_entry_ok_ledger (f f' : file) (op : add_op) :
  add_entry localtime f op = Some (PICOZIP_OK, f') ->
  op_valid op = true /\
  alloc_cb f' = alloc_cb f /\ write_cb f' = write_cb f /\ free_cb f' = free_cb f /\
  num_entries f' = size_t (num_entries f + 1) /\
  offset f' = size_t (offset f + op_size op) /\
  forall j, entries_data f' j
            = entries_store (vec_grown (entries f)) (entries_data f) (num_entries f)
                            (op_entry (offset f) op) j.
Proof.
  intros H. apply add_entry_ok in H.
  destruct H as (Hv & fa & chunks & (Ha & Hw & Hf & Ho & Hn & _) & Hfs & Hcat & E & D).
  destruct E as (Ha' & Hw' & Hf' & Hn' & Ho' & _ & _).
  split; [assumption|]. repeat split; try congruence.
  rewrite Ho', offset_after_nonempty by (apply first_small_nonempty, Hfs).
  rewrite Hcat, len_op_block, Ho by assumption. reflexivity.
Qed.

(** One successful add operation whose pointer is stored within the
    array leaves the entries stored before as they were. *)
Lemma add_entry_ok_in_bounds (f f' : file) (op : add_op) :
  add_entry localtime f op = Some (PICOZIP_OK, f') ->
  slot_in_bounds (vec_grown (entries f)) (num_entries f) = true ->
  forall j, entries_data f' j
            = slot_store (entries_data f) (num_entries f) (op_entry (offset f) op) j.
Proof.
  intros H Hb j. apply add_entry_ok_ledger in H.
  destruct H as (_ & _ & _ & _ & _ & _ & D).
  rewrite D. unfold entries_store. rewrite slots_kept_in_bounds by assumption.
  reflexivity.
Qed.

(** A run of successful add operations, seen from the callbacks, the
    counter and the offset. *)
Lemma add_all_spec (ops : list add_op) :
  forall (f f' : file),
    add_all localtime f ops = Some f' ->
    0 <= num_entries f ->
    num_entries f + len ops < 2 ^ 64 ->
    alloc_cb f' = alloc_cb f /\ write_cb f' = write_cb f /\ free_cb f' = free_cb f /\
    num_entries f' = num_entries f + len ops /\
    size_t (offset f') = size_t (offset f + ops_size ops) /\
    Forall (fun op => op_valid op = true) ops.
Proof.
  induction ops as [|op ops IH]; intros f f' H Hn0 Hn.
  - injection H as <-. repeat split; try reflexivity.
    + unfold len. cbn. lia.
    + cbn. f_equal. lia.
    + constructor.
  - cbn [add_all] in H.
    destruct (add_entry localtime f op) as [[r f1]|] eqn:Hop; [|discriminate].
    destruct r; try discriminate.
    apply add_entry_ok_ledger in Hop.
    destruct Hop as (Hv & Ha1 & Hw1 & Hf1 & Hn1 & Ho1 & D1).
    assert (Hlen : len (op :: ops) = 1 + len ops) by (unfold len; cbn [length]; lia).
    pose proof (len_nonneg ops) as Hlo.
    rewrite size_t_small in Hn1 by lia.
    apply IH in H; [|lia|lia].
    destruct H as (Ha & Hw & Hf & Hn' & Ho & Hvs).
    repeat split; try congruence.
    + lia.
    + rewrite Ho, Ho1. cbn [ops_size]. rewrite size_t_add_l. f_equal. lia.
    + constructor; assumption.
Qed.

Lemma ops_ledger_length (ops : list add_op) :
  forall off, length (ops_ledger off ops) = length ops.
Proof. induction ops as [|op ops IH]; intros off; cbn; [reflexivity|]. rewrite IH. reflexivity. Qed.

Lemma ops_ledger_wf (ops : list add_op) :
  forall off, Forall (fun op => op_valid op = true) ops ->
              Forall entry_wf (ops_ledger off ops).
Proof.
  induction ops as [|op ops IH]; intros off Hv; cbn [ops_ledger]; [constructor|].
  inversion Hv; subst. constructor; [apply op_entry_wf; assumption|apply IH; assumption].
Qed.

Lemma len_ops_blocks (ops : list add_op) :
  forall off, Forall (fun op => op_valid op = true) ops ->
              len (ops_blocks localtime off ops) = ops_size ops.
Proof.
  induction ops as [|op ops IH]; intros off Hv; cbn [ops_blocks ops_size]; [reflexivity|].
  inversion Hv; subst. rewrite len_app, len_op_block, IH by assumption. reflexivity.
Qed.

End RunProofs.

(** ** The in-memory destination *)

Section MemProofs.

Variable localtime : Z -> tm.
Local Abbreviation file := (picozip_file picozip__mem_file).

Lemma picozip__mem_write_live (u : picozip__mem_file) (c : list byte) :
  mem_live u ->
  fst (picozip__mem_write u c) = len c /\
  mem_data (snd (picozip__mem_write u c)) = mem_data u ++ c /\
  mem_live (snd (picozip__mem_write u c)).
Proof.
  unfold mem_live, picozip__mem_write, picozip__vec_alloc, picozip__mem_alloc.
  intros Hlive.
  destruct (cap (mem u) <? size_t (size (mem u) + len c)) eqn:E; cbn.
  - apply Z.ltb_lt in E. repeat split. lia.
  - apply Z.ltb_lt in Hlive. rewrite Hlive. cbn.
    apply Z.ltb_lt in Hlive. repeat split. assumption.
Qed.

Lemma picozip__mem_write_fresh (u : picozip__mem_file) (c : list byte) :
  cap (mem u) = 0 -> size (mem u) = 0 -> 0 < len c < 2 ^ 64 ->
  fst (picozip__mem_write u c) = len c /\
  mem_data (snd (picozip__mem_write u c)) = mem_data u ++ c /\
  mem_live (snd (picozip__mem_write u c)).
Proof.
  unfold mem_live, picozip__mem_write, picozip__vec_alloc, picozip__mem_alloc.
  intros Hc Hs Hlen. rewrite Hc, Hs.
  rewrite (size_t_small (0 + len c)) by lia.
  replace (0 <? 0 + len c) with true by (symmetry; apply Z.ltb_lt; lia).
  cbn. repeat split. lia.
Qed.

Lemma mem_writes_live (chunks : list (list byte)) :
  forall u,
    mem_live u ->
    mem_data (writes_to picozip__mem_write u chunks) = mem_data u ++ concat chunks /\
    mem_live (writes_to picozip__mem_write u chunks).
Proof.
  induction chunks as [|c chunks IH]; intros u Hlive; cbn [writes_to fold_left concat].
  - rewrite app_nil_r. split; [reflexivity|assumption].
  - destruct (picozip__mem_write_live u c Hlive) as (_ & Hd & Hl).
    destruct (IH _ Hl) as [Hd' Hl'].
    split; [|exact Hl'].
    unfold writes_to in Hd'. rewrite Hd', Hd, app_assoc. reflexivity.
Qed.

Lemma mem_writes_ready (chunks : list (list byte)) (u : picozip__mem_file) :
  mem_ready u ->
  first_small chunks ->
  mem_data (writes_to picozip__mem_write u chunks) = mem_data u ++ concat chunks /\
  mem_live (writes_to picozip__mem_write u chunks).
Proof.
  intros [Hlive|[Hc Hs]] Hfs; [apply mem_writes_live, Hlive|].
  destruct chunks as [|c chunks]; [contradiction|].
  cbn [first_small] in Hfs. cbn [writes_to fold_left concat].
  destruct (picozip__mem_write_fresh u c Hc Hs Hfs) as (_ & Hd & Hl).
  destruct (mem_writes_live chunks _ Hl) as [Hd' Hl'].
  split; [|exact Hl'].
  unfold writes_to in Hd'. rewrite Hd', Hd, app_assoc. reflexivity.
Qed.

Lemma allocs_only_mem (f : file) (u : picozip__mem_file) :
  mem_sink f -> allocs_only f u -> u = userdata f.
Proof.
  intros [Ha _] [sizes ->]. rewrite Ha.
  generalize (userdata f). induction sizes as [|n sizes IH]; intros v; cbn.
  - reflexivity.
  - apply IH.
Qed.

Lemma emits_mem (f f' : file) (chunks : list (list byte)) :
  mem_sink f ->
  emits f f' chunks ->
  mem_ready (userdata f) ->
  first_small chunks ->
  mem_sink f' /\
  mem_data (userdata f') = mem_data (userdata f) ++ concat chunks /\
  mem_live (userdata f').
Proof.
  intros [Ha Hw] (Ha' & Hw' & _ & _ & _ & _ & Hu) Hr Hfs.
  split; [split; congruence|].
  rewrite Hu, Hw. apply mem_writes_ready; assumption.
Qed.

Lemma add_entry_mem (f f' : file) (op : add_op) :
  mem_sink f ->
  mem_ready (userdata f) ->
  add_entry localtime f op = Some (PICOZIP_OK, f') ->
  mem_sink f' /\
  mem_data (userdata f') = mem_data (userdata f) ++ op_block localtime (offset f) op /\
  mem_live (userdata f').
Proof.
  intros Hsink Hr H. apply add_entry_ok in H.
  destruct H as (Hv & fa & chunks & Hal & Hfs & Hcat & E & D).
  assert (Hu : userdata fa = userdata f).
  { apply (allocs_only_mem f); [assumption|apply Hal]. }
  assert (Hsa : mem_sink fa).
  { destruct Hsink as [Ha Hw]. destruct Hal as (Ha' & Hw' & _).
    split; congruence. }
  rewrite <- Hu in Hr.
  destruct (emits_mem fa f' chunks Hsa E Hr Hfs) as (Hs' & Hd & Hl).
  rewrite Hcat, Hu in Hd. repeat split; try assumption; apply Hs'.
Qed.

Lemma add_all_mem (ops : list add_op) :
  forall (f f' : file),
    mem_sink f ->
    mem_ready (userdata f) ->
    add_all localtime f ops = Some f' ->
    mem_sink f' /\
    mem_data (userdata f') = mem_data (userdata f) ++ ops_blocks localtime (offset f) ops /\
    mem_ready (userdata f').
Proof.
  induction ops as [|op ops IH]; intros f f' Hsink Hr H.
  - injection H as <-. cbn [ops_blocks]. rewrite app_nil_r.
    repeat split; try assumption; apply Hsink.
  - cbn [add_all] in H.
    destruct (add_entry localtime f op) as [[r f1]|] eqn:Hop; [|discriminate].
    destruct r; try discriminate.
    pose proof (add_entry_mem f f1 op Hsink Hr Hop) as (Hs1 & Hd1 & Hl1).
    apply add_entry_ok_ledger in Hop.
    destruct Hop as (_ & _ & _ & _ & _ & Ho1 & _).
    destruct (IH f1 f' Hs1 (or_introl Hl1) H) as (Hs' & Hd' & Hr').
    split; [assumption|]. split; [|assumption].
    rewrite Hd', Hd1, Ho1. cbn [ops_blocks]. rewrite app_assoc. reflexivity.
Qed.

Lemma mem_session_sink : mem_sink mem_session.
Proof. split; reflexivity. Qed.

Lemma mem_session_ready : mem_ready (userdata mem_session).
Proof. right. split; reflexivity. Qed.

Lemma picozip_new_mem_session : picozip_new_mem = (PICOZIP_OK, Some mem_session).
Proof. reflexivity. Qed.

End MemProofs.

(** ** Calls on the in-memory destination go through *)

Section MemForward.

Variable localtime : Z -> tm.
Local Abbreviation file := (picozip_file picozip__mem_file).

Lemma PICOZIP__FLUSH_mem (f : file) (src : list byte) (n : Z) :
  mem_sink f ->
  mem_live (userdata f) \/
  (cap (mem (userdata f)) = 0 /\ size (mem (userdata f)) = 0 /\ 0 < n) ->
  0 <= n < 2 ^ 64 ->
  len (memcpy src n) = n ->
  exists f',
    PICOZIP__FLUSH f src n = (true, f') /\
    mem_sink f' /\ mem_live (userdata f') /\
    entries f' = entries f /\ entries_data f' = entries_data f /\
    num_entries f' = num_entries f.
Proof.
  intros [Ha Hw] Hstate Hn Hlen. unfold PICOZIP__FLUSH. rewrite Hw.
  assert (Hwr : fst (picozip__mem_write (userdata f) (memcpy src n)) = n /\
                mem_live (snd (picozip__mem_write (userdata f) (memcpy src n)))).
  { destruct Hstate as [Hlive|(Hc & Hs & Hpos)].
    - destruct (picozip__mem_write_live _ (memcpy src n) Hlive) as (H1 & _ & H3).
      rewrite H1, Hlen. split; [reflexivity|assumption].
    - destruct (picozip__mem_write_fresh _ (memcpy src n) Hc Hs) as (H1 & _ & H3);
        [lia|]. rewrite H1, Hlen. split; [reflexivity|assumption]. }
  destruct (picozip__mem_write (userdata f) (memcpy src n)) as [written u].
  cbn [fst snd] in Hwr. destruct Hwr as [-> Hlive].
  rewrite size_t_small by assumption. rewrite Z.eqb_refl. cbn [negb].
  eexists. split; [reflexivity|]. cbn. repeat split; assumption.
Qed.

Lemma picozip__write_local_entry_mem (f : file) (e : picozip__entry) :
  mem_sink f ->
  mem_ready (userdata f) ->
  entry_wf e ->
  filename_len e + extra_field_len e < 2 ^ 64 ->
  exists f',
    picozip__write_local_entry localtime f e = (PICOZIP_OK, f') /\
    mem_sink f' /\ mem_live (userdata f') /\
    entries f' = entries f /\ entries_data f' = entries_data f /\
    num_entries f' = num_entries f.
Proof.
  intros Hsink Hr Hwf Hsmall. unfold picozip__write_local_entry.
  pose proof (local_header_scratch localtime f e) as Hs.
  unfold dos_time, dos_date in Hs. cbv zeta in Hs.
  destruct (picozip__time_to_dostime localtime (mod_time e)) as [dd dt].
  cbn [fst snd] in Hs.
  match goal with
  | |- context [PICOZIP__FLUSH ?g ?src ?n] =>
      destruct (PICOZIP__FLUSH_mem g src n) as (f1 & -> & Hs1 & Hl1 & He1 & Hd1 & Hn1)
  end.
  - exact Hsink.
  - destruct Hr as [Hl|[Hc Hsz]]; [left; exact Hl|right].
    repeat split; try assumption; reflexivity.
  - unfold PICOZIP__LOCAL_HEADER_SIZE. lia.
  - rewrite Hs. reflexivity.
  - cbn [negb].
    destruct (PICOZIP__FLUSH_mem f1 (metadata e)
                (filename_len e + extra_field_len e))
      as (f2 & -> & Hs2 & Hl2 & He2 & Hd2 & Hn2).
    + exact Hs1.
    + left. exact Hl1.
    + destruct Hwf as (? & ? & ? & ?). lia.
    + apply len_local_metadata, Hwf.
    + cbn [negb]. exists f2. split; [reflexivity|].
      cbn [entries entries_data num_entries set_scratch] in He1, Hd1, Hn1.
      split; [exact Hs2|]. split; [exact Hl2|]. repeat split; congruence.
Qed.

Lemma picozip__alloc_entry_mem (f : file) (metadata_len : Z) :
  mem_inv f ->
  exists fa,
    picozip__alloc_entry f metadata_len = (Some (num_entries f), fa) /\
    mem_inv fa /\ userdata fa = userdata f /\ offset fa = offset f /\
    num_entries fa = size_t (num_entries f + 1).
Proof.
  intros ([Ha Hw] & Hr & Hsz & Hcap).
  unfold picozip__alloc_entry, picozip__vec_alloc. rewrite Ha, Hsz.
  unfold picozip__mem_alloc at 1.
  assert (Hvec : exists vec,
             (if cap (entries f) <? size_t (0 + sizeof_entry_ptr)
              then (true, {| cap := size_t (0 + sizeof_entry_ptr); size := 0 |},
                    userdata f)
              else (0 <? cap (entries f), entries f, userdata f))
             = (true, vec, userdata f) /\
             size vec = 0 /\ cap vec = sizeof_entry_ptr).
  { destruct Hcap as [Hc|Hc]; rewrite Hc.
    - eexists. split; [reflexivity|]. split; reflexivity.
    - exists (entries f). split; [reflexivity|]. split; assumption. }
  destruct Hvec as (vec & Hv & Hvs & Hvc).
  cbn [negb] in *.
  match goal with
  | |- context [if ?c then ?a else ?b] =>
      change (if c then a else b)
        with (if cap (entries f) <? size_t (0 + sizeof_entry_ptr)
              then (true, {| cap := size_t (0 + sizeof_entry_ptr); size := 0 |},
                    userdata f)
              else (0 <? cap (entries f), entries f, userdata f))
  end.
  rewrite Hv. cbn. rewrite Ha. cbn.
  eexists. split; [reflexivity|]. cbn.
  repeat split; try assumption.
  right. exact Hvc.
Qed.

Lemma mem_sink_update_entry (f : file) (idx : Z)
      (g : picozip__entry -> picozip__entry) :
  mem_sink f -> mem_sink (update_entry f idx g).
Proof.
  intros [Ha Hw]. destruct (same_channel_update_entry f idx g) as (Ha' & Hw' & _).
  split; congruence.
Qed.

Lemma entries_update_entry (f : file) (idx : Z)
      (g : picozip__entry -> picozip__entry) :
  entries (update_entry f idx g) = entries f.
Proof. unfold update_entry. destruct (entries_data f idx); reflexivity. Qed.

Lemma picozip_new_entry_mem_ex_mem (f : file) (path : list byte) (data : span)
      (mtime : Z) (comment : span) :
  mem_inv f ->
  op_valid (Add_mem (Some path) data mtime comment) = true ->
  span_len data < 2 ^ 64 ->
  exists f',
    picozip_new_entry_mem_ex localtime f (Some path) data mtime comment
    = Some (PICOZIP_OK, f') /\ mem_inv f'.
Proof.
  intros Hinv Hv Hsmall.
  set (op := Add_mem (Some path) data mtime comment) in *.
  pose proof Hv as Hv'. cbn in Hv'. apply andb_true_iff in Hv'.
  destruct Hv' as [Hd Hc]. apply span_valid_true in Hd, Hc.
  unfold picozip_new_entry_mem_ex. rewrite Hd, Hc. cbn [orb].
  match goal with
  | |- context [picozip__alloc_entry f ?n] =>
      destruct (picozip__alloc_entry_mem f n Hinv)
        as (fa & -> & Hinva & Hua & Hoa & Hna)
  end.
  rewrite Hoa. rewrite <- (len_span_bytes data Hd).
  match goal with
  | |- context [picozip__write_local_entry localtime _ ?lit] =>
      change lit with (op_entry (offset f) op)
  end.
  set (e := op_entry (offset f) op).
  assert (Hwf : entry_wf e) by (apply op_entry_wf, Hv).
  destruct Hinva as (Hsa & Hra & Hsza & Hcapa).
  set (f0 := update_entry fa (num_entries f) (fun _ => e)).
  assert (Hs0 : mem_sink f0) by (apply mem_sink_update_entry, Hsa).
  assert (Hr0 : mem_ready (userdata f0)).
  { destruct (same_channel_update_entry fa (num_entries f) (fun _ => e))
      as (_ & _ & _ & _ & _ & Hu). fold f0 in Hu. rewrite Hu. exact Hra. }
  assert (He0 : entries f0 = entries fa) by apply entries_update_entry.
  destruct (picozip__write_local_entry_mem f0 e Hs0 Hr0 Hwf)
    as (f1 & -> & Hs1 & Hl1 & He1 & Hd1 & Hn1).
  { pose proof (uint16_t_range (strlen (op_path op))).
    pose proof (uint16_t_range (PICOZIP__ATTR_SIZE + PICOZIP__LOCAL_TIMESTAMP_SIZE)).
    cbn [e op_entry filename_len extra_field_len]. lia. }
  destruct (PICOZIP__FLUSH_mem f1 (span_bytes data) (len (span_bytes data)))
    as (f2 & -> & Hs2 & Hl2 & He2 & Hd2 & Hn2).
  - exact Hs1.
  - left. exact Hl1.
  - rewrite (len_span_bytes data Hd). split; [|assumption].
    rewrite <- (len_span_bytes data Hd). apply len_nonneg.
  - rewrite memcpy_all. reflexivity.
  - cbn [negb]. exists f2. split; [reflexivity|].
    unfold mem_inv. split; [exact Hs2|]. split; [left; exact Hl2|].
    rewrite He2, He1, He0. split; assumption.
Qed.

Lemma cd_loop_mem (es : list picozip__entry) :
  forall (i : Z) (f : file) (cd_size : Z),
    mem_sink f ->
    mem_ready (userdata f) ->
    slots_hold f i es ->
    Forall entry_wf es ->
    Forall entry_small es ->
    exists f' cd_size',
      cd_loop localtime (length es) i f cd_size = Some (true, f', cd_size') /\
      mem_sink f' /\ mem_ready (userdata f').
Proof.
  induction es as [|e es IH]; intros i f cd Hsink Hr Hslots Hwf Hsm.
  - exists f, cd. split; [reflexivity|]. split; assumption.
  - cbn [length cd_loop].
    rewrite (slots_hold_head _ _ _ _ Hslots).
    pose proof (central_header_scratch localtime f e) as Hs.
    unfold dos_time, dos_date in Hs. cbv zeta in Hs.
    destruct (picozip__time_to_dostime localtime (mod_time e)) as [dd dt].
    cbn [fst snd] in Hs.
    inversion Hwf as [|? ? Hwfe Hwfes]; subst.
    inversion Hsm as [|? ? Hsme Hsmes]; subst.
    match goal with
    | |- context [PICOZIP__FLUSH ?g ?src ?n] =>
        destruct (PICOZIP__FLUSH_mem g src n) as (f1 & -> & Hs1 & Hl1 & He1 & Hd1 & Hn1)
    end.
    + exact Hsink.
    + destruct Hr as [Hl|[Hc Hsz]]; [left; exact Hl|right].
      repeat split; try assumption; reflexivity.
    + unfold PICOZIP__CD_HEADER_SIZE. lia.
    + rewrite Hs. reflexivity.
    + cbn [negb].
      destruct (PICOZIP__FLUSH_mem f1 (metadata e)
                  (filename_len e + extra_field_len e + comment_len e))
        as (f2 & -> & Hs2 & Hl2 & He2 & Hd2 & Hn2).
      * exact Hs1.
      * left. exact Hl1.
      * destruct Hwfe as (? & ? & ? & ?). unfold entry_small in Hsme. lia.
      * apply len_central_metadata, Hwfe.
      * cbn [negb]. apply IH; try assumption.
        -- left. exact Hl2.
        -- apply (slots_hold_same_slots f);
             [|apply (slots_hold_tail _ _ _ _ Hslots)].
           rewrite Hd2, Hd1. reflexivity.
Qed.

Lemma picozip_end_ex_mem (f : file) (comment : span) (es : list picozip__entry) :
  mem_sink f ->
  mem_ready (userdata f) ->
  num_entries f = len es ->
  slots_hold f 0 es ->
  Forall entry_wf es ->
  Forall entry_small es ->
  span_valid comment = true ->
  span_len comment < 2 ^ 64 ->
  exists f', picozip_end_ex localtime f comment = Some (PICOZIP_OK, f').
Proof.
  intros Hsink Hr Hn Hslots Hwf Hsm Hv Hsmall.
  unfold picozip_end_ex. rewrite (span_valid_true _ Hv).
  replace (Z.to_nat (num_entries f)) with (length es)
    by (rewrite Hn; unfold len; rewrite Nat2Z.id; reflexivity).
  destruct (cd_loop_mem es 0 f 0 Hsink Hr Hslots Hwf Hsm)
    as (f1 & cd & -> & Hs1 & Hr1).
  pose proof (eocd_scratch f1 (num_entries f1) cd (offset f) (span_len comment)) as Hs.
  cbv zeta in Hs.
  match goal with
  | |- context [PICOZIP__FLUSH ?g ?src ?n] =>
      destruct (PICOZIP__FLUSH_mem g src n) as (f2 & -> & Hs2 & Hl2 & He2 & Hd2 & Hn2)
  end.
  - exact Hs1.
  - destruct Hr1 as [Hl|[Hc Hsz]]; [left; exact Hl|right].
    repeat split; try assumption; reflexivity.
  - unfold PICOZIP__EOCD_SIZE. lia.
  - rewrite Hs. reflexivity.
  - cbn [negb]. destruct (span_is_null comment) eqn:Hnull; cbn [negb].
    + eexists. reflexivity.
    + destruct (PICOZIP__FLUSH_mem f2 (span_bytes comment) (span_len comment))
        as (f3 & -> & _).
      * exact Hs2.
      * left. exact Hl2.
      * split; [apply span_len_nonneg, Hv|assumption].
      * rewrite memcpy_span by (apply span_valid_true, Hv).
        apply len_span_bytes, span_valid_true, Hv.
      * cbn [negb]. eexists. reflexivity.
Qed.

End MemForward.

(** ** Sessions on any destination *)

Section AnyDestination.

Context {U : Type}.
Variable localtime : Z -> tm.

(** What a flush leaves alone, and the one thing it does. *)
Lemma PICOZIP__FLUSH_keeps (f f' : picozip_file U) (src : list byte) (n : Z) (ok : bool) :
  PICOZIP__FLUSH f src n = (ok, f') ->
  alloc_cb f' = alloc_cb f /\ write_cb f' = write_cb f /\ free_cb f' = free_cb f /\
  num_entries f' = num_entries f /\ entries_data f' = entries_data f /\
  userdata f' = snd (write_cb f (userdata f) (memcpy src n)).
Proof.
  unfold PICOZIP__FLUSH. intros H.
  destruct (write_cb f (userdata f) (memcpy src n)) as [written u].
  destruct (negb (written =? size_t n)); injection H as _ <-; repeat split.
Qed.

Lemma cd_loop_keeps (n : nat) :
  forall (i : Z) (f f' : picozip_file U) (cd_size cd_size' : Z) (ok : bool),
    cd_loop localtime n i f cd_size = Some (ok, f', cd_size') ->
    alloc_cb f' = alloc_cb f /\ write_cb f' = write_cb f /\ free_cb f' = free_cb f /\
    num_entries f' = num_entries f /\ entries_data f' = entries_data f /\
    exists chunks, userdata f' = writes_to (write_cb f) (userdata f) chunks.
Proof.
  induction n as [|n IH]; intros i f f' c c' ok H; cbn [cd_loop] in H.
  - injection H as _ <- _. repeat split. exists []. reflexivity.
  - destruct (entries_data f i) as [e|] eqn:He; [|discriminate].
    destruct (picozip__time_to_dostime localtime (mod_time e)) as [dd dt].
    match type of H with
    | context [PICOZIP__FLUSH ?g ?src ?k] =>
        destruct (PICOZIP__FLUSH g src k) as [ok1 f1] eqn:H1;
        pose proof (PICOZIP__FLUSH_keeps g f1 src k ok1 H1) as K1
    end.
    cbn [set_scratch alloc_cb write_cb free_cb num_entries entries_data userdata] in K1.
    destruct K1 as (Ka1 & Kw1 & Kf1 & Kn1 & Kd1 & Ku1).
    destruct ok1; cbn [negb] in H.
    2:{ injection H as _ <- _. repeat split; try assumption.
        eexists [_]. exact Ku1. }
    match type of H with
    | context [PICOZIP__FLUSH ?g ?src ?k] =>
        destruct (PICOZIP__FLUSH g src k) as [ok2 f2] eqn:H2;
        pose proof (PICOZIP__FLUSH_keeps g f2 src k ok2 H2) as K2
    end.
    destruct K2 as (Ka2 & Kw2 & Kf2 & Kn2 & Kd2 & Ku2).
    destruct ok2; cbn [negb] in H.
    2:{ injection H as _ <- _. repeat split; try congruence.
        eexists [_; _]. cbn [writes_to fold_left]. rewrite Ku2, Kw1, Ku1. reflexivity. }
    apply IH in H. destruct H as (Ka & Kw & Kf & Kn & Kd & chunks & Ku).
    repeat split; try congruence.
    eexists (_ :: _ :: chunks). cbn [writes_to fold_left].
    rewrite Ku. unfold writes_to. rewrite Kw2, Kw1, Ku2, Kw1, Ku1. reflexivity.
Qed.

Lemma picozip_end_ex_keeps (f f' : picozip_file U) (comment : span) (r : status) :
  picozip_end_ex localtime f comment = Some (r, f') ->
  (r = PICOZIP_OK \/ r = PICOZIP_EIO \/ r = PICOZIP_EINVAL) /\
  (r = PICOZIP_EINVAL -> f' = f) /\
  alloc_cb f' = alloc_cb f /\ write_cb f' = write_cb f /\ free_cb f' = free_cb f /\
  num_entries f' = num_entries f /\ entries_data f' = entries_data f /\
  exists chunks, userdata f' = writes_to (write_cb f) (userdata f) chunks.
Proof.
  unfold picozip_end_ex. intros H.
  destruct (negb (span_len comment =? 0) && span_is_null comment).
  { injection H as <- <-. split; [right; right; reflexivity|].
    split; [reflexivity|]. repeat split. exists []. reflexivity. }
  destruct (cd_loop localtime _ 0 f 0) as [[[ok f1] cd_size]|] eqn:Hloop; [|discriminate].
  apply cd_loop_keeps in Hloop.
  destruct Hloop as (Ka & Kw & Kf & Kn & Kd & chunks & Ku).
  destruct ok.
  2:{ injection H as <- <-. split; [right; left; reflexivity|].
      split; [discriminate|]. repeat split; try assumption. exists chunks. exact Ku. }
  match type of H with
  | context [PICOZIP__FLUSH ?g ?src ?k] =>
      destruct (PICOZIP__FLUSH g src k) as [ok2 f2] eqn:H2;
      pose proof (PICOZIP__FLUSH_keeps g f2 src k ok2 H2) as K2
  end.
  cbn [set_scratch alloc_cb write_cb free_cb num_entries entries_data userdata] in K2.
  destruct K2 as (Ka2 & Kw2 & Kf2 & Kn2 & Kd2 & Ku2).
  assert (Hu2 : exists chunks2, userdata f2 = writes_to (write_cb f) (userdata f) chunks2).
  { eexists (chunks ++ [_]). rewrite <- writes_to_app. rewrite <- Ku.
    cbn [writes_to fold_left]. rewrite <- Kw. exact Ku2. }
  destruct ok2; cbn [negb] in H.
  2:{ injection H as <- <-. split; [right; left; reflexivity|].
      split; [discriminate|]. repeat split; try congruence; exact Hu2. }
  destruct (span_is_null comment); cbn [negb] in H.
  { injection H as <- <-. split; [left; reflexivity|].
    split; [discriminate|]. repeat split; try congruence; exact Hu2. }
  match type of H with
  | context [PICOZIP__FLUSH ?g ?src ?k] =>
      destruct (PICOZIP__FLUSH g src k) as [ok3 f3] eqn:H3;
      pose proof (PICOZIP__FLUSH_keeps g f3 src k ok3 H3) as K3
  end.
  destruct K3 as (Ka3 & Kw3 & Kf3 & Kn3 & Kd3 & Ku3).
  destruct Hu2 as [chunks2 Hu2].
  assert (Hu3 : exists chunks3, userdata f3 = writes_to (write_cb f) (userdata f) chunks3).
  { eexists (chunks2 ++ [_]). rewrite <- writes_to_app. rewrite <- Hu2.
    cbn [writes_to fold_left].
    replace (write_cb f) with (write_cb f2) by congruence. exact Ku3. }
  destruct ok3; cbn [negb] in H; injection H as <- <-.
  - split; [left; reflexivity|]. split; [discriminate|].
    repeat split; try congruence; exact Hu3.
  - split; [right; left; reflexivity|]. split; [discriminate|].
    repeat split; try congruence; exact Hu3.
Qed.

Lemma accepted_all_app_inv (w : U -> list byte -> Z * U) (c1 c2 : list (list byte)) :
  forall u,
    accepted_all w u (c1 ++ c2) ->
    accepted_all w u c1 /\ accepted_all w (writes_to w u c1) c2.
Proof.
  induction c1 as [|c c1 IH]; intros u H; cbn [app accepted_all] in *.
  - split; [exact I|exact H].
  - destruct H as [Hc H]. apply IH in H. destruct H as [H1 H2].
    split; [split; assumption|exact H2].
Qed.

(** A flush of a buffer the write callback accepts goes through. *)
Lemma PICOZIP__FLUSH_accepted (f : picozip_file U) (src : list byte) (n : Z) :
  len (memcpy src n) = n ->
  fst (write_cb f (userdata f) (memcpy src n)) = size_t (len (memcpy src n)) ->
  exists f', PICOZIP__FLUSH f src n = (true, f').
Proof.
  intros Hlen Hacc. unfold PICOZIP__FLUSH.
  destruct (write_cb f (userdata f) (memcpy src n)) as [written u].
  cbn [fst] in Hacc. rewrite Hacc, Hlen, Z.eqb_refl. cbn [negb].
  eexists. reflexivity.
Qed.

(** The central directory goes through when the write callback accepts
    its buffers. *)
Lemma cd_loop_accepted (es : list picozip__entry) :
  forall (i : Z) (f : picozip_file U) (cd_size : Z),
    slots_hold f i es ->
    Forall entry_wf es ->
    accepted_all (write_cb f) (userdata f) (cd_chunks localtime es) ->
    exists f' cd_size', cd_loop localtime (length es) i f cd_size = Some (true, f', cd_size').
Proof.
  induction es as [|e es IH]; intros i f cd Hslots Hwf Hacc.
  - exists f, cd. reflexivity.
  - cbn [length cd_loop].
    rewrite (slots_hold_head _ _ _ _ Hslots).
    pose proof (central_header_scratch localtime f e) as Hs.
    unfold dos_time, dos_date in Hs. cbv zeta in Hs.
    destruct (picozip__time_to_dostime localtime (mod_time e)) as [dd dt].
    cbn [fst snd] in Hs.
    inversion Hwf as [|? ? Hwfe Hwfes]; subst.
    change (cd_chunks localtime (e :: es))
      with ([central_header localtime e; central_metadata e] ++ cd_chunks localtime es)
      in Hacc.
    apply accepted_all_app_inv in Hacc. destruct Hacc as [[Hc1 [Hc2 _]] Hrest].
    match goal with
    | |- context [PICOZIP__FLUSH ?g ?src ?n] =>
        destruct (PICOZIP__FLUSH_accepted g src n) as [f1 H1]
    end.
    + rewrite Hs. reflexivity.
    + rewrite Hs. exact Hc1.
    + rewrite H1. cbn [negb].
      pose proof H1 as K1. apply PICOZIP__FLUSH_keeps in K1.
      cbn [set_scratch alloc_cb write_cb free_cb num_entries entries_data userdata] in K1.
      destruct K1 as (_ & Kw1 & _ & _ & Kd1 & Ku1). rewrite Hs in Ku1.
      destruct (PICOZIP__FLUSH_accepted f1 (metadata e)
                  (filename_len e + extra_field_len e + comment_len e)) as [f2 H2].
      * apply len_central_metadata, Hwfe.
      * rewrite Kw1, Ku1. exact Hc2.
      * rewrite H2. cbn [negb].
        pose proof H2 as K2. apply PICOZIP__FLUSH_keeps in K2.
        destruct K2 as (_ & Kw2 & _ & _ & Kd2 & Ku2).
        apply IH.
        -- apply (slots_hold_same_slots f);
             [|apply (slots_hold_tail _ _ _ _ Hslots)].
           rewrite Kd2, Kd1. reflexivity.
        -- assumption.
        -- rewrite Kw2, Kw1, Ku2, Kw1, Ku1. exact Hrest.
Qed.

(** [picozip_end_ex] goes through when the write callback accepts the
    buffers it is handed. *)
Lemma picozip_end_ex_accepted (f : picozip_file U) (comment : span)
      (es : list picozip__entry) :
  num_entries f = len es ->
  slots_hold f 0 es ->
  Forall entry_wf es ->
  span_valid comment = true ->
  accepted_all (write_cb f) (userdata f)
               (end_chunks localtime (num_entries f) (offset f) es comment) ->
  exists f', picozip_end_ex localtime f comment = Some (PICOZIP_OK, f').
Proof.
  intros Hn Hslots Hwf Hv Hacc. unfold picozip_end_ex.
  rewrite (span_valid_true _ Hv).
  replace (Z.to_nat (num_entries f)) with (length es)
    by (rewrite Hn; unfold len; rewrite Nat2Z.id; reflexivity).
  unfold end_chunks in Hacc.
  apply accepted_all_app_inv in Hacc. destruct Hacc as [Hcd Hrest].
  destruct (cd_loop_accepted es 0 f 0 Hslots Hwf Hcd) as (f1 & cd & Hloop).
  rewrite Hloop.
  destruct (cd_loop_ok localtime es 0 f f1 0 cd Hloop Hslots Hwf) as (E1 & _ & ->).
  destruct E1 as (_ & Kw1 & _ & Kn1 & _ & _ & Ku1).
  rewrite <- Ku1, <- Kw1 in Hrest.
  pose proof (eocd_scratch f1 (num_entries f1) (cd_size_after 0 es) (offset f)
                           (span_len comment)) as Hs.
  cbv zeta in Hs.
  apply accepted_all_app_inv in Hrest. destruct Hrest as [[He _] Hcomment].
  rewrite <- Kn1 in He, Hcomment.
  match goal with
  | |- context [PICOZIP__FLUSH ?g ?src ?n] =>
      destruct (PICOZIP__FLUSH_accepted g src n) as [f2 H2]
  end.
  - rewrite Hs. reflexivity.
  - rewrite Hs. exact He.
  - rewrite H2. cbn [negb].
    pose proof H2 as K2. apply PICOZIP__FLUSH_keeps in K2.
    cbn [set_scratch alloc_cb write_cb free_cb num_entries entries_data userdata] in K2.
    destruct K2 as (_ & Kw2 & _ & _ & _ & Ku2). rewrite Hs in Ku2.
    destruct (span_is_null comment) eqn:Hnull; cbn [negb].
    + eexists. reflexivity.
    + destruct (PICOZIP__FLUSH_accepted f2 (span_bytes comment) (span_len comment))
        as [f3 H3].
      * rewrite memcpy_span by (apply span_valid_true, Hv).
        apply len_span_bytes, span_valid_true, Hv.
      * rewrite memcpy_span by (apply span_valid_true, Hv).
        rewrite Kw2, Ku2. cbn [writes_to fold_left] in Hcomment.
        destruct Hcomment as [Hc _]. exact Hc.
      * rewrite H3. cbn [negb]. eexists. reflexivity.
Qed.

End AnyDestination.

(** * The properties *)

(** ** The test vectors of the repository *)

(** The check value of the CRC-32 of ZIP and PNG. *)
Example crc32_check_value :
  picozip__crc32 (bytes_of_string "123456789") PICOZIP__CRC_START = 0xCBF43926
  /\ Reference.crc32 (bytes_of_string "123456789") = 0xCBF43926.
Proof. split; vm_compute; reflexivity. Qed.

(** [test_picozip_end]: finalizing at once gives the 22 bytes of an empty
    archive. *)
Example test_picozip_end (localtime : Z -> tm) :
  match picozip_end localtime (Some mem_session) with
  | Some (r, Some f) =>
      r = PICOZIP_OK /\
      map byte_val (picozip_get_mem f)
      = [0x50; 0x4b; 0x05; 0x06; 0; 0; 0; 0; 0; 0; 0; 0; 0; 0; 0; 0; 0; 0; 0; 0; 0; 0]
  | _ => False
  end.
Proof. vm_compute. split; reflexivity. Qed.

(** [test_picozip_new_entry_mem]: the checksum stored for ["hello world"]
    is [0xf2b5ee7a], the complement of its CRC-32 [0x0d4a1185]. *)
Example test_picozip_new_entry_mem :
  match picozip_new_entry_mem utc_localtime 0 mem_session
          (Some (bytes_of_string "test.txt")) (Ptr (bytes_of_string "hello world")) with
  | Some (r, f) =>
      r = PICOZIP_OK /\
      READ_LE32 (picozip_get_mem f) 14 = 0xf2b5ee7a /\
      Reference.crc32 (bytes_of_string "hello world") = 0x0d4a1185
  | None => False
  end.
Proof. vm_compute. repeat split; reflexivity. Qed.

(** [test_picozip_new_entry_path]: the data descriptor of the stream
    ["hello world!"] carries [0xFC4B3D92]. *)
Example test_picozip_new_entry_path :
  match picozip_new_entry_file utc_localtime mem_session
          (Some (bytes_of_string "test.txt"))
          (Some {| fstat := inl 0; contents := bytes_of_string "hello world!" |})
          (Null 0) with
  | Some (r, f) =>
      r = PICOZIP_OK /\
      len (picozip_get_mem f) = 75 /\
      READ_LE16 (picozip_get_mem f) 6 = 8 /\
      READ_LE32 (picozip_get_mem f) 59 = PICOZIP__DATADESC_MAGIC /\
      READ_LE32 (picozip_get_mem f) 63 = 0xFC4B3D92
  | None => False
  end.
Proof. vm_compute. repeat split; reflexivity. Qed.

(** ** The checksum *)

(** C1.  With the fresh seed [PICOZIP__CRC_START], [picozip__crc32]
    returns the reflected CRC-32 of polynomial 0xEDB88320 of every byte
    sequence, the reference written out in [Reference]; for the empty
    sequence it returns 0; and folding the chunks of a sequence one after
    the other, each call seeded with the result of the call before, gives
    what one call on the whole sequence gives. *)
Theorem C1_crc32_standard_and_resumable (b : list byte) (chunks : list (list byte)) :
  picozip__crc32 b PICOZIP__CRC_START = Reference.crc32 b /\
  picozip__crc32 [] PICOZIP__CRC_START = 0 /\
  fold_left (fun crc chunk => picozip__crc32 chunk crc) chunks PICOZIP__CRC_START
  = picozip__crc32 (concat chunks) PICOZIP__CRC_START.
Proof.
  split; [apply picozip__crc32_reference|].
  split; [reflexivity|].
  apply picozip__crc32_chunks. unfold PICOZIP__CRC_START. lia.
Qed.

(** ** Offsets *)

Section OffsetProofs.

Context {U : Type}.
Variable localtime : Z -> tm.
Local Abbreviation file := (picozip_file U).

Lemma uint32_t_add_l (a b : Z) : uint32_t (uint32_t a + b) = uint32_t (a + b).
Proof. unfold uint32_t. apply Z.add_mod_idemp_l. lia. Qed.

Lemma add_all_app (l1 l2 : list add_op) :
  forall (f f' : file),
    add_all localtime f (l1 ++ l2) = Some f' ->
    exists f1, add_all localtime f l1 = Some f1 /\ add_all localtime f1 l2 = Some f'.
Proof.
  induction l1 as [|op l1 IH]; intros f f' H.
  - exists f. split; [reflexivity|exact H].
  - cbn [app add_all] in *.
    destruct (add_entry localtime f op) as [[r g]|]; [|discriminate].
    destruct r; try discriminate. apply IH, H.
Qed.

Lemma op_size_disk (off : Z) (op : add_op) :
  op_size op = entry_disk_size (op_entry off op) (op_content op).
Proof.
  unfold op_size, entry_disk_size.
  cbn [op_entry filename_len extra_field_len flags]. lia.
Qed.

Lemma add_all_app_intro (l1 l2 : list add_op) :
  forall (f f1 f' : file),
    add_all localtime f l1 = Some f1 ->
    add_all localtime f1 l2 = Some f' ->
    add_all localtime f (l1 ++ l2) = Some f'.
Proof.
  induction l1 as [|op l1 IH]; intros f f1 f' H1 H2.
  - injection H1 as ->. exact H2.
  - cbn [app add_all] in *.
    destruct (add_entry localtime f op) as [[r g]|]; [|discriminate].
    destruct r; try discriminate. apply (IH _ _ _ H1 H2).
Qed.

Lemma skipn_nth_error {A} (l : list A) :
  forall (i : nat) (x : A),
    nth_error l i = Some x -> skipn i l = x :: skipn (S i) l.
Proof.
  induction l as [|a l IH]; intros [|i] x Hi; cbn in *; try discriminate.
  - injection Hi as ->. reflexivity.
  - apply IH, Hi.
Qed.

Lemma firstn_nth_error {A} (l : list A) :
  forall (i : nat) (x : A),
    nth_error l i = Some x -> firstn (S i) l = firstn i l ++ [x].
Proof.
  induction l as [|a l IH]; intros [|i] x Hi; cbn in *; try discriminate.
  - injection Hi as ->. reflexivity.
  - f_equal. apply IH, Hi.
Qed.

(** The call number [i] of a run: the session it was made on, the
    session it leaves, and its entry as the call leaves it. *)
Lemma add_all_step (ops : list add_op) (f0 f : file) (i : nat) (op : add_op) :
  add_all localtime f0 ops = Some f ->
  nth_error ops i = Some op ->
  exists fi fi',
    add_all localtime f0 (firstn i ops) = Some fi /\
    add_entry localtime fi op = Some (PICOZIP_OK, fi') /\
    add_all localtime f0 (firstn (S i) ops) = Some fi' /\
    entries_data fi' (num_entries fi) = Some (op_entry (offset fi) op) /\
    offset fi' = size_t (offset fi + op_size op).
Proof.
  intros H Hi.
  rewrite <- (firstn_skipn i ops) in H.
  apply add_all_app in H. destruct H as (fi & H1 & H2).
  rewrite (skipn_nth_error _ _ _ Hi) in H2. cbn [add_all] in H2.
  destruct (add_entry localtime fi op) as [[r fi']|] eqn:Hop; [|discriminate].
  destruct r; try discriminate.
  exists fi, fi'. split; [exact H1|]. split; [exact Hop|].
  split.
  - rewrite (firstn_nth_error _ _ _ Hi).
    apply (add_all_app_intro _ _ _ fi); [exact H1|].
    cbn [add_all]. rewrite Hop. reflexivity.
  - apply add_entry_ok_ledger in Hop.
    destruct Hop as (_ & _ & _ & _ & _ & Ho & D).
    split; [|exact Ho]. rewrite D. apply entries_store_same.
Qed.

End OffsetProofs.

Section MemOffsetProofs.

Variable localtime : Z -> tm.

Lemma add_all_valid {U} (ops : list add_op) :
  forall (f f' : picozip_file U),
    add_all localtime f ops = Some f' ->
    Forall (fun op => op_valid op = true) ops /\
    offset f' = match ops with
                | [] => offset f
                | _ => size_t (offset f + ops_size ops)
                end.
Proof.
  induction ops as [|op ops IH]; intros f f' H.
  - injection H as <-. split; [constructor|reflexivity].
  - cbn [add_all] in H.
    destruct (add_entry localtime f op) as [[r f1]|] eqn:Hop; [|discriminate].
    destruct r; try discriminate.
    apply add_entry_ok_ledger in Hop.
    destruct Hop as (Hv & _ & _ & _ & _ & Ho1 & _).
    apply IH in H. destruct H as [Hvs Ho].
    split; [constructor; assumption|].
    rewrite Ho, Ho1. destruct ops as [|op2 ops].
    + cbn [ops_size]. f_equal. lia.
    + rewrite size_t_add_l. f_equal. cbn [ops_size]. lia.
Qed.

(** On the in-memory destination the write offset is the number of
    bytes written, as far as [size_t] can count. *)
Lemma add_all_mem_offset (ops : list add_op) (f : picozip_file picozip__mem_file) :
  add_all localtime mem_session ops = Some f ->
  mem_data (userdata f) = ops_blocks localtime 0 ops /\
  len (mem_data (userdata f)) = ops_size ops /\
  offset f = size_t (len (mem_data (userdata f))).
Proof.
  intros H.
  destruct (add_all_mem localtime ops _ _ mem_session_sink mem_session_ready H)
    as (_ & Hd & _).
  destruct (add_all_valid ops _ _ H) as [Hv Ho].
  cbn [mem_session userdata mem_data app offset] in Hd, Ho.
  split; [exact Hd|].
  assert (Hlen : len (mem_data (userdata f)) = ops_size ops).
  { rewrite Hd. apply len_ops_blocks, Hv. }
  split; [exact Hlen|].
  rewrite Ho, Hlen. destruct ops; [reflexivity|]. reflexivity.
Qed.

End MemOffsetProofs.

(** C2, as amended.  In a run of successful add operations, whatever the
    destination, the entry of call [i], as that call leaves it, records
    the write offset of the session the call was made on, reduced to 32
    bits; that offset plus the bytes of the entry (the 30 bytes of the
    local header, the file name and the extra field as their length
    fields count them, the content, and 16 more when bit 3 of the flags
    is set) is the write offset the next call finds, as far as [size_t]
    goes; so the [header_offset] the next call records is that of this
    entry plus its size modulo 2^32, and plainly so while the sum stays
    below 2^32.  On the in-memory destination the write offset is the
    number of bytes written so far, modulo 2^64. *)
Theorem C2_header_offset_chain :
  (forall (U : Type) (localtime : Z -> tm) (f0 f : picozip_file U)
          (ops : list add_op) (i : nat) (op op' : add_op),
      add_all localtime f0 ops = Some f ->
      nth_error ops i = Some op ->
      nth_error ops (S i) = Some op' ->
      exists fi fi' fi'' e e',
        add_all localtime f0 (firstn i ops) = Some fi /\
        add_entry localtime fi op = Some (PICOZIP_OK, fi') /\
        add_entry localtime fi' op' = Some (PICOZIP_OK, fi'') /\
        entries_data fi' (num_entries fi) = Some e /\
        entries_data fi'' (num_entries fi') = Some e' /\
        header_offset e = uint32_t (offset fi) /\
        header_offset e' = uint32_t (offset fi') /\
        offset fi' = size_t (offset fi + entry_disk_size e (op_content op)) /\
        header_offset e'
        = uint32_t (header_offset e + entry_disk_size e (op_content op)) /\
        (header_offset e + entry_disk_size e (op_content op) < 2 ^ 32 ->
         header_offset e' = header_offset e + entry_disk_size e (op_content op))) /\
  (forall (localtime : Z -> tm) (ops : list add_op)
          (f : picozip_file picozip__mem_file),
      add_all localtime mem_session ops = Some f ->
      offset f = size_t (len (mem_data (userdata f)))).
Proof.
  split.
  - intros U localtime f0 f ops i op op' H Hi Hi'.
    destruct (add_all_step localtime ops f0 f i op H Hi)
      as (fi & fi' & Hrun & Hop & Hrun' & He & Ho).
    destruct (add_all_step localtime ops f0 f (S i) op' H Hi')
      as (fj & fi'' & Hrunj & Hop' & _ & He' & _).
    rewrite Hrun' in Hrunj. injection Hrunj as <-.
    exists fi, fi', fi'', (op_entry (offset fi) op), (op_entry (offset fi') op').
    assert (Hstep : offset fi'
                    = size_t (offset fi
                              + entry_disk_size (op_entry (offset fi) op) (op_content op))).
    { rewrite <- op_size_disk. exact Ho. }
    assert (Hchain : header_offset (op_entry (offset fi') op')
                     = uint32_t (header_offset (op_entry (offset fi) op)
                                 + entry_disk_size (op_entry (offset fi) op)
                                                   (op_content op))).
    { cbn [header_offset op_entry]. rewrite uint32_t_add_l.
      rewrite Hstep, uint32_t_size_t. reflexivity. }
    repeat split; try assumption; try reflexivity.
    intros Hsmall. rewrite Hchain. apply uint32_t_small.
    split; [|assumption].
    pose proof (uint32_t_range (offset fi)).
    unfold entry_disk_size. cbn [header_offset op_entry filename_len extra_field_len flags].
    pose proof (uint16_t_range (strlen (op_path op))).
    pose proof (uint16_t_range (PICOZIP__ATTR_SIZE + PICOZIP__LOCAL_TIMESTAMP_SIZE)).
    pose proof (len_nonneg (op_content op)).
    unfold PICOZIP__LOCAL_HEADER_SIZE, PICOZIP__DATADESC_SIZE.
    destruct (Z.testbit (op_flags op) 3); lia.
  - intros localtime ops f H. apply (add_all_mem_offset localtime ops f H).
Qed.

(** ** An archive beyond four gibibytes *)

Lemma len_four_gib : len four_gib = 2 ^ 32.
Proof.
  unfold four_gib, len. rewrite repeat_length. apply Z2Nat.id. lia.
Qed.

Lemma span_valid_Ptr (bytes : list byte) : span_valid (Ptr bytes) = true.
Proof. unfold span_valid. cbn [span_is_null]. rewrite andb_false_r. reflexivity. Qed.

Lemma mem_session_inv : mem_inv mem_session.
Proof.
  unfold mem_inv. split; [apply mem_session_sink|]. split; [apply mem_session_ready|].
  split; [reflexivity|left; reflexivity].
Qed.

Lemma add_four_gib_valid : op_valid add_four_gib = true.
Proof.
  unfold add_four_gib. cbn [op_valid]. rewrite span_valid_Ptr. reflexivity.
Qed.

Lemma op_size_add_four_gib : op_size add_four_gib = 2 ^ 32 + 40.
Proof.
  unfold op_size, add_four_gib.
  cbn [op_content op_path op_flags span_bytes]. rewrite len_four_gib.
  reflexivity.
Qed.

(** The two add operations go through on the in-memory destination. *)
Lemma four_gib_run (localtime : Z -> tm) :
  exists f1 f2,
    add_entry localtime mem_session add_four_gib = Some (PICOZIP_OK, f1) /\
    add_entry localtime f1 add_empty = Some (PICOZIP_OK, f2) /\
    mem_inv f1 /\ mem_inv f2.
Proof.
  destruct (picozip_new_entry_mem_ex_mem localtime mem_session (bytes_of_string "a")
              (Ptr four_gib) 0 (Null 0) mem_session_inv add_four_gib_valid)
    as (f1 & H1 & Hinv1).
  { cbn [span_len]. rewrite len_four_gib. lia. }
  destruct (picozip_new_entry_mem_ex_mem localtime f1 (bytes_of_string "b")
              (Null 0) 0 (Null 0) Hinv1 eq_refl)
    as (f2 & H2 & Hinv2).
  { cbn [span_len]. lia. }
  exists f1, f2. unfold add_four_gib, add_empty. cbn [add_entry].
  rewrite H1, H2.
  split; [reflexivity|]. split; [reflexivity|]. split; assumption.
Qed.

Lemma four_gib_ledger (localtime : Z -> tm) :
  exists f1 f2,
    add_entry localtime mem_session add_four_gib = Some (PICOZIP_OK, f1) /\
    add_entry localtime f1 add_empty = Some (PICOZIP_OK, f2) /\
    mem_inv f1 /\
    num_entries f1 = 1 /\
    offset f1 = 2 ^ 32 + 40 /\
    entries_data f1 0 = Some (op_entry 0 add_four_gib) /\
    entries_data f2 1 = Some (op_entry (2 ^ 32 + 40) add_empty).
Proof.
  destruct (four_gib_run localtime) as (f1 & f2 & H1 & H2 & Hinv1 & Hinv2).
  exists f1, f2.
  split; [exact H1|]. split; [exact H2|]. split; [exact Hinv1|].
  apply add_entry_ok_ledger in H1, H2.
  destruct H1 as (_ & _ & _ & _ & Hn1 & Ho1 & D1).
  destruct H2 as (_ & _ & _ & _ & Hn2 & Ho2 & D2).
  cbn [mem_session num_entries offset] in Hn1, Ho1, D1.
  rewrite op_size_add_four_gib in Ho1.
  change (size_t (0 + 1)) with 1 in Hn1.
  change (size_t (0 + (2 ^ 32 + 40))) with (2 ^ 32 + 40) in Ho1.
  rewrite Hn1 in D2. rewrite Ho1 in D2.
  split; [exact Hn1|]. split; [exact Ho1|]. split.
  - rewrite D1. apply entries_store_same.
  - rewrite D2. apply entries_store_same.
Qed.

(** C2, refuted as stated: after four gibibytes of content the next
    call records the [header_offset] 40, not the offset of the first
    entry plus its size. *)
Lemma C2_counterexample :
  exists f1 f2 e0 e1,
    add_entry utc_localtime mem_session add_four_gib = Some (PICOZIP_OK, f1) /\
    add_entry utc_localtime f1 add_empty = Some (PICOZIP_OK, f2) /\
    entries_data f1 0 = Some e0 /\
    entries_data f2 1 = Some e1 /\
    header_offset e0 + entry_disk_size e0 (op_content add_four_gib) = 2 ^ 32 + 40 /\
    header_offset e1 = 40 /\
    header_offset e1 <> header_offset e0 + entry_disk_size e0 (op_content add_four_gib).
Proof.
  destruct (four_gib_ledger utc_localtime) as (f1 & f2 & H1 & H2 & _ & _ & _ & He0 & He1).
  exists f1, f2, (op_entry 0 add_four_gib), (op_entry (2 ^ 32 + 40) add_empty).
  split; [exact H1|]. split; [exact H2|]. split; [exact He0|]. split; [exact He1|].
  assert (Hsum : header_offset (op_entry 0 add_four_gib)
                 + entry_disk_size (op_entry 0 add_four_gib) (op_content add_four_gib)
                 = 2 ^ 32 + 40).
  { rewrite <- op_size_disk, op_size_add_four_gib. reflexivity. }
  assert (Hnext : header_offset (op_entry (2 ^ 32 + 40) add_empty) = 40) by reflexivity.
  split; [exact Hsum|]. split; [exact Hnext|].
  rewrite Hsum, Hnext. lia.
Qed.

(** ** Runs on given inputs *)

Lemma session_of_some {U} (d : picozip_file U) (o : option (picozip_file U)) :
  is_some o = true -> o = Some (session_of d o).
Proof. destruct o; [reflexivity|discriminate]. Qed.

Lemma ok_session_of_ok {U} (d : picozip_file U) (o : option (status * picozip_file U)) :
  is_ok o = true -> o = Some (PICOZIP_OK, ok_session_of d o).
Proof. destruct o as [[[] f]|]; try discriminate. reflexivity. Qed.

(** C2 at work: the two calls of a small run. *)
Lemma C2_witness :
  add_all utc_localtime mem_session [add_hello; add_stream] = Some small_session /\
  nth_error [add_hello; add_stream] 0 = Some add_hello /\
  nth_error [add_hello; add_stream] 1 = Some add_stream /\
  (exists fi fi' fi'' e e',
    add_all utc_localtime mem_session (firstn 0 [add_hello; add_stream]) = Some fi /\
    add_entry utc_localtime fi add_hello = Some (PICOZIP_OK, fi') /\
    add_entry utc_localtime fi' add_stream = Some (PICOZIP_OK, fi'') /\
    entries_data fi' (num_entries fi) = Some e /\
    entries_data fi'' (num_entries fi') = Some e' /\
    header_offset e = uint32_t (offset fi) /\
    header_offset e' = uint32_t (offset fi') /\
    offset fi' = size_t (offset fi + entry_disk_size e (op_content add_hello)) /\
    header_offset e' = uint32_t (header_offset e + entry_disk_size e (op_content add_hello)) /\
    (header_offset e + entry_disk_size e (op_content add_hello) < 2 ^ 32 ->
     header_offset e' = header_offset e + entry_disk_size e (op_content add_hello))) /\
  offset small_session = size_t (len (mem_data (userdata small_session))).
Proof.
  assert (H : add_all utc_localtime mem_session [add_hello; add_stream]
              = Some small_session) by (apply session_of_some; vm_compute; reflexivity).
  assert (H0 : nth_error [add_hello; add_stream] 0 = Some add_hello) by reflexivity.
  assert (H1 : nth_error [add_hello; add_stream] 1 = Some add_stream) by reflexivity.
  split; [exact H|]. split; [exact H0|]. split; [exact H1|].
  split.
  - exact (proj1 C2_header_offset_chain _ utc_localtime mem_session small_session
                 [add_hello; add_stream] 0%nat add_hello add_stream H H0 H1).
  - exact (proj2 C2_header_offset_chain utc_localtime [add_hello; add_stream]
                 small_session H).
Defined.

(** ** The layout of a finalized archive *)

Section LayoutProofs.

Variable localtime : Z -> tm.
Local Abbreviation file := (picozip_file picozip__mem_file).

Lemma concat_cd_chunks (es : list picozip__entry) :
  concat (cd_chunks localtime es) = central_directory localtime es.
Proof.
  unfold central_directory.
  induction es as [|e es IH]; [reflexivity|].
  cbn [cd_chunks flat_map app concat map]. unfold cd_chunks in IH.
  rewrite IH. unfold central_record. rewrite <- app_assoc. reflexivity.
Qed.

Lemma len_central_record (e : picozip__entry) :
  entry_wf e -> len (central_record localtime e) = central_record_size e.
Proof.
  intros Hwf. unfold central_record, central_record_size.
  rewrite len_app, len_central_header, len_central_metadata by assumption. lia.
Qed.

Lemma len_central_directory (es : list picozip__entry) :
  Forall entry_wf es -> len (central_directory localtime es) = cd_total es.
Proof.
  unfold central_directory.
  induction es as [|e es IH]; intros Hwf; [reflexivity|].
  inversion Hwf; subst. cbn [map concat cd_total fold_right].
  rewrite len_app, len_central_record, IH by assumption. reflexivity.
Qed.

Lemma cd_size_after_total (es : list picozip__entry) :
  forall c, size_t (cd_size_after c es) = size_t (c + cd_total es).
Proof.
  unfold cd_size_after, cd_total.
  induction es as [|e es IH]; intros c; cbn [fold_left fold_right].
  - f_equal. lia.
  - rewrite IH, size_t_add_l. f_equal. lia.
Qed.

Lemma first_small_end_chunks (n off : Z) (es : list picozip__entry) (comment : span) :
  first_small (end_chunks localtime n off es comment).
Proof.
  unfold end_chunks. destruct es as [|e es]; cbn [cd_chunks flat_map app first_small].
  - change (len (eocd_record n (cd_size_after 0 []) off (span_len comment))) with 22. lia.
  - rewrite len_central_header. unfold PICOZIP__CD_HEADER_SIZE. lia.
Qed.

Lemma concat_end_chunks (n off : Z) (es : list picozip__entry) (comment : span) :
  concat (end_chunks localtime n off es comment)
  = central_directory localtime es
    ++ eocd_record n (cd_size_after 0 es) off (span_len comment)
    ++ span_bytes comment.
Proof.
  unfold end_chunks. rewrite concat_app, concat_cd_chunks. f_equal.
  destruct comment as [k|bytes]; cbn [span_is_null span_bytes app concat];
    rewrite ?app_nil_r; reflexivity.
Qed.

(** The array of entry pointers of a fresh in-memory session has room
    for the pointer of the first entry: a run of at most one call
    leaves a ledger that can be read. *)
Lemma mem_run_ledger (ops : list add_op) (f : file) :
  add_all localtime mem_session ops = Some f ->
  len ops <= 1 ->
  slots_hold f 0 (ops_ledger 0 ops).
Proof.
  intros Hrun Hlen.
  destruct ops as [|op [|op2 ops]].
  - intros k e Hk. destruct k; discriminate.
  - cbn [add_all] in Hrun.
    destruct (add_entry localtime mem_session op) as [[r f1]|] eqn:Hop; [|discriminate].
    destruct r; try discriminate. injection Hrun as ->.
    pose proof (add_entry_ok_in_bounds localtime mem_session f op Hop eq_refl) as D.
    intros k e Hk. destruct k as [|k]; cbn [ops_ledger nth_error] in Hk.
    + injection Hk as <-. rewrite D. apply slot_store_same.
    + destruct k; discriminate.
  - exfalso. unfold len in Hlen. cbn [length] in Hlen. lia.
Qed.

(** A finalized archive of at most one entry on the in-memory
    destination: the block of the entry, the central directory of the
    ledger, the end record and the comment. *)
Lemma finalized_layout (ops : list add_op) (f f' : file) (comment : span) :
  add_all localtime mem_session ops = Some f ->
  len ops <= 1 ->
  picozip_end_ex localtime f comment = Some (PICOZIP_OK, f') ->
  let es := ops_ledger 0 ops in
  Forall (fun op => op_valid op = true) ops /\
  span_valid comment = true /\
  num_entries f = len ops /\
  slots_hold f 0 es /\
  entries_data f' = entries_data f /\
  num_entries f' = num_entries f /\
  mem_data (userdata f) = ops_blocks localtime 0 ops /\
  mem_data (userdata f')
  = mem_data (userdata f)
    ++ central_directory localtime es
    ++ eocd_record (len ops) (cd_size_after 0 es) (offset f) (span_len comment)
    ++ span_bytes comment /\
  mem_sink f' /\ mem_live (userdata f').
Proof.
  intros Hrun Hlen Hend es.
  pose proof (mem_run_ledger ops f Hrun Hlen) as Hslots.
  pose proof (add_all_spec localtime ops _ _ Hrun) as Hspec.
  cbn [mem_session num_entries offset] in Hspec.
  destruct Hspec as (_ & _ & _ & Hn & _ & Hv); [lia|lia|].
  rewrite Z.add_0_l in Hn.
  destruct (add_all_mem localtime ops _ _ mem_session_sink mem_session_ready Hrun)
    as (Hsink & Hd & Hr).
  cbn [mem_session userdata mem_data app offset] in Hd.
  assert (Hwf : Forall entry_wf es) by (apply ops_ledger_wf, Hv).
  assert (Hnes : num_entries f = len es).
  { rewrite Hn. unfold es, len. rewrite ops_ledger_length. reflexivity. }
  destruct (picozip_end_ex_ok localtime f f' comment es Hend Hnes Hslots Hwf)
    as (Hc & E & D).
  destruct (emits_mem f f' _ Hsink E Hr (first_small_end_chunks _ _ _ _))
    as (Hsink' & Hd' & Hl').
  rewrite concat_end_chunks, Hn in Hd'.
  repeat split; try assumption; try apply Hsink'. apply E.
Qed.

End LayoutProofs.

(** ** Local headers and central-directory records *)

Section FieldProofs.

Variable localtime : Z -> tm.

Lemma uint16_t_idem (v : Z) : uint16_t (uint16_t v) = uint16_t v.
Proof. unfold uint16_t. apply Z.mod_mod. lia. Qed.

Lemma uint32_t_idem (v : Z) : uint32_t (uint32_t v) = uint32_t v.
Proof. unfold uint32_t. apply Z.mod_mod. lia. Qed.

Lemma firstn_app_exact {A} (l r : list A) (n : nat) :
  n = length l -> firstn n (l ++ r) = l.
Proof.
  intros ->. rewrite firstn_app, Nat.sub_diag, firstn_all. cbn. apply app_nil_r.
Qed.

Lemma skipn_app_exact {A} (l r : list A) (n : nat) :
  n = length l -> skipn n (l ++ r) = r.
Proof.
  intros ->. rewrite skipn_app, Nat.sub_diag, skipn_all. reflexivity.
Qed.

Lemma slice_middle (pre x post : list byte) (o n : nat) :
  o = length pre -> n = length x -> slice (pre ++ x ++ post) o n = x.
Proof.
  intros Ho Hn. unfold slice.
  rewrite skipn_app_exact by assumption. apply firstn_app_exact, Hn.
Qed.

(** The fields of a local header, read back. *)
Lemma local_header_read (e : picozip__entry) (rest : list byte) :
  let b := local_header localtime e ++ rest in
  READ_LE32 b 0 = uint32_t PICOZIP__LOCAL_MAGIC /\
  READ_LE16 b 4 = uint16_t (version_extract e) /\
  READ_LE16 b 6 = uint16_t (flags e) /\
  READ_LE16 b 8 = uint16_t (comp_method e) /\
  READ_LE16 b 10 = uint16_t (dos_time localtime e) /\
  READ_LE16 b 12 = uint16_t (dos_date localtime e) /\
  READ_LE32 b 14 = uint32_t (crc32 e) /\
  READ_LE32 b 18 = uint32_t (comp_size e) /\
  READ_LE32 b 22 = uint32_t (uncomp_size e) /\
  READ_LE16 b 26 = uint16_t (filename_len e) /\
  READ_LE16 b 28 = uint16_t (extra_field_len e).
Proof.
  cbv zeta. unfold local_header.
  set (m := le32 PICOZIP__LOCAL_MAGIC). set (v := le16 (version_extract e)).
  set (fl := le16 (flags e)). set (cm := le16 (comp_method e)).
  set (dt := le16 (dos_time localtime e)). set (dd := le16 (dos_date localtime e)).
  set (c := le32 (crc32 e)). set (cs := le32 (comp_size e)).
  set (us := le32 (uncomp_size e)). set (fn := le16 (filename_len e)).
  set (xl := le16 (extra_field_len e)).
  split; [exact (READ_LE32_le32 _ [] (v ++ fl ++ cm ++ dt ++ dd ++ c ++ cs ++ us ++ fn ++ xl ++ rest))|].
  split; [exact (READ_LE16_le16 _ m (fl ++ cm ++ dt ++ dd ++ c ++ cs ++ us ++ fn ++ xl ++ rest))|].
  split; [exact (READ_LE16_le16 _ (m ++ v) (cm ++ dt ++ dd ++ c ++ cs ++ us ++ fn ++ xl ++ rest))|].
  split; [exact (READ_LE16_le16 _ (m ++ v ++ fl) (dt ++ dd ++ c ++ cs ++ us ++ fn ++ xl ++ rest))|].
  split; [exact (READ_LE16_le16 _ (m ++ v ++ fl ++ cm) (dd ++ c ++ cs ++ us ++ fn ++ xl ++ rest))|].
  split; [exact (READ_LE16_le16 _ (m ++ v ++ fl ++ cm ++ dt) (c ++ cs ++ us ++ fn ++ xl ++ rest))|].
  split; [exact (READ_LE32_le32 _ (m ++ v ++ fl ++ cm ++ dt ++ dd) (cs ++ us ++ fn ++ xl ++ rest))|].
  split; [exact (READ_LE32_le32 _ (m ++ v ++ fl ++ cm ++ dt ++ dd ++ c) (us ++ fn ++ xl ++ rest))|].
  split; [exact (READ_LE32_le32 _ (m ++ v ++ fl ++ cm ++ dt ++ dd ++ c ++ cs) (fn ++ xl ++ rest))|].
  split; [exact (READ_LE16_le16 _ (m ++ v ++ fl ++ cm ++ dt ++ dd ++ c ++ cs ++ us) (xl ++ rest))|].
  exact (READ_LE16_le16 _ (m ++ v ++ fl ++ cm ++ dt ++ dd ++ c ++ cs ++ us ++ fn) rest).
Qed.

(** The fields of a central-directory header, read back. *)
Lemma central_header_read (e : picozip__entry) (rest : list byte) :
  let b := central_header localtime e ++ rest in
  READ_LE32 b 0 = uint32_t PICOZIP__CENTRAL_MAGIC /\
  READ_LE16 b 4 = uint16_t (version_made e) /\
  READ_LE16 b 6 = uint16_t (version_extract e) /\
  READ_LE16 b 8 = uint16_t (flags e) /\
  READ_LE16 b 10 = uint16_t (comp_method e) /\
  READ_LE32 b 16 = uint32_t (crc32 e) /\
  READ_LE32 b 20 = uint32_t (comp_size e) /\
  READ_LE32 b 24 = uint32_t (uncomp_size e) /\
  READ_LE16 b 28 = uint16_t (filename_len e) /\
  READ_LE16 b 30 = uint16_t (extra_field_len e) /\
  READ_LE16 b 32 = uint16_t (comment_len e) /\
  READ_LE16 b 34 = 0 /\
  READ_LE16 b 36 = uint16_t (internal_attr e) /\
  READ_LE32 b 38 = uint32_t (external_attr e) /\
  READ_LE32 b 42 = uint32_t (header_offset e).
Proof.
  cbv zeta. unfold central_header.
  set (m := le32 PICOZIP__CENTRAL_MAGIC). set (vm := le16 (version_made e)).
  set (v := le16 (version_extract e)).
  set (fl := le16 (flags e)). set (cm := le16 (comp_method e)).
  set (dt := le16 (dos_time localtime e)). set (dd := le16 (dos_date localtime e)).
  set (c := le32 (crc32 e)). set (cs := le32 (comp_size e)).
  set (us := le32 (uncomp_size e)). set (fn := le16 (filename_len e)).
  set (xl := le16 (extra_field_len e)). set (cl := le16 (comment_len e)).
  set (ds := le16 0). set (ia := le16 (internal_attr e)).
  set (ea := le32 (external_attr e)). set (ho := le32 (header_offset e)).
  split; [exact (READ_LE32_le32 _ [] (vm ++ v ++ fl ++ cm ++ dt ++ dd ++ c ++ cs ++ us ++ fn ++ xl ++ cl ++ ds ++ ia ++ ea ++ ho ++ rest))|].
  split; [exact (READ_LE16_le16 _ m (v ++ fl ++ cm ++ dt ++ dd ++ c ++ cs ++ us ++ fn ++ xl ++ cl ++ ds ++ ia ++ ea ++ ho ++ rest))|].
  split; [exact (READ_LE16_le16 _ (m ++ vm) (fl ++ cm ++ dt ++ dd ++ c ++ cs ++ us ++ fn ++ xl ++ cl ++ ds ++ ia ++ ea ++ ho ++ rest))|].
  split; [exact (READ_LE16_le16 _ (m ++ vm ++ v) (cm ++ dt ++ dd ++ c ++ cs ++ us ++ fn ++ xl ++ cl ++ ds ++ ia ++ ea ++ ho ++ rest))|].
  split; [exact (READ_LE16_le16 _ (m ++ vm ++ v ++ fl) (dt ++ dd ++ c ++ cs ++ us ++ fn ++ xl ++ cl ++ ds ++ ia ++ ea ++ ho ++ rest))|].
  split; [exact (READ_LE32_le32 _ (m ++ vm ++ v ++ fl ++ cm ++ dt ++ dd) (cs ++ us ++ fn ++ xl ++ cl ++ ds ++ ia ++ ea ++ ho ++ rest))|].
  split; [exact (READ_LE32_le32 _ (m ++ vm ++ v ++ fl ++ cm ++ dt ++ dd ++ c) (us ++ fn ++ xl ++ cl ++ ds ++ ia ++ ea ++ ho ++ rest))|].
  split; [exact (READ_LE32_le32 _ (m ++ vm ++ v ++ fl ++ cm ++ dt ++ dd ++ c ++ cs) (fn ++ xl ++ cl ++ ds ++ ia ++ ea ++ ho ++ rest))|].
  split; [exact (READ_LE16_le16 _ (m ++ vm ++ v ++ fl ++ cm ++ dt ++ dd ++ c ++ cs ++ us) (xl ++ cl ++ ds ++ ia ++ ea ++ ho ++ rest))|].
  split; [exact (READ_LE16_le16 _ (m ++ vm ++ v ++ fl ++ cm ++ dt ++ dd ++ c ++ cs ++ us ++ fn) (cl ++ ds ++ ia ++ ea ++ ho ++ rest))|].
  split; [exact (READ_LE16_le16 _ (m ++ vm ++ v ++ fl ++ cm ++ dt ++ dd ++ c ++ cs ++ us ++ fn ++ xl) (ds ++ ia ++ ea ++ ho ++ rest))|].
  split; [exact (READ_LE16_le16 0 (m ++ vm ++ v ++ fl ++ cm ++ dt ++ dd ++ c ++ cs ++ us ++ fn ++ xl ++ cl) (ia ++ ea ++ ho ++ rest))|].
  split; [exact (READ_LE16_le16 _ (m ++ vm ++ v ++ fl ++ cm ++ dt ++ dd ++ c ++ cs ++ us ++ fn ++ xl ++ cl ++ ds) (ea ++ ho ++ rest))|].
  split; [exact (READ_LE32_le32 _ (m ++ vm ++ v ++ fl ++ cm ++ dt ++ dd ++ c ++ cs ++ us ++ fn ++ xl ++ cl ++ ds ++ ia) (ho ++ rest))|].
  exact (READ_LE32_le32 _ (m ++ vm ++ v ++ fl ++ cm ++ dt ++ dd ++ c ++ cs ++ us ++ fn ++ xl ++ cl ++ ds ++ ia ++ ea) rest).
Qed.

(** The fields of an end record, read back. *)
Lemma eocd_record_read (n cd_size cd_offset comment_len : Z) (rest : list byte) :
  let b := eocd_record n cd_size cd_offset comment_len ++ rest in
  READ_LE32 b 0 = uint32_t PICOZIP__EOCD_MAGIC /\
  READ_LE16 b 4 = 0 /\
  READ_LE16 b 6 = 0 /\
  READ_LE16 b 8 = uint16_t n /\
  READ_LE16 b 10 = uint16_t n /\
  READ_LE32 b 12 = uint32_t cd_size /\
  READ_LE32 b 16 = uint32_t cd_offset /\
  READ_LE16 b 20 = uint16_t comment_len.
Proof.
  cbv zeta. unfold eocd_record.
  set (m := le32 PICOZIP__EOCD_MAGIC). set (z := le16 0). set (k := le16 n).
  set (s := le32 cd_size). set (o := le32 cd_offset). set (c := le16 comment_len).
  split; [exact (READ_LE32_le32 _ [] (z ++ z ++ k ++ k ++ s ++ o ++ c ++ rest))|].
  split; [exact (READ_LE16_le16 0 m (z ++ k ++ k ++ s ++ o ++ c ++ rest))|].
  split; [exact (READ_LE16_le16 0 (m ++ z) (k ++ k ++ s ++ o ++ c ++ rest))|].
  split; [exact (READ_LE16_le16 _ (m ++ z ++ z) (k ++ s ++ o ++ c ++ rest))|].
  split; [exact (READ_LE16_le16 _ (m ++ z ++ z ++ k) (s ++ o ++ c ++ rest))|].
  split; [exact (READ_LE32_le32 _ (m ++ z ++ z ++ k ++ k) (o ++ c ++ rest))|].
  split; [exact (READ_LE32_le32 _ (m ++ z ++ z ++ k ++ k ++ s) (c ++ rest))|].
  exact (READ_LE16_le16 _ (m ++ z ++ z ++ k ++ k ++ s ++ o) rest).
Qed.

(** The fields of a data descriptor, read back. *)
Lemma data_descriptor_read (e : picozip__entry) (rest : list byte) :
  let b := data_descriptor e ++ rest in
  READ_LE32 b 0 = uint32_t PICOZIP__DATADESC_MAGIC /\
  READ_LE32 b 4 = uint32_t (crc32 e) /\
  READ_LE32 b 8 = uint32_t (comp_size e) /\
  READ_LE32 b 12 = uint32_t (uncomp_size e).
Proof.
  cbv zeta. unfold data_descriptor.
  set (m := le32 PICOZIP__DATADESC_MAGIC). set (c := le32 (crc32 e)).
  set (cs := le32 (comp_size e)). set (us := le32 (uncomp_size e)).
  split; [exact (READ_LE32_le32 _ [] (c ++ cs ++ us ++ rest))|].
  split; [exact (READ_LE32_le32 _ m (cs ++ us ++ rest))|].
  split; [exact (READ_LE32_le32 _ (m ++ c) (us ++ rest))|].
  exact (READ_LE32_le32 _ (m ++ c ++ cs) rest).
Qed.

End FieldProofs.

Section BlockProofs.

Variable localtime : Z -> tm.

Lemma length_len {A} (l : list A) : length l = Z.to_nat (len l).
Proof. unfold len. rewrite Nat2Z.id. reflexivity. Qed.

Lemma firstn_app_plus {A} (l1 l2 : list A) (n m : nat) :
  n = length l1 -> firstn (n + m) (l1 ++ l2) = l1 ++ firstn m l2.
Proof. intros ->. apply firstn_app_2. Qed.

Lemma local_metadata_central (e : picozip__entry) :
  entry_wf e ->
  firstn (Z.to_nat (filename_len e + extra_field_len e)) (central_metadata e)
  = local_metadata e.
Proof.
  intros (Hf & Hx & Hc & Hlen). unfold central_metadata, local_metadata, memcpy.
  rewrite firstn_firstn. f_equal. lia.
Qed.

(** The metadata of an entry whose file name fits its length field. *)
Lemma op_metadata_parts (off : Z) (op : add_op) :
  op_valid op = true ->
  strlen (op_path op) < 2 ^ 16 ->
  let e := op_entry off op in
  filename_len e = strlen (op_path op) /\
  local_metadata e
  = memcpy (op_path op) (strlen (op_path op)) ++ timestamp_field (mod_time e) /\
  exists tail,
    central_metadata e
    = memcpy (op_path op) (strlen (op_path op)) ++ timestamp_field (mod_time e) ++ tail.
Proof.
  intros Hv Hsmall e.
  pose proof (strlen_range (op_path op)) as Hs.
  assert (Hfl : filename_len e = strlen (op_path op)).
  { cbn [e op_entry filename_len]. apply uint16_t_small. lia. }
  assert (Hname : length (memcpy (op_path op) (strlen (op_path op)))
                  = Z.to_nat (strlen (op_path op))).
  { rewrite length_len, len_memcpy by assumption. reflexivity. }
  assert (Hmeta : metadata e
                  = memcpy (op_path op) (strlen (op_path op))
                    ++ timestamp_field (mod_time e)
                    ++ memcpy (span_bytes (op_comment op)) (span_len (op_comment op)))
    by reflexivity.
  split; [exact Hfl|]. split.
  - unfold local_metadata, memcpy at 1. rewrite Hmeta, Hfl.
    change (extra_field_len e) with 9.
    rewrite Z2Nat.inj_add by lia.
    rewrite firstn_app_plus by (symmetry; exact Hname).
    f_equal; apply (firstn_app_exact (timestamp_field (mod_time e))); reflexivity.
  - unfold central_metadata, memcpy at 1. rewrite Hmeta, Hfl.
    change (extra_field_len e) with 9.
    pose proof (uint16_t_range (span_len (op_comment op))) as Hc.
    change (comment_len e) with (uint16_t (span_len (op_comment op))).
    replace (Z.to_nat (strlen (op_path op) + 9 + uint16_t (span_len (op_comment op))))
      with (Z.to_nat (strlen (op_path op))
            + (9 + Z.to_nat (uint16_t (span_len (op_comment op)))))%nat by lia.
    rewrite firstn_app_plus by (symmetry; exact Hname).
    eexists. f_equal.
    rewrite (firstn_app_plus (timestamp_field (mod_time e))) by reflexivity.
    reflexivity.
Qed.

(** What the block of an entry and its central-directory record have in
    common. *)
Lemma block_record_agree (off : Z) (op : add_op) :
  op_valid op = true ->
  let e := op_entry off op in
  let block := op_block localtime off op in
  let record := central_record localtime e in
  len block = entry_disk_size e (op_content op) /\
  len record = central_record_size e /\
  READ_LE32 block 0 = PICOZIP__LOCAL_MAGIC /\
  READ_LE32 record 0 = PICOZIP__CENTRAL_MAGIC /\
  READ_LE32 record 42 = uint32_t off /\
  slice block 4 10 = slice record 6 10 /\
  slice block 26 4 = slice record 28 4 /\
  READ_LE16 block 26 = filename_len e /\
  READ_LE16 block 28 = extra_field_len e /\
  slice block 30 (Z.to_nat (filename_len e + extra_field_len e))
  = slice record 46 (Z.to_nat (filename_len e + extra_field_len e)) /\
  (Z.testbit (READ_LE16 block 6) 3 = false ->
   slice block 14 12 = slice record 16 12) /\
  (Z.testbit (READ_LE16 block 6) 3 = true ->
   slice block 14 12 = repeat x00 12 /\
   slice block (Z.to_nat (len block - 16)) 16
   = le32 PICOZIP__DATADESC_MAGIC ++ slice record 16 12) /\
  (strlen (op_path op) < 2 ^ 16 ->
   slice block (30 + Z.to_nat (filename_len e)) 9 = timestamp_field (mod_time e) /\
   slice record (46 + Z.to_nat (filename_len e)) 9 = timestamp_field (mod_time e)).
Proof.
  intros Hv e block record.
  pose proof (op_entry_wf off op Hv) as Hwf. fold e in Hwf.
  pose proof (local_header_read localtime (op_entry_at_header off op)
                (local_metadata e ++ op_content op ++ op_trailer off op)) as Hl.
  pose proof (central_header_read localtime e (central_metadata e)) as Hc.
  cbv zeta in Hl, Hc.
  change (local_header localtime (op_entry_at_header off op)
          ++ local_metadata e ++ op_content op ++ op_trailer off op)
    with block in Hl.
  change (central_header localtime e ++ central_metadata e) with record in Hc.
  destruct Hl as (Hl0 & _ & Hl6 & _ & _ & _ & _ & _ & _ & Hl26 & Hl28).
  destruct Hc as (Hc0 & _ & _ & _ & _ & _ & _ & _ & _ & _ & _ & _ & _ & _ & Hc42).
  assert (Hblock : len block = entry_disk_size e (op_content op)).
  { unfold block. rewrite len_op_block by assumption. apply op_size_disk. }
  assert (Hlm : length (local_metadata e)
                = Z.to_nat (filename_len e + extra_field_len e)).
  { rewrite length_len, len_local_metadata by assumption. reflexivity. }
  split; [exact Hblock|].
  split; [apply len_central_record, Hwf|].
  split; [exact Hl0|]. split; [exact Hc0|].
  split; [rewrite Hc42; apply uint32_t_idem|].
  split; [destruct op; reflexivity|].
  split; [destruct op; reflexivity|].
  split; [rewrite Hl26; destruct op; apply uint16_t_idem|].
  split; [rewrite Hl28; destruct op; reflexivity|].
  split.
  { unfold block, op_block, record, central_record.
    rewrite (slice_middle (local_header localtime (op_entry_at_header off op))
                          (local_metadata e)) by (reflexivity || (symmetry; exact Hlm)).
    unfold slice. rewrite skipn_app_exact by reflexivity.
    symmetry. apply local_metadata_central, Hwf. }
  split.
  { rewrite Hl6. destruct op; [reflexivity|]. intros Hbit. discriminate Hbit. }
  split.
  { rewrite Hl6. destruct op as [p d m c|p fp c]; intros Hbit; [discriminate Hbit|].
    split; [reflexivity|].
    assert (Hpre : Z.to_nat (len block - 16)
                   = length (local_header localtime
                               (op_entry_at_header off (Add_file p fp c))
                             ++ local_metadata e
                             ++ op_content (Add_file p fp c))).
    { rewrite Hblock. unfold entry_disk_size.
      rewrite !length_app, Hlm.
      change (length (local_header localtime
                        (op_entry_at_header off (Add_file p fp c)))) with 30%nat.
      rewrite (length_len (op_content _)).
      change (Z.testbit (flags e) 3) with true. cbv iota.
      destruct Hwf as (? & ? & ? & ?).
      pose proof (len_nonneg (op_content (Add_file p fp c))).
      unfold PICOZIP__LOCAL_HEADER_SIZE, PICOZIP__DATADESC_SIZE. lia. }
    unfold slice at 1. rewrite Hpre. unfold block, op_block. fold e.
    set (H := local_header localtime (op_entry_at_header off (Add_file p fp c))).
    set (M := local_metadata e). set (C := op_content (Add_file p fp c)).
    rewrite (app_assoc M C), (app_assoc H (M ++ C)).
    rewrite (skipn_app_exact (H ++ M ++ C) _ _ eq_refl).
    reflexivity. }
  intros Hsmall.
  destruct (op_metadata_parts off op Hv Hsmall) as (Hfl & Hlocal & tail & Hcentral).
  fold e in Hfl, Hlocal, Hcentral.
  assert (Hname : length (memcpy (op_path op) (strlen (op_path op)))
                  = Z.to_nat (filename_len e)).
  { rewrite Hfl, length_len, len_memcpy by apply strlen_range. reflexivity. }
  split.
  - unfold block, op_block. fold e. rewrite Hlocal.
    replace (local_header localtime (op_entry_at_header off op)
             ++ (memcpy (op_path op) (strlen (op_path op))
                 ++ timestamp_field (mod_time e))
             ++ op_content op ++ op_trailer off op)
      with ((local_header localtime (op_entry_at_header off op)
             ++ memcpy (op_path op) (strlen (op_path op)))
            ++ timestamp_field (mod_time e)
            ++ op_content op ++ op_trailer off op)
      by (rewrite <- !app_assoc; reflexivity).
    apply slice_middle; [|reflexivity].
    rewrite length_app, Hname. reflexivity.
  - unfold record, central_record. rewrite Hcentral.
    replace (central_header localtime e
             ++ memcpy (op_path op) (strlen (op_path op))
             ++ timestamp_field (mod_time e) ++ tail)
      with ((central_header localtime e
             ++ memcpy (op_path op) (strlen (op_path op)))
            ++ timestamp_field (mod_time e) ++ tail)
      by (rewrite <- !app_assoc; reflexivity).
    apply slice_middle; [|reflexivity].
    rewrite length_app, Hname. reflexivity.
Qed.

End BlockProofs.

Section SplitProofs.

Variable localtime : Z -> tm.

End SplitProofs.

(** ** An archive of one entry *)

Section OneEntryProofs.

Variable localtime : Z -> tm.
Local Abbreviation file := (picozip_file picozip__mem_file).

(** A fresh in-memory archive with one entry, finalized: the block of
    the entry, its central-directory record, the end record and the
    comment. *)
Lemma one_entry_archive (op : add_op) (f f' : file) (comment : span) :
  add_entry localtime mem_session op = Some (PICOZIP_OK, f) ->
  picozip_end_ex localtime f comment = Some (PICOZIP_OK, f') ->
  let e := op_entry 0 op in
  op_valid op = true /\
  span_valid comment = true /\
  entries_data f 0 = Some e /\
  mem_data (userdata f) = op_block localtime 0 op /\
  offset f = size_t (op_size op) /\
  mem_data (userdata f')
  = op_block localtime 0 op
    ++ central_record localtime e
    ++ eocd_record 1 (central_record_size e) (offset f) (span_len comment)
    ++ span_bytes comment.
Proof.
  intros Hop Hend e.
  assert (Hrun : add_all localtime mem_session [op] = Some f)
    by (cbn [add_all]; rewrite Hop; reflexivity).
  assert (Hlen : len [op] <= 1) by (unfold len; cbn [length]; lia).
  destruct (finalized_layout localtime [op] f f' comment Hrun Hlen Hend)
    as (Hv & Hc & Hn & Hslots & Hd & _ & Hblocks & Hout & _ & _).
  cbn [ops_ledger ops_blocks] in Hslots, Hblocks, Hout.
  rewrite app_nil_r in Hblocks.
  apply add_entry_ok_ledger in Hop.
  destruct Hop as (Hvop & _ & _ & _ & _ & Ho & _).
  cbn [mem_session offset] in Ho. rewrite Z.add_0_l in Ho.
  assert (Hcd : cd_size_after 0 [e] = central_record_size e).
  { unfold cd_size_after. cbn [fold_left]. rewrite Z.add_0_l. apply size_t_small.
    unfold central_record_size, e.
    cbn [op_entry filename_len extra_field_len comment_len].
    pose proof (uint16_t_range (strlen (op_path op))).
    pose proof (uint16_t_range (PICOZIP__ATTR_SIZE + PICOZIP__LOCAL_TIMESTAMP_SIZE)).
    pose proof (uint16_t_range (span_len (op_comment op))).
    unfold PICOZIP__CD_HEADER_SIZE. lia. }
  split; [exact Hvop|]. split; [exact Hc|].
  split; [exact (Hslots 0%nat e eq_refl)|].
  split; [exact Hblocks|]. split; [exact Ho|].
  rewrite Hout, Hblocks. fold e. rewrite Hcd.
  unfold central_directory. cbn [map concat]. rewrite app_nil_r.
  change (len [op]) with 1. reflexivity.
Qed.

End OneEntryProofs.

(** ** The array of the ledger *)

(** C3, at the failing input: five calls of [picozip_new_entry_mem_ex] of
    one byte each on a fresh in-memory archive, and [picozip_end].  The
    five calls return [PICOZIP_OK] and write the five blocks, 210 bytes,
    whose local headers carry the version 20 and the flags 0.  The array
    of entry pointers was allocated when the vector's [size] was 0, for
    one pointer, and [size] is 0 still: the pointers of the calls after
    the first were stored beyond it, on memory that belongs to other
    blocks.  What the entries of the calls before the last hold by then
    is not determined, nor is what the central directory would carry for
    them. *)
Theorem C3_central_records_not_determined :
  add_all utc_localtime mem_session five_adds = Some five_session /\
  len (picozip_get_mem five_session) = 210 /\
  READ_LE32 (picozip_get_mem five_session) 0 = PICOZIP__LOCAL_MAGIC /\
  READ_LE16 (picozip_get_mem five_session) 4 = PICOZIP__MIN_VERSION /\
  READ_LE16 (picozip_get_mem five_session) 6 = 0 /\
  num_entries five_session = 5 /\
  size (entries five_session) = 0 /\
  cap (entries five_session) = sizeof_entry_ptr /\
  map (slot_in_bounds (entries five_session)) [0; 1; 2; 3; 4]
  = [true; false; false; false; false] /\
  entries_data five_session 0 = None /\
  picozip_end_ex utc_localtime five_session (Null 0) = None.
Proof.
  split; [apply session_of_some; vm_compute; reflexivity|].
  repeat split; vm_compute; reflexivity.
Qed.

(** ** The end record *)

Section EndProofs.

Variable localtime : Z -> tm.
Local Abbreviation file := (picozip_file picozip__mem_file).

Lemma op_entry_small (off : Z) (op : add_op) : entry_small (op_entry off op).
Proof.
  unfold entry_small. cbn [op_entry filename_len extra_field_len comment_len].
  pose proof (uint16_t_range (strlen (op_path op))).
  pose proof (uint16_t_range (PICOZIP__ATTR_SIZE + PICOZIP__LOCAL_TIMESTAMP_SIZE)).
  pose proof (uint16_t_range (span_len (op_comment op))).
  lia.
Qed.

Lemma ops_ledger_small (ops : list add_op) :
  forall off, Forall entry_small (ops_ledger off ops).
Proof.
  induction ops as [|op ops IH]; intros off; cbn [ops_ledger]; constructor.
  - apply op_entry_small.
  - apply IH.
Qed.

(** On the in-memory destination finalizing an archive of at most one
    entry goes through, [malloc] never failing. *)
Lemma finalize_mem (ops : list add_op) (f : file) (comment : span) :
  add_all localtime mem_session ops = Some f ->
  len ops <= 1 ->
  span_valid comment = true ->
  span_len comment < 2 ^ 64 ->
  exists f', picozip_end_ex localtime f comment = Some (PICOZIP_OK, f').
Proof.
  intros Hrun Hlen Hv Hsmall.
  pose proof (mem_run_ledger localtime ops f Hrun Hlen) as Hslots.
  pose proof (add_all_spec localtime ops _ _ Hrun) as Hspec.
  cbn [mem_session num_entries offset] in Hspec.
  destruct Hspec as (_ & _ & _ & Hn & _ & Hvs); [lia|lia|].
  rewrite Z.add_0_l in Hn.
  destruct (add_all_mem localtime ops _ _ mem_session_sink mem_session_ready Hrun)
    as (Hsink & _ & Hr).
  apply (picozip_end_ex_mem localtime f comment (ops_ledger 0 ops)); try assumption.
  - rewrite Hn. unfold len. rewrite ops_ledger_length. reflexivity.
  - apply ops_ledger_wf, Hvs.
  - apply ops_ledger_small.
Qed.

Lemma len_eocd_record (n cd_size cd_offset comment_len : Z) :
  len (eocd_record n cd_size cd_offset comment_len) = PICOZIP__EOCD_SIZE.
Proof. reflexivity. Qed.

(** The end record of a finalized archive of at most one entry on the
    in-memory destination, field by field. *)
Lemma finalized_end_record (ops : list add_op) (f f' : file) (comment : span) :
  add_all localtime mem_session ops = Some f ->
  len ops <= 1 ->
  picozip_end_ex localtime f comment = Some (PICOZIP_OK, f') ->
  exists cd eocd,
    mem_data (userdata f') = mem_data (userdata f) ++ cd ++ eocd ++ span_bytes comment /\
    cd = central_directory localtime (ops_ledger 0 ops) /\
    len cd = cd_total (ops_ledger 0 ops) /\
    len eocd = PICOZIP__EOCD_SIZE /\
    READ_LE32 eocd 0 = PICOZIP__EOCD_MAGIC /\
    READ_LE16 eocd 4 = 0 /\
    READ_LE16 eocd 6 = 0 /\
    READ_LE16 eocd 8 = uint16_t (len ops) /\
    READ_LE16 eocd 10 = uint16_t (len ops) /\
    READ_LE32 eocd 12 = uint32_t (len cd) /\
    READ_LE32 eocd 16 = uint32_t (offset f) /\
    READ_LE16 eocd 20 = uint16_t (span_len comment) /\
    offset f = size_t (len (mem_data (userdata f))).
Proof.
  intros Hrun Hlen Hend.
  destruct (finalized_layout localtime ops f f' comment Hrun Hlen Hend)
    as (Hv & Hc & Hn & _ & _ & _ & _ & Hout & _ & _).
  destruct (add_all_mem_offset localtime ops f Hrun) as (_ & _ & Hoff).
  set (es := ops_ledger 0 ops) in *.
  assert (Hwf : Forall entry_wf es) by (apply ops_ledger_wf, Hv).
  pose proof (len_central_directory localtime es Hwf) as Hcd.
  exists (central_directory localtime es),
    (eocd_record (len ops) (cd_size_after 0 es) (offset f) (span_len comment)).
  destruct (eocd_record_read (len ops) (cd_size_after 0 es) (offset f)
                             (span_len comment) [])
    as (R0 & R4 & R6 & R8 & R10 & R12 & R16 & R20).
  rewrite app_nil_r in R0, R4, R6, R8, R10, R12, R16, R20.
  split; [exact Hout|]. split; [reflexivity|]. split; [exact Hcd|].
  split; [apply len_eocd_record|]. split; [exact R0|]. split; [exact R4|].
  split; [exact R6|]. split; [exact R8|]. split; [exact R10|].
  split.
  { rewrite R12, Hcd, <- uint32_t_size_t, cd_size_after_total, uint32_t_size_t.
    reflexivity. }
  split; [exact R16|]. split; [exact R20|]. exact Hoff.
Qed.

End EndProofs.

(** C4, as amended.  When [picozip_end_ex] returns [PICOZIP_OK] on a
    session whose ledger holds N entries, read from the slots as they
    are when it is called, it has handed the write callback, in this
    order, the header and the metadata of a central-directory record for
    each entry, the 22 bytes of the end record and, when one is given,
    the archive comment.  The central directory takes 46 bytes plus the
    three lengths its entry records for every entry; the two counts of
    the end record are N modulo 2^16, its size field is the size of the
    central directory modulo 2^32, its offset field is the write offset
    of the session at the moment the central directory began modulo 2^32,
    and its comment length is the length passed modulo 2^16; each field
    is the plain value while that value fits the field.  With no entry,
    no comment and nothing written before, the end record is 22 bytes
    whose counters are all zero. *)
Theorem C4_end_record_fields {U : Type}
        (localtime : Z -> tm) (f f' : picozip_file U)
        (es : list picozip__entry) (comment : span) :
  num_entries f = len es ->
  slots_hold f 0 es ->
  Forall entry_wf es ->
  picozip_end_ex localtime f comment = Some (PICOZIP_OK, f') ->
  exists eocd,
    emits f f' (cd_chunks localtime es ++ [eocd]
                ++ (if span_is_null comment then [] else [span_bytes comment])) /\
    concat (cd_chunks localtime es) = central_directory localtime es /\
    len (central_directory localtime es) = cd_total es /\
    len eocd = PICOZIP__EOCD_SIZE /\
    READ_LE32 eocd 0 = PICOZIP__EOCD_MAGIC /\
    READ_LE16 eocd 4 = 0 /\
    READ_LE16 eocd 6 = 0 /\
    READ_LE16 eocd 8 = uint16_t (len es) /\
    READ_LE16 eocd 10 = uint16_t (len es) /\
    READ_LE32 eocd 12 = uint32_t (cd_total es) /\
    READ_LE32 eocd 16 = uint32_t (offset f) /\
    READ_LE16 eocd 20 = uint16_t (span_len comment) /\
    (len es < 2 ^ 16 -> READ_LE16 eocd 8 = len es /\ READ_LE16 eocd 10 = len es) /\
    (cd_total es < 2 ^ 32 -> READ_LE32 eocd 12 = cd_total es) /\
    (0 <= offset f < 2 ^ 32 -> READ_LE32 eocd 16 = offset f) /\
    (es = [] -> offset f = 0 -> span_len comment = 0 ->
     eocd = [x50; x4b; x05; x06; x00; x00; x00; x00; x00; x00; x00; x00;
             x00; x00; x00; x00; x00; x00; x00; x00; x00; x00]).
Proof.
  intros Hn Hslots Hwf Hend.
  destruct (picozip_end_ex_ok localtime f f' comment es Hend Hn Hslots Hwf)
    as (Hc & E & _).
  unfold end_chunks in E. rewrite Hn in E.
  pose proof (len_central_directory localtime es Hwf) as Hcd.
  exists (eocd_record (len es) (cd_size_after 0 es) (offset f) (span_len comment)).
  destruct (eocd_record_read (len es) (cd_size_after 0 es) (offset f)
                             (span_len comment) [])
    as (R0 & R4 & R6 & R8 & R10 & R12 & R16 & R20).
  rewrite app_nil_r in R0, R4, R6, R8, R10, R12, R16, R20.
  assert (R12' : READ_LE32 (eocd_record (len es) (cd_size_after 0 es) (offset f)
                                        (span_len comment)) 12
                 = uint32_t (cd_total es)).
  { rewrite R12, <- uint32_t_size_t, cd_size_after_total, uint32_t_size_t.
    reflexivity. }
  assert (Htotal : 0 <= cd_total es).
  { rewrite <- Hcd. apply len_nonneg. }
  split; [exact E|]. split; [apply concat_cd_chunks|]. split; [exact Hcd|].
  split; [apply len_eocd_record|]. split; [exact R0|]. split; [exact R4|].
  split; [exact R6|]. split; [exact R8|]. split; [exact R10|].
  split; [exact R12'|]. split; [exact R16|]. split; [exact R20|].
  split.
  { intros Hsmall. pose proof (len_nonneg es).
    rewrite R8, R10, uint16_t_small by lia. split; reflexivity. }
  split.
  { intros Hsmall. rewrite R12'. apply uint32_t_small. lia. }
  split.
  { intros Hsmall. rewrite R16. apply uint32_t_small. lia. }
  intros -> -> ->. reflexivity.
Qed.

(** C4 at work: the archive of one streamed entry, finalized with a
    comment; and a fresh archive, finalized with none. *)
Lemma C4_witness :
  (num_entries stream_session = len [op_entry 0 add_stream] /\
   slots_hold stream_session 0 [op_entry 0 add_stream] /\
   Forall entry_wf [op_entry 0 add_stream] /\
   picozip_end_ex utc_localtime stream_session (Ptr (bytes_of_string "one entry"))
   = Some (PICOZIP_OK, stream_archive) /\
   len [op_entry 0 add_stream] < 2 ^ 16 /\
   cd_total [op_entry 0 add_stream] < 2 ^ 32 /\
   0 <= offset stream_session < 2 ^ 32 /\
   exists eocd,
     emits stream_session stream_archive
           (cd_chunks utc_localtime [op_entry 0 add_stream] ++ [eocd]
            ++ (if span_is_null (Ptr (bytes_of_string "one entry")) then []
                else [span_bytes (Ptr (bytes_of_string "one entry"))])) /\
     concat (cd_chunks utc_localtime [op_entry 0 add_stream])
     = central_directory utc_localtime [op_entry 0 add_stream] /\
     len (central_directory utc_localtime [op_entry 0 add_stream])
     = cd_total [op_entry 0 add_stream] /\
     len eocd = PICOZIP__EOCD_SIZE /\
     READ_LE32 eocd 0 = PICOZIP__EOCD_MAGIC /\
     READ_LE16 eocd 4 = 0 /\
     READ_LE16 eocd 6 = 0 /\
     READ_LE16 eocd 8 = uint16_t (len [op_entry 0 add_stream]) /\
     READ_LE16 eocd 10 = uint16_t (len [op_entry 0 add_stream]) /\
     READ_LE32 eocd 12 = uint32_t (cd_total [op_entry 0 add_stream]) /\
     READ_LE32 eocd 16 = uint32_t (offset stream_session) /\
     READ_LE16 eocd 20 = uint16_t (span_len (Ptr (bytes_of_string "one entry"))) /\
     (READ_LE16 eocd 8 = len [op_entry 0 add_stream] /\
      READ_LE16 eocd 10 = len [op_entry 0 add_stream]) /\
     READ_LE32 eocd 12 = cd_total [op_entry 0 add_stream] /\
     READ_LE32 eocd 16 = offset stream_session) /\
  (num_entries mem_session = len (@nil picozip__entry) /\
   slots_hold mem_session 0 [] /\
   Forall entry_wf [] /\
   picozip_end_ex utc_localtime mem_session (Null 0) = Some (PICOZIP_OK, ended_once) /\
   offset mem_session = 0 /\
   span_len (Null 0) = 0 /\
   exists eocd,
     emits mem_session ended_once
           (cd_chunks utc_localtime [] ++ [eocd]
            ++ (if span_is_null (Null 0) then [] else [span_bytes (Null 0)])) /\
     eocd = [x50; x4b; x05; x06; x00; x00; x00; x00; x00; x00; x00; x00;
             x00; x00; x00; x00; x00; x00; x00; x00; x00; x00]).
Proof.
  split.
  - assert (H1 : num_entries stream_session = len [op_entry 0 add_stream])
      by (vm_compute; reflexivity).
    assert (H2 : slots_hold stream_session 0 [op_entry 0 add_stream]).
    { intros k e Hk. destruct k as [|k]; [|destruct k; discriminate].
      injection Hk as <-. vm_compute. reflexivity. }
    assert (H3 : Forall entry_wf [op_entry 0 add_stream]).
    { repeat constructor; vm_compute; discriminate. }
    assert (H4 : picozip_end_ex utc_localtime stream_session
                                (Ptr (bytes_of_string "one entry"))
                 = Some (PICOZIP_OK, stream_archive))
      by (apply ok_session_of_ok; vm_compute; reflexivity).
    assert (H5 : len [op_entry 0 add_stream] < 2 ^ 16) by (vm_compute; reflexivity).
    assert (H6 : cd_total [op_entry 0 add_stream] < 2 ^ 32) by (vm_compute; reflexivity).
    assert (H7 : 0 <= offset stream_session < 2 ^ 32)
      by (split; vm_compute; [discriminate|reflexivity]).
    split; [exact H1|]. split; [exact H2|]. split; [exact H3|]. split; [exact H4|].
    split; [exact H5|]. split; [exact H6|]. split; [exact H7|].
    destruct (C4_end_record_fields utc_localtime stream_session stream_archive
                [op_entry 0 add_stream] (Ptr (bytes_of_string "one entry")) H1 H2 H3 H4)
      as (eocd & Hfacts).
    exists eocd.
    do 12 (destruct Hfacts as [Hfact Hfacts]; split; [exact Hfact|clear Hfact]).
    destruct Hfacts as (Hcount & Hsize & Hoffset & _).
    split; [exact (Hcount H5)|]. split; [exact (Hsize H6)|]. exact (Hoffset H7).
  - assert (H1 : num_entries mem_session = len (@nil picozip__entry)) by reflexivity.
    assert (H2 : slots_hold mem_session 0 []).
    { intros k e Hk. destruct k; discriminate. }
    assert (H3 : Forall entry_wf []) by constructor.
    assert (H4 : picozip_end_ex utc_localtime mem_session (Null 0)
                 = Some (PICOZIP_OK, ended_once))
      by (apply ok_session_of_ok; vm_compute; reflexivity).
    split; [exact H1|]. split; [exact H2|]. split; [exact H3|]. split; [exact H4|].
    split; [reflexivity|]. split; [reflexivity|].
    destruct (C4_end_record_fields utc_localtime mem_session ended_once
                [] (Null 0) H1 H2 H3 H4)
      as (eocd & Hfacts).
    exists eocd.
    destruct Hfacts as (Hemits & Hfacts). split; [exact Hemits|].
    do 14 (destruct Hfacts as [_ Hfacts]).
    exact (Hfacts eq_refl eq_refl eq_refl).
Defined.

(** C4, refuted as stated: when the one entry of an archive holds four
    gibibytes the central directory begins at write offset 2^32 + 40, and
    the end record declares the offset 40. *)
Lemma C4_counterexample :
  exists (f f' : picozip_file picozip__mem_file) (cd eocd : list byte),
    add_all utc_localtime mem_session [add_four_gib] = Some f /\
    picozip_end_ex utc_localtime f (Null 0) = Some (PICOZIP_OK, f') /\
    mem_data (userdata f') = mem_data (userdata f) ++ cd ++ eocd /\
    len (mem_data (userdata f)) = 2 ^ 32 + 40 /\
    offset f = 2 ^ 32 + 40 /\
    len eocd = PICOZIP__EOCD_SIZE /\
    READ_LE32 eocd 16 = 40 /\
    READ_LE32 eocd 16 <> offset f.
Proof.
  destruct (four_gib_ledger utc_localtime) as (f & _ & H1 & _ & _ & _ & Hoff & _ & _).
  assert (Hrun : add_all utc_localtime mem_session [add_four_gib] = Some f)
    by (cbn [add_all]; rewrite H1; reflexivity).
  assert (Hlen : len [add_four_gib] <= 1) by (cbn; lia).
  destruct (finalize_mem utc_localtime _ f (Null 0) Hrun Hlen eq_refl)
    as (f' & Hend); [cbn; lia|].
  destruct (finalized_end_record utc_localtime _ f f' (Null 0) Hrun Hlen Hend)
    as (cd & eocd & Hout & _ & _ & Hle & _ & _ & _ & _ & _ & _ & R16 & _ & Hsz).
  destruct (add_all_mem_offset utc_localtime _ f Hrun) as (_ & Hbytes & _).
  exists f, f', cd, eocd.
  cbn [span_bytes] in Hout. rewrite app_nil_r in Hout.
  assert (Hfield : READ_LE32 eocd 16 = 40) by (rewrite R16, Hoff; reflexivity).
  split; [exact Hrun|]. split; [exact Hend|]. split; [exact Hout|].
  split.
  { rewrite Hbytes. cbn [ops_size]. rewrite op_size_add_four_gib. reflexivity. }
  split; [exact Hoff|]. split; [exact Hle|]. split; [exact Hfield|].
  rewrite Hfield, Hoff. lia.
Qed.

(** ** Streamed entries *)

Section StreamProofs.

Lemma crc_field_range (content : list byte) :
  0 <= Z.lxor (picozip__crc32 content PICOZIP__CRC_START) 0xFFFFFFFF < 2 ^ 32.
Proof.
  apply lxor_range32; [apply picozip__crc32_range|lia].
Qed.

Lemma op_entry_crc32 (off : Z) (op : add_op) :
  crc32 (op_entry off op) = Z.lxor (Reference.crc32 (op_content op)) 0xFFFFFFFF /\
  uint32_t (crc32 (op_entry off op)) = crc32 (op_entry off op).
Proof.
  cbn [op_entry crc32]. split.
  - rewrite picozip__crc32_reference. reflexivity.
  - apply uint32_t_small, crc_field_range.
Qed.

Lemma len_data_descriptor (e : picozip__entry) :
  len (data_descriptor e) = PICOZIP__DATADESC_SIZE.
Proof. reflexivity. Qed.

End StreamProofs.

(** C5, as amended.  A call of [picozip_new_entry_file] that returns
    [PICOZIP_OK] hands the write callback, in this order: a 30-byte local
    header with flags 8 (bit 3) and with checksum and both sizes zero; the
    file name and the extra field; the content of the stream in one
    buffer for every read; and a 16-byte data descriptor with the magic
    0x08074b50, whose checksum field is the bitwise complement of the
    CRC-32 of the content, and whose two size fields are the length of
    the content modulo 2^32 (the length itself below four gibibytes).
    The entry the ledger holds for the call has the same three values,
    and the same flags. *)
Theorem C5_streamed_entry_descriptor {U : Type}
        (localtime : Z -> tm) (f f' : picozip_file U)
        (path : option (list byte)) (fptr : option FILE) (comment : span) :
  picozip_new_entry_file localtime f path fptr comment = Some (PICOZIP_OK, f') ->
  let content := op_content (Add_file path fptr comment) in
  exists fa e header name_extra chunks descriptor,
    allocated f fa /\
    emits fa f' ([header; name_extra] ++ chunks ++ [descriptor]) /\
    concat chunks = content /\
    entries_data f' (num_entries f) = Some e /\
    len header = PICOZIP__LOCAL_HEADER_SIZE /\
    READ_LE32 header 0 = PICOZIP__LOCAL_MAGIC /\
    READ_LE16 header 6 = PICOZIP__FLAG_DATADESC /\
    Z.testbit (READ_LE16 header 6) 3 = true /\
    READ_LE32 header 14 = 0 /\
    READ_LE32 header 18 = 0 /\
    READ_LE32 header 22 = 0 /\
    len name_extra = filename_len e + extra_field_len e /\
    len descriptor = PICOZIP__DATADESC_SIZE /\
    READ_LE32 descriptor 0 = PICOZIP__DATADESC_MAGIC /\
    READ_LE32 descriptor 4 = Z.lxor (Reference.crc32 content) 0xFFFFFFFF /\
    READ_LE32 descriptor 8 = uint32_t (len content) /\
    READ_LE32 descriptor 12 = uint32_t (len content) /\
    (len content < 2 ^ 32 ->
     READ_LE32 descriptor 8 = len content /\ READ_LE32 descriptor 12 = len content) /\
    flags e = PICOZIP__FLAG_DATADESC /\
    crc32 e = READ_LE32 descriptor 4 /\
    comp_size e = READ_LE32 descriptor 8 /\
    uncomp_size e = READ_LE32 descriptor 12.
Proof.
  intros H content.
  apply picozip_new_entry_file_ok in H. cbv zeta in H.
  set (op := Add_file path fptr comment) in *.
  destruct H as (Hv & fa & chunks & Hal & Hcat & E & D).
  set (e := op_entry (offset f) op) in *.
  assert (Hwf : entry_wf e) by (apply op_entry_wf, Hv).
  exists fa, e, (local_header localtime (op_entry_at_header (offset f) op)),
    (local_metadata e), chunks, (data_descriptor e).
  destruct (local_header_read localtime (op_entry_at_header (offset f) op) [])
    as (L0 & _ & L6 & _ & _ & _ & L14 & L18 & L22 & _).
  rewrite app_nil_r in L0, L6, L14, L18, L22.
  destruct (data_descriptor_read e []) as (D0 & D4 & D8 & D12).
  rewrite app_nil_r in D0, D4, D8, D12.
  destruct (op_entry_crc32 (offset f) op) as [Hcrc Hcrc32].
  fold e in Hcrc, Hcrc32. fold content in Hcrc.
  assert (Hsz : uint32_t (comp_size e) = uint32_t (len content)).
  { unfold e. cbn [op_entry comp_size]. apply uint32_t_idem. }
  assert (Hsz' : uint32_t (uncomp_size e) = uint32_t (len content)).
  { unfold e. cbn [op_entry uncomp_size]. apply uint32_t_idem. }
  split; [exact Hal|]. split; [exact E|]. split; [exact Hcat|].
  split; [rewrite D; apply slot_store_same|].
  split; [apply len_local_header|]. split; [exact L0|].
  split; [rewrite L6; reflexivity|]. split; [rewrite L6; reflexivity|].
  split; [rewrite L14; reflexivity|]. split; [rewrite L18; reflexivity|].
  split; [rewrite L22; reflexivity|].
  split; [apply len_local_metadata, Hwf|].
  split; [apply len_data_descriptor|]. split; [exact D0|].
  split; [rewrite D4, Hcrc32; exact Hcrc|].
  split; [rewrite D8; exact Hsz|]. split; [rewrite D12; exact Hsz'|].
  split.
  { intros Hsmall. pose proof (len_nonneg content).
    rewrite D8, D12, Hsz, Hsz', uint32_t_small by lia. split; reflexivity. }
  split; [reflexivity|].
  split; [rewrite D4, Hcrc32; reflexivity|].
  split; [rewrite D8, Hsz; reflexivity|]. rewrite D12, Hsz'. reflexivity.
Qed.

(** C5 at work: the stream ["hello world!"] on a fresh in-memory
    archive. *)
Lemma C5_witness :
  picozip_new_entry_file utc_localtime mem_session
    (Some (bytes_of_string "test.txt")) (Some hello_file) (Null 0)
  = Some (PICOZIP_OK, streamed_hello) /\
  let content :=
    op_content (Add_file (Some (bytes_of_string "test.txt")) (Some hello_file) (Null 0)) in
  exists fa e header name_extra chunks descriptor,
    allocated mem_session fa /\
    emits fa streamed_hello ([header; name_extra] ++ chunks ++ [descriptor]) /\
    concat chunks = content /\
    entries_data streamed_hello (num_entries mem_session) = Some e /\
    len header = PICOZIP__LOCAL_HEADER_SIZE /\
    READ_LE32 header 0 = PICOZIP__LOCAL_MAGIC /\
    READ_LE16 header 6 = PICOZIP__FLAG_DATADESC /\
    Z.testbit (READ_LE16 header 6) 3 = true /\
    READ_LE32 header 14 = 0 /\
    READ_LE32 header 18 = 0 /\
    READ_LE32 header 22 = 0 /\
    len name_extra = filename_len e + extra_field_len e /\
    len descriptor = PICOZIP__DATADESC_SIZE /\
    READ_LE32 descriptor 0 = PICOZIP__DATADESC_MAGIC /\
    READ_LE32 descriptor 4 = Z.lxor (Reference.crc32 content) 0xFFFFFFFF /\
    READ_LE32 descriptor 8 = uint32_t (len content) /\
    READ_LE32 descriptor 12 = uint32_t (len content) /\
    (len content < 2 ^ 32 ->
     READ_LE32 descriptor 8 = len content /\ READ_LE32 descriptor 12 = len content) /\
    flags e = PICOZIP__FLAG_DATADESC /\
    crc32 e = READ_LE32 descriptor 4 /\
    comp_size e = READ_LE32 descriptor 8 /\
    uncomp_size e = READ_LE32 descriptor 12.
Proof.
  assert (H : picozip_new_entry_file utc_localtime mem_session
                (Some (bytes_of_string "test.txt")) (Some hello_file) (Null 0)
              = Some (PICOZIP_OK, streamed_hello))
    by (apply ok_session_of_ok; vm_compute; reflexivity).
  split; [exact H|].
  exact (C5_streamed_entry_descriptor utc_localtime mem_session streamed_hello
           (Some (bytes_of_string "test.txt")) (Some hello_file) (Null 0) H).
Defined.

(** C5, refuted as stated: the data descriptor written for the stream
    ["hello world!"] carries the checksum [0xFC4B3D92]; the CRC-32 of
    these twelve bytes is [0x03B4C26D]. *)
Lemma C5_counterexample :
  picozip_new_entry_file utc_localtime mem_session
    (Some (bytes_of_string "test.txt")) (Some hello_file) (Null 0)
  = Some (PICOZIP_OK, streamed_hello) /\
  len (picozip_get_mem streamed_hello) = 75 /\
  slice (picozip_get_mem streamed_hello) 47 12 = contents hello_file /\
  READ_LE32 (picozip_get_mem streamed_hello) 59 = PICOZIP__DATADESC_MAGIC /\
  READ_LE32 (picozip_get_mem streamed_hello) 63 = 0xFC4B3D92 /\
  Reference.crc32 (contents hello_file) = 0x03B4C26D /\
  READ_LE32 (picozip_get_mem streamed_hello) 63 <> Reference.crc32 (contents hello_file).
Proof.
  split; [apply ok_session_of_ok; vm_compute; reflexivity|].
  split; [vm_compute; reflexivity|]. split; [vm_compute; reflexivity|].
  split; [vm_compute; reflexivity|]. split; [vm_compute; reflexivity|].
  split; [vm_compute; reflexivity|].
  vm_compute. discriminate.
Qed.

(** ** Finalizing more than once *)

Section AgainProofs.

Variable localtime : Z -> tm.

(** The one check of [picozip_end_ex] is that of its arguments. *)
Lemma picozip_end_ex_einval {U} (f : picozip_file U) (comment : span) :
  (exists f', picozip_end_ex localtime f comment = Some (PICOZIP_EINVAL, f'))
  <-> span_valid comment = false.
Proof.
  unfold picozip_end_ex, span_valid.
  destruct (negb (span_len comment =? 0) && span_is_null comment); cbn [negb].
  - split; [reflexivity|]. intros _. exists f. reflexivity.
  - split; [|discriminate]. intros [f' H]. exfalso.
    destruct (cd_loop localtime _ 0 f 0) as [[[ok f1] cd_size]|]; [|discriminate].
    destruct ok; [|discriminate].
    match type of H with
    | context [PICOZIP__FLUSH ?g ?src ?n] =>
        destruct (PICOZIP__FLUSH g src n) as [ok2 f2]
    end.
    destruct ok2; cbn [negb] in H; [|discriminate].
    destruct (span_is_null comment); cbn [negb] in H; [discriminate|].
    match type of H with
    | context [PICOZIP__FLUSH ?g ?src ?n] =>
        destruct (PICOZIP__FLUSH g src n) as [ok3 f3]
    end.
    destruct ok3; discriminate.
Qed.

End AgainProofs.

(** C6, as amended.  [picozip_end_ex] keeps no record of having run and
    checks nothing but its arguments.  A call that returns [PICOZIP_OK]
    leaves the counter of entries, the slots of the ledger and the
    callbacks as they were.  A second call returns [PICOZIP_EINVAL]
    exactly when it is handed a null comment with a length other than 0;
    with valid arguments it returns [PICOZIP_OK] or [PICOZIP_EIO], and
    [PICOZIP_OK] whenever the write callback accepts the buffers it is
    handed; and when it returns [PICOZIP_OK] it has written the central
    directory of the same entries and an end record once more, after
    what the first call wrote. *)
Theorem C6_finalize_twice {U : Type}
        (localtime : Z -> tm) (f f1 : picozip_file U)
        (es : list picozip__entry) (comment comment' : span) :
  num_entries f = len es ->
  slots_hold f 0 es ->
  Forall entry_wf es ->
  picozip_end_ex localtime f comment = Some (PICOZIP_OK, f1) ->
  (num_entries f1 = num_entries f /\ entries_data f1 = entries_data f /\
   alloc_cb f1 = alloc_cb f /\ write_cb f1 = write_cb f /\ free_cb f1 = free_cb f) /\
  ((exists g, picozip_end_ex localtime f1 comment' = Some (PICOZIP_EINVAL, g))
   <-> span_valid comment' = false) /\
  (span_valid comment' = true ->
   (forall r f2, picozip_end_ex localtime f1 comment' = Some (r, f2) ->
                 r = PICOZIP_OK \/ r = PICOZIP_EIO) /\
   (forall f2, picozip_end_ex localtime f1 comment' = Some (PICOZIP_OK, f2) ->
               emits f1 f2 (end_chunks localtime (num_entries f) (offset f1) es comment')) /\
   (accepted_all (write_cb f1) (userdata f1)
                 (end_chunks localtime (num_entries f) (offset f1) es comment') ->
    exists f2, picozip_end_ex localtime f1 comment' = Some (PICOZIP_OK, f2))).
Proof.
  intros Hn Hslots Hwf Hend.
  destruct (picozip_end_ex_ok localtime f f1 comment es Hend Hn Hslots Hwf)
    as (_ & E & D).
  destruct E as (Ha & Hw & Hf & Hn1 & _ & _ & _).
  assert (Hn1' : num_entries f1 = len es) by congruence.
  assert (Hslots1 : slots_hold f1 0 es).
  { intros k e Hk. rewrite D. apply Hslots, Hk. }
  split; [repeat split; assumption|].
  split; [apply picozip_end_ex_einval|].
  intros Hv'. split; [|split].
  - intros r f2 H2.
    destruct (picozip_end_ex_keeps localtime f1 f2 comment' r H2) as ([Hr|[Hr|Hr]] & _);
      [left; exact Hr|right; exact Hr|].
    exfalso. subst r.
    assert (Hinv : span_valid comment' = false)
      by (apply (picozip_end_ex_einval localtime f1 comment'); exists f2; exact H2).
    congruence.
  - intros f2 H2.
    destruct (picozip_end_ex_ok localtime f1 f2 comment' es H2 Hn1' Hslots1 Hwf)
      as (_ & E2 & _).
    rewrite Hn1 in E2. exact E2.
  - intros Hacc. rewrite <- Hn1 in Hacc.
    apply (picozip_end_ex_accepted localtime f1 comment' es Hn1' Hslots1 Hwf Hv' Hacc).
Qed.

(** C6 at work: the archive of one streamed entry, finalized. *)
Lemma C6_witness :
  num_entries stream_session = len [op_entry 0 add_stream] /\
  slots_hold stream_session 0 [op_entry 0 add_stream] /\
  Forall entry_wf [op_entry 0 add_stream] /\
  picozip_end_ex utc_localtime stream_session (Ptr (bytes_of_string "one entry"))
  = Some (PICOZIP_OK, stream_archive) /\
  span_valid (Null 0) = true /\
  accepted_all (write_cb stream_archive) (userdata stream_archive)
               (end_chunks utc_localtime (num_entries stream_session)
                           (offset stream_archive) [op_entry 0 add_stream] (Null 0)) /\
  (num_entries stream_archive = num_entries stream_session /\
   entries_data stream_archive = entries_data stream_session /\
   alloc_cb stream_archive = alloc_cb stream_session /\
   write_cb stream_archive = write_cb stream_session /\
   free_cb stream_archive = free_cb stream_session) /\
  ((exists g, picozip_end_ex utc_localtime stream_archive (Null 0)
              = Some (PICOZIP_EINVAL, g))
   <-> span_valid (Null 0) = false) /\
  (forall r f2, picozip_end_ex utc_localtime stream_archive (Null 0) = Some (r, f2) ->
                r = PICOZIP_OK \/ r = PICOZIP_EIO) /\
  (forall f2, picozip_end_ex utc_localtime stream_archive (Null 0)
              = Some (PICOZIP_OK, f2) ->
              emits stream_archive f2
                    (end_chunks utc_localtime (num_entries stream_session)
                                (offset stream_archive) [op_entry 0 add_stream]
                                (Null 0))) /\
  exists f2, picozip_end_ex utc_localtime stream_archive (Null 0)
             = Some (PICOZIP_OK, f2).
Proof.
  assert (H1 : num_entries stream_session = len [op_entry 0 add_stream])
    by (vm_compute; reflexivity).
  assert (H2 : slots_hold stream_session 0 [op_entry 0 add_stream]).
  { intros k e Hk. destruct k as [|k]; [|destruct k; discriminate].
    injection Hk as <-. vm_compute. reflexivity. }
  assert (H3 : Forall entry_wf [op_entry 0 add_stream]).
  { repeat constructor; vm_compute; discriminate. }
  assert (H4 : picozip_end_ex utc_localtime stream_session
                              (Ptr (bytes_of_string "one entry"))
               = Some (PICOZIP_OK, stream_archive))
    by (apply ok_session_of_ok; vm_compute; reflexivity).
  assert (H5 : span_valid (Null 0) = true) by reflexivity.
  assert (H6 : accepted_all (write_cb stream_archive) (userdata stream_archive)
                 (end_chunks utc_localtime (num_entries stream_session)
                             (offset stream_archive) [op_entry 0 add_stream] (Null 0))).
  { vm_compute. repeat split. }
  split; [exact H1|]. split; [exact H2|]. split; [exact H3|]. split; [exact H4|].
  split; [exact H5|]. split; [exact H6|].
  destruct (C6_finalize_twice utc_localtime stream_session stream_archive
              [op_entry 0 add_stream] (Ptr (bytes_of_string "one entry")) (Null 0)
              H1 H2 H3 H4) as (Hkept & Hinval & Hvalid).
  split; [exact Hkept|]. split; [exact Hinval|].
  destruct (Hvalid H5) as (Hstatus & Hwritten & Haccepted).
  split; [exact Hstatus|]. split; [exact Hwritten|]. exact (Haccepted H6).
Defined.

(** C6, refuted as stated: on a fresh in-memory archive the second call
    of [picozip_end_ex] returns [PICOZIP_OK] as the first did, and writes
    a second end record after the first; [picozip_end] does the same. *)
Lemma C6_counterexample :
  picozip_end_ex utc_localtime mem_session (Null 0) = Some (PICOZIP_OK, ended_once) /\
  picozip_end_ex utc_localtime ended_once (Null 0) = Some (PICOZIP_OK, ended_twice) /\
  len (picozip_get_mem ended_once) = 22 /\
  len (picozip_get_mem ended_twice) = 44 /\
  picozip_get_mem ended_twice
  = picozip_get_mem ended_once ++ eocd_record 0 0 22 0 /\
  option_map fst (picozip_end utc_localtime (Some ended_once)) = Some PICOZIP_OK /\
  option_map fst (picozip_end utc_localtime (Some ended_once)) <> Some PICOZIP_EINVAL.
Proof.
  split; [apply ok_session_of_ok; vm_compute; reflexivity|].
  split; [apply ok_session_of_ok; vm_compute; reflexivity|].
  split; [vm_compute; reflexivity|]. split; [vm_compute; reflexivity|].
  split; [vm_compute; reflexivity|]. split; [vm_compute; reflexivity|].
  vm_compute. discriminate.
Qed.

(** ** The first entry of an archive *)

Section EntryProofs.

Context {U : Type}.
Variable localtime : Z -> tm.

(** Finalizing right after the first entry was added: the ledger is
    that entry, and its central-directory record is what the write
    callback is handed first. *)
Lemma first_entry_record (f f' f'' : picozip_file U) (op : add_op)
      (archive_comment : span) :
  add_entry localtime f op = Some (PICOZIP_OK, f') ->
  num_entries f = 0 ->
  picozip_end_ex localtime f' archive_comment = Some (PICOZIP_OK, f'') ->
  emits f' f'' (end_chunks localtime 1 (offset f') [op_entry (offset f) op]
                           archive_comment).
Proof.
  intros Hop Hn Hend.
  apply add_entry_ok_ledger in Hop.
  destruct Hop as (Hv & _ & _ & _ & Hn' & _ & D).
  rewrite Hn in Hn', D. change (size_t (0 + 1)) with 1 in Hn'.
  assert (Hslots : slots_hold f' 0 [op_entry (offset f) op]).
  { intros k e Hk. destruct k as [|k]; [|destruct k; discriminate].
    injection Hk as <-. rewrite D. apply entries_store_same. }
  assert (Hwf : Forall entry_wf [op_entry (offset f) op]).
  { constructor; [apply op_entry_wf, Hv|constructor]. }
  destruct (picozip_end_ex_ok localtime f' f'' archive_comment
              [op_entry (offset f) op] Hend Hn' Hslots Hwf)
    as (_ & E & _).
  rewrite Hn' in E. exact E.
Qed.

End EntryProofs.




(** ** Failed add operations *)

Section FailureProofs.

Context {U : Type}.
Variable localtime : Z -> tm.

Lemma result_session_of (d : picozip_file U) (o : option (status * picozip_file U))
      (r : status) :
  option_map fst o = Some r -> o = Some (r, ok_session_of d o).
Proof.
  destruct o as [[r' f]|]; cbn; [|discriminate]. intros H. injection H as ->. reflexivity.
Qed.

(** A call whose arguments pass the checks is refused for no other
    reason than memory or a write. *)
Lemma add_entry_valid_status (f f' : picozip_file U) (op : add_op) (r : status) :
  add_entry localtime f op = Some (r, f') ->
  op_valid op = true ->
  r = PICOZIP_OK \/ r = PICOZIP_ENOMEM \/ r = PICOZIP_EIO.
Proof.
  intros H Hv.
  assert (Hdec : r = PICOZIP_OK \/ r <> PICOZIP_OK)
    by (destruct r; (left; reflexivity) || (right; discriminate)).
  destruct Hdec as [Hok|Hne]; [left; exact Hok|right].
  destruct (add_entry_fail localtime f f' op r H Hne) as [(_ & Hinv & _)|[[Hr _]|Hr]].
  - rewrite Hv in Hinv. discriminate.
  - left. exact Hr.
  - right. exact Hr.
Qed.

(** [PICOZIP_ENOMEM] is the report of a failed allocation of the entry,
    and of nothing else. *)
Lemma add_entry_enomem (f f' : picozip_file U) (op : add_op) (r : status) :
  op_valid op = true ->
  add_entry localtime f op = Some (r, f') ->
  (r = PICOZIP_ENOMEM <-> fst (picozip__alloc_entry f (op_alloc_size op)) = None).
Proof.
  intros Hv H.
  destruct op as [[path|] data mtime comment|[path|] [fptr|] comment];
    try discriminate Hv.
  - cbn [add_entry] in H.
    cbn [op_valid] in Hv. apply andb_true_iff in Hv. destruct Hv as [Hd Hc].
    apply span_valid_true in Hd, Hc.
    unfold picozip_new_entry_mem_ex in H. rewrite Hd, Hc in H. cbn [orb] in H.
    unfold op_alloc_size. cbn [op_path op_comment].
    destruct (picozip__alloc_entry f _) as [[idx|] fa] eqn:Ha; cbn [fst].
    2:{ injection H as <- _. split; reflexivity. }
    set (e := Build_picozip__entry _ _ _ _ _ _ _ _ _ _ _ _ _ _ _) in H.
    set (f0 := update_entry fa idx (fun _ => e)) in H.
    destruct (picozip__write_local_entry localtime f0 e) as [r1 f1] eqn:Hw.
    assert (Hr1 : r1 = PICOZIP_OK \/ r1 = PICOZIP_EIO).
    { destruct r1; try (left; reflexivity);
        apply picozip__write_local_entry_fail in Hw; try discriminate;
        right; apply Hw. }
    destruct Hr1 as [-> | ->].
    + destruct (PICOZIP__FLUSH f1 _ _) as [ok f2].
      destruct ok; cbn [negb] in H.
      * injection H as <- _. split; discriminate.
      * apply roll_back_status in H. subst r. split; discriminate.
    + apply roll_back_status in H. subst r. split; discriminate.
  - cbn [add_entry] in H.
    cbn [op_valid] in Hv. apply andb_true_iff in Hv. destruct Hv as [Hc Hst].
    apply span_valid_true in Hc.
    unfold picozip_new_entry_file in H. rewrite Hc in H.
    unfold op_alloc_size. cbn [op_path op_comment].
    destruct (fstat fptr) as [mtime|errno]; [|discriminate Hst].
    destruct (picozip__alloc_entry f _) as [[idx|] fa] eqn:Ha; cbn [fst].
    2:{ injection H as <- _. split; reflexivity. }
    set (e := Build_picozip__entry _ _ _ _ _ _ _ _ _ _ _ _ _ _ _) in H.
    set (f0 := update_entry fa idx (fun _ => e)) in H.
    destruct (picozip__write_local_entry localtime f0 e) as [r1 f1] eqn:Hw.
    assert (Hr1 : r1 = PICOZIP_OK \/ r1 = PICOZIP_EIO).
    { destruct r1; try (left; reflexivity);
        apply picozip__write_local_entry_fail in Hw; try discriminate;
        right; apply Hw. }
    destruct Hr1 as [-> | ->].
    2:{ apply roll_back_status in H. subst r. split; discriminate. }
    destruct (stream_loop _ _ _ 0 _) as [[[ok f3] file_size]|]; [|discriminate].
    destruct ok.
    2:{ injection H as <- _. split; discriminate. }
    match type of H with
    | context [entries_data ?g idx] => destruct (entries_data g idx); [|discriminate]
    end.
    match type of H with
    | context [PICOZIP__FLUSH ?g ?src ?n] =>
        destruct (PICOZIP__FLUSH g src n) as [ok f6]
    end.
    destruct ok; cbn [negb] in H.
    + injection H as <- _. split; discriminate.
    + apply roll_back_status in H. subst r. split; discriminate.
Qed.

End FailureProofs.

(** C8, at the failing input: the first step of [test_picozip_write_error]
    of the test suite, a call of [picozip_new_entry_mem] on a fresh
    session whose write callback refuses the local header.  The call has
    appended its entry to slot 0 and counted it; taking it back,
    [picozip__free_last_entry] reads the slot at the counter, slot 1,
    which no store has written, and hands that to the free callback.
    With a free callback that takes whatever it is handed, the call
    returns [PICOZIP_EIO] with the counter back at 0: the callback has
    been called once, with what slot 1 holds, and the entry is in slot 0
    still, never freed.  With the free callback of the test suite, which
    passes its argument to [free], the call has no defined result. *)
Theorem C8_rollback_frees_the_next_slot :
  add_entry utc_localtime logging_session add_small = Some (PICOZIP_EIO, write_failed) /\
  num_entries write_failed = 0 /\
  entries_data write_failed 0 = Some (op_entry 0 add_small) /\
  entries_data write_failed 1 = None /\
  userdata write_failed = [None] /\
  ~ In (Some (op_entry 0 add_small)) (userdata write_failed) /\
  add_entry utc_localtime refusing_session add_small = None.
Proof.
  split; [apply result_session_of; vm_compute; reflexivity|].
  split; [vm_compute; reflexivity|]. split; [vm_compute; reflexivity|].
  split; [vm_compute; reflexivity|]. split; [vm_compute; reflexivity|].
  split; [|vm_compute; reflexivity].
  assert (Hlog : userdata write_failed = [None]) by (vm_compute; reflexivity).
  rewrite Hlog. intros [H|[]]. discriminate H.
Qed.

(** ** The length fields *)

(** The metadata of an entry whose file name and comment fit their
    length fields: the name, the time stamp, the comment. *)
Lemma op_central_metadata (off : Z) (op : add_op) :
  op_valid op = true ->
  strlen (op_path op) < 2 ^ 16 ->
  span_len (op_comment op) < 2 ^ 16 ->
  let e := op_entry off op in
  comment_len e = len (span_bytes (op_comment op)) /\
  central_metadata e
  = memcpy (op_path op) (strlen (op_path op))
    ++ timestamp_field (op_mod_time op)
    ++ span_bytes (op_comment op).
Proof.
  intros Hv Hsmall Hcsmall e.
  pose proof (strlen_range (op_path op)) as Hs.
  pose proof (op_comment_valid op Hv) as Hcv.
  pose proof (span_len_nonneg _ Hcv) as Hc0.
  pose proof (span_valid_true _ Hcv) as Hcn.
  assert (Hcl : comment_len e = span_len (op_comment op)).
  { cbn [e op_entry comment_len]. apply uint16_t_small. lia. }
  assert (Hfl : filename_len e = strlen (op_path op)).
  { cbn [e op_entry filename_len]. apply uint16_t_small. lia. }
  split; [rewrite Hcl; symmetry; apply len_span_bytes, Hcn|].
  assert (Hmeta : metadata e
                  = memcpy (op_path op) (strlen (op_path op))
                    ++ timestamp_field (op_mod_time op)
                    ++ memcpy (span_bytes (op_comment op)) (span_len (op_comment op)))
    by reflexivity.
  rewrite (memcpy_span _ Hcn) in Hmeta.
  unfold central_metadata. rewrite <- Hmeta.
  replace (filename_len e + extra_field_len e + comment_len e) with (len (metadata e)).
  - apply memcpy_all.
  - rewrite Hfl, Hcl. change (extra_field_len e) with 9.
    unfold e. cbn [op_entry metadata]. apply len_entry_metadata, Hcv.
Qed.

(** A call of an add operation that returns [PICOZIP_OK] has written
    the local header first and the file name and extra field next. *)
Lemma add_entry_ok_header {U : Type} (localtime : Z -> tm)
      (f f' : picozip_file U) (op : add_op) :
  add_entry localtime f op = Some (PICOZIP_OK, f') ->
  op_valid op = true /\
  exists fa rest,
    allocated f fa /\
    emits fa f' (local_header localtime (op_entry_at_header (offset f) op)
                 :: local_metadata (op_entry (offset f) op) :: rest) /\
    entries_data f' (num_entries f) = Some (op_entry (offset f) op).
Proof.
  destruct op as [path data mtime comment|path fptr comment]; cbn [add_entry]; intros H.
  - apply picozip_new_entry_mem_ex_ok in H.
    destruct H as (Hv & fa & Hal & E & D).
    split; [exact Hv|]. exists fa. eexists. split; [exact Hal|].
    split; [exact E|]. rewrite D. apply entries_store_same.
  - apply picozip_new_entry_file_ok in H.
    destruct H as (Hv & fa & chunks & Hal & _ & E & D).
    split; [exact Hv|]. exists fa. eexists. split; [exact Hal|].
    split; [exact E|]. rewrite D. apply entries_store_same.
Qed.

(** C9, as amended.  A call of an add operation that returns
    [PICOZIP_OK] has written a local header whose file-name length field
    is the length of the path modulo 2^16 and whose extra-field length
    field is 9, followed by as many bytes of file name and extra field
    as the two fields count; the entry it leaves in the ledger records
    these two lengths and, as its comment length, the length passed for
    the comment modulo 2^16.  When the path is shorter than 65536 bytes
    the bytes after the header are the path and the 9 bytes of the
    time-stamp field.  When the entry is the first of the archive and
    the archive is finalized next, the header of the central-directory
    record, the first buffer [picozip_end_ex] writes, points at the
    entry by its offset field and carries the three length fields of the
    entry, and the buffer after it holds as many bytes as they count:
    the path, the time-stamp field and the comment, and nothing else,
    when path and comment are shorter than 65536 bytes. *)
Theorem C9_length_fields {U : Type} (localtime : Z -> tm)
        (f f' : picozip_file U) (op : add_op) :
  add_entry localtime f op = Some (PICOZIP_OK, f') ->
  let name := memcpy (op_path op) (strlen (op_path op)) in
  let extra := timestamp_field (op_mod_time op) in
  let comment := span_bytes (op_comment op) in
  exists fa e header name_extra rest,
    allocated f fa /\
    emits fa f' (header :: name_extra :: rest) /\
    entries_data f' (num_entries f) = Some e /\
    len header = PICOZIP__LOCAL_HEADER_SIZE /\
    READ_LE32 header 0 = PICOZIP__LOCAL_MAGIC /\
    READ_LE16 header 26 = uint16_t (strlen (op_path op)) /\
    READ_LE16 header 28 = PICOZIP__ATTR_SIZE + PICOZIP__LOCAL_TIMESTAMP_SIZE /\
    len name_extra = READ_LE16 header 26 + READ_LE16 header 28 /\
    filename_len e = uint16_t (strlen (op_path op)) /\
    extra_field_len e = PICOZIP__ATTR_SIZE + PICOZIP__LOCAL_TIMESTAMP_SIZE /\
    comment_len e = uint16_t (span_len (op_comment op)) /\
    header_offset e = uint32_t (offset f) /\
    (strlen (op_path op) < 2 ^ 16 ->
     len name = strlen (op_path op) /\
     READ_LE16 header 26 = len name /\
     READ_LE16 header 28 = len extra /\
     name_extra = name ++ extra) /\
    (num_entries f = 0 ->
     forall (archive_comment : span) (f'' : picozip_file U),
       picozip_end_ex localtime f' archive_comment = Some (PICOZIP_OK, f'') ->
       exists record_header record_metadata rest',
         emits f' f'' (record_header :: record_metadata :: rest') /\
         len record_header = PICOZIP__CD_HEADER_SIZE /\
         READ_LE32 record_header 0 = PICOZIP__CENTRAL_MAGIC /\
         READ_LE32 record_header 42 = header_offset e /\
         READ_LE16 record_header 28 = uint16_t (strlen (op_path op)) /\
         READ_LE16 record_header 30 = PICOZIP__ATTR_SIZE + PICOZIP__LOCAL_TIMESTAMP_SIZE /\
         READ_LE16 record_header 32 = uint16_t (span_len (op_comment op)) /\
         len record_metadata
         = READ_LE16 record_header 28 + READ_LE16 record_header 30
           + READ_LE16 record_header 32 /\
         (strlen (op_path op) < 2 ^ 16 ->
          span_len (op_comment op) < 2 ^ 16 ->
          READ_LE16 record_header 28 = len name /\
          READ_LE16 record_header 30 = len extra /\
          READ_LE16 record_header 32 = len comment /\
          record_metadata = name ++ extra ++ comment)).
Proof.
  intros Hop name extra comment.
  destruct (add_entry_ok_header localtime f f' op Hop) as (Hv & fa & rest & Hal & E & He).
  set (e := op_entry (offset f) op) in *.
  set (eh := op_entry_at_header (offset f) op) in *.
  exists fa, e, (local_header localtime eh), (local_metadata e), rest.
  pose proof (op_entry_wf (offset f) op Hv) as Hwf. fold e in Hwf.
  pose proof (local_header_read localtime eh []) as Hl.
  pose proof (central_header_read localtime e []) as Hc.
  cbv zeta in Hl, Hc. rewrite app_nil_r in Hl, Hc.
  destruct Hl as (L0 & _ & _ & _ & _ & _ & _ & _ & _ & L26 & L28).
  destruct Hc as (C0 & _ & _ & _ & _ & _ & _ & _ & C28 & C30 & C32 & _ & _ & _ & C42).
  assert (Hfl : filename_len e = uint16_t (strlen (op_path op))) by reflexivity.
  assert (Hel : extra_field_len e = PICOZIP__ATTR_SIZE + PICOZIP__LOCAL_TIMESTAMP_SIZE)
    by reflexivity.
  assert (Hcl : comment_len e = uint16_t (span_len (op_comment op))) by reflexivity.
  assert (Hfh : filename_len eh = filename_len e) by (unfold eh, e; destruct op; reflexivity).
  assert (Heh : extra_field_len eh = extra_field_len e)
    by (unfold eh, e; destruct op; reflexivity).
  assert (R26 : READ_LE16 (local_header localtime eh) 26 = uint16_t (strlen (op_path op)))
    by (rewrite L26, Hfh, Hfl; apply uint16_t_idem).
  assert (R28 : READ_LE16 (local_header localtime eh) 28
                = PICOZIP__ATTR_SIZE + PICOZIP__LOCAL_TIMESTAMP_SIZE)
    by (rewrite L28, Heh, Hel; reflexivity).
  assert (Q28 : READ_LE16 (central_header localtime e) 28 = uint16_t (strlen (op_path op)))
    by (rewrite C28, Hfl; apply uint16_t_idem).
  assert (Q30 : READ_LE16 (central_header localtime e) 30
                = PICOZIP__ATTR_SIZE + PICOZIP__LOCAL_TIMESTAMP_SIZE)
    by (rewrite C30, Hel; reflexivity).
  assert (Q32 : READ_LE16 (central_header localtime e) 32
                = uint16_t (span_len (op_comment op)))
    by (rewrite C32, Hcl; apply uint16_t_idem).
  pose proof (strlen_range (op_path op)) as Hs.
  assert (Hname : len name = strlen (op_path op)) by (apply len_memcpy, Hs).
  split; [exact Hal|]. split; [exact E|]. split; [exact He|].
  split; [apply len_local_header|]. split; [exact L0|].
  split; [exact R26|]. split; [exact R28|].
  split; [rewrite R26, R28, <- Hfl, <- Hel; apply len_local_metadata, Hwf|].
  split; [exact Hfl|]. split; [exact Hel|]. split; [exact Hcl|].
  split; [reflexivity|].
  split.
  { intros Hsmall.
    destruct (op_metadata_parts (offset f) op Hv Hsmall) as (_ & Hlocal & _).
    fold e in Hlocal.
    split; [exact Hname|].
    split; [rewrite R26, Hname; apply uint16_t_small; lia|].
    split; [rewrite R28; reflexivity|]. exact Hlocal. }
  intros Hn archive_comment f'' Hend.
  pose proof (first_entry_record localtime f f' f'' op archive_comment Hop Hn Hend) as E2.
  unfold end_chunks in E2. cbn [cd_chunks flat_map app] in E2. fold e in E2.
  exists (central_header localtime e), (central_metadata e). eexists.
  split; [exact E2|].
  split; [apply len_central_header|]. split; [exact C0|].
  split; [rewrite C42; apply uint32_t_idem|].
  split; [exact Q28|]. split; [exact Q30|]. split; [exact Q32|].
  split; [rewrite Q28, Q30, Q32, <- Hfl, <- Hel, <- Hcl; apply len_central_metadata, Hwf|].
  intros Hsmall Hcsmall.
  destruct (op_central_metadata (offset f) op Hv Hsmall Hcsmall) as (Hcl' & Hcentral).
  fold e in Hcl', Hcentral.
  pose proof (span_len_nonneg _ (op_comment_valid op Hv)) as Hc0.
  assert (Hlc : len comment = span_len (op_comment op))
    by (apply len_span_bytes, span_valid_true, op_comment_valid, Hv).
  split; [rewrite Q28, Hname; apply uint16_t_small; lia|].
  split; [rewrite Q30; reflexivity|].
  split; [rewrite Q32, Hlc; apply uint16_t_small; lia|].
  exact Hcentral.
Qed.

(** C9 at work: the streamed entry, which has a comment, as the first
    entry of an in-memory archive. *)
Lemma C9_witness :
  add_entry utc_localtime mem_session add_stream = Some (PICOZIP_OK, stream_session) /\
  strlen (op_path add_stream) < 2 ^ 16 /\
  span_len (op_comment add_stream) < 2 ^ 16 /\
  num_entries mem_session = 0 /\
  picozip_end_ex utc_localtime stream_session (Ptr (bytes_of_string "one entry"))
  = Some (PICOZIP_OK, stream_archive) /\
  let name := memcpy (op_path add_stream) (strlen (op_path add_stream)) in
  let extra := timestamp_field (op_mod_time add_stream) in
  let comment := span_bytes (op_comment add_stream) in
  exists fa e header name_extra rest,
    allocated mem_session fa /\
    emits fa stream_session (header :: name_extra :: rest) /\
    entries_data stream_session (num_entries mem_session) = Some e /\
    len header = PICOZIP__LOCAL_HEADER_SIZE /\
    READ_LE32 header 0 = PICOZIP__LOCAL_MAGIC /\
    READ_LE16 header 26 = uint16_t (strlen (op_path add_stream)) /\
    READ_LE16 header 28 = PICOZIP__ATTR_SIZE + PICOZIP__LOCAL_TIMESTAMP_SIZE /\
    len name_extra = READ_LE16 header 26 + READ_LE16 header 28 /\
    filename_len e = uint16_t (strlen (op_path add_stream)) /\
    extra_field_len e = PICOZIP__ATTR_SIZE + PICOZIP__LOCAL_TIMESTAMP_SIZE /\
    comment_len e = uint16_t (span_len (op_comment add_stream)) /\
    header_offset e = uint32_t (offset mem_session) /\
    (len name = strlen (op_path add_stream) /\
     READ_LE16 header 26 = len name /\
     READ_LE16 header 28 = len extra /\
     name_extra = name ++ extra) /\
    exists record_header record_metadata rest',
      emits stream_session stream_archive (record_header :: record_metadata :: rest') /\
      len record_header = PICOZIP__CD_HEADER_SIZE /\
      READ_LE32 record_header 0 = PICOZIP__CENTRAL_MAGIC /\
      READ_LE32 record_header 42 = header_offset e /\
      READ_LE16 record_header 28 = uint16_t (strlen (op_path add_stream)) /\
      READ_LE16 record_header 30 = PICOZIP__ATTR_SIZE + PICOZIP__LOCAL_TIMESTAMP_SIZE /\
      READ_LE16 record_header 32 = uint16_t (span_len (op_comment add_stream)) /\
      len record_metadata
      = READ_LE16 record_header 28 + READ_LE16 record_header 30
        + READ_LE16 record_header 32 /\
      READ_LE16 record_header 28 = len name /\
      READ_LE16 record_header 30 = len extra /\
      READ_LE16 record_header 32 = len comment /\
      record_metadata = name ++ extra ++ comment.
Proof.
  assert (H : add_entry utc_localtime mem_session add_stream
              = Some (PICOZIP_OK, stream_session))
    by (apply ok_session_of_ok; vm_compute; reflexivity).
  assert (Hname : strlen (op_path add_stream) < 2 ^ 16) by (vm_compute; reflexivity).
  assert (Hcomment : span_len (op_comment add_stream) < 2 ^ 16)
    by (vm_compute; reflexivity).
  assert (H0 : num_entries mem_session = 0) by reflexivity.
  assert (H1 : picozip_end_ex utc_localtime stream_session
                              (Ptr (bytes_of_string "one entry"))
               = Some (PICOZIP_OK, stream_archive))
    by (apply ok_session_of_ok; vm_compute; reflexivity).
  split; [exact H|]. split; [exact Hname|]. split; [exact Hcomment|].
  split; [exact H0|]. split; [exact H1|].
  destruct (C9_length_fields utc_localtime mem_session stream_session add_stream H)
    as (fa & e & header & name_extra & rest & Hfacts).
  exists fa, e, header, name_extra, rest.
  do 12 (destruct Hfacts as [Hfact Hfacts]; split; [exact Hfact|clear Hfact]).
  destruct Hfacts as [Hlocal Hcentral].
  split; [exact (Hlocal Hname)|].
  destruct (Hcentral H0 (Ptr (bytes_of_string "one entry")) stream_archive H1)
    as (record_header & record_metadata & rest' & Hrecord).
  exists record_header, record_metadata, rest'.
  do 8 (destruct Hrecord as [Hfact Hrecord]; split; [exact Hfact|clear Hfact]).
  exact (Hrecord Hname Hcomment).
Defined.

(** C9, refuted as stated: for a path of 65536 bytes the file-name
    length field of the local header is 0. *)
Lemma C9_counterexample :
  picozip_new_entry_mem_ex utc_localtime mem_session
    (Some long_path) (Ptr (bytes_of_string "hello")) 0 (Null 0)
  = Some (PICOZIP_OK, long_added) /\
  strlen long_path = 65536 /\
  READ_LE32 (picozip_get_mem long_added) 0 = PICOZIP__LOCAL_MAGIC /\
  READ_LE16 (picozip_get_mem long_added) 26 = 0 /\
  READ_LE16 (picozip_get_mem long_added) 26 <> strlen long_path.
Proof.
  split; [apply ok_session_of_ok; vm_compute; reflexivity|].
  split; [vm_compute; reflexivity|]. split; [vm_compute; reflexivity|].
  split; [vm_compute; reflexivity|].
  vm_compute. discriminate.
Qed.

(** ** The two protocols *)

Section ProtocolProofs.

Context {U : Type}.
Variable localtime : Z -> tm.

(** The checksum and the sizes of the entry of a call depend on the
    content alone. *)
Lemma op_entry_content (off : Z) (op : add_op) :
  let e := op_entry off op in
  crc32 e = Z.lxor (Reference.crc32 (op_content op)) 0xFFFFFFFF /\
  crc32 e = uint32_t (Z.lnot (Reference.crc32 (op_content op))) /\
  comp_size e = uint32_t (len (op_content op)) /\
  uncomp_size e = uint32_t (len (op_content op)).
Proof.
  cbv zeta. cbn [op_entry crc32 comp_size uncomp_size].
  rewrite picozip__crc32_reference.
  split; [reflexivity|]. split; [|split; reflexivity].
  symmetry. apply not32_as_lxor.
  rewrite <- picozip__crc32_reference. apply picozip__crc32_range.
Qed.

Lemma central_record_content (e1 e2 : picozip__entry) :
  crc32 e1 = crc32 e2 ->
  comp_size e1 = comp_size e2 ->
  uncomp_size e1 = uncomp_size e2 ->
  slice (central_record localtime e1) 16 12 = slice (central_record localtime e2) 16 12.
Proof.
  intros Hc Hs Hu. unfold central_record, central_header.
  rewrite Hc, Hs, Hu. reflexivity.
Qed.

End ProtocolProofs.

(** C10, as amended.  When [picozip_new_entry_mem_ex] and
    [picozip_new_entry_file] both return [PICOZIP_OK], on whatever
    sessions, for a buffer and a stream of the same content, the entries
    they leave in the ledger have the same [crc32], [comp_size] and
    [uncomp_size], and the twelve bytes of these fields in their
    central-directory records are the same.  The [crc32] is the bitwise
    complement, within 32 bits, of the CRC-32 of the content; both sizes
    are the length of the content modulo 2^32, and the length itself
    when the content is shorter than four gibibytes. *)
Theorem C10_known_size_and_streamed_agree {U : Type}
        (localtime : Z -> tm) (f1 f1' f2 f2' : picozip_file U)
        (path1 path2 : option (list byte)) (data : span) (fptr : FILE)
        (mtime : Z) (comment1 comment2 : span) :
  picozip_new_entry_mem_ex localtime f1 path1 data mtime comment1
  = Some (PICOZIP_OK, f1') ->
  picozip_new_entry_file localtime f2 path2 (Some fptr) comment2
  = Some (PICOZIP_OK, f2') ->
  contents fptr = span_bytes data ->
  exists e1 e2,
    entries_data f1' (num_entries f1) = Some e1 /\
    entries_data f2' (num_entries f2) = Some e2 /\
    crc32 e1 = crc32 e2 /\
    comp_size e1 = comp_size e2 /\
    uncomp_size e1 = uncomp_size e2 /\
    slice (central_record localtime e1) 16 12
    = slice (central_record localtime e2) 16 12 /\
    crc32 e1 = Z.lxor (Reference.crc32 (span_bytes data)) 0xFFFFFFFF /\
    crc32 e1 = uint32_t (Z.lnot (Reference.crc32 (span_bytes data))) /\
    comp_size e1 = uint32_t (len (span_bytes data)) /\
    uncomp_size e1 = uint32_t (len (span_bytes data)) /\
    (len (span_bytes data) < 2 ^ 32 ->
     comp_size e1 = len (span_bytes data) /\ uncomp_size e1 = len (span_bytes data)).
Proof.
  intros H1 H2 Hcontent.
  apply picozip_new_entry_mem_ex_ok in H1. apply picozip_new_entry_file_ok in H2.
  cbv zeta in H1, H2.
  destruct H1 as (_ & _ & _ & _ & D1). destruct H2 as (_ & _ & _ & _ & _ & _ & D2).
  set (op1 := Add_mem path1 data mtime comment1) in *.
  set (op2 := Add_file path2 (Some fptr) comment2) in *.
  destruct (op_entry_content (offset f1) op1) as (A1 & A2 & A3 & A4).
  destruct (op_entry_content (offset f2) op2) as (B1 & _ & B3 & B4).
  change (op_content op1) with (span_bytes data) in A1, A2, A3, A4.
  change (op_content op2) with (contents fptr) in B1, B3, B4.
  rewrite Hcontent in B1, B3, B4.
  exists (op_entry (offset f1) op1), (op_entry (offset f2) op2).
  split; [rewrite D1; apply entries_store_same|].
  split; [rewrite D2; apply entries_store_same|].
  split; [rewrite A1, B1; reflexivity|].
  split; [rewrite A3, B3; reflexivity|].
  split; [rewrite A4, B4; reflexivity|].
  split.
  { apply central_record_content; [rewrite A1, B1|rewrite A3, B3|rewrite A4, B4];
      reflexivity. }
  split; [exact A1|]. split; [exact A2|]. split; [exact A3|]. split; [exact A4|].
  intros Hsmall. pose proof (len_nonneg (span_bytes data)).
  rewrite A3, A4, uint32_t_small by lia. split; reflexivity.
Qed.

(** C10 at work: ["hello world!"] as a buffer and as a stream. *)
Lemma C10_witness :
  picozip_new_entry_mem_ex utc_localtime mem_session
    (Some (bytes_of_string "test.txt")) (Ptr (contents hello_file)) 1730559952 (Null 0)
  = Some (PICOZIP_OK, known_hello) /\
  picozip_new_entry_file utc_localtime mem_session
    (Some (bytes_of_string "test.txt")) (Some hello_file) (Null 0)
  = Some (PICOZIP_OK, streamed_hello) /\
  contents hello_file = span_bytes (Ptr (contents hello_file)) /\
  exists e1 e2,
    entries_data known_hello (num_entries mem_session) = Some e1 /\
    entries_data streamed_hello (num_entries mem_session) = Some e2 /\
    crc32 e1 = crc32 e2 /\
    comp_size e1 = comp_size e2 /\
    uncomp_size e1 = uncomp_size e2 /\
    slice (central_record utc_localtime e1) 16 12
    = slice (central_record utc_localtime e2) 16 12 /\
    crc32 e1 = Z.lxor (Reference.crc32 (span_bytes (Ptr (contents hello_file))))
                      0xFFFFFFFF /\
    crc32 e1 = uint32_t (Z.lnot (Reference.crc32 (span_bytes (Ptr (contents hello_file))))) /\
    comp_size e1 = uint32_t (len (span_bytes (Ptr (contents hello_file)))) /\
    uncomp_size e1 = uint32_t (len (span_bytes (Ptr (contents hello_file)))) /\
    (len (span_bytes (Ptr (contents hello_file))) < 2 ^ 32 ->
     comp_size e1 = len (span_bytes (Ptr (contents hello_file))) /\
     uncomp_size e1 = len (span_bytes (Ptr (contents hello_file)))).
Proof.
  assert (H1 : picozip_new_entry_mem_ex utc_localtime mem_session
                 (Some (bytes_of_string "test.txt")) (Ptr (contents hello_file))
                 1730559952 (Null 0)
               = Some (PICOZIP_OK, known_hello))
    by (apply ok_session_of_ok; vm_compute; reflexivity).
  assert (H2 : picozip_new_entry_file utc_localtime mem_session
                 (Some (bytes_of_string "test.txt")) (Some hello_file) (Null 0)
               = Some (PICOZIP_OK, streamed_hello))
    by (apply ok_session_of_ok; vm_compute; reflexivity).
  split; [exact H1|]. split; [exact H2|]. split; [reflexivity|].
  exact (C10_known_size_and_streamed_agree utc_localtime mem_session known_hello
           mem_session streamed_hello
           (Some (bytes_of_string "test.txt")) (Some (bytes_of_string "test.txt"))
           (Ptr (contents hello_file)) hello_file 1730559952 (Null 0) (Null 0)
           H1 H2 eq_refl).
Defined.

(** C10, refuted as stated: for a buffer of four gibibytes the
    known-size protocol records the sizes 0, not the length of the
    content. *)
Lemma C10_counterexample :
  exists (f : picozip_file picozip__mem_file) (e : picozip__entry),
    picozip_new_entry_mem_ex utc_localtime mem_session
      (Some (bytes_of_string "a")) (Ptr four_gib) 0 (Null 0)
    = Some (PICOZIP_OK, f) /\
    entries_data f 0 = Some e /\
    len four_gib = 2 ^ 32 /\
    comp_size e = 0 /\
    uncomp_size e = 0 /\
    comp_size e <> len four_gib /\
    uncomp_size e <> len four_gib.
Proof.
  destruct (picozip_new_entry_mem_ex_mem utc_localtime mem_session (bytes_of_string "a")
              (Ptr four_gib) 0 (Null 0) mem_session_inv add_four_gib_valid)
    as (f1 & H1 & _).
  { cbn [span_len]. rewrite len_four_gib. lia. }
  exists f1, (op_entry 0 add_four_gib).
  pose proof (picozip_new_entry_mem_ex_ok utc_localtime _ _ _ _ _ _ H1) as Hok.
  cbv zeta in Hok. destruct Hok as (_ & _ & _ & _ & D).
  assert (Hsz : comp_size (op_entry 0 add_four_gib) = 0).
  { cbn [op_entry comp_size]. unfold add_four_gib. cbn [op_content span_bytes].
    rewrite len_four_gib. reflexivity. }
  assert (Hsz' : uncomp_size (op_entry 0 add_four_gib) = 0).
  { cbn [op_entry uncomp_size]. unfold add_four_gib. cbn [op_content span_bytes].
    rewrite len_four_gib. reflexivity. }
  split; [exact H1|].
  split; [rewrite D; apply entries_store_same|].
  split; [exact len_four_gib|]. split; [exact Hsz|]. split; [exact Hsz'|].
  rewrite Hsz, Hsz', len_four_gib. split; lia.
Qed.

(** * Further properties *)

(** ** DOS time stamps *)

(** X1.  For a local time within what a DOS time stamp can hold (a year
    from 1980 to 2107, a month from 0 to 11, a day from 1 to 31, an hour
    below 24, a minute below 60 and a second below 62),
    [picozip__time_to_dostime] packs the fields so that they can be read
    back: the date holds the year since 1980 in its bits 9 to 15, the
    month counted from 1 in its bits 5 to 8 and the day in its bits 0 to
    4; the time holds the hour in its bits 11 to 15, the minute in its
    bits 5 to 10 and half the second, rounded down, in its bits 0 to 4. *)
Theorem X1_dostime_fields_read_back (localtime : Z -> tm) (t : Z) :
  80 <= tm_year (localtime t) < 208 ->
  0 <= tm_mon (localtime t) <= 11 ->
  1 <= tm_mday (localtime t) <= 31 ->
  0 <= tm_hour (localtime t) <= 23 ->
  0 <= tm_min (localtime t) <= 59 ->
  0 <= tm_sec (localtime t) <= 61 ->
  let dos_date := fst (picozip__time_to_dostime localtime t) in
  let dos_time := snd (picozip__time_to_dostime localtime t) in
  0 <= dos_date < 2 ^ 16 /\
  0 <= dos_time < 2 ^ 16 /\
  Z.shiftr dos_date 9 + 1980 = tm_year (localtime t) + 1900 /\
  Z.land (Z.shiftr dos_date 5) 15 = tm_mon (localtime t) + 1 /\
  Z.land dos_date 31 = tm_mday (localtime t) /\
  Z.shiftr dos_time 11 = tm_hour (localtime t) /\
  Z.land (Z.shiftr dos_time 5) 63 = tm_min (localtime t) /\
  Z.land dos_time 31 = tm_sec (localtime t) / 2.
Proof.
  intros Hy Hmo Hd Hh Hmi Hs. cbv zeta. unfold picozip__time_to_dostime.
  destruct (localtime t) as [sec mi hour mday mon year]. cbn [tm_year tm_mon tm_mday tm_hour tm_min tm_sec] in *.
  replace (year <? 80) with false by (symmetry; apply Z.ltb_ge; lia).
  cbn [fst snd tm_year tm_mon tm_mday tm_hour tm_min tm_sec].
  rewrite !Z.shiftl_mul_pow2 by lia. rewrite (Z.shiftr_div_pow2 sec 1) by lia.
  change (2 ^ 9) with 512. change (2 ^ 5) with 32. change (2 ^ 11) with 2048.
  change (2 ^ 1) with 2.
  assert (Hdate : uint16_t ((year + 1900 - 1980) * 512 + (mon + 1) * 32 + mday)
                  = (year + 1900 - 1980) * 512 + (mon + 1) * 32 + mday)
    by (apply uint16_t_small; lia).
  assert (Hsec : 0 <= sec / 2 <= 30) by (Z.div_mod_to_equations; lia).
  assert (Htime : uint16_t (hour * 2048 + mi * 32 + sec / 2)
                  = hour * 2048 + mi * 32 + sec / 2)
    by (apply uint16_t_small; lia).
  rewrite Hdate, Htime.
  change 15 with (Z.ones 4). change 31 with (Z.ones 5). change 63 with (Z.ones 6).
  rewrite !Z.land_ones, !Z.shiftr_div_pow2 by lia.
  change (2 ^ 9) with 512. change (2 ^ 5) with 32. change (2 ^ 11) with 2048.
  change (2 ^ 4) with 16. change (2 ^ 6) with 64.
  split; [lia|]. split; [lia|].
  repeat split.
  - assert (((year + 1900 - 1980) * 512 + (mon + 1) * 32 + mday) / 512 = year - 80)
      by (symmetry; apply (Z.div_unique _ _ _ ((mon + 1) * 32 + mday)); lia).
    lia.
  - assert (((year + 1900 - 1980) * 512 + (mon + 1) * 32 + mday) / 32
            = (year - 80) * 16 + (mon + 1))
      by (symmetry; apply (Z.div_unique _ _ _ mday); lia).
    rewrite H. symmetry. apply (Z.mod_unique _ _ (year - 80)); lia.
  - symmetry. apply (Z.mod_unique _ _ ((year - 80) * 16 + (mon + 1))); lia.
  - symmetry. apply (Z.div_unique _ _ _ (mi * 32 + sec / 2)); lia.
  - assert ((hour * 2048 + mi * 32 + sec / 2) / 32 = hour * 64 + mi)
      by (symmetry; apply (Z.div_unique _ _ _ (sec / 2)); lia).
    rewrite H. symmetry. apply (Z.mod_unique _ _ hour); lia.
  - symmetry. apply (Z.mod_unique _ _ (hour * 64 + mi)); lia.
Qed.

(** X1 at work: 2 November 2024, 15:05:52 UTC. *)
Lemma X1_witness :
  80 <= tm_year (utc_localtime 1730559952) < 208 /\
  0 <= tm_mon (utc_localtime 1730559952) <= 11 /\
  1 <= tm_mday (utc_localtime 1730559952) <= 31 /\
  0 <= tm_hour (utc_localtime 1730559952) <= 23 /\
  0 <= tm_min (utc_localtime 1730559952) <= 59 /\
  0 <= tm_sec (utc_localtime 1730559952) <= 61 /\
  let dos_date := fst (picozip__time_to_dostime utc_localtime 1730559952) in
  let dos_time := snd (picozip__time_to_dostime utc_localtime 1730559952) in
  0 <= dos_date < 2 ^ 16 /\
  0 <= dos_time < 2 ^ 16 /\
  Z.shiftr dos_date 9 + 1980 = tm_year (utc_localtime 1730559952) + 1900 /\
  Z.land (Z.shiftr dos_date 5) 15 = tm_mon (utc_localtime 1730559952) + 1 /\
  Z.land dos_date 31 = tm_mday (utc_localtime 1730559952) /\
  Z.shiftr dos_time 11 = tm_hour (utc_localtime 1730559952) /\
  Z.land (Z.shiftr dos_time 5) 63 = tm_min (utc_localtime 1730559952) /\
  Z.land dos_time 31 = tm_sec (utc_localtime 1730559952) / 2.
Proof.
  assert (H1 : 80 <= tm_year (utc_localtime 1730559952) < 208) by (vm_compute; split; [discriminate|reflexivity]).
  assert (H2 : 0 <= tm_mon (utc_localtime 1730559952) <= 11) by (vm_compute; split; discriminate).
  assert (H3 : 1 <= tm_mday (utc_localtime 1730559952) <= 31) by (vm_compute; split; discriminate).
  assert (H4 : 0 <= tm_hour (utc_localtime 1730559952) <= 23) by (vm_compute; split; discriminate).
  assert (H5 : 0 <= tm_min (utc_localtime 1730559952) <= 59) by (vm_compute; split; discriminate).
  assert (H6 : 0 <= tm_sec (utc_localtime 1730559952) <= 61) by (vm_compute; split; discriminate).
  split; [exact H1|]. split; [exact H2|]. split; [exact H3|]. split; [exact H4|].
  split; [exact H5|]. split; [exact H6|].
  exact (X1_dostime_fields_read_back utc_localtime 1730559952 H1 H2 H3 H4 H5 H6).
Defined.

(** X2.  A time before 1980 is clamped: whatever the other fields of the
    local time are, the date is that of 1 January 1980 and the time is
    midnight. *)
Theorem X2_dostime_clamps_before_1980 (localtime : Z -> tm) (t : Z) :
  tm_year (localtime t) < 80 ->
  picozip__time_to_dostime localtime t = (0x21, 0) /\
  Z.shiftr 0x21 9 + 1980 = 1980 /\ Z.land (Z.shiftr 0x21 5) 15 = 1 /\ Z.land 0x21 31 = 1.
Proof.
  intros Hy. unfold picozip__time_to_dostime.
  replace (tm_year (localtime t) <? 80) with true by (symmetry; apply Z.ltb_lt; lia).
  repeat split.
Qed.

(** X2 at work: the epoch, 1 January 1970. *)
Lemma X2_witness :
  tm_year (utc_localtime 0) < 80 /\
  picozip__time_to_dostime utc_localtime 0 = (0x21, 0) /\
  Z.shiftr 0x21 9 + 1980 = 1980 /\ Z.land (Z.shiftr 0x21 5) 15 = 1 /\ Z.land 0x21 31 = 1.
Proof.
  assert (H : tm_year (utc_localtime 0) < 80) by (vm_compute; reflexivity).
  split; [exact H|]. exact (X2_dostime_clamps_before_1980 utc_localtime 0 H).
Defined.

(** ** The writing macros *)

Lemma nth_bytes_of (A : buffer) (n i : nat) :
  (i < n)%nat -> nth i (bytes_of A n) x00 = A i.
Proof.
  intros Hi. unfold bytes_of.
  rewrite (nth_indep _ x00 (A 0%nat)) by (rewrite length_map, length_seq; exact Hi).
  rewrite (map_nth A (seq 0 n) 0%nat), seq_nth by exact Hi. reflexivity.
Qed.

Lemma READ_LE16_bytes (D D' : list byte) (O O' : nat) :
  nth O D x00 = nth O' D' x00 ->
  nth (O + 1) D x00 = nth (O' + 1) D' x00 ->
  READ_LE16 D O = READ_LE16 D' O'.
Proof. unfold READ_LE16, byte_at. intros -> ->. reflexivity. Qed.

Lemma READ_LE32_bytes (D D' : list byte) (O O' : nat) :
  nth O D x00 = nth O' D' x00 ->
  nth (O + 1) D x00 = nth (O' + 1) D' x00 ->
  nth (O + 2) D x00 = nth (O' + 2) D' x00 ->
  nth (O + 3) D x00 = nth (O' + 3) D' x00 ->
  READ_LE32 D O = READ_LE32 D' O'.
Proof. unfold READ_LE32, byte_at. intros -> -> -> ->. reflexivity. Qed.

Lemma poke_same (A : buffer) (O : nat) (b : byte) : poke A O b O = b.
Proof. unfold poke. rewrite Nat.eqb_refl. reflexivity. Qed.

Lemma poke_other (A : buffer) (O i : nat) (b : byte) : i <> O -> poke A O b i = A i.
Proof. unfold poke. intros H. apply Nat.eqb_neq in H. rewrite H. reflexivity. Qed.

(** X3.  What [PICOZIP__WRITE_LE16] and [PICOZIP__WRITE_LE32] store at an
    offset of a buffer, the reading macros of the test suite read back at
    that offset, reduced to 16 and to 32 bits; and the writing macros
    leave every byte outside the two or four they address as it was. *)
Theorem X3_write_le_read_back (A : buffer) (O n : nat) (V : Z) :
  (O + 4 <= n)%nat ->
  READ_LE16 (bytes_of (PICOZIP__WRITE_LE16 A O V) n) O = uint16_t V /\
  READ_LE32 (bytes_of (PICOZIP__WRITE_LE32 A O V) n) O = uint32_t V /\
  (forall i, (i < O \/ O + 2 <= i)%nat -> PICOZIP__WRITE_LE16 A O V i = A i) /\
  (forall i, (i < O \/ O + 4 <= i)%nat -> PICOZIP__WRITE_LE32 A O V i = A i).
Proof.
  intros Hn. split; [|split; [|split]].
  - rewrite <- (READ_LE16_le16 V [] []). cbn [length app].
    apply READ_LE16_bytes; rewrite nth_bytes_of by lia;
      unfold PICOZIP__WRITE_LE16; cbv zeta; rewrite ?Nat.add_0_r.
    + rewrite poke_other by lia. rewrite poke_same. reflexivity.
    + rewrite poke_same. reflexivity.
  - rewrite <- (READ_LE32_le32 V [] []). cbn [length app].
    apply READ_LE32_bytes; rewrite nth_bytes_of by lia;
      unfold PICOZIP__WRITE_LE32; cbv zeta; rewrite ?Nat.add_0_r.
    + rewrite !poke_other by lia. rewrite poke_same. reflexivity.
    + rewrite !poke_other by lia. rewrite poke_same. reflexivity.
    + rewrite !poke_other by lia. rewrite poke_same. reflexivity.
    + rewrite poke_same. reflexivity.
  - intros i Hi. unfold PICOZIP__WRITE_LE16. cbv zeta. rewrite !poke_other by lia.
    reflexivity.
  - intros i Hi. unfold PICOZIP__WRITE_LE32. cbv zeta. rewrite !poke_other by lia.
    reflexivity.
Qed.

(** X3 at work: offset 12 of a scratch buffer of 64 zero bytes. *)
Lemma X3_witness :
  (12 + 4 <= 64)%nat /\
  READ_LE16 (bytes_of (PICOZIP__WRITE_LE16 (fun _ => x00) 12 0x12345678) 64) 12
  = uint16_t 0x12345678 /\
  READ_LE32 (bytes_of (PICOZIP__WRITE_LE32 (fun _ => x00) 12 0x12345678) 64) 12
  = uint32_t 0x12345678 /\
  (forall i, (i < 12 \/ 12 + 2 <= i)%nat ->
             PICOZIP__WRITE_LE16 (fun _ => x00) 12 0x12345678 i = x00) /\
  (forall i, (i < 12 \/ 12 + 4 <= i)%nat ->
             PICOZIP__WRITE_LE32 (fun _ => x00) 12 0x12345678 i = x00).
Proof.
  assert (H : (12 + 4 <= 64)%nat) by (cbn; lia).
  split; [exact H|].
  exact (X3_write_le_read_back (fun _ => x00) 12 64 0x12345678 H).
Defined.

(** X4.  [picozip_new] asks the allocation callback for one block; when
    that is refused it returns [PICOZIP_ENOMEM] and no session; otherwise
    it returns [PICOZIP_OK] and a session with no entry and the write
    offset 0.  Finalizing that session with [picozip_end] hands the write
    callback one buffer, the 22 bytes of the end record of an empty
    archive, and returns [PICOZIP_OK] when the callback reports 22 bytes
    written and [PICOZIP_EIO] when it reports anything else. *)
Theorem X4_new_then_end {U : Type} (localtime : Z -> tm)
        (write : U -> list byte -> Z * U) (alloc : U -> Z -> bool * U)
        (free : U -> option picozip__entry -> option U) (u : U) :
  let empty_archive :=
    [x50; x4b; x05; x06; x00; x00; x00; x00; x00; x00; x00; x00;
     x00; x00; x00; x00; x00; x00; x00; x00; x00; x00] in
  (fst (alloc u sizeof_picozip_file) = false ->
   picozip_new write alloc free u = (PICOZIP_ENOMEM, None)) /\
  (fst (alloc u sizeof_picozip_file) = true ->
   exists f f',
     picozip_new write alloc free u = (PICOZIP_OK, Some f) /\
     num_entries f = 0 /\ offset f = 0 /\
     userdata f = snd (alloc u sizeof_picozip_file) /\
     picozip_end localtime (Some f)
     = Some (if fst (write (userdata f) empty_archive) =? 22
             then PICOZIP_OK else PICOZIP_EIO, Some f') /\
     userdata f' = snd (write (userdata f) empty_archive) /\
     num_entries f' = 0 /\
     offset f' = if fst (write (userdata f) empty_archive) =? 22 then 22 else 0).
Proof.
  cbv zeta. unfold picozip_new.
  destruct (alloc u sizeof_picozip_file) as [p u1]. cbn [fst snd].
  split; intros ->; cbn [negb]; [reflexivity|].
  match goal with
  | |- exists f f', (_, Some ?g) = _ /\ _ => set (f0 := g)
  end.
  exists f0.
  destruct (picozip_end_ex localtime f0 (Null 0)) as [[r f2]|] eqn:He.
  2:{ exfalso. apply (picozip_end_ex_total localtime f0 (Null 0) []) in He;
        [exact He|reflexivity|].
      intros k e Hk. destruct k; discriminate. }
  exists f2. unfold picozip_end. rewrite He.
  unfold picozip_end_ex in He.
  cbn [span_len span_is_null Z.eqb negb andb] in He.
  change (num_entries f0) with 0 in He. cbn [Z.to_nat cd_loop] in He.
  match type of He with
  | context [PICOZIP__FLUSH ?g ?src ?k] =>
      destruct (PICOZIP__FLUSH g src k) as [ok f3] eqn:H2
  end.
  unfold PICOZIP__FLUSH in H2.
  match type of H2 with
  | context [memcpy ?a ?b] =>
      change (memcpy a b)
        with [x50; x4b; x05; x06; x00; x00; x00; x00; x00; x00; x00; x00;
              x00; x00; x00; x00; x00; x00; x00; x00; x00; x00] in H2
  end.
  cbn [write_cb userdata set_scratch] in H2. change (userdata f0) with u1.
  change (write_cb f0) with write in H2. change (userdata f0) with u1 in H2.
  destruct (write u1 _) as [written u2]. cbn [fst snd].
  change (size_t PICOZIP__EOCD_SIZE) with 22 in H2.
  destruct (written =? 22); cbn [negb] in H2; injection H2 as <- <-;
    cbn [negb] in He; injection He as <- <-; repeat split.
Qed.

(** X5.  [picozip_new_entry_mem_ex] returns [PICOZIP_EINVAL] exactly when
    the path is null, or the data pointer is null while the size is not
    0, or the comment pointer is null while the comment length is not 0;
    and it then leaves the session as it was: no callback has been
    called. *)
Theorem X5_known_size_argument_check {U : Type} (localtime : Z -> tm)
        (f f' : picozip_file U) (path : option (list byte)) (data : span)
        (mtime : Z) (comment : span) (r : status) :
  picozip_new_entry_mem_ex localtime f path data mtime comment = Some (r, f') ->
  (r = PICOZIP_EINVAL <->
   (path = None \/
    (span_is_null data = true /\ span_len data <> 0) \/
    (span_is_null comment = true /\ span_len comment <> 0))) /\
  (r = PICOZIP_EINVAL -> f' = f).
Proof.
  intros H.
  destruct (op_valid (Add_mem path data mtime comment)) eqn:Hv.
  - assert (Hr : r = PICOZIP_OK \/ r = PICOZIP_ENOMEM \/ r = PICOZIP_EIO).
    { apply (add_entry_valid_status localtime f f' (Add_mem path data mtime comment) r);
        [exact H|exact Hv]. }
    assert (Hne : r <> PICOZIP_EINVAL) by (destruct Hr as [->|[->| ->]]; discriminate).
    split; [|intros Hr'; contradiction].
    split; [intros Hr'; contradiction|]. intros Hbad. exfalso.
    cbn [op_valid] in Hv. destruct path as [path|]; [|discriminate].
    apply andb_true_iff in Hv. destruct Hv as [Hd Hc].
    apply span_valid_true in Hd, Hc.
    destruct Hbad as [Hp|[[Hnull Hlen]|[Hnull Hlen]]]; [discriminate| |].
    + rewrite Hnull, andb_true_r in Hd. apply negb_false_iff, Z.eqb_eq in Hd. contradiction.
    + rewrite Hnull, andb_true_r in Hc. apply negb_false_iff, Z.eqb_eq in Hc. contradiction.
  - unfold picozip_new_entry_mem_ex in H. cbn [op_valid] in Hv.
    destruct path as [path|].
    2:{ injection H as <- <-. split; [|reflexivity].
        split; [intros _; left; reflexivity|reflexivity]. }
    unfold span_valid in Hv.
    destruct (negb (span_len data =? 0) && span_is_null data) eqn:Hd.
    + cbn [orb] in H. injection H as <- <-. split; [|reflexivity].
      split; [|reflexivity]. intros _. right. left.
      apply andb_true_iff in Hd. destruct Hd as [Hlen Hnull].
      split; [exact Hnull|]. apply negb_true_iff, Z.eqb_neq in Hlen. exact Hlen.
    + cbn [negb andb] in Hv. apply negb_false_iff in Hv. rewrite Hv in H.
      cbn [orb] in H. injection H as <- <-. split; [|reflexivity].
      split; [|reflexivity]. intros _. right. right.
      apply andb_true_iff in Hv. destruct Hv as [Hlen Hnull].
      split; [exact Hnull|]. apply negb_true_iff, Z.eqb_neq in Hlen. exact Hlen.
Qed.

(** X5 at work: a null data pointer with the size 5. *)
Lemma X5_witness :
  picozip_new_entry_mem_ex utc_localtime mem_session
    (Some (bytes_of_string "test.txt")) (Null 5) 0 (Null 0)
  = Some (PICOZIP_EINVAL, mem_session) /\
  (PICOZIP_EINVAL = PICOZIP_EINVAL <->
   (Some (bytes_of_string "test.txt") = None \/
    (span_is_null (Null 5) = true /\ span_len (Null 5) <> 0) \/
    (span_is_null (Null 0) = true /\ span_len (Null 0) <> 0))) /\
  (PICOZIP_EINVAL = PICOZIP_EINVAL -> mem_session = mem_session).
Proof.
  assert (H : picozip_new_entry_mem_ex utc_localtime mem_session
                (Some (bytes_of_string "test.txt")) (Null 5) 0 (Null 0)
              = Some (PICOZIP_EINVAL, mem_session)) by reflexivity.
  split; [exact H|].
  exact (X5_known_size_argument_check utc_localtime mem_session mem_session
           (Some (bytes_of_string "test.txt")) (Null 5) 0 (Null 0) PICOZIP_EINVAL H).
Defined.

(** X6.  [picozip_new_entry_file] returns [PICOZIP_EINVAL] when the path
    or the stream is null or the comment pointer is null while the
    comment length is not 0, and it returns the [errno] of [fstat] when
    [fstat] fails on the stream; in both cases the session is left as it
    was.  With any other arguments it returns [PICOZIP_OK],
    [PICOZIP_ENOMEM] or [PICOZIP_EIO]. *)
Theorem X6_streamed_argument_check {U : Type} (localtime : Z -> tm)
        (f f' : picozip_file U) (path : option (list byte)) (fptr : option FILE)
        (comment : span) (r : status) :
  picozip_new_entry_file localtime f path fptr comment = Some (r, f') ->
  (path = None \/ fptr = None \/
   (span_is_null comment = true /\ span_len comment <> 0) ->
   r = PICOZIP_EINVAL /\ f' = f) /\
  (forall stream errno,
      path <> None ->
      ~ (span_is_null comment = true /\ span_len comment <> 0) ->
      fptr = Some stream ->
      fstat stream = inr errno ->
      r = OS_ERRNO errno /\ f' = f) /\
  (forall stream mtime,
      path <> None ->
      ~ (span_is_null comment = true /\ span_len comment <> 0) ->
      fptr = Some stream ->
      fstat stream = inl mtime ->
      r = PICOZIP_OK \/ r = PICOZIP_ENOMEM \/ r = PICOZIP_EIO).
Proof.
  intros H.
  assert (Hcomment :
    (negb (span_len comment =? 0) && span_is_null comment) = true
    <-> (span_is_null comment = true /\ span_len comment <> 0)).
  { rewrite andb_true_iff, negb_true_iff, Z.eqb_neq. tauto. }
  split; [|split].
  - intros Hbad. unfold picozip_new_entry_file in H.
    destruct path as [path|]; [|destruct fptr; injection H as <- <-; split; reflexivity].
    destruct fptr as [stream|]; [|injection H as <- <-; split; reflexivity].
    destruct Hbad as [Hp|[Hp|Hc]]; try discriminate.
    apply Hcomment in Hc. rewrite Hc in H. injection H as <- <-. split; reflexivity.
  - intros stream errno Hp Hc -> Hst. unfold picozip_new_entry_file in H.
    destruct path as [path|]; [|contradiction].
    destruct (negb (span_len comment =? 0) && span_is_null comment) eqn:E.
    { exfalso. apply Hc, Hcomment. reflexivity. }
    rewrite Hst in H. injection H as <- <-. split; reflexivity.
  - intros stream mtime Hp Hc -> Hst.
    apply (add_entry_valid_status localtime f f' (Add_file path (Some stream) comment) r);
      [exact H|].
    destruct path as [path|]; [|contradiction].
    cbn [op_valid]. rewrite Hst, andb_true_r. unfold span_valid.
    destruct (negb (span_len comment =? 0) && span_is_null comment) eqn:E; [|reflexivity].
    exfalso. apply Hc, Hcomment. reflexivity.
Qed.

(** X6 at work: a stream on which [fstat] fails with the [errno] 9. *)
Lemma X6_witness :
  picozip_new_entry_file utc_localtime mem_session (Some (bytes_of_string "test.txt"))
    (Some {| fstat := inr 9; contents := [] |}) (Null 0)
  = Some (OS_ERRNO 9, mem_session) /\
  (forall stream errno,
      Some (bytes_of_string "test.txt") <> None ->
      ~ (span_is_null (Null 0) = true /\ span_len (Null 0) <> 0) ->
      Some {| fstat := inr 9; contents := [] |} = Some stream ->
      fstat stream = inr errno ->
      OS_ERRNO 9 = OS_ERRNO errno /\ mem_session = mem_session).
Proof.
  assert (H : picozip_new_entry_file utc_localtime mem_session
                (Some (bytes_of_string "test.txt"))
                (Some {| fstat := inr 9; contents := [] |}) (Null 0)
              = Some (OS_ERRNO 9, mem_session)) by reflexivity.
  split; [exact H|].
  exact (proj1 (proj2 (X6_streamed_argument_check utc_localtime mem_session mem_session
                         (Some (bytes_of_string "test.txt"))
                         (Some {| fstat := inr 9; contents := [] |}) (Null 0)
                         (OS_ERRNO 9) H))).
Defined.

(** X4 at work: the callbacks of the in-memory destination. *)
Lemma X4_witness :
  fst (picozip__mem_alloc {| mem := {| cap := 0; size := 0 |}; mem_data := [] |}
                          sizeof_picozip_file) = true /\
  exists f f',
    picozip_new picozip__mem_write picozip__mem_alloc picozip__mem_free
                {| mem := {| cap := 0; size := 0 |}; mem_data := [] |}
    = (PICOZIP_OK, Some f) /\
    num_entries f = 0 /\ offset f = 0 /\
    userdata f = snd (picozip__mem_alloc {| mem := {| cap := 0; size := 0 |};
                                            mem_data := [] |} sizeof_picozip_file) /\
    picozip_end utc_localtime (Some f)
    = Some (if fst (picozip__mem_write (userdata f)
                      [x50; x4b; x05; x06; x00; x00; x00; x00; x00; x00; x00; x00;
                       x00; x00; x00; x00; x00; x00; x00; x00; x00; x00]) =? 22
            then PICOZIP_OK else PICOZIP_EIO, Some f') /\
    userdata f' = snd (picozip__mem_write (userdata f)
                         [x50; x4b; x05; x06; x00; x00; x00; x00; x00; x00; x00; x00;
                          x00; x00; x00; x00; x00; x00; x00; x00; x00; x00]) /\
    num_entries f' = 0 /\
    offset f' = if fst (picozip__mem_write (userdata f)
                          [x50; x4b; x05; x06; x00; x00; x00; x00; x00; x00; x00; x00;
                           x00; x00; x00; x00; x00; x00; x00; x00; x00; x00]) =? 22
                then 22 else 0.
Proof.
  split; [reflexivity|].
  exact (proj2 (X4_new_then_end utc_localtime picozip__mem_write picozip__mem_alloc
                  picozip__mem_free {| mem := {| cap := 0; size := 0 |}; mem_data := [] |})
               eq_refl).
Defined.

(** X8.  Finalizing does nothing but write.  Whatever [picozip_end_ex]
    returns, and it returns [PICOZIP_OK], [PICOZIP_EIO] or
    [PICOZIP_EINVAL], the count of entries, every slot of the ledger and
    the callbacks are as they were, and the destination has seen calls
    of the write callback only; with [PICOZIP_EINVAL] the session is as
    it was.  [picozip_end] on a session is [picozip_end_ex] without a
    comment, and never returns [PICOZIP_EINVAL] for it; on a null session
    pointer it returns [PICOZIP_EINVAL]. *)
Theorem X8_finalize_only_writes {U : Type} (localtime : Z -> tm)
        (f f' : picozip_file U) (comment : span) (r : status) :
  picozip_end_ex localtime f comment = Some (r, f') ->
  (r = PICOZIP_OK \/ r = PICOZIP_EIO \/ r = PICOZIP_EINVAL) /\
  (r = PICOZIP_EINVAL -> f' = f) /\
  alloc_cb f' = alloc_cb f /\ write_cb f' = write_cb f /\ free_cb f' = free_cb f /\
  num_entries f' = num_entries f /\ entries_data f' = entries_data f /\
  (exists chunks, userdata f' = writes_to (write_cb f) (userdata f) chunks) /\
  (forall r0 g, picozip_end localtime (Some f) = Some (r0, g) ->
                r0 <> PICOZIP_EINVAL /\
                exists f0, g = Some f0 /\
                           picozip_end_ex localtime f (Null 0) = Some (r0, f0)) /\
  picozip_end localtime (@None (picozip_file U)) = Some (PICOZIP_EINVAL, None).
Proof.
  intros H.
  destruct (picozip_end_ex_keeps localtime f f' comment r H)
    as (Hr & Hinv & Ha & Hw & Hf & Hn & Hd & Hu).
  split; [exact Hr|]. split; [exact Hinv|]. split; [exact Ha|]. split; [exact Hw|].
  split; [exact Hf|]. split; [exact Hn|]. split; [exact Hd|]. split; [exact Hu|].
  split; [|reflexivity].
  intros r0 g Hend. unfold picozip_end in Hend.
  destruct (picozip_end_ex localtime f (Null 0)) as [[r1 f1]|] eqn:He; [|discriminate].
  injection Hend as <- <-.
  split; [|exists f1; split; reflexivity].
  intros ->.
  unfold picozip_end_ex in He. cbn [span_len span_is_null Z.eqb negb andb] in He.
  destruct (cd_loop localtime _ 0 f 0) as [[[ok f2] cd_size]|]; [|discriminate].
  destruct ok; [|discriminate].
  match type of He with
  | context [PICOZIP__FLUSH ?g ?src ?k] => destruct (PICOZIP__FLUSH g src k) as [ok3 f3]
  end.
  destruct ok3; discriminate.
Qed.

(** X8 at work: finalizing on the destination that refuses every
    write. *)
Lemma X8_witness :
  picozip_end_ex utc_localtime refusing_session (Null 0) = Some (PICOZIP_EIO, end_refused) /\
  (PICOZIP_EIO = PICOZIP_OK \/ PICOZIP_EIO = PICOZIP_EIO \/ PICOZIP_EIO = PICOZIP_EINVAL) /\
  (PICOZIP_EIO = PICOZIP_EINVAL -> end_refused = refusing_session) /\
  alloc_cb end_refused = alloc_cb refusing_session /\
  write_cb end_refused = write_cb refusing_session /\
  free_cb end_refused = free_cb refusing_session /\
  num_entries end_refused = num_entries refusing_session /\
  entries_data end_refused = entries_data refusing_session /\
  (exists chunks,
      userdata end_refused
      = writes_to (write_cb refusing_session) (userdata refusing_session) chunks) /\
  (forall r0 g, picozip_end utc_localtime (Some refusing_session) = Some (r0, g) ->
                r0 <> PICOZIP_EINVAL /\
                exists f0, g = Some f0 /\
                           picozip_end_ex utc_localtime refusing_session (Null 0)
                           = Some (r0, f0)) /\
  picozip_end utc_localtime (@None (picozip_file test_counters))
  = Some (PICOZIP_EINVAL, None).
Proof.
  assert (H : picozip_end_ex utc_localtime refusing_session (Null 0)
              = Some (PICOZIP_EIO, end_refused))
    by (apply result_session_of; vm_compute; reflexivity).
  split; [exact H|].
  exact (X8_finalize_only_writes utc_localtime refusing_session end_refused
           (Null 0) PICOZIP_EIO H).
Defined.

(** ** The buffers of a stream *)

Section ChunkProofs.

Context {U : Type}.
Variable localtime : Z -> tm.
Local Abbreviation file := (picozip_file U).

Lemma stream_loop_chunks (fuel : nat) :
  forall (f f' : file) (idx file_size file_size' : Z) (rest : list byte)
         (e0 : picozip__entry),
    stream_loop fuel f idx file_size rest = Some (true, f', file_size') ->
    entries_data f idx = Some e0 ->
    concat (read_chunks fuel rest) = rest /\
    emits f f' (read_chunks fuel rest) /\
    (forall j, entries_data f' j
               = slot_store (entries_data f) idx
                            (with_crc32 (crc_after (read_chunks fuel rest) (crc32 e0)) e0) j) /\
    file_size' = size_t (file_size + len rest).
Proof.
  induction fuel as [|fuel IH]; intros f f' idx fs fs' rest e0 H Hslot;
    [discriminate|].
  cbn [stream_loop read_chunks] in *.
  pose proof (fread_app PICOZIP_READ_BUF rest) as Happ.
  pose proof (fread_short PICOZIP_READ_BUF rest) as Hshort.
  destruct (fread PICOZIP_READ_BUF rest) as [buffer rest'].
  cbn [fst snd] in Happ, Hshort.
  set (f1 := update_entry f idx _) in H.
  assert (Hd1 : entries_data f1
                = slot_store (entries_data f) idx
                             (with_crc32 (picozip__crc32 buffer (crc32 e0)) e0)).
  { unfold f1. rewrite (entries_data_update_entry _ _ _ _ Hslot). reflexivity. }
  destruct (PICOZIP__FLUSH f1 buffer (len buffer)) as [ok f2] eqn:Hf.
  destruct ok; cbn [negb] in H;
    [|destruct (picozip__free_last_entry f2); discriminate].
  apply FLUSH_true in Hf; [|rewrite memcpy_all; reflexivity].
  rewrite memcpy_all in Hf. destruct Hf as [E D].
  assert (E' : emits f f2 [buffer]).
  { eapply emits_same_channel; [apply same_channel_update_entry|exact E]. }
  destruct (len buffer =? PICOZIP_READ_BUF) eqn:Hfull.
  - assert (Hslot2 : entries_data f2 idx
                     = Some (with_crc32 (picozip__crc32 buffer (crc32 e0)) e0)).
    { rewrite D, Hd1. apply slot_store_same. }
    destruct (IH _ _ _ _ _ _ _ H Hslot2) as (Hcat & E2 & Hs & Hfs).
    split; [|split; [|split]].
    + cbn [concat]. rewrite Hcat. exact Happ.
    + apply (emits_trans _ _ _ [_] _ E' E2).
    + intros j. rewrite Hs, D, Hd1. cbn [crc_after fold_left with_crc32 crc32].
      apply slot_store_twice.
    + rewrite Hfs, size_t_add_l. f_equal. rewrite <- Happ, len_app. lia.
  - injection H as <- <-.
    apply Z.eqb_neq in Hfull.
    rewrite (Hshort Hfull) in Happ by (unfold PICOZIP_READ_BUF; lia).
    rewrite app_nil_r in Happ. subst buffer.
    split; [|split; [|split]].
    + cbn. apply app_nil_r.
    + exact E'.
    + intros j. rewrite D, Hd1. reflexivity.
    + reflexivity.
Qed.

(** A streamed add operation that went through, with the buffers of
    its content as the loop read them. *)
Lemma picozip_new_entry_file_chunks (f f' : file) (path : option (list byte))
      (fptr : option FILE) (comment : span) :
  picozip_new_entry_file localtime f path fptr comment = Some (PICOZIP_OK, f') ->
  let op := Add_file path fptr comment in
  op_valid op = true /\
  exists fa,
    allocated f fa /\
    concat (read_chunks (S (length (op_content op))) (op_content op)) = op_content op /\
    emits fa f' ([local_header localtime (op_entry_at_header (offset f) op);
                  local_metadata (op_entry (offset f) op)]
                 ++ read_chunks (S (length (op_content op))) (op_content op)
                 ++ [data_descriptor (op_entry (offset f) op)]) /\
    forall j, entries_data f' j
              = entries_store (vec_grown (entries f)) (entries_data f) (num_entries f)
                              (op_entry (offset f) op) j.
Proof.
  intros H op. unfold picozip_new_entry_file in H.
  destruct path as [path|]; [|destruct fptr; discriminate].
  destruct fptr as [fptr|]; [|discriminate].
  destruct (negb (span_len comment =? 0) && span_is_null comment) eqn:Hc;
    [discriminate|].
  destruct (fstat fptr) as [mtime|errno] eqn:Hst; [|discriminate].
  assert (Hv : op_valid op = true).
  { cbn. unfold span_valid. rewrite Hc, Hst. reflexivity. }
  split; [assumption|].
  destruct (picozip__alloc_entry f _) as [[idx|] fa] eqn:Ha; [|discriminate].
  apply picozip__alloc_entry_some in Ha.
  destruct Ha as (-> & Hac & Hwc & Hfc & Hoff & Hn & Hslots & Hu).
  rewrite Hoff in H.
  assert (Hmt : op_mod_time op = mtime) by (cbn; rewrite Hst; reflexivity).
  match type of H with
  | context [picozip__write_local_entry localtime _ ?lit] =>
      replace lit with (op_entry_at_header (offset f) op) in H
        by (unfold op_entry_at_header, op_entry, with_sizes, with_crc32; cbn;
            rewrite Hst; reflexivity)
  end.
  set (e := op_entry_at_header (offset f) op) in *.
  assert (Hwf : entry_wf e) by (apply op_entry_at_header_wf, Hv).
  assert (Hslot : entries_data fa (num_entries f) = Some blank_entry).
  { rewrite Hslots. apply entries_store_same. }
  set (f0 := update_entry fa (num_entries f) (fun _ => e)) in H.
  assert (Hd0 : entries_data f0 = slot_store (entries_data fa) (num_entries f) e).
  { apply (entries_data_update_entry fa _ (fun _ => e) _ Hslot). }
  destruct (picozip__write_local_entry localtime f0 e) as [r f1] eqn:Hw.
  destruct r; try (apply roll_back_status in H; discriminate H).
  apply picozip__write_local_entry_ok in Hw; [|assumption].
  destruct Hw as [E1 D1].
  change (local_metadata e) with (local_metadata (op_entry (offset f) op)) in E1.
  set (f2 := update_entry f1 (num_entries f) (with_crc32 PICOZIP__CRC_START)) in H.
  assert (Hslot1 : entries_data f1 (num_entries f) = Some e).
  { rewrite D1, Hd0. apply slot_store_same. }
  assert (Hd2 : entries_data f2
                = slot_store (entries_data f1) (num_entries f)
                             (with_crc32 PICOZIP__CRC_START e)).
  { apply (entries_data_update_entry f1 _ _ _ Hslot1). }
  assert (Hslot2 : entries_data f2 (num_entries f)
                   = Some (with_crc32 PICOZIP__CRC_START e)).
  { rewrite Hd2. apply slot_store_same. }
  destruct (stream_loop _ f2 _ 0 _) as [[[ok f3] file_size]|] eqn:Hloop;
    [|discriminate].
  destruct ok; [|discriminate].
  apply (stream_loop_chunks _ _ _ _ _ _ _ _ Hloop) in Hslot2.
  destruct Hslot2 as (Hcat & E3 & D3 & Hfs).
  set (chunks := read_chunks _ _) in *.
  set (f4 := update_entry f3 _ _) in H.
  set (f5 := update_entry f4 _ _) in H.
  set (e2 := with_crc32 PICOZIP__CRC_START e) in *.
  set (e3 := with_crc32 (crc_after chunks (crc32 e2)) e2) in *.
  assert (Hslot3 : entries_data f3 (num_entries f) = Some e3).
  { rewrite D3. apply slot_store_same. }
  pose proof (entries_data_update_entry f3 (num_entries f)
                (fun e => with_crc32 (Z.lxor (crc32 e) 0xFFFFFFFF) e) _ Hslot3)
    as Hd4.
  fold f4 in Hd4. cbv beta in Hd4.
  set (e4 := with_crc32 (Z.lxor (crc32 e3) 0xFFFFFFFF) e3) in *.
  assert (Hslot4 : entries_data f4 (num_entries f) = Some e4).
  { rewrite Hd4. apply slot_store_same. }
  pose proof (entries_data_update_entry f4 (num_entries f)
                (with_sizes (uint32_t file_size)) _ Hslot4) as Hd5.
  fold f5 in Hd5.
  assert (Hfinal : entries_data f5 (num_entries f) = Some (op_entry (offset f) op)).
  { rewrite Hd5, slot_store_same. f_equal.
    rewrite <- (op_entry_streamed_final (offset f) file_size op chunks);
      [reflexivity|reflexivity|exact Hcat|exact Hfs]. }
  rewrite Hfinal in H.
  pose proof (data_descriptor_scratch f5 (op_entry (offset f) op)) as Hs.
  cbv zeta in Hs.
  match type of H with
  | context [PICOZIP__FLUSH ?g ?src ?n] =>
      destruct (PICOZIP__FLUSH g src n) as [ok f6] eqn:Hf
  end.
  destruct ok; cbn [negb] in H; [|apply roll_back_status in H; discriminate H].
  injection H as <-.
  apply FLUSH_true in Hf; [|rewrite Hs; reflexivity].
  rewrite Hs in Hf. destruct Hf as [E6 D6].
  exists fa. split; [|split; [|split]].
  - unfold allocated. repeat split; assumption.
  - exact Hcat.
  - apply (emits_same_channel fa f0);
      [apply (same_channel_update_entry fa (num_entries f) (fun _ => e))|].
    apply (emits_trans _ _ _ [_; _] _ E1).
    apply (emits_same_channel f1 f2);
      [apply (same_channel_update_entry f1 (num_entries f)
                (with_crc32 PICOZIP__CRC_START))|].
    apply (emits_trans _ _ _ _ [_] E3).
    apply (emits_same_channel f3 f4); [apply same_channel_update_entry|].
    apply (emits_same_channel f4 f5); [apply same_channel_update_entry|].
    eapply emits_same_channel; [apply same_channel_set_scratch|].
    exact E6.
  - intros j. rewrite D6. cbn [entries_data set_scratch].
    destruct (Z.eq_dec j (num_entries f)) as [->|Ej].
    + rewrite entries_store_same. exact Hfinal.
    + rewrite entries_store_other by assumption.
      rewrite Hd5, slot_store_other by assumption.
      rewrite Hd4, slot_store_other by assumption.
      rewrite D3, slot_store_other by assumption.
      rewrite Hd2, slot_store_other by assumption.
      rewrite D1, Hd0, slot_store_other by assumption.
      rewrite Hslots. apply entries_store_other, Ej.
Qed.

End ChunkProofs.

(** The buffers read from a stream: full ones, and one that is not. *)
Lemma read_chunks_shape (fuel : nat) :
  forall rest : list byte,
    (length rest < fuel)%nat ->
    exists fulls last,
      read_chunks fuel rest = fulls ++ [last] /\
      Forall (fun c => len c = PICOZIP_READ_BUF) fulls /\
      0 <= len last < PICOZIP_READ_BUF /\
      concat fulls ++ last = rest /\
      len fulls = len rest / PICOZIP_READ_BUF.
Proof.
  induction fuel as [|fuel IH]; intros rest Hfuel; [lia|].
  cbn [read_chunks]. unfold fread.
  destruct (len (firstn (Z.to_nat PICOZIP_READ_BUF) rest) =? PICOZIP_READ_BUF) eqn:Hfull.
  - apply Z.eqb_eq in Hfull.
    assert (Hlong : (Z.to_nat PICOZIP_READ_BUF <= length rest)%nat).
    { unfold len in Hfull. rewrite length_firstn in Hfull.
      unfold PICOZIP_READ_BUF in *. lia. }
    destruct (IH (skipn (Z.to_nat PICOZIP_READ_BUF) rest)) as (fulls & last & -> & Hf & Hl & Hcat & Hn).
    { rewrite length_skipn. unfold PICOZIP_READ_BUF in *. lia. }
    exists (firstn (Z.to_nat PICOZIP_READ_BUF) rest :: fulls), last.
    split; [reflexivity|]. split; [constructor; assumption|]. split; [exact Hl|].
    split; [cbn [concat]; rewrite <- app_assoc, Hcat; apply firstn_skipn|].
    assert (Hrest : len rest = PICOZIP_READ_BUF
                               + len (skipn (Z.to_nat PICOZIP_READ_BUF) rest)).
    { rewrite <- (firstn_skipn (Z.to_nat PICOZIP_READ_BUF) rest) at 1.
      rewrite len_app, Hfull. reflexivity. }
    assert (Hcons : len (firstn (Z.to_nat PICOZIP_READ_BUF) rest :: fulls) = 1 + len fulls)
      by (unfold len; cbn [length]; lia).
    rewrite Hcons, Hn, Hrest.
    replace (PICOZIP_READ_BUF + len (skipn (Z.to_nat PICOZIP_READ_BUF) rest))
      with (1 * PICOZIP_READ_BUF + len (skipn (Z.to_nat PICOZIP_READ_BUF) rest)) by lia.
    rewrite Z.div_add_l by (unfold PICOZIP_READ_BUF; lia). reflexivity.
  - apply Z.eqb_neq in Hfull.
    assert (Hshort : (length rest < Z.to_nat PICOZIP_READ_BUF)%nat).
    { unfold len in Hfull. rewrite length_firstn in Hfull.
      unfold PICOZIP_READ_BUF in *. lia. }
    rewrite firstn_all2 by lia.
    exists [], rest. split; [reflexivity|]. split; [constructor|].
    split; [unfold len, PICOZIP_READ_BUF in *; lia|]. split; [reflexivity|].
    unfold len at 1. cbn [length]. symmetry. apply Z.div_small.
    unfold len, PICOZIP_READ_BUF in *. lia.
Qed.

Lemma len_concat_full (n : Z) (fulls : list (list byte)) :
  Forall (fun c => len c = n) fulls -> len (concat fulls) = n * len fulls.
Proof.
  induction 1 as [|c fulls Hc _ IH]; [unfold len; cbn; lia|].
  cbn [concat]. rewrite len_app, Hc, IH.
  unfold len. cbn [length]. lia.
Qed.

(** X9.  A call of [picozip_new_entry_file] that returns [PICOZIP_OK]
    hands the content of the stream to the write callback in buffers of
    [PICOZIP_READ_BUF] = 2048 bytes, as many as the content holds in
    full, followed by one buffer with the bytes that are left, which is
    empty when the length is a multiple of 2048; they come after the
    30-byte local header and the buffer of file name and extra field,
    and before the 16-byte data descriptor, and together they are the
    content of the stream. *)
Theorem X9_streamed_content_buffers {U : Type} (localtime : Z -> tm)
        (f f' : picozip_file U) (path : option (list byte)) (fptr : option FILE)
        (comment : span) :
  picozip_new_entry_file localtime f path fptr comment = Some (PICOZIP_OK, f') ->
  let content := op_content (Add_file path fptr comment) in
  exists fa header name_extra fulls last descriptor,
    allocated f fa /\
    emits fa f' ([header; name_extra] ++ fulls ++ [last; descriptor]) /\
    len header = PICOZIP__LOCAL_HEADER_SIZE /\
    len descriptor = PICOZIP__DATADESC_SIZE /\
    Forall (fun c => len c = PICOZIP_READ_BUF) fulls /\
    len fulls = len content / PICOZIP_READ_BUF /\
    len last = len content mod PICOZIP_READ_BUF /\
    concat fulls ++ last = content.
Proof.
  intros H content.
  apply picozip_new_entry_file_chunks in H. cbv zeta in H.
  set (op := Add_file path fptr comment) in *.
  destruct H as (_ & fa & Hal & _ & E & _).
  destruct (read_chunks_shape (S (length (op_content op))) (op_content op))
    as (fulls & last & Hshape & Hfull & Hlast & Hcat & Hcount); [lia|].
  rewrite Hshape in E. rewrite <- app_assoc in E. cbn [app] in E.
  exists fa, (local_header localtime (op_entry_at_header (offset f) op)),
    (local_metadata (op_entry (offset f) op)), fulls, last,
    (data_descriptor (op_entry (offset f) op)).
  split; [exact Hal|]. split; [exact E|].
  split; [apply len_local_header|]. split; [reflexivity|].
  split; [exact Hfull|]. split; [exact Hcount|]. split; [|exact Hcat].
  assert (Hlen : len content = PICOZIP_READ_BUF * len fulls + len last).
  { unfold content. rewrite <- Hcat at 1.
    rewrite len_app, (len_concat_full PICOZIP_READ_BUF) by exact Hfull. reflexivity. }
  apply (Z.mod_unique _ _ (len fulls)); [left; exact Hlast|exact Hlen].
Qed.

(** X9 at work: the stream ["hello world!"]. *)
Lemma X9_witness :
  picozip_new_entry_file utc_localtime mem_session
    (Some (bytes_of_string "test.txt")) (Some hello_file) (Null 0)
  = Some (PICOZIP_OK, streamed_hello) /\
  let content :=
    op_content (Add_file (Some (bytes_of_string "test.txt")) (Some hello_file) (Null 0)) in
  exists fa header name_extra fulls last descriptor,
    allocated mem_session fa /\
    emits fa streamed_hello ([header; name_extra] ++ fulls ++ [last; descriptor]) /\
    len header = PICOZIP__LOCAL_HEADER_SIZE /\
    len descriptor = PICOZIP__DATADESC_SIZE /\
    Forall (fun c => len c = PICOZIP_READ_BUF) fulls /\
    len fulls = len content / PICOZIP_READ_BUF /\
    len last = len content mod PICOZIP_READ_BUF /\
    concat fulls ++ last = content.
Proof.
  assert (H : picozip_new_entry_file utc_localtime mem_session
                (Some (bytes_of_string "test.txt")) (Some hello_file) (Null 0)
              = Some (PICOZIP_OK, streamed_hello))
    by (apply ok_session_of_ok; vm_compute; reflexivity).
  split; [exact H|].
  exact (X9_streamed_content_buffers utc_localtime mem_session streamed_hello
           (Some (bytes_of_string "test.txt")) (Some hello_file) (Null 0) H).
Defined.

(** ** What the in-memory destination holds *)

Section MemSizeProofs.

Variable localtime : Z -> tm.

Lemma picozip__mem_write_sized (u : picozip__mem_file) (c : list byte) :
  mem_sized u -> mem_sized (snd (picozip__mem_write u c)).
Proof.
  unfold mem_sized, picozip__mem_write, picozip__vec_alloc, picozip__mem_alloc.
  intros Hs.
  destruct (cap (mem u) <? size_t (size (mem u) + len c)); cbn.
  - rewrite Hs, size_t_add_l, len_app. reflexivity.
  - destruct (0 <? cap (mem u)); cbn.
    + rewrite Hs, size_t_add_l, len_app. reflexivity.
    + exact Hs.
Qed.

Lemma writes_sized (chunks : list (list byte)) :
  forall u, mem_sized u -> mem_sized (writes_to picozip__mem_write u chunks).
Proof.
  induction chunks as [|c chunks IH]; intros u Hs; cbn [writes_to fold_left].
  - exact Hs.
  - apply IH, picozip__mem_write_sized, Hs.
Qed.

Lemma add_all_sized (ops : list add_op) :
  forall f f' : picozip_file picozip__mem_file,
    mem_sink f -> mem_sized (userdata f) ->
    add_all localtime f ops = Some f' ->
    mem_sink f' /\ mem_sized (userdata f').
Proof.
  induction ops as [|op ops IH]; intros f f' Hsink Hs H; cbn [add_all] in H.
  - injection H as <-. split; assumption.
  - destruct (add_entry localtime f op) as [[r f1]|] eqn:Hop; [|discriminate].
    destruct r; try discriminate.
    apply add_entry_ok in Hop.
    destruct Hop as (_ & fa & chunks & Hal & _ & _ & E & _).
    assert (Hu : userdata fa = userdata f)
      by (apply (allocs_only_mem f); [exact Hsink|apply Hal]).
    destruct Hsink as [Ha Hw].
    destruct Hal as (Ha1 & Hw1 & _).
    destruct E as (Ha2 & Hw2 & _ & _ & _ & _ & Hu2).
    apply (IH f1 f'); [split; congruence| |exact H].
    rewrite Hu2, Hw1, Hw, Hu. apply writes_sized, Hs.
Qed.

Lemma mem_session_sized : mem_sized (userdata mem_session).
Proof. reflexivity. Qed.

Lemma picozip_get_mem_all (f : picozip_file picozip__mem_file) :
  mem_sized (userdata f) ->
  len (mem_data (userdata f)) < 2 ^ 64 ->
  picozip_get_mem f = mem_data (userdata f) /\
  size (mem (userdata f)) = len (mem_data (userdata f)).
Proof.
  intros Hs Hlen. pose proof (len_nonneg (mem_data (userdata f))) as H0.
  unfold mem_sized in Hs. rewrite size_t_small in Hs by lia.
  unfold picozip_get_mem. rewrite Hs. split; [apply memcpy_all|reflexivity].
Qed.

End MemSizeProofs.

(** X10.  On the in-memory destination, after any run of successful add
    operations on a fresh session, [picozip_get_mem] reports exactly the
    bytes the operations have written, the blocks of the entries one
    after the other, and their number, which is also the write offset of
    the session (as long as the number is below 2^64). *)
Theorem X10_get_mem_returns_what_was_written
        (localtime : Z -> tm) (ops : list add_op) (f : picozip_file picozip__mem_file) :
  add_all localtime mem_session ops = Some f ->
  ops_size ops < 2 ^ 64 ->
  picozip_get_mem f = ops_blocks localtime 0 ops /\
  size (mem (userdata f)) = len (picozip_get_mem f) /\
  offset f = len (picozip_get_mem f) /\
  len (picozip_get_mem f) = ops_size ops.
Proof.
  intros Hrun Hsmall.
  destruct (add_all_mem_offset localtime ops f Hrun) as (Hd & Hlen & Hoff).
  destruct (add_all_sized localtime ops mem_session f mem_session_sink
              mem_session_sized Hrun) as [_ Hs].
  destruct (picozip_get_mem_all f Hs) as [Hget Hsize]; [lia|].
  rewrite Hget. split; [exact Hd|]. split; [exact Hsize|].
  split; [|exact Hlen].
  rewrite Hoff. apply size_t_small.
  pose proof (len_nonneg (mem_data (userdata f))). lia.
Qed.

(** X10 at work: a run of two calls on a fresh archive. *)
Lemma X10_witness :
  add_all utc_localtime mem_session [add_hello; add_stream] = Some small_session /\
  ops_size [add_hello; add_stream] < 2 ^ 64 /\
  picozip_get_mem small_session = ops_blocks utc_localtime 0 [add_hello; add_stream] /\
  size (mem (userdata small_session)) = len (picozip_get_mem small_session) /\
  offset small_session = len (picozip_get_mem small_session) /\
  len (picozip_get_mem small_session) = ops_size [add_hello; add_stream].
Proof.
  assert (H1 : add_all utc_localtime mem_session [add_hello; add_stream]
               = Some small_session)
    by (apply session_of_some; vm_compute; reflexivity).
  assert (H2 : ops_size [add_hello; add_stream] < 2 ^ 64) by (vm_compute; reflexivity).
  split; [exact H1|]. split; [exact H2|].
  exact (X10_get_mem_returns_what_was_written utc_localtime [add_hello; add_stream]
           small_session H1 H2).
Defined.

(** X11.  The size of a finalized archive of at most one entry on the
    in-memory destination: the bytes of the entry (30 bytes of local
    header, the file name and the 9 bytes of extra field as the length
    fields count them, the content, and 16 bytes of data descriptor when
    it was streamed), the central directory (for the entry 46 bytes, the
    file name, the extra field and the comment as the length fields
    count them), the 22 bytes of the end record and the archive comment;
    and [picozip_get_mem] reports these parts in this order. *)
Theorem X11_archive_size
        (localtime : Z -> tm) (ops : list add_op)
        (f f' : picozip_file picozip__mem_file) (comment : span) :
  add_all localtime mem_session ops = Some f ->
  len ops <= 1 ->
  picozip_end_ex localtime f comment = Some (PICOZIP_OK, f') ->
  ops_size ops + cd_total (ops_ledger 0 ops) + PICOZIP__EOCD_SIZE
  + len (span_bytes comment) < 2 ^ 64 ->
  len (picozip_get_mem f')
  = ops_size ops + cd_total (ops_ledger 0 ops) + PICOZIP__EOCD_SIZE
    + len (span_bytes comment) /\
  picozip_get_mem f'
  = ops_blocks localtime 0 ops
    ++ central_directory localtime (ops_ledger 0 ops)
    ++ eocd_record (len ops) (cd_size_after 0 (ops_ledger 0 ops)) (offset f)
                   (span_len comment)
    ++ span_bytes comment /\
  ops_size ops
  = fold_right (fun op s => entry_disk_size (op_entry 0 op) (op_content op) + s) 0 ops /\
  cd_total (ops_ledger 0 ops)
  = fold_right (fun op s => central_record_size (op_entry 0 op) + s) 0 ops.
Proof.
  intros Hrun Hlen Hend Hsmall.
  destruct (finalized_layout localtime ops f f' comment Hrun Hlen Hend)
    as (Hv & _ & _ & _ & _ & _ & Hblocks & Hout & _ & _).
  destruct (add_all_sized localtime ops mem_session f mem_session_sink
              mem_session_sized Hrun) as [Hsink Hs].
  destruct (picozip_end_ex_keeps localtime f f' comment PICOZIP_OK Hend)
    as (_ & _ & _ & _ & _ & _ & _ & chunks & Hu).
  assert (Hs' : mem_sized (userdata f')).
  { rewrite Hu. destruct Hsink as [_ ->]. apply writes_sized, Hs. }
  assert (Hwf : Forall entry_wf (ops_ledger 0 ops)) by (apply ops_ledger_wf, Hv).
  assert (Htotal : len (mem_data (userdata f'))
                   = ops_size ops + cd_total (ops_ledger 0 ops) + PICOZIP__EOCD_SIZE
                     + len (span_bytes comment)).
  { rewrite Hout, Hblocks, !len_app, len_ops_blocks, len_central_directory,
      len_eocd_record by assumption. lia. }
  destruct (picozip_get_mem_all f' Hs') as [Hget _]; [lia|].
  rewrite Hget. split; [exact Htotal|]. split; [rewrite Hout, Hblocks; reflexivity|].
  clear. split.
  - induction ops as [|op ops IH]; [reflexivity|].
    cbn [ops_size fold_right]. rewrite IH. f_equal. apply op_size_disk.
  - generalize 0 at 1. induction ops as [|op ops IH]; intros off; [reflexivity|].
    cbn [ops_ledger cd_total fold_right]. fold (cd_total (ops_ledger (size_t (off + op_size op)) ops)).
    rewrite IH. reflexivity.
Qed.

(** X11 at work: the archive of one streamed entry. *)
Lemma X11_witness :
  add_all utc_localtime mem_session [add_stream] = Some stream_session /\
  len [add_stream] <= 1 /\
  picozip_end_ex utc_localtime stream_session (Ptr (bytes_of_string "one entry"))
  = Some (PICOZIP_OK, stream_archive) /\
  ops_size [add_stream] + cd_total (ops_ledger 0 [add_stream])
  + PICOZIP__EOCD_SIZE + len (span_bytes (Ptr (bytes_of_string "one entry"))) < 2 ^ 64 /\
  len (picozip_get_mem stream_archive)
  = ops_size [add_stream] + cd_total (ops_ledger 0 [add_stream])
    + PICOZIP__EOCD_SIZE + len (span_bytes (Ptr (bytes_of_string "one entry"))) /\
  picozip_get_mem stream_archive
  = ops_blocks utc_localtime 0 [add_stream]
    ++ central_directory utc_localtime (ops_ledger 0 [add_stream])
    ++ eocd_record (len [add_stream])
                   (cd_size_after 0 (ops_ledger 0 [add_stream]))
                   (offset stream_session)
                   (span_len (Ptr (bytes_of_string "one entry")))
    ++ span_bytes (Ptr (bytes_of_string "one entry")) /\
  ops_size [add_stream]
  = fold_right (fun op s => entry_disk_size (op_entry 0 op) (op_content op) + s) 0
               [add_stream] /\
  cd_total (ops_ledger 0 [add_stream])
  = fold_right (fun op s => central_record_size (op_entry 0 op) + s) 0
               [add_stream].
Proof.
  assert (H0 : add_entry utc_localtime mem_session add_stream
               = Some (PICOZIP_OK, stream_session))
    by (apply ok_session_of_ok; vm_compute; reflexivity).
  assert (H1 : add_all utc_localtime mem_session [add_stream] = Some stream_session)
    by (cbn [add_all]; rewrite H0; reflexivity).
  assert (H2 : len [add_stream] <= 1) by (cbn; lia).
  assert (H3 : picozip_end_ex utc_localtime stream_session
                              (Ptr (bytes_of_string "one entry"))
               = Some (PICOZIP_OK, stream_archive))
    by (apply ok_session_of_ok; vm_compute; reflexivity).
  assert (H4 : ops_size [add_stream]
               + cd_total (ops_ledger 0 [add_stream])
               + PICOZIP__EOCD_SIZE
               + len (span_bytes (Ptr (bytes_of_string "one entry"))) < 2 ^ 64)
    by (vm_compute; reflexivity).
  split; [exact H1|]. split; [exact H2|]. split; [exact H3|]. split; [exact H4|].
  exact (X11_archive_size utc_localtime [add_stream] stream_session
           stream_archive (Ptr (bytes_of_string "one entry")) H1 H2 H3 H4).
Defined.

(** ** Finding the records of an archive *)

Section ReadingProofs.

Variable localtime : Z -> tm.

Lemma READ_LE16_middle (pre x post : list byte) (k : nat) :
  (k + 2 <= length x)%nat ->
  READ_LE16 (pre ++ x ++ post) (length pre + k) = READ_LE16 x k.
Proof.
  intros Hk. apply READ_LE16_bytes;
    rewrite <- ?Nat.add_assoc, app_nth2_plus, app_nth1 by lia; reflexivity.
Qed.

Lemma READ_LE32_middle (pre x post : list byte) (k : nat) :
  (k + 4 <= length x)%nat ->
  READ_LE32 (pre ++ x ++ post) (length pre + k) = READ_LE32 x k.
Proof.
  intros Hk. apply READ_LE32_bytes;
    rewrite <- ?Nat.add_assoc, app_nth2_plus, app_nth1 by lia; reflexivity.
Qed.

(** A finalized archive on the in-memory destination as
    [picozip_get_mem] reports it. *)
Lemma finalized_get_mem (ops : list add_op) (f f' : picozip_file picozip__mem_file)
      (comment : span) :
  add_all localtime mem_session ops = Some f ->
  len ops <= 1 ->
  picozip_end_ex localtime f comment = Some (PICOZIP_OK, f') ->
  ops_size ops + cd_total (ops_ledger 0 ops) + PICOZIP__EOCD_SIZE
  + len (span_bytes comment) < 2 ^ 64 ->
  picozip_get_mem f' = mem_data (userdata f') /\
  len (mem_data (userdata f'))
  = ops_size ops + cd_total (ops_ledger 0 ops) + PICOZIP__EOCD_SIZE
    + len (span_bytes comment).
Proof.
  intros Hrun Hlen Hend Hsmall.
  destruct (finalized_layout localtime ops f f' comment Hrun Hlen Hend)
    as (Hv & _ & _ & _ & _ & _ & Hblocks & Hout & _ & _).
  destruct (add_all_sized localtime ops mem_session f mem_session_sink
              mem_session_sized Hrun) as [Hsink Hs].
  destruct (picozip_end_ex_keeps localtime f f' comment PICOZIP_OK Hend)
    as (_ & _ & _ & _ & _ & _ & _ & chunks & Hu).
  assert (Hs' : mem_sized (userdata f')).
  { rewrite Hu. destruct Hsink as [_ ->]. apply writes_sized, Hs. }
  assert (Hwf : Forall entry_wf (ops_ledger 0 ops)) by (apply ops_ledger_wf, Hv).
  assert (Htotal : len (mem_data (userdata f'))
                   = ops_size ops + cd_total (ops_ledger 0 ops) + PICOZIP__EOCD_SIZE
                     + len (span_bytes comment)).
  { rewrite Hout, Hblocks, !len_app, len_ops_blocks, len_central_directory,
      len_eocd_record by assumption. lia. }
  destruct (picozip_get_mem_all f' Hs') as [Hget _]; [lia|].
  split; [exact Hget|exact Htotal].
Qed.

End ReadingProofs.

(** X12.  In a finalized archive of less than four gibibytes and at most
    one entry on the in-memory destination, a reader finds the
    central directory from the end: the end record lies 22 bytes plus
    the length of the archive comment before the end of the output and
    starts with its magic; its two counts are the number of entries; its
    offset and size fields delimit exactly the central directory, which
    begins where the blocks of the entries end and ends where the end
    record begins; and the comment length it declares is that of the
    comment that follows it. *)
Theorem X12_end_record_locates_central_directory
        (localtime : Z -> tm) (ops : list add_op)
        (f f' : picozip_file picozip__mem_file) (comment : span) :
  add_all localtime mem_session ops = Some f ->
  len ops <= 1 ->
  span_len comment < 2 ^ 16 ->
  picozip_end_ex localtime f comment = Some (PICOZIP_OK, f') ->
  ops_size ops + cd_total (ops_ledger 0 ops) + PICOZIP__EOCD_SIZE
  + len (span_bytes comment) < 2 ^ 32 ->
  let out := picozip_get_mem f' in
  let p := (length out - 22 - length (span_bytes comment))%nat in
  let cd_size := READ_LE32 out (p + 12) in
  let cd_offset := READ_LE32 out (p + 16) in
  READ_LE32 out p = PICOZIP__EOCD_MAGIC /\
  READ_LE16 out (p + 8) = len ops /\
  READ_LE16 out (p + 10) = len ops /\
  cd_offset = ops_size ops /\
  cd_offset + cd_size = Z.of_nat p /\
  slice out (Z.to_nat cd_offset) (Z.to_nat cd_size)
  = central_directory localtime (ops_ledger 0 ops) /\
  READ_LE16 out (p + 20) = len (span_bytes comment) /\
  skipn (p + 22) out = span_bytes comment.
Proof.
  intros Hrun Hlen Hclen Hend Hsmall.
  destruct (finalized_get_mem localtime ops f f' comment Hrun Hlen Hend) as [Hget Htotal];
    [lia|].
  cbv zeta. rewrite Hget.
  destruct (finalized_end_record localtime ops f f' comment Hrun Hlen Hend)
    as (cd & eocd & Hout & Hcd & Hlcd & Hle & R0 & _ & _ & R8 & R10 & R12 & R16 & R20 & Hoff).
  destruct (finalized_layout localtime ops f f' comment Hrun Hlen Hend)
    as (_ & Hcv & _).
  destruct (add_all_mem_offset localtime ops f Hrun) as (_ & Hdata & _).
  set (data := mem_data (userdata f)) in *.
  set (cmt := span_bytes comment) in *.
  pose proof (len_nonneg data) as Hd0. pose proof (len_nonneg cd) as Hc0.
  pose proof (len_nonneg cmt) as Hm0. pose proof (len_nonneg ops) as Ho0.
  assert (Hcmt : len cmt = span_len comment)
    by (apply len_span_bytes, span_valid_true, Hcv).
  rewrite Hout in *. rewrite !len_app, Hle in Htotal.
  assert (Hp : (length (data ++ cd ++ eocd ++ cmt) - 22 - length cmt)%nat
               = length (data ++ cd)).
  { rewrite !length_app. unfold len, PICOZIP__EOCD_SIZE in Hle. lia. }
  rewrite Hp.
  assert (Hle' : length eocd = 22%nat) by (unfold len, PICOZIP__EOCD_SIZE in Hle; lia).
  assert (Hshape : data ++ cd ++ eocd ++ cmt = (data ++ cd) ++ eocd ++ cmt)
    by (rewrite <- app_assoc; reflexivity).
  rewrite Hshape.
  replace (READ_LE32 ((data ++ cd) ++ eocd ++ cmt) (length (data ++ cd)))
    with (READ_LE32 eocd 0)
    by (rewrite <- (READ_LE32_middle (data ++ cd) eocd cmt 0), Nat.add_0_r by lia;
        reflexivity).
  rewrite !READ_LE16_middle, !READ_LE32_middle by lia.
  rewrite R8, R10, R12, R16, R20, Hoff.
  rewrite (size_t_small (len data)) by (unfold PICOZIP__EOCD_SIZE in *; lia).
  rewrite !uint32_t_small by (unfold PICOZIP__EOCD_SIZE in *; lia).
  rewrite !uint16_t_small by lia.
  split; [exact R0|]. split; [reflexivity|]. split; [reflexivity|].
  split; [exact Hdata|].
  split; [rewrite length_app; unfold len; lia|].
  split.
  { rewrite <- Hshape, <- Hcd. apply slice_middle; unfold len; lia. }
  split; [symmetry; exact Hcmt|].
  rewrite app_assoc.
  apply skipn_app_exact. rewrite !length_app. lia.
Qed.

(** X12 at work: the archive of one streamed entry. *)
Lemma X12_witness :
  add_all utc_localtime mem_session [add_stream] = Some stream_session /\
  len [add_stream] <= 1 /\
  span_len (Ptr (bytes_of_string "one entry")) < 2 ^ 16 /\
  picozip_end_ex utc_localtime stream_session (Ptr (bytes_of_string "one entry"))
  = Some (PICOZIP_OK, stream_archive) /\
  ops_size [add_stream] + cd_total (ops_ledger 0 [add_stream])
  + PICOZIP__EOCD_SIZE + len (span_bytes (Ptr (bytes_of_string "one entry"))) < 2 ^ 32 /\
  let out := picozip_get_mem stream_archive in
  let p := (length out - 22
            - length (span_bytes (Ptr (bytes_of_string "one entry"))))%nat in
  let cd_size := READ_LE32 out (p + 12) in
  let cd_offset := READ_LE32 out (p + 16) in
  READ_LE32 out p = PICOZIP__EOCD_MAGIC /\
  READ_LE16 out (p + 8) = len [add_stream] /\
  READ_LE16 out (p + 10) = len [add_stream] /\
  cd_offset = ops_size [add_stream] /\
  cd_offset + cd_size = Z.of_nat p /\
  slice out (Z.to_nat cd_offset) (Z.to_nat cd_size)
  = central_directory utc_localtime (ops_ledger 0 [add_stream]) /\
  READ_LE16 out (p + 20) = len (span_bytes (Ptr (bytes_of_string "one entry"))) /\
  skipn (p + 22) out = span_bytes (Ptr (bytes_of_string "one entry")).
Proof.
  assert (H0 : add_entry utc_localtime mem_session add_stream
               = Some (PICOZIP_OK, stream_session))
    by (apply ok_session_of_ok; vm_compute; reflexivity).
  assert (H1 : add_all utc_localtime mem_session [add_stream] = Some stream_session)
    by (cbn [add_all]; rewrite H0; reflexivity).
  assert (H2 : len [add_stream] <= 1) by (cbn; lia).
  assert (H3 : span_len (Ptr (bytes_of_string "one entry")) < 2 ^ 16)
    by (vm_compute; reflexivity).
  assert (H4 : picozip_end_ex utc_localtime stream_session
                              (Ptr (bytes_of_string "one entry"))
               = Some (PICOZIP_OK, stream_archive))
    by (apply ok_session_of_ok; vm_compute; reflexivity).
  assert (H5 : ops_size [add_stream]
               + cd_total (ops_ledger 0 [add_stream])
               + PICOZIP__EOCD_SIZE
               + len (span_bytes (Ptr (bytes_of_string "one entry"))) < 2 ^ 32)
    by (vm_compute; reflexivity).
  split; [exact H1|]. split; [exact H2|]. split; [exact H3|]. split; [exact H4|].
  split; [exact H5|].
  exact (X12_end_record_locates_central_directory utc_localtime [add_stream]
           stream_session stream_archive (Ptr (bytes_of_string "one entry"))
           H1 H2 H3 H4 H5).
Defined.

(** ** Reading an entry back *)

Section OneEntryReading.

Variable localtime : Z -> tm.

(** A fresh in-memory archive with one entry, finalized, as
    [picozip_get_mem] reports it. *)
Lemma one_entry_get_mem (op : add_op) (f f' : picozip_file picozip__mem_file)
      (comment : span) :
  add_entry localtime mem_session op = Some (PICOZIP_OK, f) ->
  picozip_end_ex localtime f comment = Some (PICOZIP_OK, f') ->
  op_size op + central_record_size (op_entry 0 op) + PICOZIP__EOCD_SIZE
  + len (span_bytes comment) < 2 ^ 64 ->
  picozip_get_mem f' = mem_data (userdata f') /\
  offset f = op_size op.
Proof.
  intros Hop Hend Hsmall.
  assert (Hrun : add_all localtime mem_session [op] = Some f)
    by (cbn [add_all]; rewrite Hop; reflexivity).
  assert (Hlen : len [op] <= 1) by (unfold len; cbn [length]; lia).
  destruct (finalized_get_mem localtime [op] f f' comment Hrun Hlen Hend) as [Hget _].
  { cbn [ops_size ops_ledger cd_total fold_right]. lia. }
  split; [exact Hget|].
  destruct (one_entry_archive localtime op f f' comment Hop Hend)
    as (Hv & _ & _ & _ & Hoff & _).
  rewrite Hoff. apply size_t_small.
  pose proof (len_op_block localtime 0 op Hv) as Hb.
  pose proof (len_nonneg (op_block localtime 0 op)) as H0.
  pose proof (len_nonneg (span_bytes comment)) as H1.
  assert (0 <= central_record_size (op_entry 0 op)).
  { unfold central_record_size. cbn [op_entry filename_len extra_field_len comment_len].
    pose proof (uint16_t_range (strlen (op_path op))).
    pose proof (uint16_t_range (PICOZIP__ATTR_SIZE + PICOZIP__LOCAL_TIMESTAMP_SIZE)).
    pose proof (uint16_t_range (span_len (op_comment op))).
    unfold PICOZIP__CD_HEADER_SIZE. lia. }
  unfold PICOZIP__EOCD_SIZE in Hsmall. lia.
Qed.

End OneEntryReading.

(** X13.  In a finalized archive of one entry and less than four
    gibibytes on the in-memory destination, the content of the entry can
    be read back from the end of the output: the end record, 22 bytes
    plus the length of the archive comment before the end, starts with
    its magic, counts one entry and gives the position of the
    central-directory record; the record starts with its magic and
    declares the method 0 (stored); its offset field is 0, the position
    of the local header, where the local magic is found; and after the
    30 bytes of that header and the file name and extra field that its
    two length fields count, as many bytes as the record declares for
    the uncompressed size are the content that was handed to the add
    operation. *)
Theorem X13_content_read_back
        (localtime : Z -> tm) (op : add_op)
        (f f' : picozip_file picozip__mem_file) (comment : span) :
  add_entry localtime mem_session op = Some (PICOZIP_OK, f) ->
  picozip_end_ex localtime f comment = Some (PICOZIP_OK, f') ->
  op_size op + central_record_size (op_entry 0 op) + PICOZIP__EOCD_SIZE
  + len (span_bytes comment) < 2 ^ 32 ->
  let out := picozip_get_mem f' in
  let p := (length out - 22 - length (span_bytes comment))%nat in
  let r := Z.to_nat (READ_LE32 out (p + 16)) in
  let off := Z.to_nat (READ_LE32 out (r + 42)) in
  let n := Z.to_nat (READ_LE16 out (off + 26)) in
  let x := Z.to_nat (READ_LE16 out (off + 28)) in
  let sz := Z.to_nat (READ_LE32 out (r + 24)) in
  READ_LE32 out p = PICOZIP__EOCD_MAGIC /\
  READ_LE16 out (p + 8) = 1 /\
  READ_LE16 out (p + 10) = 1 /\
  Z.of_nat r = op_size op /\
  READ_LE32 out r = PICOZIP__CENTRAL_MAGIC /\
  READ_LE16 out (r + 10) = 0 /\
  off = 0%nat /\
  READ_LE32 out off = PICOZIP__LOCAL_MAGIC /\
  READ_LE16 out (off + 8) = 0 /\
  Z.of_nat sz = len (op_content op) /\
  slice out (off + 30 + n + x) sz = op_content op.
Proof.
  intros Hop Hend Hsmall.
  destruct (one_entry_get_mem localtime op f f' comment Hop Hend) as [Hget Hoff]; [lia|].
  destruct (one_entry_archive localtime op f f' comment Hop Hend)
    as (Hv & Hcv & _ & _ & _ & Hout).
  cbv zeta in Hout |- *. rewrite Hget, Hout, Hoff. clear Hget Hout.
  set (e := op_entry 0 op) in *.
  pose proof (op_entry_wf 0 op Hv) as Hwf. fold e in Hwf.
  destruct (block_record_agree localtime 0 op Hv)
    as (B1 & B2 & B3 & B4 & B5 & _ & _ & B8 & B9 & _).
  fold e in B1, B2, B4, B5, B8, B9.
  set (block := op_block localtime 0 op) in *.
  set (record := central_record localtime e) in *.
  set (eocd := eocd_record 1 (central_record_size e) (op_size op) (span_len comment)).
  set (cmt := span_bytes comment) in *.
  pose proof (len_op_block localtime 0 op Hv) as Hbs. fold block in Hbs.
  pose proof (eocd_record_read 1 (central_record_size e) (op_size op) (span_len comment) [])
    as He.
  cbv zeta in He. rewrite app_nil_r in He. fold eocd in He.
  destruct He as (E0 & _ & _ & E8 & E10 & _ & E16 & _).
  assert (Hle : length eocd = 22%nat) by reflexivity.
  pose proof (central_header_read localtime e (central_metadata e)) as Hc.
  cbv zeta in Hc. fold (central_record localtime e) in Hc. fold record in Hc.
  destruct Hc as (_ & _ & _ & _ & C10 & _ & _ & C24 & _).
  pose proof (local_header_read localtime (op_entry_at_header 0 op)
                (local_metadata e ++ op_content op ++ op_trailer 0 op)) as Hl.
  cbv zeta in Hl.
  change (local_header localtime (op_entry_at_header 0 op)
          ++ local_metadata e ++ op_content op ++ op_trailer 0 op)
    with block in Hl.
  destruct Hl as (_ & _ & _ & L8 & _).
  set (content := op_content op) in *.
  pose proof (len_nonneg block) as Hb0. pose proof (len_nonneg record) as Hr0.
  pose proof (len_nonneg cmt) as Hq0. pose proof (len_nonneg content) as Hc0.
  destruct Hwf as (Hfn & Hef & Hcl & _).
  assert (Hbl : len block = 30 + filename_len e + extra_field_len e + len content
                            + (if Z.testbit (flags e) 3 then 16 else 0)) by exact B1.
  assert (Hrl : len record = 46 + filename_len e + extra_field_len e + comment_len e)
    by exact B2.
  assert (Hdesc : 0 <= (if Z.testbit (flags e) 3 then 16 else 0))
    by (destruct (Z.testbit (flags e) 3); lia).
  assert (Hrs : central_record_size e = len record) by (symmetry; exact B2).
  rewrite Hrs in Hsmall. unfold PICOZIP__EOCD_SIZE in Hsmall.
  assert (Hp : (length (block ++ record ++ eocd ++ cmt) - 22 - length cmt)%nat
               = length (block ++ record)).
  { rewrite !length_app. lia. }
  rewrite Hp.
  assert (Hend_at : forall k, (k + 4 <= 22)%nat ->
                    READ_LE32 (block ++ record ++ eocd ++ cmt) (length (block ++ record) + k)
                    = READ_LE32 eocd k).
  { intros k Hk. rewrite app_assoc. apply READ_LE32_middle. lia. }
  assert (Hend16 : forall k, (k + 2 <= 22)%nat ->
                   READ_LE16 (block ++ record ++ eocd ++ cmt) (length (block ++ record) + k)
                   = READ_LE16 eocd k).
  { intros k Hk. rewrite app_assoc. apply READ_LE16_middle. lia. }
  rewrite (Hend_at 16%nat), (Hend16 8%nat), (Hend16 10%nat) by lia.
  rewrite E16, uint32_t_small by lia.
  rewrite <- Hbs.
  replace (Z.to_nat (len block)) with (length block) by (unfold len; lia).
  assert (Hrec : forall k, (k + 4 <= 46)%nat ->
                 READ_LE32 (block ++ record ++ eocd ++ cmt) (length block + k)
                 = READ_LE32 record k).
  { intros k Hk. apply READ_LE32_middle. unfold len in Hrl. lia. }
  assert (Hrec16 : forall k, (k + 2 <= 46)%nat ->
                   READ_LE16 (block ++ record ++ eocd ++ cmt) (length block + k)
                   = READ_LE16 record k).
  { intros k Hk. apply READ_LE16_middle. unfold len in Hrl. lia. }
  assert (Hloc : forall k, (k + 4 <= 30)%nat ->
                 READ_LE32 (block ++ record ++ eocd ++ cmt) k = READ_LE32 block k).
  { intros k Hk. apply (READ_LE32_middle [] block (record ++ eocd ++ cmt) k).
    unfold len in Hbl. lia. }
  assert (Hloc16 : forall k, (k + 2 <= 30)%nat ->
                   READ_LE16 (block ++ record ++ eocd ++ cmt) k = READ_LE16 block k).
  { intros k Hk. apply (READ_LE16_middle [] block (record ++ eocd ++ cmt) k).
    unfold len in Hbl. lia. }
  assert (Hsz : READ_LE32 record 24 = len content).
  { rewrite C24. unfold e. cbn [op_entry uncomp_size]. fold content.
    rewrite uint32_t_idem. apply uint32_t_small. lia. }
  rewrite (Hrec 42%nat), (Hrec 24%nat) by lia. rewrite B5, Hsz.
  change (Z.to_nat (uint32_t 0)) with 0%nat. cbn [Nat.add].
  rewrite (Hloc16 26%nat), (Hloc16 28%nat) by lia. rewrite B8, B9.
  split; [rewrite <- (Nat.add_0_r (length (block ++ record))), Hend_at by lia;
          rewrite E0; reflexivity|].
  split; [rewrite E8; reflexivity|].
  split; [rewrite E10; reflexivity|].
  split; [unfold len; reflexivity|].
  split; [rewrite <- (Nat.add_0_r (length block)), Hrec by lia; exact B4|].
  split; [rewrite Hrec16 by lia; rewrite C10; destruct op; reflexivity|].
  split; [reflexivity|].
  split; [rewrite Hloc by lia; exact B3|].
  split; [rewrite (Hloc16 8%nat) by lia; rewrite L8; destruct op; reflexivity|].
  split; [unfold len; lia|].
  unfold block, op_block. fold e. fold content.
  set (H := local_header localtime (op_entry_at_header 0 op)).
  set (M := local_metadata e).
  assert (HH : length H = 30%nat) by reflexivity.
  assert (HM : length M = Z.to_nat (filename_len e + extra_field_len e)).
  { rewrite length_len. unfold M. rewrite len_local_metadata; [reflexivity|].
    apply op_entry_wf, Hv. }
  replace ((H ++ M ++ content ++ op_trailer 0 op) ++ record ++ eocd ++ cmt)
    with ((H ++ M) ++ content ++ (op_trailer 0 op ++ record ++ eocd ++ cmt))
    by (rewrite <- !app_assoc; reflexivity).
  apply slice_middle.
  - rewrite !length_app, HH, HM. lia.
  - unfold len. lia.
Qed.

(** X13 at work: the archive of one streamed entry. *)
Lemma X13_witness :
  add_entry utc_localtime mem_session add_stream = Some (PICOZIP_OK, stream_session) /\
  picozip_end_ex utc_localtime stream_session (Ptr (bytes_of_string "one entry"))
  = Some (PICOZIP_OK, stream_archive) /\
  op_size add_stream + central_record_size (op_entry 0 add_stream) + PICOZIP__EOCD_SIZE
  + len (span_bytes (Ptr (bytes_of_string "one entry"))) < 2 ^ 32 /\
  let out := picozip_get_mem stream_archive in
  let p := (length out - 22
            - length (span_bytes (Ptr (bytes_of_string "one entry"))))%nat in
  let r := Z.to_nat (READ_LE32 out (p + 16)) in
  let off := Z.to_nat (READ_LE32 out (r + 42)) in
  let n := Z.to_nat (READ_LE16 out (off + 26)) in
  let x := Z.to_nat (READ_LE16 out (off + 28)) in
  let sz := Z.to_nat (READ_LE32 out (r + 24)) in
  READ_LE32 out p = PICOZIP__EOCD_MAGIC /\
  READ_LE16 out (p + 8) = 1 /\
  READ_LE16 out (p + 10) = 1 /\
  Z.of_nat r = op_size add_stream /\
  READ_LE32 out r = PICOZIP__CENTRAL_MAGIC /\
  READ_LE16 out (r + 10) = 0 /\
  off = 0%nat /\
  READ_LE32 out off = PICOZIP__LOCAL_MAGIC /\
  READ_LE16 out (off + 8) = 0 /\
  Z.of_nat sz = len (op_content add_stream) /\
  slice out (off + 30 + n + x) sz = op_content add_stream.
Proof.
  assert (H1 : add_entry utc_localtime mem_session add_stream
               = Some (PICOZIP_OK, stream_session))
    by (apply ok_session_of_ok; vm_compute; reflexivity).
  assert (H2 : picozip_end_ex utc_localtime stream_session
                              (Ptr (bytes_of_string "one entry"))
               = Some (PICOZIP_OK, stream_archive))
    by (apply ok_session_of_ok; vm_compute; reflexivity).
  assert (H3 : op_size add_stream + central_record_size (op_entry 0 add_stream)
               + PICOZIP__EOCD_SIZE
               + len (span_bytes (Ptr (bytes_of_string "one entry"))) < 2 ^ 32)
    by (vm_compute; reflexivity).
  split; [exact H1|]. split; [exact H2|]. split; [exact H3|].
  exact (X13_content_read_back utc_localtime add_stream stream_session stream_archive
           (Ptr (bytes_of_string "one entry")) H1 H2 H3).
Defined.

(** ** The fields of an entry *)

Lemma READ_LE16_slice (D x : list byte) (O n k : nat) :
  slice D O n = x -> (k + 2 <= length x)%nat -> READ_LE16 D (O + k) = READ_LE16 x k.
Proof.
  intros <- Hk. unfold slice in *.
  assert (Hn : (k + 2 <= n)%nat)
    by (rewrite length_firstn in Hk; lia).
  apply READ_LE16_bytes; rewrite nth_firstn, nth_skipn.
  - replace (k <? n)%nat with true by (symmetry; apply Nat.ltb_lt; lia). reflexivity.
  - replace (k + 1 <? n)%nat with true by (symmetry; apply Nat.ltb_lt; lia).
    f_equal. lia.
Qed.

Lemma READ_LE32_slice (D x : list byte) (O n k : nat) :
  slice D O n = x -> (k + 4 <= length x)%nat -> READ_LE32 D (O + k) = READ_LE32 x k.
Proof.
  intros <- Hk. unfold slice in *.
  assert (Hn : (k + 4 <= n)%nat)
    by (rewrite length_firstn in Hk; lia).
  apply READ_LE32_bytes; rewrite nth_firstn, nth_skipn.
  - replace (k <? n)%nat with true by (symmetry; apply Nat.ltb_lt; lia). reflexivity.
  - replace (k + 1 <? n)%nat with true by (symmetry; apply Nat.ltb_lt; lia).
    f_equal. lia.
  - replace (k + 2 <? n)%nat with true by (symmetry; apply Nat.ltb_lt; lia).
    f_equal. lia.
  - replace (k + 3 <? n)%nat with true by (symmetry; apply Nat.ltb_lt; lia).
    f_equal. lia.
Qed.

Lemma byte_at_slice (D x : list byte) (O n k : nat) :
  slice D O n = x -> (k + 1 <= length x)%nat -> byte_at D (O + k) = byte_at x k.
Proof.
  intros <- Hk. unfold slice, byte_at in *.
  assert (Hn : (k + 1 <= n)%nat) by (rewrite length_firstn in Hk; lia).
  rewrite nth_firstn, nth_skipn.
  replace (k <? n)%nat with true by (symmetry; apply Nat.ltb_lt; lia). reflexivity.
Qed.

(** The extended-timestamp field, read back. *)
Lemma timestamp_field_read (m : Z) :
  READ_LE16 (timestamp_field m) 0 = PICOZIP__TIMESTAMP_MAGIC /\
  READ_LE16 (timestamp_field m) 2 = PICOZIP__LOCAL_TIMESTAMP_SIZE /\
  byte_at (timestamp_field m) 4 = 1 /\
  READ_LE32 (timestamp_field m) 5 = uint32_t m.
Proof.
  unfold timestamp_field.
  set (t := le16 PICOZIP__TIMESTAMP_MAGIC). set (s := le16 PICOZIP__LOCAL_TIMESTAMP_SIZE).
  split; [exact (READ_LE16_le16 _ [] (s ++ [u8 1] ++ le32 (uint32_t m)))|].
  split; [exact (READ_LE16_le16 _ t ([u8 1] ++ le32 (uint32_t m)))|].
  split; [reflexivity|].
  pose proof (READ_LE32_le32 (uint32_t m) (t ++ s ++ [u8 1]) []) as H.
  rewrite app_nil_r, <- !app_assoc in H.
  change (length (t ++ s ++ [u8 1])) with 5%nat in H.
  rewrite H. apply uint32_t_idem.
Qed.

Lemma picozip__time_to_dostime_range (localtime : Z -> tm) (t : Z) :
  uint16_t (fst (picozip__time_to_dostime localtime t))
  = fst (picozip__time_to_dostime localtime t) /\
  uint16_t (snd (picozip__time_to_dostime localtime t))
  = snd (picozip__time_to_dostime localtime t).
Proof.
  unfold picozip__time_to_dostime. cbv zeta. cbn [fst snd].
  split; apply uint16_t_idem.
Qed.

(** X14.  In a finalized archive of one entry on the in-memory
    destination, when the file name of the entry is shorter than 65536
    bytes, its extra field is the extended time stamp, in the local
    header and in the central-directory record alike.  The output begins
    with the block of the entry, which starts with the local magic and
    is as long as the sizes of the entry say, and the record follows it,
    starts with the central magic and points back at offset 0; in both,
    after the file name, come the tag 0x5455, the size 5, the flag byte 1
    and the modification time of the entry as 32 bits, that is, modulo
    2^32; the modification time is the one passed to
    [picozip_new_entry_mem_ex], or the one [fstat] reports for the
    stream. *)
Theorem X14_extended_timestamp_read_back
        (localtime : Z -> tm) (op : add_op)
        (f f' : picozip_file picozip__mem_file) (comment : span) :
  add_entry localtime mem_session op = Some (PICOZIP_OK, f) ->
  picozip_end_ex localtime f comment = Some (PICOZIP_OK, f') ->
  strlen (op_path op) < 2 ^ 16 ->
  exists e block record post (mtime : Z),
    entries_data f 0 = Some e /\
    mem_data (userdata f') = block ++ record ++ post /\
    len block = entry_disk_size e (op_content op) /\
    len record = central_record_size e /\
    READ_LE32 block 0 = PICOZIP__LOCAL_MAGIC /\
    READ_LE32 record 0 = PICOZIP__CENTRAL_MAGIC /\
    READ_LE32 record 42 = 0 /\
    match op with
    | Add_mem _ _ t _ => mtime = t
    | Add_file _ (Some stream) _ => fstat stream = inl mtime
    | Add_file _ None _ => False
    end /\
    let n := Z.to_nat (READ_LE16 block 26) in
    Z.of_nat n = strlen (op_path op) /\
    READ_LE16 block 28 = 9 /\
    READ_LE16 block (30 + n) = PICOZIP__TIMESTAMP_MAGIC /\
    READ_LE16 block (30 + n + 2) = PICOZIP__LOCAL_TIMESTAMP_SIZE /\
    byte_at block (30 + n + 4) = 1 /\
    READ_LE32 block (30 + n + 5) = uint32_t mtime /\
    READ_LE16 record 28 = Z.of_nat n /\
    READ_LE16 record 30 = 9 /\
    READ_LE16 record (46 + n) = PICOZIP__TIMESTAMP_MAGIC /\
    READ_LE16 record (46 + n + 2) = PICOZIP__LOCAL_TIMESTAMP_SIZE /\
    byte_at record (46 + n + 4) = 1 /\
    READ_LE32 record (46 + n + 5) = uint32_t mtime.
Proof.
  intros Hop Hend Hsmall.
  destruct (one_entry_archive localtime op f f' comment Hop Hend)
    as (Hv & _ & Hslot & _ & _ & Hout).
  cbv zeta in Hslot, Hout.
  set (e := op_entry 0 op) in *.
  exists e, (op_block localtime 0 op), (central_record localtime e).
  eexists. exists (op_mod_time op).
  destruct (block_record_agree localtime 0 op Hv)
    as (B1 & B2 & B3 & B4 & B5 & _ & _ & B8 & B9 & _ & _ & _ & B13).
  fold e in B1, B2, B4, B5, B8, B9, B13. destruct (B13 Hsmall) as [Tb Tr].
  change (mod_time e) with (op_mod_time op) in Tb, Tr.
  pose proof (central_header_read localtime e (central_metadata e)) as Hc.
  cbv zeta in Hc. fold (central_record localtime e) in Hc.
  destruct Hc as (_ & _ & _ & _ & _ & _ & _ & _ & C28 & C30 & _).
  pose proof (strlen_range (op_path op)) as Hs.
  assert (Hfl : filename_len e = strlen (op_path op))
    by (cbn [e op_entry filename_len]; apply uint16_t_small; lia).
  destruct (timestamp_field_read (op_mod_time op)) as (T0 & T2 & T4 & T5).
  split; [exact Hslot|]. split; [exact Hout|].
  split; [exact B1|]. split; [exact B2|]. split; [exact B3|]. split; [exact B4|].
  split; [exact B5|].
  split.
  { destruct op as [p d t c|p [s|] c]; [reflexivity| |destruct p; discriminate Hv].
    cbn [op_valid] in Hv. destruct p; [|discriminate Hv].
    cbn [op_mod_time]. destruct (fstat s); [reflexivity|].
    rewrite andb_false_r in Hv. discriminate Hv. }
  cbv zeta. rewrite B8, Hfl.
  split; [apply Z2Nat.id; lia|].
  split; [rewrite B9; reflexivity|].
  rewrite Hfl in Tb, Tr.
  split; [rewrite <- (Nat.add_0_r (30 + _)), (READ_LE16_slice _ _ _ _ _ Tb); [exact T0|cbn; lia]|].
  split; [rewrite (READ_LE16_slice _ _ _ _ _ Tb); [exact T2|cbn; lia]|].
  split; [rewrite (byte_at_slice _ _ _ _ _ Tb); [exact T4|cbn; lia]|].
  split; [rewrite (READ_LE32_slice _ _ _ _ _ Tb); [exact T5|cbn; lia]|].
  split; [rewrite C28, Hfl, Z2Nat.id by lia; apply uint16_t_small; lia|].
  split; [rewrite C30; reflexivity|].
  split; [rewrite <- (Nat.add_0_r (46 + _)), (READ_LE16_slice _ _ _ _ _ Tr); [exact T0|cbn; lia]|].
  split; [rewrite (READ_LE16_slice _ _ _ _ _ Tr); [exact T2|cbn; lia]|].
  split; [rewrite (byte_at_slice _ _ _ _ _ Tr); [exact T4|cbn; lia]|].
  rewrite (READ_LE32_slice _ _ _ _ _ Tr); [exact T5|cbn; lia].
Qed.

(** X14 at work: the archive of one streamed entry. *)
Lemma X14_witness :
  add_entry utc_localtime mem_session add_stream = Some (PICOZIP_OK, stream_session) /\
  picozip_end_ex utc_localtime stream_session (Ptr (bytes_of_string "one entry"))
  = Some (PICOZIP_OK, stream_archive) /\
  strlen (op_path add_stream) < 2 ^ 16 /\
  exists e block record post (mtime : Z),
    entries_data stream_session 0 = Some e /\
    mem_data (userdata stream_archive) = block ++ record ++ post /\
    len block = entry_disk_size e (op_content add_stream) /\
    len record = central_record_size e /\
    READ_LE32 block 0 = PICOZIP__LOCAL_MAGIC /\
    READ_LE32 record 0 = PICOZIP__CENTRAL_MAGIC /\
    READ_LE32 record 42 = 0 /\
    match add_stream with
    | Add_mem _ _ t _ => mtime = t
    | Add_file _ (Some stream) _ => fstat stream = inl mtime
    | Add_file _ None _ => False
    end /\
    let n := Z.to_nat (READ_LE16 block 26) in
    Z.of_nat n = strlen (op_path add_stream) /\
    READ_LE16 block 28 = 9 /\
    READ_LE16 block (30 + n) = PICOZIP__TIMESTAMP_MAGIC /\
    READ_LE16 block (30 + n + 2) = PICOZIP__LOCAL_TIMESTAMP_SIZE /\
    byte_at block (30 + n + 4) = 1 /\
    READ_LE32 block (30 + n + 5) = uint32_t mtime /\
    READ_LE16 record 28 = Z.of_nat n /\
    READ_LE16 record 30 = 9 /\
    READ_LE16 record (46 + n) = PICOZIP__TIMESTAMP_MAGIC /\
    READ_LE16 record (46 + n + 2) = PICOZIP__LOCAL_TIMESTAMP_SIZE /\
    byte_at record (46 + n + 4) = 1 /\
    READ_LE32 record (46 + n + 5) = uint32_t mtime.
Proof.
  assert (H1 : add_entry utc_localtime mem_session add_stream
               = Some (PICOZIP_OK, stream_session))
    by (apply ok_session_of_ok; vm_compute; reflexivity).
  assert (H2 : picozip_end_ex utc_localtime stream_session
                              (Ptr (bytes_of_string "one entry"))
               = Some (PICOZIP_OK, stream_archive))
    by (apply ok_session_of_ok; vm_compute; reflexivity).
  assert (H3 : strlen (op_path add_stream) < 2 ^ 16) by (vm_compute; reflexivity).
  split; [exact H1|]. split; [exact H2|]. split; [exact H3|].
  exact (X14_extended_timestamp_read_back utc_localtime add_stream stream_session
           stream_archive (Ptr (bytes_of_string "one entry")) H1 H2 H3).
Defined.

(** X15.  In a finalized archive of one entry on the in-memory
    destination the entry declares the version 20 as needed to extract,
    the method 0 (stored) and, as its time and date, what
    [picozip__time_to_dostime] makes of its modification time, in the
    local header and in the central-directory record alike; its flags
    are 0 when it was added with its size known and 8 (bit 3) when it
    was streamed; and its central-directory record declares the version
    0 as made by, the disk 0 and no internal or external attributes.
    The output begins with the block of the entry, which starts with the
    local magic and is as long as the sizes of the entry say, and the
    record follows it, starts with the central magic and points back at
    offset 0. *)
Theorem X15_fixed_fields_and_dos_time
        (localtime : Z -> tm) (op : add_op)
        (f f' : picozip_file picozip__mem_file) (comment : span) :
  add_entry localtime mem_session op = Some (PICOZIP_OK, f) ->
  picozip_end_ex localtime f comment = Some (PICOZIP_OK, f') ->
  exists e block record post (mtime : Z),
    entries_data f 0 = Some e /\
    mem_data (userdata f') = block ++ record ++ post /\
    len block = entry_disk_size e (op_content op) /\
    len record = central_record_size e /\
    READ_LE32 block 0 = PICOZIP__LOCAL_MAGIC /\
    READ_LE32 record 0 = PICOZIP__CENTRAL_MAGIC /\
    READ_LE32 record 42 = 0 /\
    match op with
    | Add_mem _ _ t _ => mtime = t /\ READ_LE16 block 6 = 0
    | Add_file _ (Some stream) _ =>
        fstat stream = inl mtime /\ READ_LE16 block 6 = PICOZIP__FLAG_DATADESC
    | Add_file _ None _ => False
    end /\
    READ_LE16 block 4 = PICOZIP__MIN_VERSION /\
    READ_LE16 block 8 = 0 /\
    READ_LE16 block 10 = snd (picozip__time_to_dostime localtime mtime) /\
    READ_LE16 block 12 = fst (picozip__time_to_dostime localtime mtime) /\
    READ_LE16 record 4 = 0 /\
    READ_LE16 record 6 = PICOZIP__MIN_VERSION /\
    READ_LE16 record 8 = READ_LE16 block 6 /\
    READ_LE16 record 10 = 0 /\
    READ_LE16 record 12 = snd (picozip__time_to_dostime localtime mtime) /\
    READ_LE16 record 14 = fst (picozip__time_to_dostime localtime mtime) /\
    READ_LE16 record 34 = 0 /\
    READ_LE16 record 36 = 0 /\
    READ_LE32 record 38 = 0.
Proof.
  intros Hop Hend.
  destruct (one_entry_archive localtime op f f' comment Hop Hend)
    as (Hv & _ & Hslot & _ & _ & Hout).
  cbv zeta in Hslot, Hout.
  set (e := op_entry 0 op) in *.
  exists e, (op_block localtime 0 op), (central_record localtime e).
  eexists. exists (op_mod_time op).
  destruct (block_record_agree localtime 0 op Hv)
    as (B1 & B2 & B3 & B4 & B5 & B6 & _).
  fold e in B1, B2, B4, B5, B6.
  pose proof (central_header_read localtime e (central_metadata e)) as Hc.
  cbv zeta in Hc. fold (central_record localtime e) in Hc.
  destruct Hc as (_ & C4 & C6 & C8 & C10 & _ & _ & _ & _ & _ & _ & C34 & C36 & C38 & _).
  pose proof (local_header_read localtime (op_entry_at_header 0 op)
                (local_metadata e ++ op_content op ++ op_trailer 0 op)) as Hl.
  cbv zeta in Hl.
  change (local_header localtime (op_entry_at_header 0 op)
          ++ local_metadata e ++ op_content op ++ op_trailer 0 op)
    with (op_block localtime 0 op) in Hl.
  destruct Hl as (_ & L4 & L6 & L8 & L10 & L12 & _).
  destruct (picozip__time_to_dostime_range localtime (op_mod_time op)) as [Hdate Htime].
  assert (T10 : READ_LE16 (op_block localtime 0 op) 10
                = snd (picozip__time_to_dostime localtime (op_mod_time op))).
  { rewrite L10. clear - Htime. destruct op; exact Htime. }
  assert (T12 : READ_LE16 (op_block localtime 0 op) 12
                = fst (picozip__time_to_dostime localtime (op_mod_time op))).
  { rewrite L12. clear - Hdate. destruct op; exact Hdate. }
  assert (Hlen10 : length (slice (central_record localtime e) 6 10) = 10%nat).
  { rewrite <- B6. unfold slice. rewrite length_firstn, length_skipn.
    assert (30 <= length (op_block localtime 0 op))%nat; [|lia].
    unfold op_block. rewrite length_app.
    change (length (local_header localtime (op_entry_at_header 0 op))) with 30%nat.
    lia. }
  assert (Hrec : forall k, (k + 2 <= 10)%nat ->
                 READ_LE16 (central_record localtime e) (6 + k)
                 = READ_LE16 (op_block localtime 0 op) (4 + k)).
  { intros k Hk.
    rewrite (READ_LE16_slice _ _ 6 10 k eq_refl) by lia.
    rewrite <- B6. symmetry. apply (READ_LE16_slice _ _ 4 10 k eq_refl).
    rewrite B6. lia. }
  split; [exact Hslot|]. split; [exact Hout|].
  split; [exact B1|]. split; [exact B2|]. split; [exact B3|]. split; [exact B4|].
  split; [exact B5|].
  split.
  { destruct op as [p d t c|p [s|] c]; [split; [reflexivity|rewrite L6; reflexivity]|
                                         |destruct p; discriminate Hv].
    cbn [op_valid] in Hv. destruct p; [|discriminate Hv].
    cbn [op_mod_time]. destruct (fstat s).
    - split; [reflexivity|rewrite L6; reflexivity].
    - rewrite andb_false_r in Hv. discriminate Hv. }
  split; [rewrite L4; destruct op; reflexivity|].
  split; [rewrite L8; destruct op; reflexivity|].
  split; [exact T10|]. split; [exact T12|].
  split; [rewrite C4; reflexivity|]. split; [rewrite C6; reflexivity|].
  split; [apply (Hrec 2%nat); lia|].
  split; [rewrite C10; reflexivity|].
  split; [exact (eq_trans (Hrec 6%nat ltac:(lia)) T10)|].
  split; [exact (eq_trans (Hrec 8%nat ltac:(lia)) T12)|].
  split; [exact C34|]. split; [rewrite C36; reflexivity|]. rewrite C38. reflexivity.
Qed.

(** X15 at work: the archive of one directory marker, added with its
    size known. *)
Lemma X15_witness :
  add_entry utc_localtime mem_session add_dir = Some (PICOZIP_OK, dir_added) /\
  picozip_end_ex utc_localtime dir_added (Null 0) = Some (PICOZIP_OK, dir_archive) /\
  exists e block record post (mtime : Z),
    entries_data dir_added 0 = Some e /\
    mem_data (userdata dir_archive) = block ++ record ++ post /\
    len block = entry_disk_size e (op_content add_dir) /\
    len record = central_record_size e /\
    READ_LE32 block 0 = PICOZIP__LOCAL_MAGIC /\
    READ_LE32 record 0 = PICOZIP__CENTRAL_MAGIC /\
    READ_LE32 record 42 = 0 /\
    match add_dir with
    | Add_mem _ _ t _ => mtime = t /\ READ_LE16 block 6 = 0
    | Add_file _ (Some stream) _ =>
        fstat stream = inl mtime /\ READ_LE16 block 6 = PICOZIP__FLAG_DATADESC
    | Add_file _ None _ => False
    end /\
    READ_LE16 block 4 = PICOZIP__MIN_VERSION /\
    READ_LE16 block 8 = 0 /\
    READ_LE16 block 10 = snd (picozip__time_to_dostime utc_localtime mtime) /\
    READ_LE16 block 12 = fst (picozip__time_to_dostime utc_localtime mtime) /\
    READ_LE16 record 4 = 0 /\
    READ_LE16 record 6 = PICOZIP__MIN_VERSION /\
    READ_LE16 record 8 = READ_LE16 block 6 /\
    READ_LE16 record 10 = 0 /\
    READ_LE16 record 12 = snd (picozip__time_to_dostime utc_localtime mtime) /\
    READ_LE16 record 14 = fst (picozip__time_to_dostime utc_localtime mtime) /\
    READ_LE16 record 34 = 0 /\
    READ_LE16 record 36 = 0 /\
    READ_LE32 record 38 = 0.
Proof.
  assert (H1 : add_entry utc_localtime mem_session add_dir
               = Some (PICOZIP_OK, dir_added))
    by (apply (ok_session_of_ok mem_session
                 (picozip_new_entry_mem_ex utc_localtime mem_session
                    (Some (bytes_of_string "dir/")) (Null 0) 1730559952 (Null 0)));
        vm_compute; reflexivity).
  assert (H2 : picozip_end_ex utc_localtime dir_added (Null 0)
               = Some (PICOZIP_OK, dir_archive))
    by (apply ok_session_of_ok; vm_compute; reflexivity).
  split; [exact H1|]. split; [exact H2|].
  exact (X15_fixed_fields_and_dos_time utc_localtime add_dir dir_added dir_archive
           (Null 0) H1 H2).
Defined.

(** ** Taking an entry back *)

(** X16.  [picozip__free_last_entry] does not free the entry that
    [picozip__alloc_entry] has just appended: after an allocation that
    put the new entry into the slot at the old count of entries, it hands
    the free callback what the slot after that one holds, a slot the
    allocation did not write, and takes the count back; the new entry
    stays in its slot and the free callback has not seen it.  Where the
    free callback has no result for what that slot holds, neither has
    [picozip__free_last_entry]. *)
Theorem X16_free_last_entry_reads_next_slot {U : Type}
        (f fa : picozip_file U) (metadata_len idx : Z) :
  0 <= num_entries f ->
  num_entries f + 1 < 2 ^ 64 ->
  picozip__alloc_entry f metadata_len = (Some idx, fa) ->
  idx = num_entries f /\
  num_entries fa = num_entries f + 1 /\
  entries_data fa idx = Some blank_entry /\
  entries_data fa (num_entries f + 1) = entries_data f (num_entries f + 1) /\
  (free_cb f (userdata fa) (entries_data f (num_entries f + 1)) = None ->
   picozip__free_last_entry fa = None) /\
  (forall u : U,
      free_cb f (userdata fa) (entries_data f (num_entries f + 1)) = Some u ->
      exists fr,
        picozip__free_last_entry fa = Some fr /\
        userdata fr = u /\
        num_entries fr = num_entries f /\
        entries_data fr idx = Some blank_entry).
Proof.
  intros Hn0 Hn H.
  apply picozip__alloc_entry_some in H.
  destruct H as (-> & _ & _ & Hf & _ & Hc & Hd & _).
  rewrite size_t_small in Hc by lia.
  assert (Hnext : entries_data fa (num_entries f + 1)
                  = entries_data f (num_entries f + 1)).
  { rewrite Hd, entries_store_other by lia. apply slots_kept_above. lia. }
  split; [reflexivity|]. split; [exact Hc|].
  split; [rewrite Hd; apply entries_store_same|].
  split; [exact Hnext|].
  unfold picozip__free_last_entry.
  cbn [userdata set_userdata set_num_entries free_cb num_entries entries_data].
  rewrite Hc, Hf, Hnext.
  split; [intros ->; reflexivity|].
  intros u ->. eexists. split; [reflexivity|].
  cbn [userdata set_userdata set_num_entries num_entries entries_data].
  split; [reflexivity|].
  split; [replace (num_entries f + 1 - 1) with (num_entries f) by lia;
          apply size_t_small; lia|rewrite Hd; apply entries_store_same].
Qed.

Lemma pair_some {A B} (p : option A * B) (a : A) : fst p = Some a -> p = (Some a, snd p).
Proof. destruct p as [x b]. cbn. intros ->. reflexivity. Qed.

(** X16 at work: a fresh session whose free callback keeps a log. *)
Lemma X16_witness :
  0 <= num_entries logging_session /\
  num_entries logging_session + 1 < 2 ^ 64 /\
  picozip__alloc_entry logging_session 17 = (Some 0, alloc_added) /\
  free_cb logging_session (userdata alloc_added)
          (entries_data logging_session (num_entries logging_session + 1))
  = Some [None] /\
  0 = num_entries logging_session /\
  num_entries alloc_added = num_entries logging_session + 1 /\
  entries_data alloc_added 0 = Some blank_entry /\
  entries_data alloc_added (num_entries logging_session + 1)
  = entries_data logging_session (num_entries logging_session + 1) /\
  exists fr,
    picozip__free_last_entry alloc_added = Some fr /\
    userdata fr = [None] /\
    num_entries fr = num_entries logging_session /\
    entries_data fr 0 = Some blank_entry.
Proof.
  assert (H1 : 0 <= num_entries logging_session) by (cbn; lia).
  assert (H2 : num_entries logging_session + 1 < 2 ^ 64) by (cbn; lia).
  assert (H0 : fst (picozip__alloc_entry logging_session 17) = Some 0)
    by (vm_compute; reflexivity).
  assert (H3 : picozip__alloc_entry logging_session 17 = (Some 0, alloc_added))
    by exact (pair_some _ _ H0).
  assert (H4 : free_cb logging_session (userdata alloc_added)
                       (entries_data logging_session (num_entries logging_session + 1))
               = Some [None]) by (vm_compute; reflexivity).
  split; [exact H1|]. split; [exact H2|]. split; [exact H3|]. split; [exact H4|].
  destruct (X16_free_last_entry_reads_next_slot logging_session alloc_added 17 0 H1 H2 H3)
    as (Hidx & Hcount & Hslot & Hnext & _ & Hfreed).
  split; [exact Hidx|]. split; [exact Hcount|]. split; [exact Hslot|].
  split; [exact Hnext|]. exact (Hfreed [None] H4).
Defined.

(** ** The table of the checksum *)

(** X17.  The table of [picozip__crc32] has 256 entries, and the entry
    of every byte value is what eight shift steps with the polynomial
    0xEDB88320 make of that value; so one table step of the loops of
    [picozip__crc32] on a register and a byte is the byte xor-ed into the
    register followed by eight such shift steps. *)
Theorem X17_crc_table_entries :
  length s_crc_table = 256%nat /\
  (forall i, 0 <= i < 256 ->
             nth (Z.to_nat i) s_crc_table 0 = Reference.shift8 i /\
             0 <= nth (Z.to_nat i) s_crc_table 0 < 2 ^ 32) /\
  (forall (r : Z) (p : byte),
      crc_update r p = Reference.shift8 (Z.lxor r (byte_val p))).
Proof.
  split; [reflexivity|]. split.
  - intros i Hi. split; [apply s_crc_table_spec, Hi|apply s_crc_table_range, Hi].
  - intros r p. apply crc_update_feed.
Qed.

(** X17 at work: the last entry of the table. *)
Lemma X17_witness :
  0 <= 255 < 256 /\
  nth (Z.to_nat 255) s_crc_table 0 = Reference.shift8 255 /\
  0 <= nth (Z.to_nat 255) s_crc_table 0 < 2 ^ 32.
Proof.
  assert (H : 0 <= 255 < 256) by lia.
  split; [exact H|].
  exact (proj1 (proj2 X17_crc_table_entries) 255 H).
Defined.

(** ** Entries by path *)

(** X18.  [picozip_new_entry_path] returns [PICOZIP_EINVAL] when the
    path, the file path or the comment pointer (with a length other than
    0) is null, and the [errno] of [fopen] when the file cannot be
    opened; in both cases the session is left as it was.  Otherwise it is
    [picozip_new_entry_file] on the stream [fopen] has opened: when it
    returns [PICOZIP_OK] the new entry of the ledger has bit 3 of its
    flags set, the modification time [fstat] reports for the file, the
    length of the file modulo 2^32 as its size, and the complement of
    the CRC-32 of the file as its checksum. *)
Theorem X18_entry_by_path {U : Type} (localtime : Z -> tm)
        (fopen : list byte -> FILE + Z) (f f' : picozip_file U)
        (path file_path : option (list byte)) (comment : span) (r : status) :
  picozip_new_entry_path localtime fopen f path file_path comment = Some (r, f') ->
  (path = None \/ file_path = None \/
   (span_is_null comment = true /\ span_len comment <> 0) ->
   r = PICOZIP_EINVAL /\ f' = f) /\
  (forall name errno,
      path <> None ->
      ~ (span_is_null comment = true /\ span_len comment <> 0) ->
      file_path = Some name ->
      fopen name = inr errno ->
      r = OS_ERRNO errno /\ f' = f) /\
  (forall name stream,
      path <> None ->
      ~ (span_is_null comment = true /\ span_len comment <> 0) ->
      file_path = Some name ->
      fopen name = inl stream ->
      picozip_new_entry_file localtime f path (Some stream) comment = Some (r, f') /\
      (r = PICOZIP_OK ->
       exists e,
         entries_data f' (num_entries f) = Some e /\
         fstat stream = inl (mod_time e) /\
         flags e = PICOZIP__FLAG_DATADESC /\
         comp_size e = uint32_t (len (contents stream)) /\
         uncomp_size e = uint32_t (len (contents stream)) /\
         crc32 e = Z.lxor (Reference.crc32 (contents stream)) 0xFFFFFFFF)).
Proof.
  intros H.
  assert (Hcomment :
    (negb (span_len comment =? 0) && span_is_null comment) = true
    <-> (span_is_null comment = true /\ span_len comment <> 0)).
  { rewrite andb_true_iff, negb_true_iff, Z.eqb_neq. tauto. }
  unfold picozip_new_entry_path in H.
  split; [|split].
  - intros Hbad.
    destruct path as [path|]; [|injection H as <- <-; split; reflexivity].
    destruct file_path as [name|]; [|injection H as <- <-; split; reflexivity].
    destruct Hbad as [Hp|[Hp|Hc]]; try discriminate.
    apply Hcomment in Hc. rewrite Hc in H. injection H as <- <-. split; reflexivity.
  - intros name errno Hp Hc -> Hopen.
    destruct path as [path|]; [|contradiction].
    destruct (negb (span_len comment =? 0) && span_is_null comment) eqn:E.
    { exfalso. apply Hc, Hcomment. reflexivity. }
    rewrite Hopen in H. injection H as <- <-. split; reflexivity.
  - intros name stream Hp Hc -> Hopen.
    destruct path as [path|]; [|contradiction].
    destruct (negb (span_len comment =? 0) && span_is_null comment) eqn:E.
    { exfalso. apply Hc, Hcomment. reflexivity. }
    rewrite Hopen in H. split; [exact H|].
    intros ->. pose proof H as Hok.
    apply picozip_new_entry_file_ok in Hok. cbv zeta in Hok.
    destruct Hok as (Hv & _ & _ & _ & _ & _ & D).
    set (op := Add_file (Some path) (Some stream) comment) in *.
    destruct (op_entry_content (offset f) op) as (A1 & _ & A3 & A4).
    exists (op_entry (offset f) op).
    split; [rewrite D; apply slot_store_same|].
    split.
    { cbn [op_entry mod_time op op_mod_time]. cbn [op_valid op] in Hv.
      destruct (fstat stream); [reflexivity|].
      rewrite andb_false_r in Hv. discriminate Hv. }
    split; [reflexivity|]. split; [exact A3|]. split; [exact A4|exact A1].
Qed.

(** X18 at work: a file that holds ["hello world!"]. *)
Lemma X18_witness :
  picozip_new_entry_path utc_localtime fopen_hello mem_session
    (Some (bytes_of_string "test.txt")) (Some (bytes_of_string "hello.txt")) (Null 0)
  = Some (PICOZIP_OK, streamed_hello) /\
  (forall name stream,
      Some (bytes_of_string "test.txt") <> None ->
      ~ (span_is_null (Null 0) = true /\ span_len (Null 0) <> 0) ->
      Some (bytes_of_string "hello.txt") = Some name ->
      fopen_hello name = inl stream ->
      picozip_new_entry_file utc_localtime mem_session
        (Some (bytes_of_string "test.txt")) (Some stream) (Null 0)
      = Some (PICOZIP_OK, streamed_hello) /\
      (PICOZIP_OK = PICOZIP_OK ->
       exists e,
         entries_data streamed_hello (num_entries mem_session) = Some e /\
         fstat stream = inl (mod_time e) /\
         flags e = PICOZIP__FLAG_DATADESC /\
         comp_size e = uint32_t (len (contents stream)) /\
         uncomp_size e = uint32_t (len (contents stream)) /\
         crc32 e = Z.lxor (Reference.crc32 (contents stream)) 0xFFFFFFFF)).
Proof.
  assert (Hfile : picozip_new_entry_file utc_localtime mem_session
                    (Some (bytes_of_string "test.txt")) (Some hello_file) (Null 0)
                  = Some (PICOZIP_OK, streamed_hello))
    by (apply ok_session_of_ok; vm_compute; reflexivity).
  assert (H : picozip_new_entry_path utc_localtime fopen_hello mem_session
                (Some (bytes_of_string "test.txt")) (Some (bytes_of_string "hello.txt"))
                (Null 0)
              = Some (PICOZIP_OK, streamed_hello)) by exact Hfile.
  split; [exact H|].
  exact (proj2 (proj2 (X18_entry_by_path utc_localtime fopen_hello mem_session
                         streamed_hello (Some (bytes_of_string "test.txt"))
                         (Some (bytes_of_string "hello.txt")) (Null 0) PICOZIP_OK H))).
Defined.

(** ** The array of the ledger *)

(** X7.  [picozip__alloc_entry] never advances the size of the vector of
    entry pointers: a call that returns an entry leaves the size as it
    was, and the capacity at the larger of the old capacity and the size
    plus the 8 bytes of one pointer.  On a session as [picozip_new] makes
    it, with the size 0 and a capacity of at most 8, the capacity after
    the call is 8, room for one pointer, so the slot in which the call
    stores the new entry, the one at the old count of entries, lies
    within the array only when that count was 0.  The call stores a
    blank entry in that slot and, when the slot lies within the array,
    leaves every other slot as it was. *)
Theorem X7_ledger_array_holds_one_pointer {U : Type}
        (f fa : picozip_file U) (metadata_len idx : Z) :
  picozip__alloc_entry f metadata_len = (Some idx, fa) ->
  idx = num_entries f /\
  size (entries fa) = size (entries f) /\
  cap (entries fa)
  = Z.max (cap (entries f)) (size_t (size (entries f) + sizeof_entry_ptr)) /\
  entries_data fa idx = Some blank_entry /\
  (slot_in_bounds (entries fa) idx = true ->
   forall j, j <> idx -> entries_data fa j = entries_data f j) /\
  (size (entries f) = 0 ->
   cap (entries f) <= sizeof_entry_ptr ->
   0 <= num_entries f ->
   cap (entries fa) = sizeof_entry_ptr /\
   (slot_in_bounds (entries fa) idx = true <-> num_entries f = 0)).
Proof.
  intros H.
  pose proof (picozip__alloc_entry_entries f fa metadata_len idx H) as Hvec.
  apply picozip__alloc_entry_some in H.
  destruct H as (-> & _ & _ & _ & _ & _ & Hd & _).
  assert (Hsize : size (entries fa) = size (entries f)).
  { rewrite Hvec. unfold vec_grown.
    destruct (cap (entries f) <? size_t (size (entries f) + sizeof_entry_ptr));
      reflexivity. }
  assert (Hcap : cap (entries fa)
                 = Z.max (cap (entries f))
                         (size_t (size (entries f) + sizeof_entry_ptr))).
  { rewrite Hvec. unfold vec_grown.
    destruct (Z.ltb_spec (cap (entries f))
                         (size_t (size (entries f) + sizeof_entry_ptr)));
      cbn [cap]; lia. }
  split; [reflexivity|]. split; [exact Hsize|]. split; [exact Hcap|].
  split; [rewrite Hd; apply entries_store_same|].
  split.
  { intros Hin j Hj. rewrite Hd, entries_store_other by exact Hj.
    rewrite <- Hvec, slots_kept_in_bounds by exact Hin. reflexivity. }
  intros Hs Hc Hn.
  rewrite Hs in Hcap.
  change (size_t (0 + sizeof_entry_ptr)) with sizeof_entry_ptr in Hcap.
  assert (Hcap' : cap (entries fa) = sizeof_entry_ptr) by lia.
  split; [exact Hcap'|].
  unfold slot_in_bounds. rewrite Hcap', Z.leb_le. unfold sizeof_entry_ptr. lia.
Qed.

(** X7 at work: the first allocation of a fresh session. *)
Lemma X7_witness :
  picozip__alloc_entry logging_session 17 = (Some 0, alloc_added) /\
  size (entries logging_session) = 0 /\
  cap (entries logging_session) <= sizeof_entry_ptr /\
  0 <= num_entries logging_session /\
  0 = num_entries logging_session /\
  size (entries alloc_added) = size (entries logging_session) /\
  cap (entries alloc_added)
  = Z.max (cap (entries logging_session))
          (size_t (size (entries logging_session) + sizeof_entry_ptr)) /\
  entries_data alloc_added 0 = Some blank_entry /\
  cap (entries alloc_added) = sizeof_entry_ptr /\
  slot_in_bounds (entries alloc_added) 0 = true /\
  (forall j, j <> 0 -> entries_data alloc_added j = entries_data logging_session j).
Proof.
  assert (H0 : fst (picozip__alloc_entry logging_session 17) = Some 0)
    by (vm_compute; reflexivity).
  assert (H : picozip__alloc_entry logging_session 17 = (Some 0, alloc_added))
    by exact (pair_some _ _ H0).
  assert (H1 : size (entries logging_session) = 0) by reflexivity.
  assert (H2 : cap (entries logging_session) <= sizeof_entry_ptr)
    by (vm_compute; discriminate).
  assert (H3 : 0 <= num_entries logging_session) by (cbn; lia).
  split; [exact H|]. split; [exact H1|]. split; [exact H2|]. split; [exact H3|].
  destruct (X7_ledger_array_holds_one_pointer logging_session alloc_added 17 0 H)
    as (Hidx & Hsize & Hcap & Hslot & Hkept & Hfresh).
  destruct (Hfresh H1 H2 H3) as (Hone & Hin).
  assert (Hin0 : slot_in_bounds (entries alloc_added) 0 = true)
    by (apply Hin; reflexivity).
  split; [exact Hidx|]. split; [exact Hsize|]. split; [exact Hcap|].
  split; [exact Hslot|]. split; [exact Hone|]. split; [exact Hin0|].
  exact (Hkept Hin0).
Defined.

(** ** The one entry of an archive, in both places *)

(** X19.  In a finalized archive of one entry on the in-memory
    destination, the output begins with the block of the entry, which
    starts with the local magic and is as long as the sizes of the entry
    say; the central-directory record follows it, starts with the
    central magic and points back at offset 0; and the two agree byte
    for byte on version needed, flags, method, DOS time and date (bytes
    4-13 of the local header, 6-15 of the record), on the two length
    fields (bytes 26-29, 28-31 of the record) and on the bytes of file
    name and extra field that follow the headers.  Checksum and sizes
    (bytes 14-25, 16-27 of the record) agree for an entry without bit 3;
    for an entry with bit 3 they are zero in the local header while the
    record agrees with the data descriptor that ends the block. *)
Theorem X19_one_entry_header_matches_record
        (localtime : Z -> tm) (op : add_op)
        (f f' : picozip_file picozip__mem_file) (comment : span) :
  add_entry localtime mem_session op = Some (PICOZIP_OK, f) ->
  picozip_end_ex localtime f comment = Some (PICOZIP_OK, f') ->
  exists e block record post,
    entries_data f 0 = Some e /\
    mem_data (userdata f') = block ++ record ++ post /\
    len block = entry_disk_size e (op_content op) /\
    len record = central_record_size e /\
    READ_LE32 block 0 = PICOZIP__LOCAL_MAGIC /\
    READ_LE32 record 0 = PICOZIP__CENTRAL_MAGIC /\
    READ_LE32 record 42 = 0 /\
    slice block 4 10 = slice record 6 10 /\
    slice block 26 4 = slice record 28 4 /\
    READ_LE16 block 26 = filename_len e /\
    READ_LE16 block 28 = extra_field_len e /\
    slice block 30 (Z.to_nat (filename_len e + extra_field_len e))
    = slice record 46 (Z.to_nat (filename_len e + extra_field_len e)) /\
    (Z.testbit (READ_LE16 block 6) 3 = false ->
     slice block 14 12 = slice record 16 12) /\
    (Z.testbit (READ_LE16 block 6) 3 = true ->
     slice block 14 12 = repeat x00 12 /\
     slice block (Z.to_nat (len block - 16)) 16
     = le32 PICOZIP__DATADESC_MAGIC ++ slice record 16 12).
Proof.
  intros Hop Hend.
  destruct (one_entry_archive localtime op f f' comment Hop Hend)
    as (Hv & _ & Hslot & _ & _ & Hout).
  cbv zeta in Hslot, Hout.
  set (e := op_entry 0 op) in *.
  exists e, (op_block localtime 0 op), (central_record localtime e). eexists.
  destruct (block_record_agree localtime 0 op Hv)
    as (B1 & B2 & B3 & B4 & B5 & B6 & B7 & B8 & B9 & B10 & B11 & B12 & _).
  fold e in B1, B2, B4, B5, B6, B7, B8, B9, B10, B11, B12.
  split; [exact Hslot|]. split; [exact Hout|].
  split; [exact B1|]. split; [exact B2|]. split; [exact B3|]. split; [exact B4|].
  split; [exact B5|].
  split; [exact B6|]. split; [exact B7|]. split; [exact B8|]. split; [exact B9|].
  split; [exact B10|]. split; [exact B11|]. exact B12.
Qed.

(** X19 at work: the archive of one streamed entry. *)
Lemma X19_witness :
  add_entry utc_localtime mem_session add_stream = Some (PICOZIP_OK, stream_session) /\
  picozip_end_ex utc_localtime stream_session (Ptr (bytes_of_string "one entry"))
  = Some (PICOZIP_OK, stream_archive) /\
  exists e block record post,
    entries_data stream_session 0 = Some e /\
    mem_data (userdata stream_archive) = block ++ record ++ post /\
    len block = entry_disk_size e (op_content add_stream) /\
    len record = central_record_size e /\
    READ_LE32 block 0 = PICOZIP__LOCAL_MAGIC /\
    READ_LE32 record 0 = PICOZIP__CENTRAL_MAGIC /\
    READ_LE32 record 42 = 0 /\
    slice block 4 10 = slice record 6 10 /\
    slice block 26 4 = slice record 28 4 /\
    READ_LE16 block 26 = filename_len e /\
    READ_LE16 block 28 = extra_field_len e /\
    slice block 30 (Z.to_nat (filename_len e + extra_field_len e))
    = slice record 46 (Z.to_nat (filename_len e + extra_field_len e)) /\
    (Z.testbit (READ_LE16 block 6) 3 = false ->
     slice block 14 12 = slice record 16 12) /\
    (Z.testbit (READ_LE16 block 6) 3 = true ->
     slice block 14 12 = repeat x00 12 /\
     slice block (Z.to_nat (len block - 16)) 16
     = le32 PICOZIP__DATADESC_MAGIC ++ slice record 16 12).
Proof.
  assert (H1 : add_entry utc_localtime mem_session add_stream
               = Some (PICOZIP_OK, stream_session))
    by (apply ok_session_of_ok; vm_compute; reflexivity).
  assert (H2 : picozip_end_ex utc_localtime stream_session
                              (Ptr (bytes_of_string "one entry"))
               = Some (PICOZIP_OK, stream_archive))
    by (apply ok_session_of_ok; vm_compute; reflexivity).
  split; [exact H1|]. split; [exact H2|].
  exact (X19_one_entry_header_matches_record utc_localtime add_stream stream_session
           stream_archive (Ptr (bytes_of_string "one entry")) H1 H2).
Defined.

(** ** A refused allocation *)

(** X20.  An add operation whose arguments pass the checks returns
    [PICOZIP_ENOMEM] exactly when [picozip__alloc_entry] returns no
    entry, that is, when the allocation callback refuses the array of
    the ledger or the entry; and it then leaves the count of entries,
    every slot of the ledger, the write offset and the callbacks as they
    were, and has called no callback but the allocation callback:
    nothing has been written. *)
Theorem X20_allocation_failure {U : Type} (localtime : Z -> tm)
        (f f' : picozip_file U) (op : add_op) (r : status) :
  op_valid op = true ->
  add_entry localtime f op = Some (r, f') ->
  (r = PICOZIP_ENOMEM <-> fst (picozip__alloc_entry f (op_alloc_size op)) = None) /\
  (r = PICOZIP_ENOMEM ->
   num_entries f' = num_entries f /\
   entries_data f' = entries_data f /\
   offset f' = offset f /\
   alloc_cb f' = alloc_cb f /\ write_cb f' = write_cb f /\ free_cb f' = free_cb f /\
   exists sizes : list Z,
     userdata f' = fold_left (fun u n => snd (alloc_cb f u n)) sizes (userdata f)).
Proof.
  intros Hv H.
  split; [exact (add_entry_enomem localtime f f' op r Hv H)|].
  intros ->.
  destruct (add_entry_fail localtime f f' op PICOZIP_ENOMEM H ltac:(discriminate))
    as [([Hr|[errno Hr]] & _)|[(_ & Ha & Hw & Hf & Hn & Hd & Ho & Hu)|Hr]];
    try discriminate.
  split; [exact Hn|]. split; [exact Hd|]. split; [exact Ho|].
  split; [exact Ha|]. split; [exact Hw|]. split; [exact Hf|]. exact Hu.
Qed.

(** X20 at work: the destination of the test suite with no allocation
    left. *)
Lemma X20_witness :
  op_valid add_small = true /\
  add_entry utc_localtime (test_session 0 0) add_small
  = Some (PICOZIP_ENOMEM, alloc_refused) /\
  fst (picozip__alloc_entry (test_session 0 0) (op_alloc_size add_small)) = None /\
  num_entries alloc_refused = num_entries (test_session 0 0) /\
  entries_data alloc_refused = entries_data (test_session 0 0) /\
  offset alloc_refused = offset (test_session 0 0) /\
  alloc_cb alloc_refused = alloc_cb (test_session 0 0) /\
  write_cb alloc_refused = write_cb (test_session 0 0) /\
  free_cb alloc_refused = free_cb (test_session 0 0) /\
  exists sizes : list Z,
    userdata alloc_refused
    = fold_left (fun u n => snd (alloc_cb (test_session 0 0) u n)) sizes
                (userdata (test_session 0 0)).
Proof.
  assert (H1 : op_valid add_small = true) by reflexivity.
  assert (H2 : add_entry utc_localtime (test_session 0 0) add_small
               = Some (PICOZIP_ENOMEM, alloc_refused))
    by (apply result_session_of; vm_compute; reflexivity).
  split; [exact H1|]. split; [exact H2|].
  destruct (X20_allocation_failure utc_localtime (test_session 0 0) alloc_refused
              add_small PICOZIP_ENOMEM H1 H2) as (Hiff & Hleft).
  split; [exact (proj1 Hiff eq_refl)|]. exact (Hleft eq_refl).
Defined.
